(** * AkuGuard bot: the multi-provider fetch and caching layer

    A shallow embedding of [bot.py] (symbol normaliser, [SimpleCache] with its
    rate limiter, the financial provider adapters, the fetch orchestrator, the
    weather fetch, the news and the recommendations), of [cache.py]
    ([IntelligentCache] and the [cached] decorator), of [metrics.py] and of
    [validate_config] of [config.py], with the properties the specification
    states about them and further properties of the code.

    Conventions of the model.
    - A Python [str] is the [string] of its UTF-8 bytes.  Case mapping,
      whitespace, lengths and slices go by characters, as in Python (the
      tables are those of Unicode 14.0, which CPython 3.11 uses).
    - A Python [float] in the data of the providers is a binary64 float,
      with the arithmetic of the machine (infinities and NaN included).
    - Wall-clock time ([time.time()], [datetime.now()]) is a rational number
      of seconds; the clock of the model advances only through [time.sleep].
    - Logging has no effect on any result and is left out. *)

From Stdlib Require Import QArith Qround Lqa Ascii String DecimalString DecimalZ Floats.
From stdpp Require Import gmap strings list fin_maps sorting.

Local Open Scope string_scope.
Set Warnings "-register-all,-inexact-float".

(** ** Python text *)

(** A Python [str] is the [string] of its UTF-8 bytes.  A character is a
    byte that starts one, with the bytes that continue it. *)
Module PyText.

(** A byte that continues a character of UTF-8 text: [0x80] to [0xBF]. *)
Definition is_continuation (c : ascii) : bool :=
  let n := N_of_ascii c in ((128 <=? n) && (n <? 192))%N.

(** [len(s)]: the number of characters, one per byte that starts one. *)
Fixpoint len (s : string) : nat :=
  match s with
  | EmptyString => 0
  | String c s' => if is_continuation c then len s' else S (len s')
  end.

(** [s[:n]] for [n >= 0]: the first [n] characters, each with the bytes
    that continue it. *)
Fixpoint take (n : nat) (s : string) : string :=
  match s with
  | EmptyString => EmptyString
  | String c s' =>
      if is_continuation c then String c (take n s')
      else match n with
           | O => EmptyString
           | S n' => String c (take n' s')
           end
  end.

(** A line feed. *)
Definition nl : string := String (ascii_of_N 10) EmptyString.

End PyText.

(** The characters of a text, each with the bytes that continue it. *)
Definition starts_continuation (s : string) : bool :=
  match s with
  | String c _ => PyText.is_continuation c
  | EmptyString => false
  end.

Fixpoint text_chars (s : string) : list string :=
  match s with
  | EmptyString => []
  | String c s' =>
      if starts_continuation s' then
        match text_chars s' with
        | first :: rest => String c first :: rest
        | [] => [String c EmptyString]
        end
      else String c EmptyString :: text_chars s'
  end.

(** The text made of the characters [cs]. *)
Definition text_join (cs : list string) : string := foldr String.append EmptyString cs.

(** Every byte of [s] continues a character. *)
Fixpoint all_continuation (s : string) : bool :=
  match s with
  | EmptyString => true
  | String c s' => PyText.is_continuation c && all_continuation s'
  end.

(** One character: a byte that starts it, then bytes that continue it. *)
Definition is_char (c : string) : bool :=
  match c with
  | String a t => negb (PyText.is_continuation a) && all_continuation t
  | EmptyString => false
  end.

(** The code point a character encodes; [0x110000] for bytes that are not
    the UTF-8 form of one. *)
Definition code_point (c : string) : N :=
  let byte a := N_of_ascii a in
  let low a := N.land (byte a) 63 in
  match c with
  | String a EmptyString => if (byte a <? 128)%N then byte a else 1114112%N
  | String a (String b EmptyString) =>
      if ((192 <=? byte a) && (byte a <? 224))%N
      then N.lor (N.shiftl (N.land (byte a) 31) 6) (low b) else 1114112%N
  | String a (String b (String c EmptyString)) =>
      if ((224 <=? byte a) && (byte a <? 240))%N
      then N.lor (N.shiftl (N.land (byte a) 15) 12) (N.lor (N.shiftl (low b) 6) (low c))
      else 1114112%N
  | String a (String b (String c (String d EmptyString))) =>
      if (240 <=? byte a)%N
      then N.lor (N.shiftl (N.land (byte a) 7) 18)
             (N.lor (N.shiftl (low b) 12) (N.lor (N.shiftl (low c) 6) (low d)))
      else 1114112%N
  | _ => 1114112%N
  end.

(** [n] is in one of the closed ranges. *)
Definition in_ranges (n : N) (ranges : list (N * N)) : bool :=
  existsb (λ r, (r.1 <=? n) && (n <=? r.2))%N ranges.

(** The text a table gives for a character, if it has it. *)
Fixpoint table_lookup (c : string) (table : list (string * string)) : option string :=
  match table with
  | [] => None
  | (k, v) :: table' => if String.eqb k c then Some v else table_lookup c table'
  end.


(** A list of characters as [text_chars] makes it: the first may be any
    non-empty run that goes on with continuation bytes, the others are
    characters. *)
Definition proper_chars (cs : list string) : Prop :=
  match cs with
  | [] => True
  | c :: rest =>
      (∃ a t, c = String a t ∧ all_continuation t = true)
      ∧ Forall (λ x, is_char x = true) rest
  end.


(** The characters outside ASCII that [str.upper] changes, each with the
    text it becomes (Unicode 14.0, as in CPython 3.11). *)
Definition upper_table : list (string * string) :=
  [ ("µ", "Μ"); ("ß", "SS"); ("à", "À"); ("á", "Á"); ("â", "Â"); ("ã", "Ã");
    ("ä", "Ä"); ("å", "Å"); ("æ", "Æ"); ("ç", "Ç"); ("è", "È"); ("é", "É");
    ("ê", "Ê"); ("ë", "Ë"); ("ì", "Ì"); ("í", "Í"); ("î", "Î"); ("ï", "Ï");
    ("ð", "Ð"); ("ñ", "Ñ"); ("ò", "Ò"); ("ó", "Ó"); ("ô", "Ô"); ("õ", "Õ");
    ("ö", "Ö"); ("ø", "Ø"); ("ù", "Ù"); ("ú", "Ú"); ("û", "Û"); ("ü", "Ü");
    ("ý", "Ý"); ("þ", "Þ"); ("ÿ", "Ÿ"); ("ā", "Ā"); ("ă", "Ă"); ("ą", "Ą");
    ("ć", "Ć"); ("ĉ", "Ĉ"); ("ċ", "Ċ"); ("č", "Č"); ("ď", "Ď"); ("đ", "Đ");
    ("ē", "Ē"); ("ĕ", "Ĕ"); ("ė", "Ė"); ("ę", "Ę"); ("ě", "Ě"); ("ĝ", "Ĝ");
    ("ğ", "Ğ"); ("ġ", "Ġ"); ("ģ", "Ģ"); ("ĥ", "Ĥ"); ("ħ", "Ħ"); ("ĩ", "Ĩ");
    ("ī", "Ī"); ("ĭ", "Ĭ"); ("į", "Į"); ("ı", "I"); ("ĳ", "Ĳ"); ("ĵ", "Ĵ");
    ("ķ", "Ķ"); ("ĺ", "Ĺ"); ("ļ", "Ļ"); ("ľ", "Ľ"); ("ŀ", "Ŀ"); ("ł", "Ł");
    ("ń", "Ń"); ("ņ", "Ņ"); ("ň", "Ň"); ("ŉ", "ʼN"); ("ŋ", "Ŋ"); ("ō", "Ō");
    ("ŏ", "Ŏ"); ("ő", "Ő"); ("œ", "Œ"); ("ŕ", "Ŕ"); ("ŗ", "Ŗ"); ("ř", "Ř");
    ("ś", "Ś"); ("ŝ", "Ŝ"); ("ş", "Ş"); ("š", "Š"); ("ţ", "Ţ"); ("ť", "Ť");
    ("ŧ", "Ŧ"); ("ũ", "Ũ"); ("ū", "Ū"); ("ŭ", "Ŭ"); ("ů", "Ů"); ("ű", "Ű");
    ("ų", "Ų"); ("ŵ", "Ŵ"); ("ŷ", "Ŷ"); ("ź", "Ź"); ("ż", "Ż"); ("ž", "Ž");
    ("ſ", "S"); ("ƀ", "Ƀ"); ("ƃ", "Ƃ"); ("ƅ", "Ƅ"); ("ƈ", "Ƈ"); ("ƌ", "Ƌ");
    ("ƒ", "Ƒ"); ("ƕ", "Ƕ"); ("ƙ", "Ƙ"); ("ƚ", "Ƚ"); ("ƞ", "Ƞ"); ("ơ", "Ơ");
    ("ƣ", "Ƣ"); ("ƥ", "Ƥ"); ("ƨ", "Ƨ"); ("ƭ", "Ƭ"); ("ư", "Ư"); ("ƴ", "Ƴ");
    ("ƶ", "Ƶ"); ("ƹ", "Ƹ"); ("ƽ", "Ƽ"); ("ƿ", "Ƿ"); ("ǅ", "Ǆ"); ("ǆ", "Ǆ");
    ("ǈ", "Ǉ"); ("ǉ", "Ǉ"); ("ǋ", "Ǌ"); ("ǌ", "Ǌ"); ("ǎ", "Ǎ"); ("ǐ", "Ǐ");
    ("ǒ", "Ǒ"); ("ǔ", "Ǔ"); ("ǖ", "Ǖ"); ("ǘ", "Ǘ"); ("ǚ", "Ǚ"); ("ǜ", "Ǜ");
    ("ǝ", "Ǝ"); ("ǟ", "Ǟ"); ("ǡ", "Ǡ"); ("ǣ", "Ǣ"); ("ǥ", "Ǥ"); ("ǧ", "Ǧ");
    ("ǩ", "Ǩ"); ("ǫ", "Ǫ"); ("ǭ", "Ǭ"); ("ǯ", "Ǯ"); ("ǰ", "J̌"); ("ǲ", "Ǳ");
    ("ǳ", "Ǳ"); ("ǵ", "Ǵ"); ("ǹ", "Ǹ"); ("ǻ", "Ǻ"); ("ǽ", "Ǽ"); ("ǿ", "Ǿ");
    ("ȁ", "Ȁ"); ("ȃ", "Ȃ"); ("ȅ", "Ȅ"); ("ȇ", "Ȇ"); ("ȉ", "Ȉ"); ("ȋ", "Ȋ");
    ("ȍ", "Ȍ"); ("ȏ", "Ȏ"); ("ȑ", "Ȑ"); ("ȓ", "Ȓ"); ("ȕ", "Ȕ"); ("ȗ", "Ȗ");
    ("ș", "Ș"); ("ț", "Ț"); ("ȝ", "Ȝ"); ("ȟ", "Ȟ"); ("ȣ", "Ȣ"); ("ȥ", "Ȥ");
    ("ȧ", "Ȧ"); ("ȩ", "Ȩ"); ("ȫ", "Ȫ"); ("ȭ", "Ȭ"); ("ȯ", "Ȯ"); ("ȱ", "Ȱ");
    ("ȳ", "Ȳ"); ("ȼ", "Ȼ"); ("ȿ", "Ȿ"); ("ɀ", "Ɀ"); ("ɂ", "Ɂ"); ("ɇ", "Ɇ");
    ("ɉ", "Ɉ"); ("ɋ", "Ɋ"); ("ɍ", "Ɍ"); ("ɏ", "Ɏ"); ("ɐ", "Ɐ"); ("ɑ", "Ɑ");
    ("ɒ", "Ɒ"); ("ɓ", "Ɓ"); ("ɔ", "Ɔ"); ("ɖ", "Ɖ"); ("ɗ", "Ɗ"); ("ə", "Ə");
    ("ɛ", "Ɛ"); ("ɜ", "Ɜ"); ("ɠ", "Ɠ"); ("ɡ", "Ɡ"); ("ɣ", "Ɣ"); ("ɥ", "Ɥ");
    ("ɦ", "Ɦ"); ("ɨ", "Ɨ"); ("ɩ", "Ɩ"); ("ɪ", "Ɪ"); ("ɫ", "Ɫ"); ("ɬ", "Ɬ");
    ("ɯ", "Ɯ"); ("ɱ", "Ɱ"); ("ɲ", "Ɲ"); ("ɵ", "Ɵ"); ("ɽ", "Ɽ"); ("ʀ", "Ʀ");
    ("ʂ", "Ʂ"); ("ʃ", "Ʃ"); ("ʇ", "Ʇ"); ("ʈ", "Ʈ"); ("ʉ", "Ʉ"); ("ʊ", "Ʊ");
    ("ʋ", "Ʋ"); ("ʌ", "Ʌ"); ("ʒ", "Ʒ"); ("ʝ", "Ʝ"); ("ʞ", "Ʞ"); ("ͅ", "Ι");
    ("ͱ", "Ͱ"); ("ͳ", "Ͳ"); ("ͷ", "Ͷ"); ("ͻ", "Ͻ"); ("ͼ", "Ͼ"); ("ͽ", "Ͽ");
    ("ΐ", "Ϊ́"); ("ά", "Ά"); ("έ", "Έ"); ("ή", "Ή"); ("ί", "Ί"); ("ΰ", "Ϋ́");
    ("α", "Α"); ("β", "Β"); ("γ", "Γ"); ("δ", "Δ"); ("ε", "Ε"); ("ζ", "Ζ");
    ("η", "Η"); ("θ", "Θ"); ("ι", "Ι"); ("κ", "Κ"); ("λ", "Λ"); ("μ", "Μ");
    ("ν", "Ν"); ("ξ", "Ξ"); ("ο", "Ο"); ("π", "Π"); ("ρ", "Ρ"); ("ς", "Σ");
    ("σ", "Σ"); ("τ", "Τ"); ("υ", "Υ"); ("φ", "Φ"); ("χ", "Χ"); ("ψ", "Ψ");
    ("ω", "Ω"); ("ϊ", "Ϊ"); ("ϋ", "Ϋ"); ("ό", "Ό"); ("ύ", "Ύ"); ("ώ", "Ώ");
    ("ϐ", "Β"); ("ϑ", "Θ"); ("ϕ", "Φ"); ("ϖ", "Π"); ("ϗ", "Ϗ"); ("ϙ", "Ϙ");
    ("ϛ", "Ϛ"); ("ϝ", "Ϝ"); ("ϟ", "Ϟ"); ("ϡ", "Ϡ"); ("ϣ", "Ϣ"); ("ϥ", "Ϥ");
    ("ϧ", "Ϧ"); ("ϩ", "Ϩ"); ("ϫ", "Ϫ"); ("ϭ", "Ϭ"); ("ϯ", "Ϯ"); ("ϰ", "Κ");
    ("ϱ", "Ρ"); ("ϲ", "Ϲ"); ("ϳ", "Ϳ"); ("ϵ", "Ε"); ("ϸ", "Ϸ"); ("ϻ", "Ϻ");
    ("а", "А"); ("б", "Б"); ("в", "В"); ("г", "Г"); ("д", "Д"); ("е", "Е");
    ("ж", "Ж"); ("з", "З"); ("и", "И"); ("й", "Й"); ("к", "К"); ("л", "Л");
    ("м", "М"); ("н", "Н"); ("о", "О"); ("п", "П"); ("р", "Р"); ("с", "С");
    ("т", "Т"); ("у", "У"); ("ф", "Ф"); ("х", "Х"); ("ц", "Ц"); ("ч", "Ч");
    ("ш", "Ш"); ("щ", "Щ"); ("ъ", "Ъ"); ("ы", "Ы"); ("ь", "Ь"); ("э", "Э");
    ("ю", "Ю"); ("я", "Я"); ("ѐ", "Ѐ"); ("ё", "Ё"); ("ђ", "Ђ"); ("ѓ", "Ѓ");
    ("є", "Є"); ("ѕ", "Ѕ"); ("і", "І"); ("ї", "Ї"); ("ј", "Ј"); ("љ", "Љ");
    ("њ", "Њ"); ("ћ", "Ћ"); ("ќ", "Ќ"); ("ѝ", "Ѝ"); ("ў", "Ў"); ("џ", "Џ");
    ("ѡ", "Ѡ"); ("ѣ", "Ѣ"); ("ѥ", "Ѥ"); ("ѧ", "Ѧ"); ("ѩ", "Ѩ"); ("ѫ", "Ѫ");
    ("ѭ", "Ѭ"); ("ѯ", "Ѯ"); ("ѱ", "Ѱ"); ("ѳ", "Ѳ"); ("ѵ", "Ѵ"); ("ѷ", "Ѷ");
    ("ѹ", "Ѹ"); ("ѻ", "Ѻ"); ("ѽ", "Ѽ"); ("ѿ", "Ѿ"); ("ҁ", "Ҁ"); ("ҋ", "Ҋ");
    ("ҍ", "Ҍ"); ("ҏ", "Ҏ"); ("ґ", "Ґ"); ("ғ", "Ғ"); ("ҕ", "Ҕ"); ("җ", "Җ");
    ("ҙ", "Ҙ"); ("қ", "Қ"); ("ҝ", "Ҝ"); ("ҟ", "Ҟ"); ("ҡ", "Ҡ"); ("ң", "Ң");
    ("ҥ", "Ҥ"); ("ҧ", "Ҧ"); ("ҩ", "Ҩ"); ("ҫ", "Ҫ"); ("ҭ", "Ҭ"); ("ү", "Ү");
    ("ұ", "Ұ"); ("ҳ", "Ҳ"); ("ҵ", "Ҵ"); ("ҷ", "Ҷ"); ("ҹ", "Ҹ"); ("һ", "Һ");
    ("ҽ", "Ҽ"); ("ҿ", "Ҿ"); ("ӂ", "Ӂ"); ("ӄ", "Ӄ"); ("ӆ", "Ӆ"); ("ӈ", "Ӈ");
    ("ӊ", "Ӊ"); ("ӌ", "Ӌ"); ("ӎ", "Ӎ"); ("ӏ", "Ӏ"); ("ӑ", "Ӑ"); ("ӓ", "Ӓ");
    ("ӕ", "Ӕ"); ("ӗ", "Ӗ"); ("ә", "Ә"); ("ӛ", "Ӛ"); ("ӝ", "Ӝ"); ("ӟ", "Ӟ");
    ("ӡ", "Ӡ"); ("ӣ", "Ӣ"); ("ӥ", "Ӥ"); ("ӧ", "Ӧ"); ("ө", "Ө"); ("ӫ", "Ӫ");
    ("ӭ", "Ӭ"); ("ӯ", "Ӯ"); ("ӱ", "Ӱ"); ("ӳ", "Ӳ"); ("ӵ", "Ӵ"); ("ӷ", "Ӷ");
    ("ӹ", "Ӹ"); ("ӻ", "Ӻ"); ("ӽ", "Ӽ"); ("ӿ", "Ӿ"); ("ԁ", "Ԁ"); ("ԃ", "Ԃ");
    ("ԅ", "Ԅ"); ("ԇ", "Ԇ"); ("ԉ", "Ԉ"); ("ԋ", "Ԋ"); ("ԍ", "Ԍ"); ("ԏ", "Ԏ");
    ("ԑ", "Ԑ"); ("ԓ", "Ԓ"); ("ԕ", "Ԕ"); ("ԗ", "Ԗ"); ("ԙ", "Ԙ"); ("ԛ", "Ԛ");
    ("ԝ", "Ԝ"); ("ԟ", "Ԟ"); ("ԡ", "Ԡ"); ("ԣ", "Ԣ"); ("ԥ", "Ԥ"); ("ԧ", "Ԧ");
    ("ԩ", "Ԩ"); ("ԫ", "Ԫ"); ("ԭ", "Ԭ"); ("ԯ", "Ԯ"); ("ա", "Ա"); ("բ", "Բ");
    ("գ", "Գ"); ("դ", "Դ"); ("ե", "Ե"); ("զ", "Զ"); ("է", "Է"); ("ը", "Ը");
    ("թ", "Թ"); ("ժ", "Ժ"); ("ի", "Ի"); ("լ", "Լ"); ("խ", "Խ"); ("ծ", "Ծ");
    ("կ", "Կ"); ("հ", "Հ"); ("ձ", "Ձ"); ("ղ", "Ղ"); ("ճ", "Ճ"); ("մ", "Մ");
    ("յ", "Յ"); ("ն", "Ն"); ("շ", "Շ"); ("ո", "Ո"); ("չ", "Չ"); ("պ", "Պ");
    ("ջ", "Ջ"); ("ռ", "Ռ"); ("ս", "Ս"); ("վ", "Վ"); ("տ", "Տ"); ("ր", "Ր");
    ("ց", "Ց"); ("ւ", "Ւ"); ("փ", "Փ"); ("ք", "Ք"); ("օ", "Օ"); ("ֆ", "Ֆ");
    ("և", "ԵՒ"); ("ა", "Ა"); ("ბ", "Ბ"); ("გ", "Გ"); ("დ", "Დ"); ("ე", "Ე");
    ("ვ", "Ვ"); ("ზ", "Ზ"); ("თ", "Თ"); ("ი", "Ი"); ("კ", "Კ"); ("ლ", "Ლ");
    ("მ", "Მ"); ("ნ", "Ნ"); ("ო", "Ო"); ("პ", "Პ"); ("ჟ", "Ჟ"); ("რ", "Რ");
    ("ს", "Ს"); ("ტ", "Ტ"); ("უ", "Უ"); ("ფ", "Ფ"); ("ქ", "Ქ"); ("ღ", "Ღ");
    ("ყ", "Ყ"); ("შ", "Შ"); ("ჩ", "Ჩ"); ("ც", "Ც"); ("ძ", "Ძ"); ("წ", "Წ");
    ("ჭ", "Ჭ"); ("ხ", "Ხ"); ("ჯ", "Ჯ"); ("ჰ", "Ჰ"); ("ჱ", "Ჱ"); ("ჲ", "Ჲ");
    ("ჳ", "Ჳ"); ("ჴ", "Ჴ"); ("ჵ", "Ჵ"); ("ჶ", "Ჶ"); ("ჷ", "Ჷ"); ("ჸ", "Ჸ");
    ("ჹ", "Ჹ"); ("ჺ", "Ჺ"); ("ჽ", "Ჽ"); ("ჾ", "Ჾ"); ("ჿ", "Ჿ"); ("ᏸ", "Ᏸ");
    ("ᏹ", "Ᏹ"); ("ᏺ", "Ᏺ"); ("ᏻ", "Ᏻ"); ("ᏼ", "Ᏼ"); ("ᏽ", "Ᏽ"); ("ᲀ", "В");
    ("ᲁ", "Д"); ("ᲂ", "О"); ("ᲃ", "С"); ("ᲄ", "Т"); ("ᲅ", "Т"); ("ᲆ", "Ъ");
    ("ᲇ", "Ѣ"); ("ᲈ", "Ꙋ"); ("ᵹ", "Ᵹ"); ("ᵽ", "Ᵽ"); ("ᶎ", "Ᶎ"); ("ḁ", "Ḁ");
    ("ḃ", "Ḃ"); ("ḅ", "Ḅ"); ("ḇ", "Ḇ"); ("ḉ", "Ḉ"); ("ḋ", "Ḋ"); ("ḍ", "Ḍ");
    ("ḏ", "Ḏ"); ("ḑ", "Ḑ"); ("ḓ", "Ḓ"); ("ḕ", "Ḕ"); ("ḗ", "Ḗ"); ("ḙ", "Ḙ");
    ("ḛ", "Ḛ"); ("ḝ", "Ḝ"); ("ḟ", "Ḟ"); ("ḡ", "Ḡ"); ("ḣ", "Ḣ"); ("ḥ", "Ḥ");
    ("ḧ", "Ḧ"); ("ḩ", "Ḩ"); ("ḫ", "Ḫ"); ("ḭ", "Ḭ"); ("ḯ", "Ḯ"); ("ḱ", "Ḱ");
    ("ḳ", "Ḳ"); ("ḵ", "Ḵ"); ("ḷ", "Ḷ"); ("ḹ", "Ḹ"); ("ḻ", "Ḻ"); ("ḽ", "Ḽ");
    ("ḿ", "Ḿ"); ("ṁ", "Ṁ"); ("ṃ", "Ṃ"); ("ṅ", "Ṅ"); ("ṇ", "Ṇ"); ("ṉ", "Ṉ");
    ("ṋ", "Ṋ"); ("ṍ", "Ṍ"); ("ṏ", "Ṏ"); ("ṑ", "Ṑ"); ("ṓ", "Ṓ"); ("ṕ", "Ṕ");
    ("ṗ", "Ṗ"); ("ṙ", "Ṙ"); ("ṛ", "Ṛ"); ("ṝ", "Ṝ"); ("ṟ", "Ṟ"); ("ṡ", "Ṡ");
    ("ṣ", "Ṣ"); ("ṥ", "Ṥ"); ("ṧ", "Ṧ"); ("ṩ", "Ṩ"); ("ṫ", "Ṫ"); ("ṭ", "Ṭ");
    ("ṯ", "Ṯ"); ("ṱ", "Ṱ"); ("ṳ", "Ṳ"); ("ṵ", "Ṵ"); ("ṷ", "Ṷ"); ("ṹ", "Ṹ");
    ("ṻ", "Ṻ"); ("ṽ", "Ṽ"); ("ṿ", "Ṿ"); ("ẁ", "Ẁ"); ("ẃ", "Ẃ"); ("ẅ", "Ẅ");
    ("ẇ", "Ẇ"); ("ẉ", "Ẉ"); ("ẋ", "Ẋ"); ("ẍ", "Ẍ"); ("ẏ", "Ẏ"); ("ẑ", "Ẑ");
    ("ẓ", "Ẓ"); ("ẕ", "Ẕ"); ("ẖ", "H̱"); ("ẗ", "T̈"); ("ẘ", "W̊"); ("ẙ", "Y̊");
    ("ẚ", "Aʾ"); ("ẛ", "Ṡ"); ("ạ", "Ạ"); ("ả", "Ả"); ("ấ", "Ấ"); ("ầ", "Ầ");
    ("ẩ", "Ẩ"); ("ẫ", "Ẫ"); ("ậ", "Ậ"); ("ắ", "Ắ"); ("ằ", "Ằ"); ("ẳ", "Ẳ");
    ("ẵ", "Ẵ"); ("ặ", "Ặ"); ("ẹ", "Ẹ"); ("ẻ", "Ẻ"); ("ẽ", "Ẽ"); ("ế", "Ế");
    ("ề", "Ề"); ("ể", "Ể"); ("ễ", "Ễ"); ("ệ", "Ệ"); ("ỉ", "Ỉ"); ("ị", "Ị");
    ("ọ", "Ọ"); ("ỏ", "Ỏ"); ("ố", "Ố"); ("ồ", "Ồ"); ("ổ", "Ổ"); ("ỗ", "Ỗ");
    ("ộ", "Ộ"); ("ớ", "Ớ"); ("ờ", "Ờ"); ("ở", "Ở"); ("ỡ", "Ỡ"); ("ợ", "Ợ");
    ("ụ", "Ụ"); ("ủ", "Ủ"); ("ứ", "Ứ"); ("ừ", "Ừ"); ("ử", "Ử"); ("ữ", "Ữ");
    ("ự", "Ự"); ("ỳ", "Ỳ"); ("ỵ", "Ỵ"); ("ỷ", "Ỷ"); ("ỹ", "Ỹ"); ("ỻ", "Ỻ");
    ("ỽ", "Ỽ"); ("ỿ", "Ỿ"); ("ἀ", "Ἀ"); ("ἁ", "Ἁ"); ("ἂ", "Ἂ"); ("ἃ", "Ἃ");
    ("ἄ", "Ἄ"); ("ἅ", "Ἅ"); ("ἆ", "Ἆ"); ("ἇ", "Ἇ"); ("ἐ", "Ἐ"); ("ἑ", "Ἑ");
    ("ἒ", "Ἒ"); ("ἓ", "Ἓ"); ("ἔ", "Ἔ"); ("ἕ", "Ἕ"); ("ἠ", "Ἠ"); ("ἡ", "Ἡ");
    ("ἢ", "Ἢ"); ("ἣ", "Ἣ"); ("ἤ", "Ἤ"); ("ἥ", "Ἥ"); ("ἦ", "Ἦ"); ("ἧ", "Ἧ");
    ("ἰ", "Ἰ"); ("ἱ", "Ἱ"); ("ἲ", "Ἲ"); ("ἳ", "Ἳ"); ("ἴ", "Ἴ"); ("ἵ", "Ἵ");
    ("ἶ", "Ἶ"); ("ἷ", "Ἷ"); ("ὀ", "Ὀ"); ("ὁ", "Ὁ"); ("ὂ", "Ὂ"); ("ὃ", "Ὃ");
    ("ὄ", "Ὄ"); ("ὅ", "Ὅ"); ("ὐ", "Υ̓"); ("ὑ", "Ὑ"); ("ὒ", "Υ̓̀");
    ("ὓ", "Ὓ"); ("ὔ", "Υ̓́"); ("ὕ", "Ὕ"); ("ὖ", "Υ̓͂"); ("ὗ", "Ὗ");
    ("ὠ", "Ὠ"); ("ὡ", "Ὡ"); ("ὢ", "Ὢ"); ("ὣ", "Ὣ"); ("ὤ", "Ὤ"); ("ὥ", "Ὥ");
    ("ὦ", "Ὦ"); ("ὧ", "Ὧ"); ("ὰ", "Ὰ"); ("ά", "Ά"); ("ὲ", "Ὲ"); ("έ", "Έ");
    ("ὴ", "Ὴ"); ("ή", "Ή"); ("ὶ", "Ὶ"); ("ί", "Ί"); ("ὸ", "Ὸ"); ("ό", "Ό");
    ("ὺ", "Ὺ"); ("ύ", "Ύ"); ("ὼ", "Ὼ"); ("ώ", "Ώ"); ("ᾀ", "ἈΙ");
    ("ᾁ", "ἉΙ"); ("ᾂ", "ἊΙ"); ("ᾃ", "ἋΙ"); ("ᾄ", "ἌΙ"); ("ᾅ", "ἍΙ");
    ("ᾆ", "ἎΙ"); ("ᾇ", "ἏΙ"); ("ᾈ", "ἈΙ"); ("ᾉ", "ἉΙ"); ("ᾊ", "ἊΙ");
    ("ᾋ", "ἋΙ"); ("ᾌ", "ἌΙ"); ("ᾍ", "ἍΙ"); ("ᾎ", "ἎΙ"); ("ᾏ", "ἏΙ");
    ("ᾐ", "ἨΙ"); ("ᾑ", "ἩΙ"); ("ᾒ", "ἪΙ"); ("ᾓ", "ἫΙ"); ("ᾔ", "ἬΙ");
    ("ᾕ", "ἭΙ"); ("ᾖ", "ἮΙ"); ("ᾗ", "ἯΙ"); ("ᾘ", "ἨΙ"); ("ᾙ", "ἩΙ");
    ("ᾚ", "ἪΙ"); ("ᾛ", "ἫΙ"); ("ᾜ", "ἬΙ"); ("ᾝ", "ἭΙ"); ("ᾞ", "ἮΙ");
    ("ᾟ", "ἯΙ"); ("ᾠ", "ὨΙ"); ("ᾡ", "ὩΙ"); ("ᾢ", "ὪΙ"); ("ᾣ", "ὫΙ");
    ("ᾤ", "ὬΙ"); ("ᾥ", "ὭΙ"); ("ᾦ", "ὮΙ"); ("ᾧ", "ὯΙ"); ("ᾨ", "ὨΙ");
    ("ᾩ", "ὩΙ"); ("ᾪ", "ὪΙ"); ("ᾫ", "ὫΙ"); ("ᾬ", "ὬΙ"); ("ᾭ", "ὭΙ");
    ("ᾮ", "ὮΙ"); ("ᾯ", "ὯΙ"); ("ᾰ", "Ᾰ"); ("ᾱ", "Ᾱ"); ("ᾲ", "ᾺΙ");
    ("ᾳ", "ΑΙ"); ("ᾴ", "ΆΙ"); ("ᾶ", "Α͂"); ("ᾷ", "Α͂Ι"); ("ᾼ", "ΑΙ");
    ("ι", "Ι"); ("ῂ", "ῊΙ"); ("ῃ", "ΗΙ"); ("ῄ", "ΉΙ"); ("ῆ", "Η͂");
    ("ῇ", "Η͂Ι"); ("ῌ", "ΗΙ"); ("ῐ", "Ῐ"); ("ῑ", "Ῑ"); ("ῒ", "Ϊ̀");
    ("ΐ", "Ϊ́"); ("ῖ", "Ι͂"); ("ῗ", "Ϊ͂"); ("ῠ", "Ῠ"); ("ῡ", "Ῡ");
    ("ῢ", "Ϋ̀"); ("ΰ", "Ϋ́"); ("ῤ", "Ρ̓"); ("ῥ", "Ῥ"); ("ῦ", "Υ͂");
    ("ῧ", "Ϋ͂"); ("ῲ", "ῺΙ"); ("ῳ", "ΩΙ"); ("ῴ", "ΏΙ"); ("ῶ", "Ω͂");
    ("ῷ", "Ω͂Ι"); ("ῼ", "ΩΙ"); ("ⅎ", "Ⅎ"); ("ⅰ", "Ⅰ"); ("ⅱ", "Ⅱ");
    ("ⅲ", "Ⅲ"); ("ⅳ", "Ⅳ"); ("ⅴ", "Ⅴ"); ("ⅵ", "Ⅵ"); ("ⅶ", "Ⅶ"); ("ⅷ", "Ⅷ");
    ("ⅸ", "Ⅸ"); ("ⅹ", "Ⅹ"); ("ⅺ", "Ⅺ"); ("ⅻ", "Ⅻ"); ("ⅼ", "Ⅼ"); ("ⅽ", "Ⅽ");
    ("ⅾ", "Ⅾ"); ("ⅿ", "Ⅿ"); ("ↄ", "Ↄ"); ("ⓐ", "Ⓐ"); ("ⓑ", "Ⓑ"); ("ⓒ", "Ⓒ");
    ("ⓓ", "Ⓓ"); ("ⓔ", "Ⓔ"); ("ⓕ", "Ⓕ"); ("ⓖ", "Ⓖ"); ("ⓗ", "Ⓗ"); ("ⓘ", "Ⓘ");
    ("ⓙ", "Ⓙ"); ("ⓚ", "Ⓚ"); ("ⓛ", "Ⓛ"); ("ⓜ", "Ⓜ"); ("ⓝ", "Ⓝ"); ("ⓞ", "Ⓞ");
    ("ⓟ", "Ⓟ"); ("ⓠ", "Ⓠ"); ("ⓡ", "Ⓡ"); ("ⓢ", "Ⓢ"); ("ⓣ", "Ⓣ"); ("ⓤ", "Ⓤ");
    ("ⓥ", "Ⓥ"); ("ⓦ", "Ⓦ"); ("ⓧ", "Ⓧ"); ("ⓨ", "Ⓨ"); ("ⓩ", "Ⓩ"); ("ⰰ", "Ⰰ");
    ("ⰱ", "Ⰱ"); ("ⰲ", "Ⰲ"); ("ⰳ", "Ⰳ"); ("ⰴ", "Ⰴ"); ("ⰵ", "Ⰵ"); ("ⰶ", "Ⰶ");
    ("ⰷ", "Ⰷ"); ("ⰸ", "Ⰸ"); ("ⰹ", "Ⰹ"); ("ⰺ", "Ⰺ"); ("ⰻ", "Ⰻ"); ("ⰼ", "Ⰼ");
    ("ⰽ", "Ⰽ"); ("ⰾ", "Ⰾ"); ("ⰿ", "Ⰿ"); ("ⱀ", "Ⱀ"); ("ⱁ", "Ⱁ"); ("ⱂ", "Ⱂ");
    ("ⱃ", "Ⱃ"); ("ⱄ", "Ⱄ"); ("ⱅ", "Ⱅ"); ("ⱆ", "Ⱆ"); ("ⱇ", "Ⱇ"); ("ⱈ", "Ⱈ");
    ("ⱉ", "Ⱉ"); ("ⱊ", "Ⱊ"); ("ⱋ", "Ⱋ"); ("ⱌ", "Ⱌ"); ("ⱍ", "Ⱍ"); ("ⱎ", "Ⱎ");
    ("ⱏ", "Ⱏ"); ("ⱐ", "Ⱐ"); ("ⱑ", "Ⱑ"); ("ⱒ", "Ⱒ"); ("ⱓ", "Ⱓ"); ("ⱔ", "Ⱔ");
    ("ⱕ", "Ⱕ"); ("ⱖ", "Ⱖ"); ("ⱗ", "Ⱗ"); ("ⱘ", "Ⱘ"); ("ⱙ", "Ⱙ"); ("ⱚ", "Ⱚ");
    ("ⱛ", "Ⱛ"); ("ⱜ", "Ⱜ"); ("ⱝ", "Ⱝ"); ("ⱞ", "Ⱞ"); ("ⱟ", "Ⱟ"); ("ⱡ", "Ⱡ");
    ("ⱥ", "Ⱥ"); ("ⱦ", "Ⱦ"); ("ⱨ", "Ⱨ"); ("ⱪ", "Ⱪ"); ("ⱬ", "Ⱬ"); ("ⱳ", "Ⱳ");
    ("ⱶ", "Ⱶ"); ("ⲁ", "Ⲁ"); ("ⲃ", "Ⲃ"); ("ⲅ", "Ⲅ"); ("ⲇ", "Ⲇ"); ("ⲉ", "Ⲉ");
    ("ⲋ", "Ⲋ"); ("ⲍ", "Ⲍ"); ("ⲏ", "Ⲏ"); ("ⲑ", "Ⲑ"); ("ⲓ", "Ⲓ"); ("ⲕ", "Ⲕ");
    ("ⲗ", "Ⲗ"); ("ⲙ", "Ⲙ"); ("ⲛ", "Ⲛ"); ("ⲝ", "Ⲝ"); ("ⲟ", "Ⲟ"); ("ⲡ", "Ⲡ");
    ("ⲣ", "Ⲣ"); ("ⲥ", "Ⲥ"); ("ⲧ", "Ⲧ"); ("ⲩ", "Ⲩ"); ("ⲫ", "Ⲫ"); ("ⲭ", "Ⲭ");
    ("ⲯ", "Ⲯ"); ("ⲱ", "Ⲱ"); ("ⲳ", "Ⲳ"); ("ⲵ", "Ⲵ"); ("ⲷ", "Ⲷ"); ("ⲹ", "Ⲹ");
    ("ⲻ", "Ⲻ"); ("ⲽ", "Ⲽ"); ("ⲿ", "Ⲿ"); ("ⳁ", "Ⳁ"); ("ⳃ", "Ⳃ"); ("ⳅ", "Ⳅ");
    ("ⳇ", "Ⳇ"); ("ⳉ", "Ⳉ"); ("ⳋ", "Ⳋ"); ("ⳍ", "Ⳍ"); ("ⳏ", "Ⳏ"); ("ⳑ", "Ⳑ");
    ("ⳓ", "Ⳓ"); ("ⳕ", "Ⳕ"); ("ⳗ", "Ⳗ"); ("ⳙ", "Ⳙ"); ("ⳛ", "Ⳛ"); ("ⳝ", "Ⳝ");
    ("ⳟ", "Ⳟ"); ("ⳡ", "Ⳡ"); ("ⳣ", "Ⳣ"); ("ⳬ", "Ⳬ"); ("ⳮ", "Ⳮ"); ("ⳳ", "Ⳳ");
    ("ⴀ", "Ⴀ"); ("ⴁ", "Ⴁ"); ("ⴂ", "Ⴂ"); ("ⴃ", "Ⴃ"); ("ⴄ", "Ⴄ"); ("ⴅ", "Ⴅ");
    ("ⴆ", "Ⴆ"); ("ⴇ", "Ⴇ"); ("ⴈ", "Ⴈ"); ("ⴉ", "Ⴉ"); ("ⴊ", "Ⴊ"); ("ⴋ", "Ⴋ");
    ("ⴌ", "Ⴌ"); ("ⴍ", "Ⴍ"); ("ⴎ", "Ⴎ"); ("ⴏ", "Ⴏ"); ("ⴐ", "Ⴐ"); ("ⴑ", "Ⴑ");
    ("ⴒ", "Ⴒ"); ("ⴓ", "Ⴓ"); ("ⴔ", "Ⴔ"); ("ⴕ", "Ⴕ"); ("ⴖ", "Ⴖ"); ("ⴗ", "Ⴗ");
    ("ⴘ", "Ⴘ"); ("ⴙ", "Ⴙ"); ("ⴚ", "Ⴚ"); ("ⴛ", "Ⴛ"); ("ⴜ", "Ⴜ"); ("ⴝ", "Ⴝ");
    ("ⴞ", "Ⴞ"); ("ⴟ", "Ⴟ"); ("ⴠ", "Ⴠ"); ("ⴡ", "Ⴡ"); ("ⴢ", "Ⴢ"); ("ⴣ", "Ⴣ");
    ("ⴤ", "Ⴤ"); ("ⴥ", "Ⴥ"); ("ⴧ", "Ⴧ"); ("ⴭ", "Ⴭ"); ("ꙁ", "Ꙁ"); ("ꙃ", "Ꙃ");
    ("ꙅ", "Ꙅ"); ("ꙇ", "Ꙇ"); ("ꙉ", "Ꙉ"); ("ꙋ", "Ꙋ"); ("ꙍ", "Ꙍ"); ("ꙏ", "Ꙏ");
    ("ꙑ", "Ꙑ"); ("ꙓ", "Ꙓ"); ("ꙕ", "Ꙕ"); ("ꙗ", "Ꙗ"); ("ꙙ", "Ꙙ"); ("ꙛ", "Ꙛ");
    ("ꙝ", "Ꙝ"); ("ꙟ", "Ꙟ"); ("ꙡ", "Ꙡ"); ("ꙣ", "Ꙣ"); ("ꙥ", "Ꙥ"); ("ꙧ", "Ꙧ");
    ("ꙩ", "Ꙩ"); ("ꙫ", "Ꙫ"); ("ꙭ", "Ꙭ"); ("ꚁ", "Ꚁ"); ("ꚃ", "Ꚃ"); ("ꚅ", "Ꚅ");
    ("ꚇ", "Ꚇ"); ("ꚉ", "Ꚉ"); ("ꚋ", "Ꚋ"); ("ꚍ", "Ꚍ"); ("ꚏ", "Ꚏ"); ("ꚑ", "Ꚑ");
    ("ꚓ", "Ꚓ"); ("ꚕ", "Ꚕ"); ("ꚗ", "Ꚗ"); ("ꚙ", "Ꚙ"); ("ꚛ", "Ꚛ"); ("ꜣ", "Ꜣ");
    ("ꜥ", "Ꜥ"); ("ꜧ", "Ꜧ"); ("ꜩ", "Ꜩ"); ("ꜫ", "Ꜫ"); ("ꜭ", "Ꜭ"); ("ꜯ", "Ꜯ");
    ("ꜳ", "Ꜳ"); ("ꜵ", "Ꜵ"); ("ꜷ", "Ꜷ"); ("ꜹ", "Ꜹ"); ("ꜻ", "Ꜻ"); ("ꜽ", "Ꜽ");
    ("ꜿ", "Ꜿ"); ("ꝁ", "Ꝁ"); ("ꝃ", "Ꝃ"); ("ꝅ", "Ꝅ"); ("ꝇ", "Ꝇ"); ("ꝉ", "Ꝉ");
    ("ꝋ", "Ꝋ"); ("ꝍ", "Ꝍ"); ("ꝏ", "Ꝏ"); ("ꝑ", "Ꝑ"); ("ꝓ", "Ꝓ"); ("ꝕ", "Ꝕ");
    ("ꝗ", "Ꝗ"); ("ꝙ", "Ꝙ"); ("ꝛ", "Ꝛ"); ("ꝝ", "Ꝝ"); ("ꝟ", "Ꝟ"); ("ꝡ", "Ꝡ");
    ("ꝣ", "Ꝣ"); ("ꝥ", "Ꝥ"); ("ꝧ", "Ꝧ"); ("ꝩ", "Ꝩ"); ("ꝫ", "Ꝫ"); ("ꝭ", "Ꝭ");
    ("ꝯ", "Ꝯ"); ("ꝺ", "Ꝺ"); ("ꝼ", "Ꝼ"); ("ꝿ", "Ꝿ"); ("ꞁ", "Ꞁ"); ("ꞃ", "Ꞃ");
    ("ꞅ", "Ꞅ"); ("ꞇ", "Ꞇ"); ("ꞌ", "Ꞌ"); ("ꞑ", "Ꞑ"); ("ꞓ", "Ꞓ"); ("ꞔ", "Ꞔ");
    ("ꞗ", "Ꞗ"); ("ꞙ", "Ꞙ"); ("ꞛ", "Ꞛ"); ("ꞝ", "Ꞝ"); ("ꞟ", "Ꞟ"); ("ꞡ", "Ꞡ");
    ("ꞣ", "Ꞣ"); ("ꞥ", "Ꞥ"); ("ꞧ", "Ꞧ"); ("ꞩ", "Ꞩ"); ("ꞵ", "Ꞵ"); ("ꞷ", "Ꞷ");
    ("ꞹ", "Ꞹ"); ("ꞻ", "Ꞻ"); ("ꞽ", "Ꞽ"); ("ꞿ", "Ꞿ"); ("ꟁ", "Ꟁ"); ("ꟃ", "Ꟃ");
    ("ꟈ", "Ꟈ"); ("ꟊ", "Ꟊ"); ("ꟑ", "Ꟑ"); ("ꟗ", "Ꟗ"); ("ꟙ", "Ꟙ"); ("ꟶ", "Ꟶ");
    ("ꭓ", "Ꭓ"); ("ꭰ", "Ꭰ"); ("ꭱ", "Ꭱ"); ("ꭲ", "Ꭲ"); ("ꭳ", "Ꭳ"); ("ꭴ", "Ꭴ");
    ("ꭵ", "Ꭵ"); ("ꭶ", "Ꭶ"); ("ꭷ", "Ꭷ"); ("ꭸ", "Ꭸ"); ("ꭹ", "Ꭹ"); ("ꭺ", "Ꭺ");
    ("ꭻ", "Ꭻ"); ("ꭼ", "Ꭼ"); ("ꭽ", "Ꭽ"); ("ꭾ", "Ꭾ"); ("ꭿ", "Ꭿ"); ("ꮀ", "Ꮀ");
    ("ꮁ", "Ꮁ"); ("ꮂ", "Ꮂ"); ("ꮃ", "Ꮃ"); ("ꮄ", "Ꮄ"); ("ꮅ", "Ꮅ"); ("ꮆ", "Ꮆ");
    ("ꮇ", "Ꮇ"); ("ꮈ", "Ꮈ"); ("ꮉ", "Ꮉ"); ("ꮊ", "Ꮊ"); ("ꮋ", "Ꮋ"); ("ꮌ", "Ꮌ");
    ("ꮍ", "Ꮍ"); ("ꮎ", "Ꮎ"); ("ꮏ", "Ꮏ"); ("ꮐ", "Ꮐ"); ("ꮑ", "Ꮑ"); ("ꮒ", "Ꮒ");
    ("ꮓ", "Ꮓ"); ("ꮔ", "Ꮔ"); ("ꮕ", "Ꮕ"); ("ꮖ", "Ꮖ"); ("ꮗ", "Ꮗ"); ("ꮘ", "Ꮘ");
    ("ꮙ", "Ꮙ"); ("ꮚ", "Ꮚ"); ("ꮛ", "Ꮛ"); ("ꮜ", "Ꮜ"); ("ꮝ", "Ꮝ"); ("ꮞ", "Ꮞ");
    ("ꮟ", "Ꮟ"); ("ꮠ", "Ꮠ"); ("ꮡ", "Ꮡ"); ("ꮢ", "Ꮢ"); ("ꮣ", "Ꮣ"); ("ꮤ", "Ꮤ");
    ("ꮥ", "Ꮥ"); ("ꮦ", "Ꮦ"); ("ꮧ", "Ꮧ"); ("ꮨ", "Ꮨ"); ("ꮩ", "Ꮩ"); ("ꮪ", "Ꮪ");
    ("ꮫ", "Ꮫ"); ("ꮬ", "Ꮬ"); ("ꮭ", "Ꮭ"); ("ꮮ", "Ꮮ"); ("ꮯ", "Ꮯ"); ("ꮰ", "Ꮰ");
    ("ꮱ", "Ꮱ"); ("ꮲ", "Ꮲ"); ("ꮳ", "Ꮳ"); ("ꮴ", "Ꮴ"); ("ꮵ", "Ꮵ"); ("ꮶ", "Ꮶ");
    ("ꮷ", "Ꮷ"); ("ꮸ", "Ꮸ"); ("ꮹ", "Ꮹ"); ("ꮺ", "Ꮺ"); ("ꮻ", "Ꮻ"); ("ꮼ", "Ꮼ");
    ("ꮽ", "Ꮽ"); ("ꮾ", "Ꮾ"); ("ꮿ", "Ꮿ"); ("ﬀ", "FF"); ("ﬁ", "FI"); ("ﬂ", "FL");
    ("ﬃ", "FFI"); ("ﬄ", "FFL"); ("ﬅ", "ST"); ("ﬆ", "ST"); ("ﬓ", "ՄՆ"); ("ﬔ", "ՄԵ");
    ("ﬕ", "ՄԻ"); ("ﬖ", "ՎՆ"); ("ﬗ", "ՄԽ"); ("ａ", "Ａ"); ("ｂ", "Ｂ");
    ("ｃ", "Ｃ"); ("ｄ", "Ｄ"); ("ｅ", "Ｅ"); ("ｆ", "Ｆ"); ("ｇ", "Ｇ"); ("ｈ", "Ｈ");
    ("ｉ", "Ｉ"); ("ｊ", "Ｊ"); ("ｋ", "Ｋ"); ("ｌ", "Ｌ"); ("ｍ", "Ｍ"); ("ｎ", "Ｎ");
    ("ｏ", "Ｏ"); ("ｐ", "Ｐ"); ("ｑ", "Ｑ"); ("ｒ", "Ｒ"); ("ｓ", "Ｓ"); ("ｔ", "Ｔ");
    ("ｕ", "Ｕ"); ("ｖ", "Ｖ"); ("ｗ", "Ｗ"); ("ｘ", "Ｘ"); ("ｙ", "Ｙ"); ("ｚ", "Ｚ");
    ("𐐨", "𐐀"); ("𐐩", "𐐁"); ("𐐪", "𐐂"); ("𐐫", "𐐃"); ("𐐬", "𐐄");
    ("𐐭", "𐐅"); ("𐐮", "𐐆"); ("𐐯", "𐐇"); ("𐐰", "𐐈"); ("𐐱", "𐐉");
    ("𐐲", "𐐊"); ("𐐳", "𐐋"); ("𐐴", "𐐌"); ("𐐵", "𐐍"); ("𐐶", "𐐎");
    ("𐐷", "𐐏"); ("𐐸", "𐐐"); ("𐐹", "𐐑"); ("𐐺", "𐐒"); ("𐐻", "𐐓");
    ("𐐼", "𐐔"); ("𐐽", "𐐕"); ("𐐾", "𐐖"); ("𐐿", "𐐗"); ("𐑀", "𐐘");
    ("𐑁", "𐐙"); ("𐑂", "𐐚"); ("𐑃", "𐐛"); ("𐑄", "𐐜"); ("𐑅", "𐐝");
    ("𐑆", "𐐞"); ("𐑇", "𐐟"); ("𐑈", "𐐠"); ("𐑉", "𐐡"); ("𐑊", "𐐢");
    ("𐑋", "𐐣"); ("𐑌", "𐐤"); ("𐑍", "𐐥"); ("𐑎", "𐐦"); ("𐑏", "𐐧");
    ("𐓘", "𐒰"); ("𐓙", "𐒱"); ("𐓚", "𐒲"); ("𐓛", "𐒳"); ("𐓜", "𐒴");
    ("𐓝", "𐒵"); ("𐓞", "𐒶"); ("𐓟", "𐒷"); ("𐓠", "𐒸"); ("𐓡", "𐒹");
    ("𐓢", "𐒺"); ("𐓣", "𐒻"); ("𐓤", "𐒼"); ("𐓥", "𐒽"); ("𐓦", "𐒾");
    ("𐓧", "𐒿"); ("𐓨", "𐓀"); ("𐓩", "𐓁"); ("𐓪", "𐓂"); ("𐓫", "𐓃");
    ("𐓬", "𐓄"); ("𐓭", "𐓅"); ("𐓮", "𐓆"); ("𐓯", "𐓇"); ("𐓰", "𐓈");
    ("𐓱", "𐓉"); ("𐓲", "𐓊"); ("𐓳", "𐓋"); ("𐓴", "𐓌"); ("𐓵", "𐓍");
    ("𐓶", "𐓎"); ("𐓷", "𐓏"); ("𐓸", "𐓐"); ("𐓹", "𐓑"); ("𐓺", "𐓒");
    ("𐓻", "𐓓"); ("𐖗", "𐕰"); ("𐖘", "𐕱"); ("𐖙", "𐕲"); ("𐖚", "𐕳");
    ("𐖛", "𐕴"); ("𐖜", "𐕵"); ("𐖝", "𐕶"); ("𐖞", "𐕷"); ("𐖟", "𐕸");
    ("𐖠", "𐕹"); ("𐖡", "𐕺"); ("𐖣", "𐕼"); ("𐖤", "𐕽"); ("𐖥", "𐕾");
    ("𐖦", "𐕿"); ("𐖧", "𐖀"); ("𐖨", "𐖁"); ("𐖩", "𐖂"); ("𐖪", "𐖃");
    ("𐖫", "𐖄"); ("𐖬", "𐖅"); ("𐖭", "𐖆"); ("𐖮", "𐖇"); ("𐖯", "𐖈");
    ("𐖰", "𐖉"); ("𐖱", "𐖊"); ("𐖳", "𐖌"); ("𐖴", "𐖍"); ("𐖵", "𐖎");
    ("𐖶", "𐖏"); ("𐖷", "𐖐"); ("𐖸", "𐖑"); ("𐖹", "𐖒"); ("𐖻", "𐖔");
    ("𐖼", "𐖕"); ("𐳀", "𐲀"); ("𐳁", "𐲁"); ("𐳂", "𐲂"); ("𐳃", "𐲃");
    ("𐳄", "𐲄"); ("𐳅", "𐲅"); ("𐳆", "𐲆"); ("𐳇", "𐲇"); ("𐳈", "𐲈");
    ("𐳉", "𐲉"); ("𐳊", "𐲊"); ("𐳋", "𐲋"); ("𐳌", "𐲌"); ("𐳍", "𐲍");
    ("𐳎", "𐲎"); ("𐳏", "𐲏"); ("𐳐", "𐲐"); ("𐳑", "𐲑"); ("𐳒", "𐲒");
    ("𐳓", "𐲓"); ("𐳔", "𐲔"); ("𐳕", "𐲕"); ("𐳖", "𐲖"); ("𐳗", "𐲗");
    ("𐳘", "𐲘"); ("𐳙", "𐲙"); ("𐳚", "𐲚"); ("𐳛", "𐲛"); ("𐳜", "𐲜");
    ("𐳝", "𐲝"); ("𐳞", "𐲞"); ("𐳟", "𐲟"); ("𐳠", "𐲠"); ("𐳡", "𐲡");
    ("𐳢", "𐲢"); ("𐳣", "𐲣"); ("𐳤", "𐲤"); ("𐳥", "𐲥"); ("𐳦", "𐲦");
    ("𐳧", "𐲧"); ("𐳨", "𐲨"); ("𐳩", "𐲩"); ("𐳪", "𐲪"); ("𐳫", "𐲫");
    ("𐳬", "𐲬"); ("𐳭", "𐲭"); ("𐳮", "𐲮"); ("𐳯", "𐲯"); ("𐳰", "𐲰");
    ("𐳱", "𐲱"); ("𐳲", "𐲲"); ("𑣀", "𑢠"); ("𑣁", "𑢡"); ("𑣂", "𑢢");
    ("𑣃", "𑢣"); ("𑣄", "𑢤"); ("𑣅", "𑢥"); ("𑣆", "𑢦"); ("𑣇", "𑢧");
    ("𑣈", "𑢨"); ("𑣉", "𑢩"); ("𑣊", "𑢪"); ("𑣋", "𑢫"); ("𑣌", "𑢬");
    ("𑣍", "𑢭"); ("𑣎", "𑢮"); ("𑣏", "𑢯"); ("𑣐", "𑢰"); ("𑣑", "𑢱");
    ("𑣒", "𑢲"); ("𑣓", "𑢳"); ("𑣔", "𑢴"); ("𑣕", "𑢵"); ("𑣖", "𑢶");
    ("𑣗", "𑢷"); ("𑣘", "𑢸"); ("𑣙", "𑢹"); ("𑣚", "𑢺"); ("𑣛", "𑢻");
    ("𑣜", "𑢼"); ("𑣝", "𑢽"); ("𑣞", "𑢾"); ("𑣟", "𑢿"); ("𖹠", "𖹀");
    ("𖹡", "𖹁"); ("𖹢", "𖹂"); ("𖹣", "𖹃"); ("𖹤", "𖹄"); ("𖹥", "𖹅");
    ("𖹦", "𖹆"); ("𖹧", "𖹇"); ("𖹨", "𖹈"); ("𖹩", "𖹉"); ("𖹪", "𖹊");
    ("𖹫", "𖹋"); ("𖹬", "𖹌"); ("𖹭", "𖹍"); ("𖹮", "𖹎"); ("𖹯", "𖹏");
    ("𖹰", "𖹐"); ("𖹱", "𖹑"); ("𖹲", "𖹒"); ("𖹳", "𖹓"); ("𖹴", "𖹔");
    ("𖹵", "𖹕"); ("𖹶", "𖹖"); ("𖹷", "𖹗"); ("𖹸", "𖹘"); ("𖹹", "𖹙");
    ("𖹺", "𖹚"); ("𖹻", "𖹛"); ("𖹼", "𖹜"); ("𖹽", "𖹝"); ("𖹾", "𖹞");
    ("𖹿", "𖹟"); ("𞤢", "𞤀"); ("𞤣", "𞤁"); ("𞤤", "𞤂"); ("𞤥", "𞤃");
    ("𞤦", "𞤄"); ("𞤧", "𞤅"); ("𞤨", "𞤆"); ("𞤩", "𞤇"); ("𞤪", "𞤈");
    ("𞤫", "𞤉"); ("𞤬", "𞤊"); ("𞤭", "𞤋"); ("𞤮", "𞤌"); ("𞤯", "𞤍");
    ("𞤰", "𞤎"); ("𞤱", "𞤏"); ("𞤲", "𞤐"); ("𞤳", "𞤑"); ("𞤴", "𞤒");
    ("𞤵", "𞤓"); ("𞤶", "𞤔"); ("𞤷", "𞤕"); ("𞤸", "𞤖"); ("𞤹", "𞤗");
    ("𞤺", "𞤘"); ("𞤻", "𞤙"); ("𞤼", "𞤚"); ("𞤽", "𞤛"); ("𞤾", "𞤜");
    ("𞤿", "𞤝"); ("𞥀", "𞤞"); ("𞥁", "𞤟"); ("𞥂", "𞤠"); ("𞥃", "𞤡") ].

(** The characters outside ASCII that [str.lower] changes, each with the
    text it becomes; the capital sigma is here with its form inside a word. *)
Definition lower_table : list (string * string) :=
  [ ("À", "à"); ("Á", "á"); ("Â", "â"); ("Ã", "ã"); ("Ä", "ä"); ("Å", "å");
    ("Æ", "æ"); ("Ç", "ç"); ("È", "è"); ("É", "é"); ("Ê", "ê"); ("Ë", "ë");
    ("Ì", "ì"); ("Í", "í"); ("Î", "î"); ("Ï", "ï"); ("Ð", "ð"); ("Ñ", "ñ");
    ("Ò", "ò"); ("Ó", "ó"); ("Ô", "ô"); ("Õ", "õ"); ("Ö", "ö"); ("Ø", "ø");
    ("Ù", "ù"); ("Ú", "ú"); ("Û", "û"); ("Ü", "ü"); ("Ý", "ý"); ("Þ", "þ");
    ("Ā", "ā"); ("Ă", "ă"); ("Ą", "ą"); ("Ć", "ć"); ("Ĉ", "ĉ"); ("Ċ", "ċ");
    ("Č", "č"); ("Ď", "ď"); ("Đ", "đ"); ("Ē", "ē"); ("Ĕ", "ĕ"); ("Ė", "ė");
    ("Ę", "ę"); ("Ě", "ě"); ("Ĝ", "ĝ"); ("Ğ", "ğ"); ("Ġ", "ġ"); ("Ģ", "ģ");
    ("Ĥ", "ĥ"); ("Ħ", "ħ"); ("Ĩ", "ĩ"); ("Ī", "ī"); ("Ĭ", "ĭ"); ("Į", "į");
    ("İ", "i̇"); ("Ĳ", "ĳ"); ("Ĵ", "ĵ"); ("Ķ", "ķ"); ("Ĺ", "ĺ"); ("Ļ", "ļ");
    ("Ľ", "ľ"); ("Ŀ", "ŀ"); ("Ł", "ł"); ("Ń", "ń"); ("Ņ", "ņ"); ("Ň", "ň");
    ("Ŋ", "ŋ"); ("Ō", "ō"); ("Ŏ", "ŏ"); ("Ő", "ő"); ("Œ", "œ"); ("Ŕ", "ŕ");
    ("Ŗ", "ŗ"); ("Ř", "ř"); ("Ś", "ś"); ("Ŝ", "ŝ"); ("Ş", "ş"); ("Š", "š");
    ("Ţ", "ţ"); ("Ť", "ť"); ("Ŧ", "ŧ"); ("Ũ", "ũ"); ("Ū", "ū"); ("Ŭ", "ŭ");
    ("Ů", "ů"); ("Ű", "ű"); ("Ų", "ų"); ("Ŵ", "ŵ"); ("Ŷ", "ŷ"); ("Ÿ", "ÿ");
    ("Ź", "ź"); ("Ż", "ż"); ("Ž", "ž"); ("Ɓ", "ɓ"); ("Ƃ", "ƃ"); ("Ƅ", "ƅ");
    ("Ɔ", "ɔ"); ("Ƈ", "ƈ"); ("Ɖ", "ɖ"); ("Ɗ", "ɗ"); ("Ƌ", "ƌ"); ("Ǝ", "ǝ");
    ("Ə", "ə"); ("Ɛ", "ɛ"); ("Ƒ", "ƒ"); ("Ɠ", "ɠ"); ("Ɣ", "ɣ"); ("Ɩ", "ɩ");
    ("Ɨ", "ɨ"); ("Ƙ", "ƙ"); ("Ɯ", "ɯ"); ("Ɲ", "ɲ"); ("Ɵ", "ɵ"); ("Ơ", "ơ");
    ("Ƣ", "ƣ"); ("Ƥ", "ƥ"); ("Ʀ", "ʀ"); ("Ƨ", "ƨ"); ("Ʃ", "ʃ"); ("Ƭ", "ƭ");
    ("Ʈ", "ʈ"); ("Ư", "ư"); ("Ʊ", "ʊ"); ("Ʋ", "ʋ"); ("Ƴ", "ƴ"); ("Ƶ", "ƶ");
    ("Ʒ", "ʒ"); ("Ƹ", "ƹ"); ("Ƽ", "ƽ"); ("Ǆ", "ǆ"); ("ǅ", "ǆ"); ("Ǉ", "ǉ");
    ("ǈ", "ǉ"); ("Ǌ", "ǌ"); ("ǋ", "ǌ"); ("Ǎ", "ǎ"); ("Ǐ", "ǐ"); ("Ǒ", "ǒ");
    ("Ǔ", "ǔ"); ("Ǖ", "ǖ"); ("Ǘ", "ǘ"); ("Ǚ", "ǚ"); ("Ǜ", "ǜ"); ("Ǟ", "ǟ");
    ("Ǡ", "ǡ"); ("Ǣ", "ǣ"); ("Ǥ", "ǥ"); ("Ǧ", "ǧ"); ("Ǩ", "ǩ"); ("Ǫ", "ǫ");
    ("Ǭ", "ǭ"); ("Ǯ", "ǯ"); ("Ǳ", "ǳ"); ("ǲ", "ǳ"); ("Ǵ", "ǵ"); ("Ƕ", "ƕ");
    ("Ƿ", "ƿ"); ("Ǹ", "ǹ"); ("Ǻ", "ǻ"); ("Ǽ", "ǽ"); ("Ǿ", "ǿ"); ("Ȁ", "ȁ");
    ("Ȃ", "ȃ"); ("Ȅ", "ȅ"); ("Ȇ", "ȇ"); ("Ȉ", "ȉ"); ("Ȋ", "ȋ"); ("Ȍ", "ȍ");
    ("Ȏ", "ȏ"); ("Ȑ", "ȑ"); ("Ȓ", "ȓ"); ("Ȕ", "ȕ"); ("Ȗ", "ȗ"); ("Ș", "ș");
    ("Ț", "ț"); ("Ȝ", "ȝ"); ("Ȟ", "ȟ"); ("Ƞ", "ƞ"); ("Ȣ", "ȣ"); ("Ȥ", "ȥ");
    ("Ȧ", "ȧ"); ("Ȩ", "ȩ"); ("Ȫ", "ȫ"); ("Ȭ", "ȭ"); ("Ȯ", "ȯ"); ("Ȱ", "ȱ");
    ("Ȳ", "ȳ"); ("Ⱥ", "ⱥ"); ("Ȼ", "ȼ"); ("Ƚ", "ƚ"); ("Ⱦ", "ⱦ"); ("Ɂ", "ɂ");
    ("Ƀ", "ƀ"); ("Ʉ", "ʉ"); ("Ʌ", "ʌ"); ("Ɇ", "ɇ"); ("Ɉ", "ɉ"); ("Ɋ", "ɋ");
    ("Ɍ", "ɍ"); ("Ɏ", "ɏ"); ("Ͱ", "ͱ"); ("Ͳ", "ͳ"); ("Ͷ", "ͷ"); ("Ϳ", "ϳ");
    ("Ά", "ά"); ("Έ", "έ"); ("Ή", "ή"); ("Ί", "ί"); ("Ό", "ό"); ("Ύ", "ύ");
    ("Ώ", "ώ"); ("Α", "α"); ("Β", "β"); ("Γ", "γ"); ("Δ", "δ"); ("Ε", "ε");
    ("Ζ", "ζ"); ("Η", "η"); ("Θ", "θ"); ("Ι", "ι"); ("Κ", "κ"); ("Λ", "λ");
    ("Μ", "μ"); ("Ν", "ν"); ("Ξ", "ξ"); ("Ο", "ο"); ("Π", "π"); ("Ρ", "ρ");
    ("Σ", "σ"); ("Τ", "τ"); ("Υ", "υ"); ("Φ", "φ"); ("Χ", "χ"); ("Ψ", "ψ");
    ("Ω", "ω"); ("Ϊ", "ϊ"); ("Ϋ", "ϋ"); ("Ϗ", "ϗ"); ("Ϙ", "ϙ"); ("Ϛ", "ϛ");
    ("Ϝ", "ϝ"); ("Ϟ", "ϟ"); ("Ϡ", "ϡ"); ("Ϣ", "ϣ"); ("Ϥ", "ϥ"); ("Ϧ", "ϧ");
    ("Ϩ", "ϩ"); ("Ϫ", "ϫ"); ("Ϭ", "ϭ"); ("Ϯ", "ϯ"); ("ϴ", "θ"); ("Ϸ", "ϸ");
    ("Ϲ", "ϲ"); ("Ϻ", "ϻ"); ("Ͻ", "ͻ"); ("Ͼ", "ͼ"); ("Ͽ", "ͽ"); ("Ѐ", "ѐ");
    ("Ё", "ё"); ("Ђ", "ђ"); ("Ѓ", "ѓ"); ("Є", "є"); ("Ѕ", "ѕ"); ("І", "і");
    ("Ї", "ї"); ("Ј", "ј"); ("Љ", "љ"); ("Њ", "њ"); ("Ћ", "ћ"); ("Ќ", "ќ");
    ("Ѝ", "ѝ"); ("Ў", "ў"); ("Џ", "џ"); ("А", "а"); ("Б", "б"); ("В", "в");
    ("Г", "г"); ("Д", "д"); ("Е", "е"); ("Ж", "ж"); ("З", "з"); ("И", "и");
    ("Й", "й"); ("К", "к"); ("Л", "л"); ("М", "м"); ("Н", "н"); ("О", "о");
    ("П", "п"); ("Р", "р"); ("С", "с"); ("Т", "т"); ("У", "у"); ("Ф", "ф");
    ("Х", "х"); ("Ц", "ц"); ("Ч", "ч"); ("Ш", "ш"); ("Щ", "щ"); ("Ъ", "ъ");
    ("Ы", "ы"); ("Ь", "ь"); ("Э", "э"); ("Ю", "ю"); ("Я", "я"); ("Ѡ", "ѡ");
    ("Ѣ", "ѣ"); ("Ѥ", "ѥ"); ("Ѧ", "ѧ"); ("Ѩ", "ѩ"); ("Ѫ", "ѫ"); ("Ѭ", "ѭ");
    ("Ѯ", "ѯ"); ("Ѱ", "ѱ"); ("Ѳ", "ѳ"); ("Ѵ", "ѵ"); ("Ѷ", "ѷ"); ("Ѹ", "ѹ");
    ("Ѻ", "ѻ"); ("Ѽ", "ѽ"); ("Ѿ", "ѿ"); ("Ҁ", "ҁ"); ("Ҋ", "ҋ"); ("Ҍ", "ҍ");
    ("Ҏ", "ҏ"); ("Ґ", "ґ"); ("Ғ", "ғ"); ("Ҕ", "ҕ"); ("Җ", "җ"); ("Ҙ", "ҙ");
    ("Қ", "қ"); ("Ҝ", "ҝ"); ("Ҟ", "ҟ"); ("Ҡ", "ҡ"); ("Ң", "ң"); ("Ҥ", "ҥ");
    ("Ҧ", "ҧ"); ("Ҩ", "ҩ"); ("Ҫ", "ҫ"); ("Ҭ", "ҭ"); ("Ү", "ү"); ("Ұ", "ұ");
    ("Ҳ", "ҳ"); ("Ҵ", "ҵ"); ("Ҷ", "ҷ"); ("Ҹ", "ҹ"); ("Һ", "һ"); ("Ҽ", "ҽ");
    ("Ҿ", "ҿ"); ("Ӏ", "ӏ"); ("Ӂ", "ӂ"); ("Ӄ", "ӄ"); ("Ӆ", "ӆ"); ("Ӈ", "ӈ");
    ("Ӊ", "ӊ"); ("Ӌ", "ӌ"); ("Ӎ", "ӎ"); ("Ӑ", "ӑ"); ("Ӓ", "ӓ"); ("Ӕ", "ӕ");
    ("Ӗ", "ӗ"); ("Ә", "ә"); ("Ӛ", "ӛ"); ("Ӝ", "ӝ"); ("Ӟ", "ӟ"); ("Ӡ", "ӡ");
    ("Ӣ", "ӣ"); ("Ӥ", "ӥ"); ("Ӧ", "ӧ"); ("Ө", "ө"); ("Ӫ", "ӫ"); ("Ӭ", "ӭ");
    ("Ӯ", "ӯ"); ("Ӱ", "ӱ"); ("Ӳ", "ӳ"); ("Ӵ", "ӵ"); ("Ӷ", "ӷ"); ("Ӹ", "ӹ");
    ("Ӻ", "ӻ"); ("Ӽ", "ӽ"); ("Ӿ", "ӿ"); ("Ԁ", "ԁ"); ("Ԃ", "ԃ"); ("Ԅ", "ԅ");
    ("Ԇ", "ԇ"); ("Ԉ", "ԉ"); ("Ԋ", "ԋ"); ("Ԍ", "ԍ"); ("Ԏ", "ԏ"); ("Ԑ", "ԑ");
    ("Ԓ", "ԓ"); ("Ԕ", "ԕ"); ("Ԗ", "ԗ"); ("Ԙ", "ԙ"); ("Ԛ", "ԛ"); ("Ԝ", "ԝ");
    ("Ԟ", "ԟ"); ("Ԡ", "ԡ"); ("Ԣ", "ԣ"); ("Ԥ", "ԥ"); ("Ԧ", "ԧ"); ("Ԩ", "ԩ");
    ("Ԫ", "ԫ"); ("Ԭ", "ԭ"); ("Ԯ", "ԯ"); ("Ա", "ա"); ("Բ", "բ"); ("Գ", "գ");
    ("Դ", "դ"); ("Ե", "ե"); ("Զ", "զ"); ("Է", "է"); ("Ը", "ը"); ("Թ", "թ");
    ("Ժ", "ժ"); ("Ի", "ի"); ("Լ", "լ"); ("Խ", "խ"); ("Ծ", "ծ"); ("Կ", "կ");
    ("Հ", "հ"); ("Ձ", "ձ"); ("Ղ", "ղ"); ("Ճ", "ճ"); ("Մ", "մ"); ("Յ", "յ");
    ("Ն", "ն"); ("Շ", "շ"); ("Ո", "ո"); ("Չ", "չ"); ("Պ", "պ"); ("Ջ", "ջ");
    ("Ռ", "ռ"); ("Ս", "ս"); ("Վ", "վ"); ("Տ", "տ"); ("Ր", "ր"); ("Ց", "ց");
    ("Ւ", "ւ"); ("Փ", "փ"); ("Ք", "ք"); ("Օ", "օ"); ("Ֆ", "ֆ"); ("Ⴀ", "ⴀ");
    ("Ⴁ", "ⴁ"); ("Ⴂ", "ⴂ"); ("Ⴃ", "ⴃ"); ("Ⴄ", "ⴄ"); ("Ⴅ", "ⴅ"); ("Ⴆ", "ⴆ");
    ("Ⴇ", "ⴇ"); ("Ⴈ", "ⴈ"); ("Ⴉ", "ⴉ"); ("Ⴊ", "ⴊ"); ("Ⴋ", "ⴋ"); ("Ⴌ", "ⴌ");
    ("Ⴍ", "ⴍ"); ("Ⴎ", "ⴎ"); ("Ⴏ", "ⴏ"); ("Ⴐ", "ⴐ"); ("Ⴑ", "ⴑ"); ("Ⴒ", "ⴒ");
    ("Ⴓ", "ⴓ"); ("Ⴔ", "ⴔ"); ("Ⴕ", "ⴕ"); ("Ⴖ", "ⴖ"); ("Ⴗ", "ⴗ"); ("Ⴘ", "ⴘ");
    ("Ⴙ", "ⴙ"); ("Ⴚ", "ⴚ"); ("Ⴛ", "ⴛ"); ("Ⴜ", "ⴜ"); ("Ⴝ", "ⴝ"); ("Ⴞ", "ⴞ");
    ("Ⴟ", "ⴟ"); ("Ⴠ", "ⴠ"); ("Ⴡ", "ⴡ"); ("Ⴢ", "ⴢ"); ("Ⴣ", "ⴣ"); ("Ⴤ", "ⴤ");
    ("Ⴥ", "ⴥ"); ("Ⴧ", "ⴧ"); ("Ⴭ", "ⴭ"); ("Ꭰ", "ꭰ"); ("Ꭱ", "ꭱ"); ("Ꭲ", "ꭲ");
    ("Ꭳ", "ꭳ"); ("Ꭴ", "ꭴ"); ("Ꭵ", "ꭵ"); ("Ꭶ", "ꭶ"); ("Ꭷ", "ꭷ"); ("Ꭸ", "ꭸ");
    ("Ꭹ", "ꭹ"); ("Ꭺ", "ꭺ"); ("Ꭻ", "ꭻ"); ("Ꭼ", "ꭼ"); ("Ꭽ", "ꭽ"); ("Ꭾ", "ꭾ");
    ("Ꭿ", "ꭿ"); ("Ꮀ", "ꮀ"); ("Ꮁ", "ꮁ"); ("Ꮂ", "ꮂ"); ("Ꮃ", "ꮃ"); ("Ꮄ", "ꮄ");
    ("Ꮅ", "ꮅ"); ("Ꮆ", "ꮆ"); ("Ꮇ", "ꮇ"); ("Ꮈ", "ꮈ"); ("Ꮉ", "ꮉ"); ("Ꮊ", "ꮊ");
    ("Ꮋ", "ꮋ"); ("Ꮌ", "ꮌ"); ("Ꮍ", "ꮍ"); ("Ꮎ", "ꮎ"); ("Ꮏ", "ꮏ"); ("Ꮐ", "ꮐ");
    ("Ꮑ", "ꮑ"); ("Ꮒ", "ꮒ"); ("Ꮓ", "ꮓ"); ("Ꮔ", "ꮔ"); ("Ꮕ", "ꮕ"); ("Ꮖ", "ꮖ");
    ("Ꮗ", "ꮗ"); ("Ꮘ", "ꮘ"); ("Ꮙ", "ꮙ"); ("Ꮚ", "ꮚ"); ("Ꮛ", "ꮛ"); ("Ꮜ", "ꮜ");
    ("Ꮝ", "ꮝ"); ("Ꮞ", "ꮞ"); ("Ꮟ", "ꮟ"); ("Ꮠ", "ꮠ"); ("Ꮡ", "ꮡ"); ("Ꮢ", "ꮢ");
    ("Ꮣ", "ꮣ"); ("Ꮤ", "ꮤ"); ("Ꮥ", "ꮥ"); ("Ꮦ", "ꮦ"); ("Ꮧ", "ꮧ"); ("Ꮨ", "ꮨ");
    ("Ꮩ", "ꮩ"); ("Ꮪ", "ꮪ"); ("Ꮫ", "ꮫ"); ("Ꮬ", "ꮬ"); ("Ꮭ", "ꮭ"); ("Ꮮ", "ꮮ");
    ("Ꮯ", "ꮯ"); ("Ꮰ", "ꮰ"); ("Ꮱ", "ꮱ"); ("Ꮲ", "ꮲ"); ("Ꮳ", "ꮳ"); ("Ꮴ", "ꮴ");
    ("Ꮵ", "ꮵ"); ("Ꮶ", "ꮶ"); ("Ꮷ", "ꮷ"); ("Ꮸ", "ꮸ"); ("Ꮹ", "ꮹ"); ("Ꮺ", "ꮺ");
    ("Ꮻ", "ꮻ"); ("Ꮼ", "ꮼ"); ("Ꮽ", "ꮽ"); ("Ꮾ", "ꮾ"); ("Ꮿ", "ꮿ"); ("Ᏸ", "ᏸ");
    ("Ᏹ", "ᏹ"); ("Ᏺ", "ᏺ"); ("Ᏻ", "ᏻ"); ("Ᏼ", "ᏼ"); ("Ᏽ", "ᏽ"); ("Ა", "ა");
    ("Ბ", "ბ"); ("Გ", "გ"); ("Დ", "დ"); ("Ე", "ე"); ("Ვ", "ვ"); ("Ზ", "ზ");
    ("Თ", "თ"); ("Ი", "ი"); ("Კ", "კ"); ("Ლ", "ლ"); ("Მ", "მ"); ("Ნ", "ნ");
    ("Ო", "ო"); ("Პ", "პ"); ("Ჟ", "ჟ"); ("Რ", "რ"); ("Ს", "ს"); ("Ტ", "ტ");
    ("Უ", "უ"); ("Ფ", "ფ"); ("Ქ", "ქ"); ("Ღ", "ღ"); ("Ყ", "ყ"); ("Შ", "შ");
    ("Ჩ", "ჩ"); ("Ც", "ც"); ("Ძ", "ძ"); ("Წ", "წ"); ("Ჭ", "ჭ"); ("Ხ", "ხ");
    ("Ჯ", "ჯ"); ("Ჰ", "ჰ"); ("Ჱ", "ჱ"); ("Ჲ", "ჲ"); ("Ჳ", "ჳ"); ("Ჴ", "ჴ");
    ("Ჵ", "ჵ"); ("Ჶ", "ჶ"); ("Ჷ", "ჷ"); ("Ჸ", "ჸ"); ("Ჹ", "ჹ"); ("Ჺ", "ჺ");
    ("Ჽ", "ჽ"); ("Ჾ", "ჾ"); ("Ჿ", "ჿ"); ("Ḁ", "ḁ"); ("Ḃ", "ḃ"); ("Ḅ", "ḅ");
    ("Ḇ", "ḇ"); ("Ḉ", "ḉ"); ("Ḋ", "ḋ"); ("Ḍ", "ḍ"); ("Ḏ", "ḏ"); ("Ḑ", "ḑ");
    ("Ḓ", "ḓ"); ("Ḕ", "ḕ"); ("Ḗ", "ḗ"); ("Ḙ", "ḙ"); ("Ḛ", "ḛ"); ("Ḝ", "ḝ");
    ("Ḟ", "ḟ"); ("Ḡ", "ḡ"); ("Ḣ", "ḣ"); ("Ḥ", "ḥ"); ("Ḧ", "ḧ"); ("Ḩ", "ḩ");
    ("Ḫ", "ḫ"); ("Ḭ", "ḭ"); ("Ḯ", "ḯ"); ("Ḱ", "ḱ"); ("Ḳ", "ḳ"); ("Ḵ", "ḵ");
    ("Ḷ", "ḷ"); ("Ḹ", "ḹ"); ("Ḻ", "ḻ"); ("Ḽ", "ḽ"); ("Ḿ", "ḿ"); ("Ṁ", "ṁ");
    ("Ṃ", "ṃ"); ("Ṅ", "ṅ"); ("Ṇ", "ṇ"); ("Ṉ", "ṉ"); ("Ṋ", "ṋ"); ("Ṍ", "ṍ");
    ("Ṏ", "ṏ"); ("Ṑ", "ṑ"); ("Ṓ", "ṓ"); ("Ṕ", "ṕ"); ("Ṗ", "ṗ"); ("Ṙ", "ṙ");
    ("Ṛ", "ṛ"); ("Ṝ", "ṝ"); ("Ṟ", "ṟ"); ("Ṡ", "ṡ"); ("Ṣ", "ṣ"); ("Ṥ", "ṥ");
    ("Ṧ", "ṧ"); ("Ṩ", "ṩ"); ("Ṫ", "ṫ"); ("Ṭ", "ṭ"); ("Ṯ", "ṯ"); ("Ṱ", "ṱ");
    ("Ṳ", "ṳ"); ("Ṵ", "ṵ"); ("Ṷ", "ṷ"); ("Ṹ", "ṹ"); ("Ṻ", "ṻ"); ("Ṽ", "ṽ");
    ("Ṿ", "ṿ"); ("Ẁ", "ẁ"); ("Ẃ", "ẃ"); ("Ẅ", "ẅ"); ("Ẇ", "ẇ"); ("Ẉ", "ẉ");
    ("Ẋ", "ẋ"); ("Ẍ", "ẍ"); ("Ẏ", "ẏ"); ("Ẑ", "ẑ"); ("Ẓ", "ẓ"); ("Ẕ", "ẕ");
    ("ẞ", "ß"); ("Ạ", "ạ"); ("Ả", "ả"); ("Ấ", "ấ"); ("Ầ", "ầ"); ("Ẩ", "ẩ");
    ("Ẫ", "ẫ"); ("Ậ", "ậ"); ("Ắ", "ắ"); ("Ằ", "ằ"); ("Ẳ", "ẳ"); ("Ẵ", "ẵ");
    ("Ặ", "ặ"); ("Ẹ", "ẹ"); ("Ẻ", "ẻ"); ("Ẽ", "ẽ"); ("Ế", "ế"); ("Ề", "ề");
    ("Ể", "ể"); ("Ễ", "ễ"); ("Ệ", "ệ"); ("Ỉ", "ỉ"); ("Ị", "ị"); ("Ọ", "ọ");
    ("Ỏ", "ỏ"); ("Ố", "ố"); ("Ồ", "ồ"); ("Ổ", "ổ"); ("Ỗ", "ỗ"); ("Ộ", "ộ");
    ("Ớ", "ớ"); ("Ờ", "ờ"); ("Ở", "ở"); ("Ỡ", "ỡ"); ("Ợ", "ợ"); ("Ụ", "ụ");
    ("Ủ", "ủ"); ("Ứ", "ứ"); ("Ừ", "ừ"); ("Ử", "ử"); ("Ữ", "ữ"); ("Ự", "ự");
    ("Ỳ", "ỳ"); ("Ỵ", "ỵ"); ("Ỷ", "ỷ"); ("Ỹ", "ỹ"); ("Ỻ", "ỻ"); ("Ỽ", "ỽ");
    ("Ỿ", "ỿ"); ("Ἀ", "ἀ"); ("Ἁ", "ἁ"); ("Ἂ", "ἂ"); ("Ἃ", "ἃ"); ("Ἄ", "ἄ");
    ("Ἅ", "ἅ"); ("Ἆ", "ἆ"); ("Ἇ", "ἇ"); ("Ἐ", "ἐ"); ("Ἑ", "ἑ"); ("Ἒ", "ἒ");
    ("Ἓ", "ἓ"); ("Ἔ", "ἔ"); ("Ἕ", "ἕ"); ("Ἠ", "ἠ"); ("Ἡ", "ἡ"); ("Ἢ", "ἢ");
    ("Ἣ", "ἣ"); ("Ἤ", "ἤ"); ("Ἥ", "ἥ"); ("Ἦ", "ἦ"); ("Ἧ", "ἧ"); ("Ἰ", "ἰ");
    ("Ἱ", "ἱ"); ("Ἲ", "ἲ"); ("Ἳ", "ἳ"); ("Ἴ", "ἴ"); ("Ἵ", "ἵ"); ("Ἶ", "ἶ");
    ("Ἷ", "ἷ"); ("Ὀ", "ὀ"); ("Ὁ", "ὁ"); ("Ὂ", "ὂ"); ("Ὃ", "ὃ"); ("Ὄ", "ὄ");
    ("Ὅ", "ὅ"); ("Ὑ", "ὑ"); ("Ὓ", "ὓ"); ("Ὕ", "ὕ"); ("Ὗ", "ὗ"); ("Ὠ", "ὠ");
    ("Ὡ", "ὡ"); ("Ὢ", "ὢ"); ("Ὣ", "ὣ"); ("Ὤ", "ὤ"); ("Ὥ", "ὥ"); ("Ὦ", "ὦ");
    ("Ὧ", "ὧ"); ("ᾈ", "ᾀ"); ("ᾉ", "ᾁ"); ("ᾊ", "ᾂ"); ("ᾋ", "ᾃ"); ("ᾌ", "ᾄ");
    ("ᾍ", "ᾅ"); ("ᾎ", "ᾆ"); ("ᾏ", "ᾇ"); ("ᾘ", "ᾐ"); ("ᾙ", "ᾑ"); ("ᾚ", "ᾒ");
    ("ᾛ", "ᾓ"); ("ᾜ", "ᾔ"); ("ᾝ", "ᾕ"); ("ᾞ", "ᾖ"); ("ᾟ", "ᾗ"); ("ᾨ", "ᾠ");
    ("ᾩ", "ᾡ"); ("ᾪ", "ᾢ"); ("ᾫ", "ᾣ"); ("ᾬ", "ᾤ"); ("ᾭ", "ᾥ"); ("ᾮ", "ᾦ");
    ("ᾯ", "ᾧ"); ("Ᾰ", "ᾰ"); ("Ᾱ", "ᾱ"); ("Ὰ", "ὰ"); ("Ά", "ά"); ("ᾼ", "ᾳ");
    ("Ὲ", "ὲ"); ("Έ", "έ"); ("Ὴ", "ὴ"); ("Ή", "ή"); ("ῌ", "ῃ"); ("Ῐ", "ῐ");
    ("Ῑ", "ῑ"); ("Ὶ", "ὶ"); ("Ί", "ί"); ("Ῠ", "ῠ"); ("Ῡ", "ῡ"); ("Ὺ", "ὺ");
    ("Ύ", "ύ"); ("Ῥ", "ῥ"); ("Ὸ", "ὸ"); ("Ό", "ό"); ("Ὼ", "ὼ"); ("Ώ", "ώ");
    ("ῼ", "ῳ"); ("Ω", "ω"); ("K", "k"); ("Å", "å"); ("Ⅎ", "ⅎ"); ("Ⅰ", "ⅰ");
    ("Ⅱ", "ⅱ"); ("Ⅲ", "ⅲ"); ("Ⅳ", "ⅳ"); ("Ⅴ", "ⅴ"); ("Ⅵ", "ⅵ"); ("Ⅶ", "ⅶ");
    ("Ⅷ", "ⅷ"); ("Ⅸ", "ⅸ"); ("Ⅹ", "ⅹ"); ("Ⅺ", "ⅺ"); ("Ⅻ", "ⅻ"); ("Ⅼ", "ⅼ");
    ("Ⅽ", "ⅽ"); ("Ⅾ", "ⅾ"); ("Ⅿ", "ⅿ"); ("Ↄ", "ↄ"); ("Ⓐ", "ⓐ"); ("Ⓑ", "ⓑ");
    ("Ⓒ", "ⓒ"); ("Ⓓ", "ⓓ"); ("Ⓔ", "ⓔ"); ("Ⓕ", "ⓕ"); ("Ⓖ", "ⓖ"); ("Ⓗ", "ⓗ");
    ("Ⓘ", "ⓘ"); ("Ⓙ", "ⓙ"); ("Ⓚ", "ⓚ"); ("Ⓛ", "ⓛ"); ("Ⓜ", "ⓜ"); ("Ⓝ", "ⓝ");
    ("Ⓞ", "ⓞ"); ("Ⓟ", "ⓟ"); ("Ⓠ", "ⓠ"); ("Ⓡ", "ⓡ"); ("Ⓢ", "ⓢ"); ("Ⓣ", "ⓣ");
    ("Ⓤ", "ⓤ"); ("Ⓥ", "ⓥ"); ("Ⓦ", "ⓦ"); ("Ⓧ", "ⓧ"); ("Ⓨ", "ⓨ"); ("Ⓩ", "ⓩ");
    ("Ⰰ", "ⰰ"); ("Ⰱ", "ⰱ"); ("Ⰲ", "ⰲ"); ("Ⰳ", "ⰳ"); ("Ⰴ", "ⰴ"); ("Ⰵ", "ⰵ");
    ("Ⰶ", "ⰶ"); ("Ⰷ", "ⰷ"); ("Ⰸ", "ⰸ"); ("Ⰹ", "ⰹ"); ("Ⰺ", "ⰺ"); ("Ⰻ", "ⰻ");
    ("Ⰼ", "ⰼ"); ("Ⰽ", "ⰽ"); ("Ⰾ", "ⰾ"); ("Ⰿ", "ⰿ"); ("Ⱀ", "ⱀ"); ("Ⱁ", "ⱁ");
    ("Ⱂ", "ⱂ"); ("Ⱃ", "ⱃ"); ("Ⱄ", "ⱄ"); ("Ⱅ", "ⱅ"); ("Ⱆ", "ⱆ"); ("Ⱇ", "ⱇ");
    ("Ⱈ", "ⱈ"); ("Ⱉ", "ⱉ"); ("Ⱊ", "ⱊ"); ("Ⱋ", "ⱋ"); ("Ⱌ", "ⱌ"); ("Ⱍ", "ⱍ");
    ("Ⱎ", "ⱎ"); ("Ⱏ", "ⱏ"); ("Ⱐ", "ⱐ"); ("Ⱑ", "ⱑ"); ("Ⱒ", "ⱒ"); ("Ⱓ", "ⱓ");
    ("Ⱔ", "ⱔ"); ("Ⱕ", "ⱕ"); ("Ⱖ", "ⱖ"); ("Ⱗ", "ⱗ"); ("Ⱘ", "ⱘ"); ("Ⱙ", "ⱙ");
    ("Ⱚ", "ⱚ"); ("Ⱛ", "ⱛ"); ("Ⱜ", "ⱜ"); ("Ⱝ", "ⱝ"); ("Ⱞ", "ⱞ"); ("Ⱟ", "ⱟ");
    ("Ⱡ", "ⱡ"); ("Ɫ", "ɫ"); ("Ᵽ", "ᵽ"); ("Ɽ", "ɽ"); ("Ⱨ", "ⱨ"); ("Ⱪ", "ⱪ");
    ("Ⱬ", "ⱬ"); ("Ɑ", "ɑ"); ("Ɱ", "ɱ"); ("Ɐ", "ɐ"); ("Ɒ", "ɒ"); ("Ⱳ", "ⱳ");
    ("Ⱶ", "ⱶ"); ("Ȿ", "ȿ"); ("Ɀ", "ɀ"); ("Ⲁ", "ⲁ"); ("Ⲃ", "ⲃ"); ("Ⲅ", "ⲅ");
    ("Ⲇ", "ⲇ"); ("Ⲉ", "ⲉ"); ("Ⲋ", "ⲋ"); ("Ⲍ", "ⲍ"); ("Ⲏ", "ⲏ"); ("Ⲑ", "ⲑ");
    ("Ⲓ", "ⲓ"); ("Ⲕ", "ⲕ"); ("Ⲗ", "ⲗ"); ("Ⲙ", "ⲙ"); ("Ⲛ", "ⲛ"); ("Ⲝ", "ⲝ");
    ("Ⲟ", "ⲟ"); ("Ⲡ", "ⲡ"); ("Ⲣ", "ⲣ"); ("Ⲥ", "ⲥ"); ("Ⲧ", "ⲧ"); ("Ⲩ", "ⲩ");
    ("Ⲫ", "ⲫ"); ("Ⲭ", "ⲭ"); ("Ⲯ", "ⲯ"); ("Ⲱ", "ⲱ"); ("Ⲳ", "ⲳ"); ("Ⲵ", "ⲵ");
    ("Ⲷ", "ⲷ"); ("Ⲹ", "ⲹ"); ("Ⲻ", "ⲻ"); ("Ⲽ", "ⲽ"); ("Ⲿ", "ⲿ"); ("Ⳁ", "ⳁ");
    ("Ⳃ", "ⳃ"); ("Ⳅ", "ⳅ"); ("Ⳇ", "ⳇ"); ("Ⳉ", "ⳉ"); ("Ⳋ", "ⳋ"); ("Ⳍ", "ⳍ");
    ("Ⳏ", "ⳏ"); ("Ⳑ", "ⳑ"); ("Ⳓ", "ⳓ"); ("Ⳕ", "ⳕ"); ("Ⳗ", "ⳗ"); ("Ⳙ", "ⳙ");
    ("Ⳛ", "ⳛ"); ("Ⳝ", "ⳝ"); ("Ⳟ", "ⳟ"); ("Ⳡ", "ⳡ"); ("Ⳣ", "ⳣ"); ("Ⳬ", "ⳬ");
    ("Ⳮ", "ⳮ"); ("Ⳳ", "ⳳ"); ("Ꙁ", "ꙁ"); ("Ꙃ", "ꙃ"); ("Ꙅ", "ꙅ"); ("Ꙇ", "ꙇ");
    ("Ꙉ", "ꙉ"); ("Ꙋ", "ꙋ"); ("Ꙍ", "ꙍ"); ("Ꙏ", "ꙏ"); ("Ꙑ", "ꙑ"); ("Ꙓ", "ꙓ");
    ("Ꙕ", "ꙕ"); ("Ꙗ", "ꙗ"); ("Ꙙ", "ꙙ"); ("Ꙛ", "ꙛ"); ("Ꙝ", "ꙝ"); ("Ꙟ", "ꙟ");
    ("Ꙡ", "ꙡ"); ("Ꙣ", "ꙣ"); ("Ꙥ", "ꙥ"); ("Ꙧ", "ꙧ"); ("Ꙩ", "ꙩ"); ("Ꙫ", "ꙫ");
    ("Ꙭ", "ꙭ"); ("Ꚁ", "ꚁ"); ("Ꚃ", "ꚃ"); ("Ꚅ", "ꚅ"); ("Ꚇ", "ꚇ"); ("Ꚉ", "ꚉ");
    ("Ꚋ", "ꚋ"); ("Ꚍ", "ꚍ"); ("Ꚏ", "ꚏ"); ("Ꚑ", "ꚑ"); ("Ꚓ", "ꚓ"); ("Ꚕ", "ꚕ");
    ("Ꚗ", "ꚗ"); ("Ꚙ", "ꚙ"); ("Ꚛ", "ꚛ"); ("Ꜣ", "ꜣ"); ("Ꜥ", "ꜥ"); ("Ꜧ", "ꜧ");
    ("Ꜩ", "ꜩ"); ("Ꜫ", "ꜫ"); ("Ꜭ", "ꜭ"); ("Ꜯ", "ꜯ"); ("Ꜳ", "ꜳ"); ("Ꜵ", "ꜵ");
    ("Ꜷ", "ꜷ"); ("Ꜹ", "ꜹ"); ("Ꜻ", "ꜻ"); ("Ꜽ", "ꜽ"); ("Ꜿ", "ꜿ"); ("Ꝁ", "ꝁ");
    ("Ꝃ", "ꝃ"); ("Ꝅ", "ꝅ"); ("Ꝇ", "ꝇ"); ("Ꝉ", "ꝉ"); ("Ꝋ", "ꝋ"); ("Ꝍ", "ꝍ");
    ("Ꝏ", "ꝏ"); ("Ꝑ", "ꝑ"); ("Ꝓ", "ꝓ"); ("Ꝕ", "ꝕ"); ("Ꝗ", "ꝗ"); ("Ꝙ", "ꝙ");
    ("Ꝛ", "ꝛ"); ("Ꝝ", "ꝝ"); ("Ꝟ", "ꝟ"); ("Ꝡ", "ꝡ"); ("Ꝣ", "ꝣ"); ("Ꝥ", "ꝥ");
    ("Ꝧ", "ꝧ"); ("Ꝩ", "ꝩ"); ("Ꝫ", "ꝫ"); ("Ꝭ", "ꝭ"); ("Ꝯ", "ꝯ"); ("Ꝺ", "ꝺ");
    ("Ꝼ", "ꝼ"); ("Ᵹ", "ᵹ"); ("Ꝿ", "ꝿ"); ("Ꞁ", "ꞁ"); ("Ꞃ", "ꞃ"); ("Ꞅ", "ꞅ");
    ("Ꞇ", "ꞇ"); ("Ꞌ", "ꞌ"); ("Ɥ", "ɥ"); ("Ꞑ", "ꞑ"); ("Ꞓ", "ꞓ"); ("Ꞗ", "ꞗ");
    ("Ꞙ", "ꞙ"); ("Ꞛ", "ꞛ"); ("Ꞝ", "ꞝ"); ("Ꞟ", "ꞟ"); ("Ꞡ", "ꞡ"); ("Ꞣ", "ꞣ");
    ("Ꞥ", "ꞥ"); ("Ꞧ", "ꞧ"); ("Ꞩ", "ꞩ"); ("Ɦ", "ɦ"); ("Ɜ", "ɜ"); ("Ɡ", "ɡ");
    ("Ɬ", "ɬ"); ("Ɪ", "ɪ"); ("Ʞ", "ʞ"); ("Ʇ", "ʇ"); ("Ʝ", "ʝ"); ("Ꭓ", "ꭓ");
    ("Ꞵ", "ꞵ"); ("Ꞷ", "ꞷ"); ("Ꞹ", "ꞹ"); ("Ꞻ", "ꞻ"); ("Ꞽ", "ꞽ"); ("Ꞿ", "ꞿ");
    ("Ꟁ", "ꟁ"); ("Ꟃ", "ꟃ"); ("Ꞔ", "ꞔ"); ("Ʂ", "ʂ"); ("Ᶎ", "ᶎ"); ("Ꟈ", "ꟈ");
    ("Ꟊ", "ꟊ"); ("Ꟑ", "ꟑ"); ("Ꟗ", "ꟗ"); ("Ꟙ", "ꟙ"); ("Ꟶ", "ꟶ"); ("Ａ", "ａ");
    ("Ｂ", "ｂ"); ("Ｃ", "ｃ"); ("Ｄ", "ｄ"); ("Ｅ", "ｅ"); ("Ｆ", "ｆ"); ("Ｇ", "ｇ");
    ("Ｈ", "ｈ"); ("Ｉ", "ｉ"); ("Ｊ", "ｊ"); ("Ｋ", "ｋ"); ("Ｌ", "ｌ"); ("Ｍ", "ｍ");
    ("Ｎ", "ｎ"); ("Ｏ", "ｏ"); ("Ｐ", "ｐ"); ("Ｑ", "ｑ"); ("Ｒ", "ｒ"); ("Ｓ", "ｓ");
    ("Ｔ", "ｔ"); ("Ｕ", "ｕ"); ("Ｖ", "ｖ"); ("Ｗ", "ｗ"); ("Ｘ", "ｘ"); ("Ｙ", "ｙ");
    ("Ｚ", "ｚ"); ("𐐀", "𐐨"); ("𐐁", "𐐩"); ("𐐂", "𐐪"); ("𐐃", "𐐫");
    ("𐐄", "𐐬"); ("𐐅", "𐐭"); ("𐐆", "𐐮"); ("𐐇", "𐐯"); ("𐐈", "𐐰");
    ("𐐉", "𐐱"); ("𐐊", "𐐲"); ("𐐋", "𐐳"); ("𐐌", "𐐴"); ("𐐍", "𐐵");
    ("𐐎", "𐐶"); ("𐐏", "𐐷"); ("𐐐", "𐐸"); ("𐐑", "𐐹"); ("𐐒", "𐐺");
    ("𐐓", "𐐻"); ("𐐔", "𐐼"); ("𐐕", "𐐽"); ("𐐖", "𐐾"); ("𐐗", "𐐿");
    ("𐐘", "𐑀"); ("𐐙", "𐑁"); ("𐐚", "𐑂"); ("𐐛", "𐑃"); ("𐐜", "𐑄");
    ("𐐝", "𐑅"); ("𐐞", "𐑆"); ("𐐟", "𐑇"); ("𐐠", "𐑈"); ("𐐡", "𐑉");
    ("𐐢", "𐑊"); ("𐐣", "𐑋"); ("𐐤", "𐑌"); ("𐐥", "𐑍"); ("𐐦", "𐑎");
    ("𐐧", "𐑏"); ("𐒰", "𐓘"); ("𐒱", "𐓙"); ("𐒲", "𐓚"); ("𐒳", "𐓛");
    ("𐒴", "𐓜"); ("𐒵", "𐓝"); ("𐒶", "𐓞"); ("𐒷", "𐓟"); ("𐒸", "𐓠");
    ("𐒹", "𐓡"); ("𐒺", "𐓢"); ("𐒻", "𐓣"); ("𐒼", "𐓤"); ("𐒽", "𐓥");
    ("𐒾", "𐓦"); ("𐒿", "𐓧"); ("𐓀", "𐓨"); ("𐓁", "𐓩"); ("𐓂", "𐓪");
    ("𐓃", "𐓫"); ("𐓄", "𐓬"); ("𐓅", "𐓭"); ("𐓆", "𐓮"); ("𐓇", "𐓯");
    ("𐓈", "𐓰"); ("𐓉", "𐓱"); ("𐓊", "𐓲"); ("𐓋", "𐓳"); ("𐓌", "𐓴");
    ("𐓍", "𐓵"); ("𐓎", "𐓶"); ("𐓏", "𐓷"); ("𐓐", "𐓸"); ("𐓑", "𐓹");
    ("𐓒", "𐓺"); ("𐓓", "𐓻"); ("𐕰", "𐖗"); ("𐕱", "𐖘"); ("𐕲", "𐖙");
    ("𐕳", "𐖚"); ("𐕴", "𐖛"); ("𐕵", "𐖜"); ("𐕶", "𐖝"); ("𐕷", "𐖞");
    ("𐕸", "𐖟"); ("𐕹", "𐖠"); ("𐕺", "𐖡"); ("𐕼", "𐖣"); ("𐕽", "𐖤");
    ("𐕾", "𐖥"); ("𐕿", "𐖦"); ("𐖀", "𐖧"); ("𐖁", "𐖨"); ("𐖂", "𐖩");
    ("𐖃", "𐖪"); ("𐖄", "𐖫"); ("𐖅", "𐖬"); ("𐖆", "𐖭"); ("𐖇", "𐖮");
    ("𐖈", "𐖯"); ("𐖉", "𐖰"); ("𐖊", "𐖱"); ("𐖌", "𐖳"); ("𐖍", "𐖴");
    ("𐖎", "𐖵"); ("𐖏", "𐖶"); ("𐖐", "𐖷"); ("𐖑", "𐖸"); ("𐖒", "𐖹");
    ("𐖔", "𐖻"); ("𐖕", "𐖼"); ("𐲀", "𐳀"); ("𐲁", "𐳁"); ("𐲂", "𐳂");
    ("𐲃", "𐳃"); ("𐲄", "𐳄"); ("𐲅", "𐳅"); ("𐲆", "𐳆"); ("𐲇", "𐳇");
    ("𐲈", "𐳈"); ("𐲉", "𐳉"); ("𐲊", "𐳊"); ("𐲋", "𐳋"); ("𐲌", "𐳌");
    ("𐲍", "𐳍"); ("𐲎", "𐳎"); ("𐲏", "𐳏"); ("𐲐", "𐳐"); ("𐲑", "𐳑");
    ("𐲒", "𐳒"); ("𐲓", "𐳓"); ("𐲔", "𐳔"); ("𐲕", "𐳕"); ("𐲖", "𐳖");
    ("𐲗", "𐳗"); ("𐲘", "𐳘"); ("𐲙", "𐳙"); ("𐲚", "𐳚"); ("𐲛", "𐳛");
    ("𐲜", "𐳜"); ("𐲝", "𐳝"); ("𐲞", "𐳞"); ("𐲟", "𐳟"); ("𐲠", "𐳠");
    ("𐲡", "𐳡"); ("𐲢", "𐳢"); ("𐲣", "𐳣"); ("𐲤", "𐳤"); ("𐲥", "𐳥");
    ("𐲦", "𐳦"); ("𐲧", "𐳧"); ("𐲨", "𐳨"); ("𐲩", "𐳩"); ("𐲪", "𐳪");
    ("𐲫", "𐳫"); ("𐲬", "𐳬"); ("𐲭", "𐳭"); ("𐲮", "𐳮"); ("𐲯", "𐳯");
    ("𐲰", "𐳰"); ("𐲱", "𐳱"); ("𐲲", "𐳲"); ("𑢠", "𑣀"); ("𑢡", "𑣁");
    ("𑢢", "𑣂"); ("𑢣", "𑣃"); ("𑢤", "𑣄"); ("𑢥", "𑣅"); ("𑢦", "𑣆");
    ("𑢧", "𑣇"); ("𑢨", "𑣈"); ("𑢩", "𑣉"); ("𑢪", "𑣊"); ("𑢫", "𑣋");
    ("𑢬", "𑣌"); ("𑢭", "𑣍"); ("𑢮", "𑣎"); ("𑢯", "𑣏"); ("𑢰", "𑣐");
    ("𑢱", "𑣑"); ("𑢲", "𑣒"); ("𑢳", "𑣓"); ("𑢴", "𑣔"); ("𑢵", "𑣕");
    ("𑢶", "𑣖"); ("𑢷", "𑣗"); ("𑢸", "𑣘"); ("𑢹", "𑣙"); ("𑢺", "𑣚");
    ("𑢻", "𑣛"); ("𑢼", "𑣜"); ("𑢽", "𑣝"); ("𑢾", "𑣞"); ("𑢿", "𑣟");
    ("𖹀", "𖹠"); ("𖹁", "𖹡"); ("𖹂", "𖹢"); ("𖹃", "𖹣"); ("𖹄", "𖹤");
    ("𖹅", "𖹥"); ("𖹆", "𖹦"); ("𖹇", "𖹧"); ("𖹈", "𖹨"); ("𖹉", "𖹩");
    ("𖹊", "𖹪"); ("𖹋", "𖹫"); ("𖹌", "𖹬"); ("𖹍", "𖹭"); ("𖹎", "𖹮");
    ("𖹏", "𖹯"); ("𖹐", "𖹰"); ("𖹑", "𖹱"); ("𖹒", "𖹲"); ("𖹓", "𖹳");
    ("𖹔", "𖹴"); ("𖹕", "𖹵"); ("𖹖", "𖹶"); ("𖹗", "𖹷"); ("𖹘", "𖹸");
    ("𖹙", "𖹹"); ("𖹚", "𖹺"); ("𖹛", "𖹻"); ("𖹜", "𖹼"); ("𖹝", "𖹽");
    ("𖹞", "𖹾"); ("𖹟", "𖹿"); ("𞤀", "𞤢"); ("𞤁", "𞤣"); ("𞤂", "𞤤");
    ("𞤃", "𞤥"); ("𞤄", "𞤦"); ("𞤅", "𞤧"); ("𞤆", "𞤨"); ("𞤇", "𞤩");
    ("𞤈", "𞤪"); ("𞤉", "𞤫"); ("𞤊", "𞤬"); ("𞤋", "𞤭"); ("𞤌", "𞤮");
    ("𞤍", "𞤯"); ("𞤎", "𞤰"); ("𞤏", "𞤱"); ("𞤐", "𞤲"); ("𞤑", "𞤳");
    ("𞤒", "𞤴"); ("𞤓", "𞤵"); ("𞤔", "𞤶"); ("𞤕", "𞤷"); ("𞤖", "𞤸");
    ("𞤗", "𞤹"); ("𞤘", "𞤺"); ("𞤙", "𞤻"); ("𞤚", "𞤼"); ("𞤛", "𞤽");
    ("𞤜", "𞤾"); ("𞤝", "𞤿"); ("𞤞", "𞥀"); ("𞤟", "𞥁"); ("𞤠", "𞥂");
    ("𞤡", "𞥃") ].

(** Code points that are cased and not case-ignorable, as closed ranges. *)
Definition cased_ranges : list (N * N) :=
  [ (65, 90); (97, 122); (170, 170); (181, 181); (186, 186); (192, 214); (216, 246);
    (248, 442); (444, 447); (452, 659); (661, 687); (880, 883); (886, 887); (891, 893);
    (895, 895); (902, 902); (904, 906); (908, 908); (910, 929); (931, 1013); (1015, 1153);
    (1162, 1327); (1329, 1366); (1376, 1416); (4256, 4293); (4295, 4295); (4301, 4301);
    (4304, 4346); (4349, 4351); (5024, 5109); (5112, 5117); (7296, 7304); (7312, 7354);
    (7357, 7359); (7424, 7467); (7531, 7543); (7545, 7578); (7680, 7957); (7960, 7965);
    (7968, 8005); (8008, 8013); (8016, 8023); (8025, 8025); (8027, 8027); (8029, 8029);
    (8031, 8061); (8064, 8116); (8118, 8124); (8126, 8126); (8130, 8132); (8134, 8140);
    (8144, 8147); (8150, 8155); (8160, 8172); (8178, 8180); (8182, 8188); (8450, 8450);
    (8455, 8455); (8458, 8467); (8469, 8469); (8473, 8477); (8484, 8484); (8486, 8486);
    (8488, 8488); (8490, 8493); (8495, 8500); (8505, 8505); (8508, 8511); (8517, 8521);
    (8526, 8526); (8544, 8575); (8579, 8580); (9398, 9449); (11264, 11387); (11390, 11492);
    (11499, 11502); (11506, 11507); (11520, 11557); (11559, 11559); (11565, 11565);
    (42560, 42605); (42624, 42651); (42786, 42863); (42865, 42887); (42891, 42894);
    (42896, 42954); (42960, 42961); (42963, 42963); (42965, 42969); (42997, 42998);
    (43002, 43002); (43824, 43866); (43872, 43880); (43888, 43967); (64256, 64262);
    (64275, 64279); (65313, 65338); (65345, 65370); (66560, 66639); (66736, 66771);
    (66776, 66811); (66928, 66938); (66940, 66954); (66956, 66962); (66964, 66965);
    (66967, 66977); (66979, 66993); (66995, 67001); (67003, 67004); (68736, 68786);
    (68800, 68850); (71840, 71903); (93760, 93823); (119808, 119892); (119894, 119964);
    (119966, 119967); (119970, 119970); (119973, 119974); (119977, 119980); (119982, 119993);
    (119995, 119995); (119997, 120003); (120005, 120069); (120071, 120074); (120077, 120084);
    (120086, 120092); (120094, 120121); (120123, 120126); (120128, 120132); (120134, 120134);
    (120138, 120144); (120146, 120485); (120488, 120512); (120514, 120538); (120540, 120570);
    (120572, 120596); (120598, 120628); (120630, 120654); (120656, 120686); (120688, 120712);
    (120714, 120744); (120746, 120770); (120772, 120779); (122624, 122633); (122635, 122654);
    (125184, 125251); (127280, 127305); (127312, 127337); (127344, 127369) ]%N.

(** Code points that are case-ignorable, as closed ranges. *)
Definition case_ignorable_ranges : list (N * N) :=
  [ (39, 39); (46, 46); (58, 58); (94, 94); (96, 96); (168, 168); (173, 173); (175, 175);
    (180, 180); (183, 184); (688, 879); (884, 885); (890, 890); (900, 901); (903, 903);
    (1155, 1161); (1369, 1369); (1375, 1375); (1425, 1469); (1471, 1471); (1473, 1474);
    (1476, 1477); (1479, 1479); (1524, 1524); (1536, 1541); (1552, 1562); (1564, 1564);
    (1600, 1600); (1611, 1631); (1648, 1648); (1750, 1757); (1759, 1768); (1770, 1773);
    (1807, 1807); (1809, 1809); (1840, 1866); (1958, 1968); (2027, 2037); (2042, 2042);
    (2045, 2045); (2070, 2093); (2137, 2139); (2184, 2184); (2192, 2193); (2200, 2207);
    (2249, 2306); (2362, 2362); (2364, 2364); (2369, 2376); (2381, 2381); (2385, 2391);
    (2402, 2403); (2417, 2417); (2433, 2433); (2492, 2492); (2497, 2500); (2509, 2509);
    (2530, 2531); (2558, 2558); (2561, 2562); (2620, 2620); (2625, 2626); (2631, 2632);
    (2635, 2637); (2641, 2641); (2672, 2673); (2677, 2677); (2689, 2690); (2748, 2748);
    (2753, 2757); (2759, 2760); (2765, 2765); (2786, 2787); (2810, 2815); (2817, 2817);
    (2876, 2876); (2879, 2879); (2881, 2884); (2893, 2893); (2901, 2902); (2914, 2915);
    (2946, 2946); (3008, 3008); (3021, 3021); (3072, 3072); (3076, 3076); (3132, 3132);
    (3134, 3136); (3142, 3144); (3146, 3149); (3157, 3158); (3170, 3171); (3201, 3201);
    (3260, 3260); (3263, 3263); (3270, 3270); (3276, 3277); (3298, 3299); (3328, 3329);
    (3387, 3388); (3393, 3396); (3405, 3405); (3426, 3427); (3457, 3457); (3530, 3530);
    (3538, 3540); (3542, 3542); (3633, 3633); (3636, 3642); (3654, 3662); (3761, 3761);
    (3764, 3772); (3782, 3782); (3784, 3789); (3864, 3865); (3893, 3893); (3895, 3895);
    (3897, 3897); (3953, 3966); (3968, 3972); (3974, 3975); (3981, 3991); (3993, 4028);
    (4038, 4038); (4141, 4144); (4146, 4151); (4153, 4154); (4157, 4158); (4184, 4185);
    (4190, 4192); (4209, 4212); (4226, 4226); (4229, 4230); (4237, 4237); (4253, 4253);
    (4348, 4348); (4957, 4959); (5906, 5908); (5938, 5939); (5970, 5971); (6002, 6003);
    (6068, 6069); (6071, 6077); (6086, 6086); (6089, 6099); (6103, 6103); (6109, 6109);
    (6155, 6159); (6211, 6211); (6277, 6278); (6313, 6313); (6432, 6434); (6439, 6440);
    (6450, 6450); (6457, 6459); (6679, 6680); (6683, 6683); (6742, 6742); (6744, 6750);
    (6752, 6752); (6754, 6754); (6757, 6764); (6771, 6780); (6783, 6783); (6823, 6823);
    (6832, 6862); (6912, 6915); (6964, 6964); (6966, 6970); (6972, 6972); (6978, 6978);
    (7019, 7027); (7040, 7041); (7074, 7077); (7080, 7081); (7083, 7085); (7142, 7142);
    (7144, 7145); (7149, 7149); (7151, 7153); (7212, 7219); (7222, 7223); (7288, 7293);
    (7376, 7378); (7380, 7392); (7394, 7400); (7405, 7405); (7412, 7412); (7416, 7417);
    (7468, 7530); (7544, 7544); (7579, 7679); (8125, 8125); (8127, 8129); (8141, 8143);
    (8157, 8159); (8173, 8175); (8189, 8190); (8203, 8207); (8216, 8217); (8228, 8228);
    (8231, 8231); (8234, 8238); (8288, 8292); (8294, 8303); (8305, 8305); (8319, 8319);
    (8336, 8348); (8400, 8432); (11388, 11389); (11503, 11505); (11631, 11631); (11647, 11647);
    (11744, 11775); (11823, 11823); (12293, 12293); (12330, 12333); (12337, 12341);
    (12347, 12347); (12441, 12446); (12540, 12542); (40981, 40981); (42232, 42237);
    (42508, 42508); (42607, 42610); (42612, 42621); (42623, 42623); (42652, 42655);
    (42736, 42737); (42752, 42785); (42864, 42864); (42888, 42890); (42994, 42996);
    (43000, 43001); (43010, 43010); (43014, 43014); (43019, 43019); (43045, 43046);
    (43052, 43052); (43204, 43205); (43232, 43249); (43263, 43263); (43302, 43309);
    (43335, 43345); (43392, 43394); (43443, 43443); (43446, 43449); (43452, 43453);
    (43471, 43471); (43493, 43494); (43561, 43566); (43569, 43570); (43573, 43574);
    (43587, 43587); (43596, 43596); (43632, 43632); (43644, 43644); (43696, 43696);
    (43698, 43700); (43703, 43704); (43710, 43711); (43713, 43713); (43741, 43741);
    (43756, 43757); (43763, 43764); (43766, 43766); (43867, 43871); (43881, 43883);
    (44005, 44005); (44008, 44008); (44013, 44013); (64286, 64286); (64434, 64450);
    (65024, 65039); (65043, 65043); (65056, 65071); (65106, 65106); (65109, 65109);
    (65279, 65279); (65287, 65287); (65294, 65294); (65306, 65306); (65342, 65342);
    (65344, 65344); (65392, 65392); (65438, 65439); (65507, 65507); (65529, 65531);
    (66045, 66045); (66272, 66272); (66422, 66426); (67456, 67461); (67463, 67504);
    (67506, 67514); (68097, 68099); (68101, 68102); (68108, 68111); (68152, 68154);
    (68159, 68159); (68325, 68326); (68900, 68903); (69291, 69292); (69446, 69456);
    (69506, 69509); (69633, 69633); (69688, 69702); (69744, 69744); (69747, 69748);
    (69759, 69761); (69811, 69814); (69817, 69818); (69821, 69821); (69826, 69826);
    (69837, 69837); (69888, 69890); (69927, 69931); (69933, 69940); (70003, 70003);
    (70016, 70017); (70070, 70078); (70089, 70092); (70095, 70095); (70191, 70193);
    (70196, 70196); (70198, 70199); (70206, 70206); (70367, 70367); (70371, 70378);
    (70400, 70401); (70459, 70460); (70464, 70464); (70502, 70508); (70512, 70516);
    (70712, 70719); (70722, 70724); (70726, 70726); (70750, 70750); (70835, 70840);
    (70842, 70842); (70847, 70848); (70850, 70851); (71090, 71093); (71100, 71101);
    (71103, 71104); (71132, 71133); (71219, 71226); (71229, 71229); (71231, 71232);
    (71339, 71339); (71341, 71341); (71344, 71349); (71351, 71351); (71453, 71455);
    (71458, 71461); (71463, 71467); (71727, 71735); (71737, 71738); (71995, 71996);
    (71998, 71998); (72003, 72003); (72148, 72151); (72154, 72155); (72160, 72160);
    (72193, 72202); (72243, 72248); (72251, 72254); (72263, 72263); (72273, 72278);
    (72281, 72283); (72330, 72342); (72344, 72345); (72752, 72758); (72760, 72765);
    (72767, 72767); (72850, 72871); (72874, 72880); (72882, 72883); (72885, 72886);
    (73009, 73014); (73018, 73018); (73020, 73021); (73023, 73029); (73031, 73031);
    (73104, 73105); (73109, 73109); (73111, 73111); (73459, 73460); (78896, 78904);
    (92912, 92916); (92976, 92982); (92992, 92995); (94031, 94031); (94095, 94111);
    (94176, 94177); (94179, 94180); (110576, 110579); (110581, 110587); (110589, 110590);
    (113821, 113822); (113824, 113827); (118528, 118573); (118576, 118598); (119143, 119145);
    (119155, 119170); (119173, 119179); (119210, 119213); (119362, 119364); (121344, 121398);
    (121403, 121452); (121461, 121461); (121476, 121476); (121499, 121503); (121505, 121519);
    (122880, 122886); (122888, 122904); (122907, 122913); (122915, 122916); (122918, 122922);
    (123184, 123197); (123566, 123566); (123628, 123631); (125136, 125142); (125252, 125259);
    (127995, 127999); (917505, 917505); (917536, 917631); (917760, 917999) ]%N.

(** ** Python string primitives *)

Module PyStr.

(** [c.upper()] for an ASCII character: [a-z] to [A-Z]. *)
Definition upper_ascii (c : ascii) : ascii :=
  let n := N_of_ascii c in
  if ((97 <=? n) && (n <=? 122))%N then ascii_of_N (n - 32) else c.

(** [c.lower()] for an ASCII character: [A-Z] to [a-z]. *)
Definition lower_ascii (c : ascii) : ascii :=
  let n := N_of_ascii c in
  if ((65 <=? n) && (n <=? 90))%N then ascii_of_N (n + 32) else c.

(** [c.upper()] for one character: the text it becomes (["ß"] becomes
    ["SS"]). *)
Definition upper_char (c : string) : string :=
  match c with
  | String a EmptyString => String (upper_ascii a) EmptyString
  | _ => default c (table_lookup c upper_table)
  end.

(** [c.lower()] for one character taken alone. *)
Definition lower_char (c : string) : string :=
  match c with
  | String a EmptyString => String (lower_ascii a) EmptyString
  | _ => default c (table_lookup c lower_table)
  end.

(** [c.isspace()]: tab, line feed, vertical tab, form feed, carriage return,
    the four separators 0x1c-0x1f and the space; next line, no-break space,
    ogham space mark, the spaces U+2000 to U+200A, line and paragraph
    separators, narrow no-break space, medium mathematical space and
    ideographic space. *)
Definition isspace (c : string) : bool :=
  in_ranges (code_point c)
    [ (9, 13); (28, 32); (133, 133); (160, 160); (5760, 5760); (8192, 8202);
      (8232, 8233); (8239, 8239); (8287, 8287); (12288, 12288) ]%N.

(** Cased, and case-ignorable: the two classes the rule of the final sigma
    looks at.  A character that is both counts as case-ignorable only. *)
Definition is_cased (c : string) : bool := in_ranges (code_point c) cased_ranges.

Definition is_case_ignorable (c : string) : bool :=
  in_ranges (code_point c) case_ignorable_ranges.

(** [s.upper()]: character by character. *)
Definition upper (s : string) : string := text_join (upper_char <$> text_chars s).

(** The characters [cs], after those that are case-ignorable, start with a
    cased one. *)
Fixpoint before_cased (cs : list string) : bool :=
  match cs with
  | [] => false
  | c :: rest => if is_case_ignorable c then before_cased rest else is_cased c
  end.

(** [s.lower()] on the characters [cs]; [after_cased] tells whether the
    characters before them, those that are case-ignorable apart, end with a
    cased one.  A capital sigma after a cased character and not before one
    becomes the final sigma. *)
Fixpoint lower_chars (after_cased : bool) (cs : list string) : list string :=
  match cs with
  | [] => []
  | c :: rest =>
      (if String.eqb c "Σ"
       then (if after_cased && negb (before_cased rest) then "ς" else "σ")
       else lower_char c)
      :: lower_chars (if is_case_ignorable c then after_cased else is_cased c) rest
  end.

Definition lower (s : string) : string := text_join (lower_chars false (text_chars s)).

Fixpoint lstrip_chars (cs : list string) : list string :=
  match cs with
  | [] => []
  | c :: rest => if isspace c then lstrip_chars rest else cs
  end.

Fixpoint rstrip_chars (cs : list string) : list string :=
  match cs with
  | [] => []
  | c :: rest =>
      match rstrip_chars rest with
      | [] => if isspace c then [] else [c]
      | r => c :: r
      end
  end.

(** [s.strip()]: whitespace removed at both ends. *)
Definition strip (s : string) : string :=
  text_join (lstrip_chars (rstrip_chars (text_chars s))).

(** [s.startswith(p)]. *)
Fixpoint startswith (p s : string) : bool :=
  match p, s with
  | EmptyString, _ => true
  | String a p', String b s' => if decide (a = b) then startswith p' s' else false
  | String _ _, EmptyString => false
  end.

(** [sub in s]: [sub] occurs in [s] as a substring. *)
Fixpoint contains (sub s : string) : bool :=
  startswith sub s ||
  match s with
  | EmptyString => false
  | String _ s' => contains sub s'
  end.


(** [s.endswith(suffix)]. *)
Definition endswith (suffix s : string) : bool :=
  let n := String.length s in
  let m := String.length suffix in
  if decide (m ≤ n)%nat then String.eqb (String.substring (n - m) m s) suffix else false.

(** [s.replace(old, new)] for a non-empty [old]: occurrences are replaced
    from the left, without overlap.  [skip] counts the characters of an
    occurrence still to be passed over. *)
Fixpoint replace_from (skip : nat) (old new s : string) : string :=
  match s with
  | EmptyString => EmptyString
  | String c s' =>
      match skip with
      | S skip' => replace_from skip' old new s'
      | O =>
          if startswith old s
          then new +:+ replace_from (String.length old - 1) old new s'
          else String c (replace_from O old new s')
      end
  end.

Definition replace (old new s : string) : string := replace_from 0 old new s.

(** [s[:n]], by characters. *)
Definition prefix (n : nat) (s : string) : string := PyText.take n s.

(** [max(keys)] and [sorted(keys, reverse=True)] on strings. *)
Fixpoint insert_desc (x : string) (l : list string) : list string :=
  match l with
  | [] => [x]
  | y :: l' => if String.leb y x then x :: l else y :: insert_desc x l'
  end.

Definition sorted_desc (l : list string) : list string := foldr insert_desc [] l.

End PyStr.

(** ** Symbol normaliser ([bot.py], [normalize_symbol]) *)

(** The [name_to_symbol] dict literal: common names to ticker symbols. *)
Definition name_to_symbol_items : list (string * string) :=
  [ ("APPLE", "AAPL"); ("TESLA", "TSLA"); ("MICROSOFT", "MSFT");
    ("GOOGLE", "GOOGL"); ("ALPHABET", "GOOGL"); ("AMAZON", "AMZN");
    ("FACEBOOK", "META"); ("META", "META"); ("NVIDIA", "NVDA");
    ("NETFLIX", "NFLX");
    ("BITCOIN", "BTC"); ("ETHEREUM", "ETH"); ("CARDANO", "ADA");
    ("DOGECOIN", "DOGE"); ("SOLANA", "SOL");
    ("COCA", "KO"); ("COCACOLA", "KO"); ("MCDONALD", "MCD");
    ("MCDONALDS", "MCD"); ("DISNEY", "DIS"); ("WALMART", "WMT");
    ("VISA", "V"); ("MASTERCARD", "MA"); ("PAYPAL", "PYPL");
    ("INTEL", "INTC"); ("AMD", "AMD"); ("ORACLE", "ORCL");
    ("UBER", "UBER"); ("AIRBNB", "ABNB"); ("ZOOM", "ZM") ].

Definition name_to_symbol : gmap string string :=
  list_to_map name_to_symbol_items.

(** The [crypto_mapping] dict literal: crypto tickers to their USD pair. *)
Definition crypto_mapping_items : list (string * string) :=
  [ ("BTC", "BTC-USD"); ("ETH", "ETH-USD"); ("ADA", "ADA-USD");
    ("DOT", "DOT-USD"); ("LINK", "LINK-USD"); ("LTC", "LTC-USD");
    ("XRP", "XRP-USD"); ("DOGE", "DOGE-USD"); ("MATIC", "MATIC-USD");
    ("SOL", "SOL-USD") ].

Definition crypto_mapping : gmap string string :=
  list_to_map crypto_mapping_items.

(** [normalize_symbol(symbol)]:
    [symbol = symbol.upper().strip()], then the name table substitutes the
    ticker when [symbol in name_to_symbol], and the result is
    [crypto_mapping.get(symbol, symbol)]. *)
Definition normalize_symbol (symbol : string) : string :=
  let symbol := PyStr.strip (PyStr.upper symbol) in
  let symbol :=
    match name_to_symbol !! symbol with
    | Some ticker => ticker
    | None => symbol
    end in
  default symbol (crypto_mapping !! symbol).

(** The final ticker the tables document for each alias: the substituted
    ticker, with the USD pair for the five crypto names. *)
Definition documented_tickers : list (string * string) :=
  [ ("APPLE", "AAPL"); ("TESLA", "TSLA"); ("MICROSOFT", "MSFT");
    ("GOOGLE", "GOOGL"); ("ALPHABET", "GOOGL"); ("AMAZON", "AMZN");
    ("FACEBOOK", "META"); ("META", "META"); ("NVIDIA", "NVDA");
    ("NETFLIX", "NFLX");
    ("BITCOIN", "BTC-USD"); ("ETHEREUM", "ETH-USD"); ("CARDANO", "ADA-USD");
    ("DOGECOIN", "DOGE-USD"); ("SOLANA", "SOL-USD");
    ("COCA", "KO"); ("COCACOLA", "KO"); ("MCDONALD", "MCD");
    ("MCDONALDS", "MCD"); ("DISNEY", "DIS"); ("WALMART", "WMT");
    ("VISA", "V"); ("MASTERCARD", "MA"); ("PAYPAL", "PYPL");
    ("INTEL", "INTC"); ("AMD", "AMD"); ("ORACLE", "ORCL");
    ("UBER", "UBER"); ("AIRBNB", "ABNB"); ("ZOOM", "ZM") ].

(** The no-break space, U+00A0. *)
Definition no_break_space : string :=
  String (ascii_of_N 194) (String (ascii_of_N 160) EmptyString).

(** ** Python dicts in insertion order *)

(** A dict whose iteration order matters is the list of its items, in
    insertion order, with at most one item per key. *)
Module Dict.
Section Items.
Context {A : Type}.

(** [d.get(k)]; [k in d] is [is_Some (lookup k d)]. *)
Fixpoint lookup (k : string) (d : list (string * A)) : option A :=
  match d with
  | [] => None
  | (k', v) :: d' => if decide (k' = k) then Some v else lookup k d'
  end.

Definition has (k : string) (d : list (string * A)) : bool :=
  bool_decide (is_Some (lookup k d)).

(** [d[k] = v]: an existing key keeps its place, a new one goes last. *)
Fixpoint assign (k : string) (v : A) (d : list (string * A)) : list (string * A) :=
  match d with
  | [] => [(k, v)]
  | (k', v') :: d' =>
      if decide (k' = k) then (k, v) :: d' else (k', v') :: assign k v d'
  end.

(** [del d[k]] for a key of the dict. *)
Definition remove (k : string) (d : list (string * A)) : list (string * A) :=
  filter (λ it, it.1 ≠ k) d.

(** [for k in ks: del d[k]]. *)
Definition remove_all (ks : list string) (d : list (string * A)) : list (string * A) :=
  foldl (λ d k, remove k d) d ks.

End Items.
End Dict.

(** ** Python floats *)

Module PyFloat.

(** [x == 0]: true of both zeros, false of NaN. *)
Definition eq_zero (x : float) : bool := PrimFloat.eqb x 0%float.

(** [x > 0]: false of NaN. *)
Definition positive (x : float) : bool := PrimFloat.ltb 0%float x.

(** The rational a finite float is; [None] for the infinities and NaN. *)
Definition to_Q (x : float) : option Q :=
  match Prim2SF x with
  | S754_zero _ => Some 0%Q
  | S754_finite negative m e =>
      let n := if negative then Z.neg m else Z.pos m in
      Some (match e with
            | Z0 => inject_Z n
            | Zpos p => inject_Z (n * 2 ^ Z.pos p)
            | Zneg p => Qmake n (2 ^ p)
            end)
  | S754_infinity _ | S754_nan => None
  end.

Definition is_nan (x : float) : bool := negb (PrimFloat.eqb x x).

(** [float(n)] for an [int]: the nearest float, ties to even; [None] when
    it is out of range ([OverflowError]). *)
Definition of_Z (n : Z) : option float :=
  let x := SF2Prim (binary_normalize prec emax n 0 false) in
  if PrimFloat.eqb (PrimFloat.abs x) PrimFloat.infinity then None else Some x.

End PyFloat.

(** ** Python values *)

(** The values that travel through the fetch layer: what [response.json()]
    decodes and what the adapters put in their result dicts. *)
Inductive value :=
| VNone
| VBool (b : bool)
| VInt (n : Z)
| VFloat (x : float)
| VStr (s : string)
| VList (l : list value)
| VDict (d : list (string * value)).

(** Truth value of an object ([if x:], [x and ...], [not x]). *)
Definition truthy (v : value) : bool :=
  match v with
  | VNone => false
  | VBool b => b
  | VInt n => negb (n =? 0)%Z
  | VFloat x => negb (PyFloat.eq_zero x)
  | VStr s => negb (String.eqb s EmptyString)
  | VList l => match l with [] => false | _ => true end
  | VDict d => match d with [] => false | _ => true end
  end.

(** [v == 0]: numbers compare by value ([False == 0] holds too); anything
    else is different from [0]. *)
Definition eq_zero (v : value) : bool :=
  match v with
  | VBool b => negb b
  | VInt n => (n =? 0)%Z
  | VFloat x => PyFloat.eq_zero x
  | _ => false
  end.

(** The values that are equal to [0]: the integer, the two float zeros,
    and [False]. *)
Inductive is_zero : value → Prop :=
| zero_int : is_zero (VInt 0)
| zero_float x : PrimFloat.eqb x 0%float = true → is_zero (VFloat x)
| zero_false : is_zero (VBool false).

(** ** [SimpleCache] ([bot.py]): response cache and rate limiter *)

Module SimpleCache.
Local Open Scope Q_scope.

(** The instance's attributes.  A cache item is [(data, timestamp)];
    [cache_duration] is the [timedelta] in seconds. *)
Record t := mk {
  cache : gmap string (value * Q);
  cache_duration : Q;
  last_request_time : gmap string Q;
  min_request_interval : Q;
  rate_limit_backoff : gmap string Q
}.

(** [__init__(cache_duration_minutes)]. *)
Definition init (cache_duration_minutes : Q) : t :=
  mk ∅ (cache_duration_minutes * 60) ∅ 8 ∅.

Definition with_cache (m : gmap string (value * Q)) (self : t) : t :=
  mk m (cache_duration self) (last_request_time self)
     (min_request_interval self) (rate_limit_backoff self).

Definition with_last_request_time (m : gmap string Q) (self : t) : t :=
  mk (cache self) (cache_duration self) m
     (min_request_interval self) (rate_limit_backoff self).

Definition with_rate_limit_backoff (m : gmap string Q) (self : t) : t :=
  mk (cache self) (cache_duration self) (last_request_time self)
     (min_request_interval self) m.

(** [get(key)] at clock reading [now]: the data while the item is younger
    than [cache_duration]; an older item is deleted and [None] returned. *)
Definition get (key : string) (self : t) (now : Q) : value * t :=
  match cache self !! key with
  | Some (data, timestamp) =>
      if Qlt_le_dec (now - timestamp) (cache_duration self)
      then (data, self)
      else (VNone, with_cache (delete key (cache self)) self)
  | None => (VNone, self)
  end.

(** [set(key, value)]. *)
Definition set (key : string) (v : value) (self : t) (now : Q) : t :=
  with_cache (<[key := (v, now)]> (cache self)) self.

(** [time.sleep(seconds)] on the clock. *)
Definition sleep (seconds clock : Q) : Q := clock + seconds.

(** [wait_for_rate_limit(api_name)], started at clock reading [clock]:
    the new state and the clock reading at return.  [now] is read once, on
    entry; the two checks follow one another, and the time recorded at the
    end is a fresh reading of the clock. *)
Definition wait_for_rate_limit (api_name : string) (self : t) (clock : Q) : t * Q :=
  let now := clock in
  let clock :=
    match rate_limit_backoff self !! api_name with
    | Some backoff_time =>
        if Qlt_le_dec now backoff_time
        then let remaining := backoff_time - now in sleep remaining clock
        else clock
    | None => clock
    end in
  let clock :=
    match last_request_time self !! api_name with
    | Some last =>
        let time_since_last := now - last in
        if Qlt_le_dec time_since_last (min_request_interval self)
        then let sleep_time := min_request_interval self - time_since_last in
             sleep sleep_time clock
        else clock
    | None => clock
    end in
  (with_last_request_time (<[api_name := clock]> (last_request_time self)) self,
   clock).

(** [trigger_backoff(api_name, backoff_seconds)] at clock reading [now]. *)
Definition trigger_backoff (api_name : string) (backoff_seconds : Q)
    (self : t) (now : Q) : t :=
  with_rate_limit_backoff
    (<[api_name := now + backoff_seconds]> (rate_limit_backoff self)) self.

(** The rate limiter as the specification words it ("wait_for_slot"):
    1. a backoff in the future is slept out, up to that instant;
    2. else, an elapsed time below the minimum interval is slept out;
    3. the current time is recorded. *)
Definition wait_for_slot_spec (provider : string) (self : t) (clock : Q) : t * Q :=
  let clock' :=
    match rate_limit_backoff self !! provider with
    | Some backoff_until =>
        if Qlt_le_dec clock backoff_until then backoff_until
        else
          match last_request_time self !! provider with
          | Some last =>
              if Qlt_le_dec (clock - last) (min_request_interval self)
              then clock + (min_request_interval self - (clock - last))
              else clock
          | None => clock
          end
    | None =>
        match last_request_time self !! provider with
        | Some last =>
            if Qlt_le_dec (clock - last) (min_request_interval self)
            then clock + (min_request_interval self - (clock - last))
            else clock
        | None => clock
        end
    end in
  (with_last_request_time (<[provider := clock']> (last_request_time self)) self,
   clock').

End SimpleCache.

(** The module-level instance: [cache = SimpleCache(cache_duration_minutes=360)]. *)
Definition cache0 : SimpleCache.t := SimpleCache.init 360.

(** What the two checks of [wait_for_rate_limit] sleep, both measured from
    the one clock reading [now] taken on entry. *)
Definition backoff_sleep (api_name : string) (self : SimpleCache.t) (now : Q) : Q :=
  match SimpleCache.rate_limit_backoff self !! api_name with
  | Some backoff_time =>
      if Qlt_le_dec now backoff_time then (backoff_time - now)%Q else 0%Q
  | None => 0%Q
  end.

Definition interval_sleep (api_name : string) (self : SimpleCache.t) (now : Q) : Q :=
  match SimpleCache.last_request_time self !! api_name with
  | Some last =>
      if Qlt_le_dec (now - last) (SimpleCache.min_request_interval self)
      then (SimpleCache.min_request_interval self - (now - last))%Q else 0%Q
  | None => 0%Q
  end.

(** A limiter that served "twelvedata" at time 0 and was put in a
    60-second backoff for it at that same time. *)
Definition limiter_in_backoff : SimpleCache.t :=
  SimpleCache.trigger_backoff "twelvedata" 60
    (SimpleCache.wait_for_rate_limit "twelvedata" cache0 0).1 0.

(** ** [hashlib.md5] *)

(** MD5 of a byte string, as a lowercase hexadecimal digest.  Words are
    32-bit integers in [Z], reduced modulo [2 ^ 32] after each addition. *)
Module MD5.
Local Open Scope Z_scope.

Definition wrap (x : Z) : Z := x mod 2 ^ 32.

Definition rotl (x : Z) (c : Z) : Z :=
  wrap (Z.lor (Z.shiftl x c) (Z.shiftr x (32 - c))).

Definition lnot32 (x : Z) : Z := Z.lxor x 4294967295.

Definition sines : list Z :=
  [3614090360; 3905402710; 606105819; 3250441966; 4118548399; 1200080426;
   2821735955; 4249261313; 1770035416; 2336552879; 4294925233; 2304563134;
   1804603682; 4254626195; 2792965006; 1236535329; 4129170786; 3225465664;
   643717713; 3921069994; 3593408605; 38016083; 3634488961; 3889429448;
   568446438; 3275163606; 4107603335; 1163531501; 2850285829; 4243563512;
   1735328473; 2368359562; 4294588738; 2272392833; 1839030562; 4259657740;
   2763975236; 1272893353; 4139469664; 3200236656; 681279174; 3936430074;
   3572445317; 76029189; 3654602809; 3873151461; 530742520; 3299628645;
   4096336452; 1126891415; 2878612391; 4237533241; 1700485571; 2399980690;
   4293915773; 2240044497; 1873313359; 4264355552; 2734768916; 1309151649;
   4149444226; 3174756917; 718787259; 3951481745].

Definition shifts : list Z :=
  [7; 12; 17; 22; 7; 12; 17; 22; 7; 12; 17; 22; 7; 12; 17; 22;
   5; 9; 14; 20; 5; 9; 14; 20; 5; 9; 14; 20; 5; 9; 14; 20;
   4; 11; 16; 23; 4; 11; 16; 23; 4; 11; 16; 23; 4; 11; 16; 23;
   6; 10; 15; 21; 6; 10; 15; 21; 6; 10; 15; 21; 6; 10; 15; 21].

(** One of the 64 operations on the state [(A, B, C, D)] and the block [M]. *)
Definition step (M : list Z) (st : Z * Z * Z * Z) (i : nat) : Z * Z * Z * Z :=
  let '(A, B, C, D) := st in
  let iz := Z.of_nat i in
  let '(F, g) :=
    if iz <? 16 then (Z.lor (Z.land B C) (Z.land (lnot32 B) D), iz)
    else if iz <? 32 then (Z.lor (Z.land D B) (Z.land (lnot32 D) C), (5 * iz + 1) mod 16)
    else if iz <? 48 then (Z.lxor (Z.lxor B C) D, (3 * iz + 5) mod 16)
    else (Z.lxor C (Z.lor B (lnot32 D)), (7 * iz) mod 16) in
  let F := wrap (F + A + sines !!! i + M !!! Z.to_nat g) in
  (D, wrap (B + rotl F (shifts !!! i)), B, C).

Definition block (h : Z * Z * Z * Z) (M : list Z) : Z * Z * Z * Z :=
  let '(a0, b0, c0, d0) := h in
  let '(A, B, C, D) := foldl (step M) h (seq 0 64) in
  (wrap (a0 + A), wrap (b0 + B), wrap (c0 + C), wrap (d0 + D)).

(** [n] little-endian bytes of [x]. *)
Fixpoint le_bytes (n : nat) (x : Z) : list Z :=
  match n with
  | O => []
  | S n' => x mod 256 :: le_bytes n' (x / 256)
  end.

Fixpoint le_word (bs : list Z) : Z :=
  match bs with
  | [] => 0
  | b :: bs' => b + 256 * le_word bs'
  end.

(** The message followed by 0x80, zeros up to 56 modulo 64, and the bit
    length on 8 bytes. *)
Definition pad (msg : list Z) : list Z :=
  let n := Z.of_nat (length msg) in
  let zeros := Z.to_nat ((55 - n) mod 64) in
  (msg ++ [128] ++ replicate zeros 0 ++ le_bytes 8 (8 * n))%list.

(** Blocks of 16 words, at most [fuel] of them. *)
Fixpoint blocks (fuel : nat) (bs : list Z) : list (list Z) :=
  match fuel, bs with
  | O, _ | _, [] => []
  | S fuel', _ =>
      (le_word <$> [take 4 bs; take 4 (drop 4 bs); take 4 (drop 8 bs);
                    take 4 (drop 12 bs); take 4 (drop 16 bs); take 4 (drop 20 bs);
                    take 4 (drop 24 bs); take 4 (drop 28 bs); take 4 (drop 32 bs);
                    take 4 (drop 36 bs); take 4 (drop 40 bs); take 4 (drop 44 bs);
                    take 4 (drop 48 bs); take 4 (drop 52 bs); take 4 (drop 56 bs);
                    take 4 (drop 60 bs)])
      :: blocks fuel' (drop 64 bs)
  end.

Definition hex_digit (n : Z) : ascii :=
  ascii_of_N (Z.to_N (if n <? 10 then 48 + n else 87 + n)).

Definition hex_byte (b : Z) : string :=
  String (hex_digit (b / 16)) (String (hex_digit (b mod 16)) EmptyString).

Definition bytes_of_string (s : string) : list Z :=
  (λ c, Z.of_N (N_of_ascii c)) <$> list_ascii_of_string s.

(** [hashlib.md5(s.encode()).hexdigest()]. *)
Definition hexdigest (s : string) : string :=
  let bs := pad (bytes_of_string s) in
  let '(a, b, c, d) :=
    foldl block (1732584193, 4023233417, 2562383102, 271733878)
          (blocks (length bs) bs) in
  String.concat EmptyString
    (hex_byte <$> (le_bytes 4 a ++ le_bytes 4 b ++ le_bytes 4 c ++ le_bytes 4 d)%list).

End MD5.

(** ** [IntelligentCache] ([cache.py]) *)

(** [int(x)] of a float: truncation towards zero. *)
Definition int_of_float (x : Q) : Z := Z.quot (Qnum x) (Z.pos (Qden x)).

Module IntelligentCache.
Local Open Scope Q_scope.

(** The [CacheEntry] dataclass. *)
Record CacheEntry := mkEntry {
  data : value;
  timestamp : Q;
  ttl : Z;
  access_count : Z;
  last_access : Q
}.

(** [is_expired()] at clock reading [now]: [now - timestamp > ttl]. *)
Definition is_expired (self : CacheEntry) (now : Q) : bool :=
  if Qlt_le_dec (inject_Z (ttl self)) (now - timestamp self) then true else false.

(** [touch()]. *)
Definition touch (self : CacheEntry) (now : Q) : CacheEntry :=
  mkEntry (data self) (timestamp self) (ttl self) (access_count self + 1) now.

(** The [stats] dict: its four counters. *)
Record Stats := mkStats { hits : Z; misses : Z; evictions : Z; cleanups : Z }.

Record t := mk {
  cache : list (string * CacheEntry);
  max_size : Z;
  stats : Stats
}.

(** [__init__(max_size)]. *)
Definition init (max_size : Z) : t := mk [] max_size (mkStats 0 0 0 0).

(** [len(self.cache)]. *)
Definition len (self : t) : Z := Z.of_nat (length (cache self)).

(** The sort key of [_cleanup], [(access_count, last_access)], compared as
    Python compares tuples. *)
Definition rank_le (x y : string * CacheEntry) : bool :=
  if decide (access_count x.2 < access_count y.2)%Z then true
  else if decide (access_count x.2 = access_count y.2)
       then (if Qlt_le_dec (last_access y.2) (last_access x.2) then false else true)
       else false.

(** [rank_le] as a relation. *)
Definition ranks_below (x y : string * CacheEntry) : Prop := rank_le x y = true.

(** [sorted(items, key=...)]: the stable sort, here by insertion from the
    right, so that among equal keys the earlier item stays first. *)
Fixpoint insert_by_rank (x : string * CacheEntry) (l : list (string * CacheEntry))
    : list (string * CacheEntry) :=
  match l with
  | [] => [x]
  | y :: l' => if rank_le x y then x :: l else y :: insert_by_rank x l'
  end.

Definition sorted_by_rank (l : list (string * CacheEntry)) : list (string * CacheEntry) :=
  foldr insert_by_rank [] l.

(** The keys [_cleanup] purges as expired. *)
Definition expired_keys (self : t) (now : Q) : list string :=
  (filter (λ it, is_expired it.2 now = true) (cache self)).*1.

(** The keys [_cleanup] evicts from the items [d] left by the purge: none
    unless [len > max_size * 0.8], else those of
    [sorted_entries[:int(len * 0.2)]]. *)
Definition evicted_keys (max_size : Z) (d : list (string * CacheEntry)) : list string :=
  if Qlt_le_dec (inject_Z max_size * 0.8) (inject_Z (Z.of_nat (length d)))
  then
    let sorted_entries := sorted_by_rank d in
    let to_remove := int_of_float (inject_Z (Z.of_nat (length sorted_entries)) * 0.2) in
    (take (Z.to_nat to_remove) sorted_entries).*1
  else [].

(** [_cleanup()] at clock reading [now]. *)
Definition _cleanup (self : t) (now : Q) : t :=
  let cache1 := Dict.remove_all (expired_keys self now) (cache self) in
  let victims := evicted_keys (max_size self) cache1 in
  let cache2 := Dict.remove_all victims cache1 in
  mk cache2 (max_size self)
     (mkStats (hits (stats self)) (misses (stats self))
        (evictions (stats self) + Z.of_nat (length victims))
        (cleanups (stats self) + 1)).

Section KeyDerivation.

(** What a call passes after the namespace ([*args, **kwargs]) and the
    text [f"{args}:{sorted(kwargs.items())}"] of it. *)
Context {Args : Type} (args_text : Args → string).

(** [_generate_key(namespace, *args, **kwargs)]. *)
Definition _generate_key (namespace : string) (args : Args) : string :=
  MD5.hexdigest (namespace +:+ ":" +:+ args_text args).

(** [get(namespace, *args, **kwargs)] at clock reading [now]. *)
Definition get (namespace : string) (args : Args) (self : t) (now : Q) : value * t :=
  let key := _generate_key namespace args in
  let st := stats self in
  match Dict.lookup key (cache self) with
  | None =>
      (VNone, mk (cache self) (max_size self)
                 (mkStats (hits st) (misses st + 1) (evictions st) (cleanups st)))
  | Some entry =>
      if is_expired entry now
      then (VNone, mk (Dict.remove key (cache self)) (max_size self)
                      (mkStats (hits st) (misses st + 1) (evictions st) (cleanups st)))
      else (data entry,
            mk (Dict.assign key (touch entry now) (cache self)) (max_size self)
               (mkStats (hits st + 1) (misses st) (evictions st) (cleanups st)))
  end.

(** [set(namespace, data, ttl, *args, **kwargs)] at clock reading [now]. *)
Definition set (namespace : string) (data : value) (ttl : Z) (args : Args)
    (self : t) (now : Q) : t :=
  let key := _generate_key namespace args in
  let self := if decide (len self >= max_size self)%Z then _cleanup self now else self in
  mk (Dict.assign key (mkEntry data now ttl 0 now) (cache self))
     (max_size self) (stats self).

End KeyDerivation.
End IntelligentCache.

(** *** Concrete caches for the examples *)

Module CacheExamples.
Import IntelligentCache.
Local Open Scope Q_scope.

(** The text of a call with one positional [str] argument [q] made of
    plain characters (printable, no quote, no backslash) and no keyword
    argument: [f"{(q,)}:{[]}"]. *)
Definition one_str_arg (q : string) : string := "('" +:+ q +:+ "',):[]".

Definition reads (qs : list string) (now : Q) (self : t) : t :=
  foldl (λ c q, (get one_str_arg "ns" q c now).2) self qs.

Definition writes (qs : list string) (now : Q) (self : t) : t :=
  foldl (λ c q, set one_str_arg "ns" (VStr q) 100 q c now) self qs.

(** A cache of capacity 1 after two [set]s. *)
Definition tiny_cache : t := writes ["a"; "b"] 0 (init 1).

(** A cache of capacity 5: four entries written at time 0 and read at times
    1 and 2, a fifth written at time 3 and read at time 4. *)
Definition busy_cache : t :=
  reads ["e"] 4 (writes ["e"] 3
    (reads ["a"; "b"; "c"; "d"] 2 (reads ["a"; "b"; "c"; "d"] 1
      (writes ["a"; "b"; "c"; "d"] 0 (init 5))))).

End CacheExamples.

(** ** The interpreter's side of the fetch layer *)

(** The exceptions the interpreter and its libraries raise on their own. *)
Inductive fault :=
| KeyError (k : string)                       (* [d[k]] with [k] missing *)
| AttributeError (v : value) (attr : string)  (* [v.attr] on a type without it *)
| TypeError (op : string) (v : value)         (* [in], [[...]], [len] on a wrong type *)
| FloatError (v : value)                      (* [float(v)] *)
| IntError (v : value)                        (* [int(v)] *)
| OverflowError (v : value)                   (* a number out of the range of the result *)
| EmptyMax                                    (* [max] of nothing *)
| IndexError                                  (* [l[i]] out of range *)
| ZeroDivisionError
| JSONDecodeError (text : string).            (* [response.json()] on a body that is not JSON *)

(** What the model takes from the interpreter without describing it: the
    parsing of number literals by [float] and [int] ([None] when they raise
    [ValueError]), [str] of a value, the message of each of its own
    exceptions, and the hour of the day, in local time, at a clock reading
    ([datetime.now().hour]). *)
Record Runtime := {
  float_of_str : string → option float;
  int_of_str : string → option Z;
  str_of : value → string;
  fault_text : fault → string;
  local_hour : Q → Z
}.

(** An exception in flight, by origin; [exn_text] is [str(e)]. *)
Inductive exn :=
| ValueError (msg : string)      (* [raise ValueError(msg)] in the code *)
| RequestException (msg : string) (* raised by [requests.get] *)
| Fault (f : fault).

Definition exn_text (rt : Runtime) (e : exn) : string :=
  match e with
  | ValueError msg | RequestException msg => msg
  | Fault f => fault_text rt f
  end.

Inductive result (A : Type) :=
| Ok (a : A)
| Raise (e : exn).
Arguments Ok {A} a.
Arguments Raise {A} e.

Definition bind_result {A B} (r : result A) (k : A → result B) : result B :=
  match r with
  | Ok a => k a
  | Raise e => Raise e
  end.

Module PyOps.
Section WithRuntime.
Context (rt : Runtime).

(** [k in v]. *)
Definition contains (k : string) (v : value) : result bool :=
  match v with
  | VDict d => Ok (Dict.has k d)
  | VList l => Ok (existsb (λ x, match x with VStr s => String.eqb s k | _ => false end) l)
  | VStr s => Ok (PyStr.contains k s)
  | _ => Raise (Fault (TypeError "in" v))
  end.

(** [v[k]] for a string [k]. *)
Definition getitem (v : value) (k : string) : result value :=
  match v with
  | VDict d =>
      match Dict.lookup k d with
      | Some x => Ok x
      | None => Raise (Fault (KeyError k))
      end
  | _ => Raise (Fault (TypeError "getitem" v))
  end.

(** [v.get(k, default)]. *)
Definition get (v : value) (k : string) (default : value) : result value :=
  match v with
  | VDict d => Ok (match Dict.lookup k d with Some x => x | None => default end)
  | _ => Raise (Fault (AttributeError v "get"))
  end.

(** [v.keys()]. *)
Definition keys (v : value) : result (list string) :=
  match v with
  | VDict d => Ok d.*1
  | _ => Raise (Fault (AttributeError v "keys"))
  end.

(** [len(v)]. *)
Definition len (v : value) : result Z :=
  match v with
  | VDict d => Ok (Z.of_nat (length d))
  | VList l => Ok (Z.of_nat (length l))
  | VStr s => Ok (Z.of_nat (PyText.len s))
  | _ => Raise (Fault (TypeError "len" v))
  end.

(** [float(v)]. *)
Definition float (v : value) : result PrimFloat.float :=
  match v with
  | VFloat x => Ok x
  | VInt n =>
      match PyFloat.of_Z n with
      | Some x => Ok x
      | None => Raise (Fault (OverflowError v))
      end
  | VBool b => Ok (if b then 1%float else 0%float)
  | VStr s =>
      match float_of_str rt s with
      | Some q => Ok q
      | None => Raise (Fault (FloatError v))
      end
  | _ => Raise (Fault (FloatError v))
  end.

(** [int(v)]. *)
Definition int (v : value) : result Z :=
  match v with
  | VInt n => Ok n
  | VFloat x =>
      match PyFloat.to_Q x with
      | Some q => Ok (int_of_float q)
      | None =>
          Raise (Fault (if PyFloat.is_nan x then IntError v else OverflowError v))
      end
  | VBool b => Ok (if b then 1%Z else 0%Z)
  | VStr s =>
      match int_of_str rt s with
      | Some n => Ok n
      | None => Raise (Fault (IntError v))
      end
  | _ => Raise (Fault (IntError v))
  end.

(** [v.replace(old, new)]. *)
Definition replace (v : value) (old new : string) : result string :=
  match v with
  | VStr s => Ok (PyStr.replace old new s)
  | _ => Raise (Fault (AttributeError v "replace"))
  end.

(** [v[i]] for an integer [i] that is not negative. *)
Definition index (v : value) (i : Z) : result value :=
  match v with
  | VList l =>
      match l !! Z.to_nat i with
      | Some x => Ok x
      | None => Raise (Fault IndexError)
      end
  | VStr s =>
      match text_chars s !! Z.to_nat i with
      | Some c => Ok (VStr c)
      | None => Raise (Fault IndexError)
      end
  | _ => Raise (Fault (TypeError "getitem" v))
  end.

(** [round(v)]: to the nearest integer, a half going to the even one. *)
Definition round_half_even (q : Q) : Z :=
  let f := Qfloor q in
  match Qcompare (q - inject_Z f) (1 # 2) with
  | Lt => f
  | Gt => (f + 1)%Z
  | Eq => if Z.even f then f else (f + 1)%Z
  end.

Definition round (v : value) : result value :=
  match v with
  | VFloat x =>
      match PyFloat.to_Q x with
      | Some q => Ok (VInt (round_half_even q))
      | None =>
          Raise (Fault (if PyFloat.is_nan x then IntError v else OverflowError v))
      end
  | VInt n => Ok (VInt n)
  | VBool b => Ok (VInt (if b then 1 else 0))
  | _ => Raise (Fault (TypeError "round" v))
  end.

(** [v / d] for a float [d] that is not zero. *)
Definition truediv (v : value) (d : PrimFloat.float) : result value :=
  match v with
  | VFloat x => Ok (VFloat (x / d))
  | VInt n =>
      match PyFloat.of_Z n with
      | Some x => Ok (VFloat (x / d))
      | None => Raise (Fault (OverflowError v))
      end
  | VBool b => Ok (VFloat ((if b then 1 else 0) / d))
  | _ => Raise (Fault (TypeError "truediv" v))
  end.

(** [max(keys)]. *)
Definition max_key (ks : list string) : result string :=
  match PyStr.sorted_desc ks with
  | k :: _ => Ok k
  | [] => Raise (Fault EmptyMax)
  end.

End WithRuntime.
End PyOps.

(** ** The world of [bot.py] *)

(** [requests.get(url, params=params, ...)]: the URL and the query
    parameters as passed (headers and timeout are constants of each call
    site and are left out). *)
Record Request := mkRequest {
  url : string;
  params : list (string * value)
}.

(** A response: [status_code], what [response.json()] decodes ([None] when
    the body is not JSON) and [response.text]. *)
Record Response := mkResponse {
  status_code : Z;
  json : option value;
  text : string
}.

(** What a request meets: an exception of [requests] (timeout, connection
    error) or a response. *)
Inductive Outcome :=
| Fails (msg : string)
| Answers (r : Response).

(** The network: the outcome of a request, given the requests made before. *)
Definition Upstream : Type := list Request → Request → Outcome.

(** The process state the fetch layer reads and writes: the clock, the
    module-level [cache] and the requests attempted so far, oldest first. *)
Record World := mkWorld {
  clock : Q;
  cache : SimpleCache.t;
  sent : list Request
}.

(** Code that may raise: a result or an exception, and the world after. *)
Definition M (A : Type) : Type := World → result A * World.

Definition ret {A} (a : A) : M A := λ w, (Ok a, w).

Definition bind {A B} (m : M A) (k : A → M B) : M B :=
  λ w, match m w with
       | (Ok a, w') => k a w'
       | (Raise e, w') => (Raise e, w')
       end.

Definition raise {A} (e : exn) : M A := λ w, (Raise e, w).

(** A pure computation inside [M]. *)
Definition lift {A} (r : result A) : M A := λ w, (r, w).

(** A call to a function that does not raise. *)
Definition call {A} (f : World → A * World) : M A :=
  λ w, let (a, w') := f w in (Ok a, w').

(** [try: body / except Exception as e: handler]. *)
Definition try_except {A} (body : M A) (handler : exn → World → A * World)
    : World → A * World :=
  λ w, match body w with
       | (Ok a, w') => (a, w')
       | (Raise e, w') => handler e w'
       end.

#[global] Instance M_ret : MRet M := @ret.
#[global] Instance M_bind : MBind M := λ A B k m, bind m k.
#[global] Instance result_ret : MRet result := @Ok.
#[global] Instance result_bind : MBind result := λ A B k r, bind_result r k.

(** The methods of the module-level [cache], on the world. *)
Definition cache_get (key : string) (w : World) : value * World :=
  let (v, c) := SimpleCache.get key (cache w) (clock w) in
  (v, mkWorld (clock w) c (sent w)).

Definition cache_set (key : string) (v : value) (w : World) : unit * World :=
  (tt, mkWorld (clock w) (SimpleCache.set key v (cache w) (clock w)) (sent w)).

Definition cache_wait_for_rate_limit (api_name : string) (w : World) : unit * World :=
  let (c, t) := SimpleCache.wait_for_rate_limit api_name (cache w) (clock w) in
  (tt, mkWorld t c (sent w)).

Definition cache_trigger_backoff (api_name : string) (backoff_seconds : Q)
    (w : World) : unit * World :=
  (tt, mkWorld (clock w)
         (SimpleCache.trigger_backoff api_name backoff_seconds (cache w) (clock w))
         (sent w)).

(** [os.environ.get(name)]. *)
Definition environ_get (environ : gmap string string) (name : string) : value :=
  match environ !! name with
  | Some s => VStr s
  | None => VNone
  end.

(** The [CONFIG] dict literal: every key is present, with [None] for a
    variable that is not set. *)
Definition CONFIG (environ : gmap string string) : gmap string value :=
  list_to_map
    [ ("TELEGRAM_BOT_TOKEN", environ_get environ "TELEGRAM_BOT_TOKEN");
      ("TELEGRAM_CHAT_ID", environ_get environ "TELEGRAM_CHAT_ID");
      ("OPENWEATHER_API_KEY", environ_get environ "OPENWEATHER_API_KEY");
      ("WEATHER_API_KEY", environ_get environ "WEATHER_API_KEY");
      ("ALPHA_VANTAGE_API_KEY", environ_get environ "ALPHA_API_KEY");
      ("FMP_API_KEY", environ_get environ "FMP_API_KEY");
      ("TWELVE_API_KEY", environ_get environ "TWELVE_API_KEY");
      ("RENDER_EXTERNAL_URL",
       match environ !! "RENDER_EXTERNAL_URL" with
       | Some s => VStr s
       | None => VStr "https://akuguard.onrender.com"
       end) ].

(** [CONFIG.get(k, default)]; [CONFIG.get(k)] is [config_get _ k VNone]. *)
Definition config_get (config : gmap string value) (k : string) (default : value) : value :=
  match config !! k with
  | Some v => v
  | None => default
  end.

Section Requests.
Context (upstream : Upstream).

(** [requests.get(url, params=params)]: the request is recorded as
    attempted, and the network decides. *)
Definition requests_get (url : string) (params : list (string * value)) : M Response :=
  λ w,
    let request := mkRequest url params in
    let w' := mkWorld (clock w) (cache w) (sent w ++ [request]) in
    match upstream (sent w) request with
    | Fails msg => (Raise (RequestException msg), w')
    | Answers r => (Ok r, w')
    end.

End Requests.

(** ** Provider adapters ([bot.py]) *)

(** The error result [{"error": message}]. *)
Definition error_result (message : string) : value := VDict [("error", VStr message)].

(** ['error' in result] for a result dict. *)
Definition has_error (result : value) : bool :=
  match result with
  | VDict d => Dict.has "error" d
  | _ => false
  end.

Section Adapters.
Context (rt : Runtime) (environ : gmap string string) (upstream : Upstream).

(** *** Alpha Vantage *)

Definition alphavantage_url : string := "https://www.alphavantage.co/query".

(** The record built from a [DIGITAL_CURRENCY_DAILY] answer that has its
    time series. *)
Definition alphavantage_crypto_daily (normalized_symbol crypto_symbol : string)
    (data : value) : result value :=
  time_series ← PyOps.getitem data "Time Series (Digital Currency Daily)";
  dates ← PyOps.keys time_series;
  latest_date ← PyOps.max_key dates;
  latest_data ← PyOps.getitem time_series latest_date;
  _ ← PyOps.keys latest_data;
  close ← PyOps.getitem latest_data "4. close";
  current_price ← PyOps.float rt close;
  vol ← PyOps.get latest_data "5. volume" (VInt 0);
  volume ← PyOps.float rt vol;
  mret (VDict
    [ ("symbol", VStr normalized_symbol);
      ("name", VStr (crypto_symbol +:+ " (Cryptocurrency)"));
      ("current_price", VFloat current_price);
      ("currency", VStr "USD");
      ("daily_change", VInt 0);
      ("daily_change_percent", VInt 0);
      ("monthly_change_percent", VInt 0);
      ("year_high", VFloat (current_price * 1.2));
      ("year_low", VFloat (current_price * 0.8));
      ("market_cap", VInt 0);
      ("sector", VStr "Cryptocurrency");
      ("industry", VStr "N/A");
      ("volume", VFloat volume);
      ("avg_volume", VInt 0) ]).

(** The record built from a [CURRENCY_EXCHANGE_RATE] answer. *)
Definition alphavantage_exchange_rate (normalized_symbol crypto_symbol : string)
    (data : value) : result value :=
  has_rate ← PyOps.contains "Realtime Currency Exchange Rate" data;
  if has_rate : bool then
    rate_data ← PyOps.getitem data "Realtime Currency Exchange Rate";
    rate ← PyOps.getitem rate_data "5. Exchange Rate";
    current_price ← PyOps.float rt rate;
    mret (VDict
      [ ("symbol", VStr normalized_symbol);
        ("name", VStr (crypto_symbol +:+ " (Cryptocurrency)"));
        ("current_price", VFloat current_price);
        ("currency", VStr "USD");
        ("daily_change", VInt 0);
        ("daily_change_percent", VInt 0);
        ("monthly_change_percent", VInt 0);
        ("year_high", VFloat (current_price * 1.2));
        ("year_low", VFloat (current_price * 0.8));
        ("market_cap", VInt 0);
        ("sector", VStr "Cryptocurrency");
        ("industry", VStr "N/A");
        ("volume", VInt 0);
        ("avg_volume", VInt 0) ])
  else Raise (ValueError "Crypto data not available from Alpha Vantage").

(** The record built from a [GLOBAL_QUOTE] answer that has its quote. *)
Definition alphavantage_global_quote (normalized_symbol : string) (data : value)
    : result value :=
  quote ← PyOps.getitem data "Global Quote";
  if negb (truthy quote)
  then Raise (ValueError "Global Quote empty or missing price")
  else
    listed ← PyOps.get quote "05. price" VNone;
    if negb (truthy listed)
    then Raise (ValueError "Global Quote empty or missing price")
    else
      price ← PyOps.getitem quote "05. price";
      current_price ← PyOps.float rt price;
      chg ← PyOps.getitem quote "09. change";
      change ← PyOps.float rt chg;
      pct ← PyOps.getitem quote "10. change percent";
      pct_text ← PyOps.replace pct "%" EmptyString;
      change_percent ← PyOps.float rt (VStr pct_text);
      high ← PyOps.getitem quote "03. high";
      day_high ← PyOps.float rt high;
      low ← PyOps.getitem quote "04. low";
      day_low ← PyOps.float rt low;
      opn ← PyOps.getitem quote "02. open";
      open_price ← PyOps.float rt opn;
      prev ← PyOps.getitem quote "08. previous close";
      previous_close ← PyOps.float rt prev;
      vol ← PyOps.getitem quote "06. volume";
      volume ← PyOps.int rt vol;
      mret (VDict
        [ ("symbol", VStr normalized_symbol);
          ("name", VStr (normalized_symbol +:+ " Inc."));
          ("current_price", VFloat current_price);
          ("currency", VStr "USD");
          ("daily_change", VFloat change);
          ("daily_change_percent", VFloat change_percent);
          ("monthly_change_percent", VInt 0);
          ("day_high", VFloat day_high);
          ("day_low", VFloat day_low);
          ("open_price", VFloat open_price);
          ("previous_close", VFloat previous_close);
          ("market_cap", VInt 0);
          ("sector", VStr "N/A");
          ("industry", VStr "N/A");
          ("volume", VInt volume);
          ("avg_volume", VInt 0) ]).

(** The daily change of the [TIME_SERIES_DAILY] path: against the previous
    close when the series has two days, else against the day's open. *)
Definition alphavantage_daily_change (time_series : value) (dates : list string)
    (current_price open_price : float) : result (value * value) :=
  n ← PyOps.len time_series;
  if decide (n > 1)%Z then
    match PyStr.sorted_desc dates !! 1%nat with
    | None => Raise (Fault IndexError)
    | Some date =>
        day ← PyOps.getitem time_series date;
        close ← PyOps.getitem day "4. close";
        previous_close ← PyOps.float rt close;
        let daily_change := (current_price - previous_close)%float in
        if PyFloat.eq_zero previous_close then Raise (Fault ZeroDivisionError)
        else mret (VFloat daily_change,
                   VFloat (daily_change / previous_close * 100))
    end
  else
    let daily_change := (current_price - open_price)%float in
    mret (VFloat daily_change,
          if PyFloat.positive open_price
          then VFloat (daily_change / open_price * 100) else VInt 0).

(** The record built from a [TIME_SERIES_DAILY] answer. *)
Definition alphavantage_daily (normalized_symbol : string) (data_daily : value)
    : result value :=
  _ ← PyOps.keys data_daily;
  has_series ← PyOps.contains "Time Series (Daily)" data_daily;
  if has_series : bool then
    time_series ← PyOps.getitem data_daily "Time Series (Daily)";
    dates ← PyOps.keys time_series;
    latest_date ← PyOps.max_key dates;
    latest_data ← PyOps.getitem time_series latest_date;
    close ← PyOps.getitem latest_data "4. close";
    current_price ← PyOps.float rt close;
    opn ← PyOps.getitem latest_data "1. open";
    open_price ← PyOps.float rt opn;
    high ← PyOps.getitem latest_data "2. high";
    high_price ← PyOps.float rt high;
    low ← PyOps.getitem latest_data "3. low";
    low_price ← PyOps.float rt low;
    vol ← PyOps.getitem latest_data "5. volume";
    volume ← PyOps.int rt vol;
    change ← alphavantage_daily_change time_series dates current_price open_price;
    mret (VDict
      [ ("symbol", VStr normalized_symbol);
        ("name", VStr (normalized_symbol +:+ " Inc."));
        ("current_price", VFloat current_price);
        ("currency", VStr "USD");
        ("daily_change", change.1);
        ("daily_change_percent", change.2);
        ("monthly_change_percent", VInt 0);
        ("year_high", VFloat high_price);
        ("year_low", VFloat low_price);
        ("market_cap", VInt 0);
        ("sector", VStr "N/A");
        ("industry", VStr "N/A");
        ("volume", VInt volume);
        ("avg_volume", VInt 0) ])
  else Raise (ValueError ("Neither GLOBAL_QUOTE nor TIME_SERIES_DAILY available for "
                          +:+ normalized_symbol)).

End Adapters.

Section AlphaVantage.
Context (rt : Runtime) (environ : gmap string string) (upstream : Upstream).

(** The crypto branch of the [try] block: [DIGITAL_CURRENCY_DAILY], then
    [CURRENCY_EXCHANGE_RATE] when the answer has no time series. *)
Definition alphavantage_crypto (normalized_symbol : string) (api_key : value) : M value :=
  let crypto_symbol := PyStr.replace "-USD" EmptyString normalized_symbol in
  response ← requests_get upstream alphavantage_url
    [ ("function", VStr "DIGITAL_CURRENCY_DAILY"); ("symbol", VStr crypto_symbol);
      ("market", VStr "USD"); ("apikey", api_key) ];
  match json response with
  | None =>
      raise (ValueError ("Invalid JSON response for crypto: "
                         +:+ PyStr.prefix 200 (text response)))
  | Some data =>
      _ ← lift (PyOps.keys data);
      has_series ← lift (PyOps.contains "Time Series (Digital Currency Daily)" data);
      if has_series : bool then
        lift (alphavantage_crypto_daily rt normalized_symbol crypto_symbol data)
      else
        response ← requests_get upstream alphavantage_url
          [ ("function", VStr "CURRENCY_EXCHANGE_RATE");
            ("from_currency", VStr crypto_symbol);
            ("to_currency", VStr "USD"); ("apikey", api_key) ];
        match json response with
        | None => raise (Fault (JSONDecodeError (text response)))
        | Some data =>
            lift (alphavantage_exchange_rate rt normalized_symbol crypto_symbol data)
        end
  end.

(** The stock branch: [GLOBAL_QUOTE], its error payloads, and
    [TIME_SERIES_DAILY] when the answer has none of the known keys. *)
Definition alphavantage_stock (normalized_symbol : string) (api_key : value) : M value :=
  response ← requests_get upstream alphavantage_url
    [ ("function", VStr "GLOBAL_QUOTE"); ("symbol", VStr normalized_symbol);
      ("apikey", api_key) ];
  match json response with
  | None =>
      raise (ValueError ("Invalid JSON response from Alpha Vantage: "
                         +:+ PyStr.prefix 200 (text response)))
  | Some data =>
      _ ← lift (PyOps.keys data);
      has_error_message ← lift (PyOps.contains "Error Message" data);
      has_note ← lift (PyOps.contains "Note" data);
      has_information ← lift (PyOps.contains "Information" data);
      has_quote ← lift (PyOps.contains "Global Quote" data);
      if has_error_message : bool then
        v ← lift (PyOps.getitem data "Error Message");
        raise (ValueError ("Alpha Vantage Error: " +:+ str_of rt v))
      else if has_note : bool then
        v ← lift (PyOps.getitem data "Note");
        raise (ValueError ("Alpha Vantage Rate Limit: " +:+ str_of rt v))
      else if has_information : bool then
        v ← lift (PyOps.getitem data "Information");
        raise (ValueError ("Alpha Vantage Info: " +:+ str_of rt v))
      else if has_quote : bool then
        lift (alphavantage_global_quote rt normalized_symbol data)
      else
        response_daily ← requests_get upstream alphavantage_url
          [ ("function", VStr "TIME_SERIES_DAILY"); ("symbol", VStr normalized_symbol);
            ("apikey", api_key) ];
        match json response_daily with
        | None =>
            raise (ValueError ("Failed to parse TIME_SERIES_DAILY response: "
                               +:+ PyStr.prefix 200 (text response_daily)))
        | Some data_daily => lift (alphavantage_daily rt normalized_symbol data_daily)
        end
  end.

(** The [try] block of [get_stock_data_alphavantage]. *)
Definition alphavantage_try (cache_key normalized_symbol : string) : M value :=
  let api_key := config_get (CONFIG environ) "ALPHA_VANTAGE_API_KEY" VNone in
  if negb (truthy api_key) then
    mret (error_result
      "❌ Alpha Vantage API key no configurada. Necesitas registrarte en alphavantage.co")
  else
    stock_data ←
      (if PyStr.endswith "-USD" normalized_symbol
       then alphavantage_crypto normalized_symbol api_key
       else alphavantage_stock normalized_symbol api_key);
    _ ← call (cache_set cache_key stock_data);
    mret stock_data.

(** Its [except Exception as e] block. *)
Definition alphavantage_except (symbol : string) (e : exn) (w : World) : value * World :=
  let error_msg := exn_text rt e in
  let lowered := PyStr.lower error_msg in
  if PyStr.contains "rate limit" lowered || PyStr.contains "calls per" lowered then
    let (_, w') := cache_trigger_backoff "alphavantage" 120 w in
    (error_result ("🚨 " +:+ symbol +:+ ": Alpha Vantage rate limit. Intenta en 2 minutos."), w')
  else if PyStr.contains "not found" lowered || PyStr.contains "invalid" lowered then
    (error_result ("📊 " +:+ symbol +:+ ": Símbolo no encontrado en Alpha Vantage."), w)
  else if PyStr.contains "Thank you for using Alpha Vantage" error_msg then
    (error_result ("📊 " +:+ symbol +:+ ": API key de Alpha Vantage inválida o expirada."), w)
  else
    (error_result ("📊 " +:+ symbol +:+ ": Error Alpha Vantage: "
                   +:+ PyStr.prefix 100 error_msg +:+ "..."), w).

(** [get_stock_data_alphavantage(symbol)]. *)
Definition get_stock_data_alphavantage (symbol : string) (w : World) : value * World :=
  let cache_key := "stock_av_" +:+ PyStr.upper symbol in
  let (cached_data, w) := cache_get cache_key w in
  if truthy cached_data then (cached_data, w)
  else
    let (_, w) := cache_wait_for_rate_limit "alphavantage" w in
    let normalized_symbol := normalize_symbol symbol in
    try_except (alphavantage_try cache_key normalized_symbol)
               (alphavantage_except symbol) w.

End AlphaVantage.

Section FinancialModelingPrep.
Context (rt : Runtime) (environ : gmap string string) (upstream : Upstream).

(** *** Financial Modeling Prep *)

(** The record built from the v4 answer [{"price": ...}]. *)
Definition fmp_price_record (normalized_symbol : string) (data : value) : result value :=
  price ← PyOps.getitem data "price";
  current_price ← PyOps.float rt price;
  mret (VDict
    [ ("symbol", VStr normalized_symbol);
      ("name", VStr (normalized_symbol +:+ " Inc."));
      ("current_price", VFloat current_price);
      ("currency", VStr "USD");
      ("daily_change", VInt 0);
      ("daily_change_percent", VInt 0);
      ("monthly_change_percent", VInt 0);
      ("year_high", VFloat (current_price * 1.2));
      ("year_low", VFloat (current_price * 0.8));
      ("market_cap", VInt 0);
      ("sector", VStr "N/A");
      ("industry", VStr "N/A");
      ("volume", VInt 0);
      ("avg_volume", VInt 0) ]).

(** The record built from the first quote of a v3 answer that has a price. *)
Definition fmp_quote_record (normalized_symbol : string) (quote : value) : result value :=
  price ← PyOps.getitem quote "price";
  current_price ← PyOps.float rt price;
  chg ← PyOps.get quote "change" (VInt 0);
  change ← PyOps.float rt chg;
  pct ← PyOps.get quote "changesPercentage" (VInt 0);
  change_percent ← PyOps.float rt pct;
  name ← PyOps.get quote "name" (VStr (normalized_symbol +:+ " Inc."));
  high ← PyOps.get quote "yearHigh" (VFloat (current_price * 1.2));
  year_high ← PyOps.float rt high;
  low ← PyOps.get quote "yearLow" (VFloat (current_price * 0.8));
  year_low ← PyOps.float rt low;
  cap ← PyOps.get quote "marketCap" (VInt 0);
  market_cap ← PyOps.int rt cap;
  sector ← PyOps.get quote "sector" (VStr "N/A");
  industry ← PyOps.get quote "industry" (VStr "N/A");
  vol ← PyOps.get quote "volume" (VInt 0);
  volume ← PyOps.int rt vol;
  avg ← PyOps.get quote "avgVolume" (VInt 0);
  avg_volume ← PyOps.int rt avg;
  mret (VDict
    [ ("symbol", VStr normalized_symbol);
      ("name", name);
      ("current_price", VFloat current_price);
      ("currency", VStr "USD");
      ("daily_change", VFloat change);
      ("daily_change_percent", VFloat change_percent);
      ("monthly_change_percent", VInt 0);
      ("year_high", VFloat year_high);
      ("year_low", VFloat year_low);
      ("market_cap", VInt market_cap);
      ("sector", sector);
      ("industry", industry);
      ("volume", VInt volume);
      ("avg_volume", VInt avg_volume) ]).

Definition fmp_request (normalized_symbol : string) (api_key : value) : Request :=
  let path_symbol :=
    if bool_decide (normalized_symbol ∈ ["BTC"; "ETH"; "ADA"; "DOT"; "SOL"; "DOGE"])
    then normalized_symbol +:+ "USD" else normalized_symbol in
  mkRequest ("https://financialmodelingprep.com/api/v4/price/" +:+ path_symbol)
            [ ("apikey", api_key) ].

(** The [try] block of [get_stock_data_fmp]. *)
Definition fmp_try (symbol cache_key normalized_symbol : string) : M value :=
  let fallback := call (get_stock_data_alphavantage rt environ upstream symbol) in
  let api_key := config_get (CONFIG environ) "FMP_API_KEY" VNone in
  if negb (truthy api_key) then fallback
  else
    let request := fmp_request normalized_symbol api_key in
    response ← requests_get upstream (url request) (params request);
    if decide (status_code response = 403%Z) then fallback
    else if decide (status_code response = 429%Z) then fallback
    else if decide (status_code response = 401%Z) then fallback
    else if decide (status_code response ≠ 200%Z) then fallback
    else
      match json response with
      | None => fallback
      | Some data =>
          match data with
          | VDict d =>
              if Dict.has "price" d then
                stock_data ← lift (fmp_price_record normalized_symbol data);
                _ ← call (cache_set cache_key stock_data);
                mret stock_data
              else fallback
          | VList (quote :: _) =>
              has_price ← lift (PyOps.contains "price" quote);
              if negb has_price then fallback
              else
                price ← lift (PyOps.getitem quote "price");
                match price with
                | VNone => fallback
                | _ =>
                    stock_data ← lift (fmp_quote_record normalized_symbol quote);
                    _ ← call (cache_set cache_key stock_data);
                    mret stock_data
                end
          | _ => fallback
          end
      end.

(** [get_stock_data_fmp(symbol)]. *)
Definition get_stock_data_fmp (symbol : string) (w : World) : value * World :=
  let cache_key := "stock_fmp_" +:+ PyStr.upper symbol in
  let (cached_data, w) := cache_get cache_key w in
  if truthy cached_data then (cached_data, w)
  else
    let (_, w) := cache_wait_for_rate_limit "fmp" w in
    let normalized_symbol := normalize_symbol symbol in
    try_except (fmp_try symbol cache_key normalized_symbol)
               (λ _, get_stock_data_alphavantage rt environ upstream symbol) w.

End FinancialModelingPrep.

Section TwelveData.
Context (rt : Runtime) (environ : gmap string string) (upstream : Upstream).

(** *** Twelve Data *)

(** The record built from a [quote] answer that has a price. *)
Definition twelve_quote (normalized_symbol : string) (data : value) : result value :=
  price ← PyOps.get data "price" (VInt 0);
  close ← PyOps.get data "close" price;
  current_price ← PyOps.float rt close;
  prev ← PyOps.get data "previous_close" (VFloat current_price);
  previous_close ← PyOps.float rt prev;
  let daily_change :=
    if PyFloat.positive previous_close
    then VFloat (current_price - previous_close) else VInt 0 in
  let daily_change_percent :=
    if PyFloat.positive previous_close
    then VFloat ((current_price - previous_close) / previous_close * 100)
    else VInt 0 in
  high ← PyOps.get data "high" (VFloat current_price);
  day_high ← PyOps.float rt high;
  low ← PyOps.get data "low" (VFloat current_price);
  day_low ← PyOps.float rt low;
  opn ← PyOps.get data "open" (VFloat current_price);
  open_price ← PyOps.float rt opn;
  vol ← PyOps.get data "volume" (VInt 0);
  volume ← PyOps.int rt vol;
  mret (VDict
    [ ("symbol", VStr normalized_symbol);
      ("name", VStr (normalized_symbol +:+ " Inc."));
      ("current_price", VFloat current_price);
      ("currency", VStr "USD");
      ("daily_change", daily_change);
      ("daily_change_percent", daily_change_percent);
      ("monthly_change_percent", VInt 0);
      ("day_high", VFloat day_high);
      ("day_low", VFloat day_low);
      ("open_price", VFloat open_price);
      ("previous_close", VFloat previous_close);
      ("market_cap", VInt 0);
      ("sector", VStr "N/A");
      ("industry", VStr "N/A");
      ("volume", VInt volume);
      ("avg_volume", VInt 0) ]).

(** The credential of the Twelve Data request:
    [CONFIG.get('TWELVE_API_KEY', 'demo')]. *)
Definition twelve_api_key : value :=
  config_get (CONFIG environ) "TWELVE_API_KEY" (VStr "demo").

(** The request of the Twelve Data adapter for a normalised symbol. *)
Definition twelve_request (normalized_symbol : string) : Request :=
  let query_symbol :=
    if bool_decide (normalized_symbol ∈ ["BTC"; "ETH"; "ADA"; "DOT"; "SOL"; "DOGE"])
    then normalized_symbol +:+ "/USD" else normalized_symbol in
  mkRequest "https://api.twelvedata.com/quote"
            [ ("symbol", VStr query_symbol); ("apikey", twelve_api_key) ].

(** The [try] block of [get_stock_data_twelve]: every failure it sees for
    itself hands over to [get_stock_data_alphavantage]. *)
Definition twelve_try (symbol cache_key normalized_symbol : string) : M value :=
  let fallback := call (get_stock_data_alphavantage rt environ upstream symbol) in
  let request := twelve_request normalized_symbol in
  response ← requests_get upstream (url request) (params request);
  if decide (status_code response = 403%Z) then fallback
  else if decide (status_code response = 429%Z) then fallback
  else if decide (status_code response = 401%Z) then fallback
  else if decide (status_code response ≠ 200%Z) then fallback
  else
    match json response with
    | None => fallback
    | Some data =>
        has_message ← lift (PyOps.contains "message" data);
        if has_message : bool then fallback
        else
          has_close ← lift (PyOps.contains "close" data);
          has_price ← lift (PyOps.contains "price" data);
          if negb has_close && negb has_price then fallback
          else
            stock_data ← lift (twelve_quote normalized_symbol data);
            _ ← call (cache_set cache_key stock_data);
            mret stock_data
    end.

(** [get_stock_data_twelve(symbol)]. *)
Definition get_stock_data_twelve (symbol : string) (w : World) : value * World :=
  let cache_key := "stock_twelve_" +:+ PyStr.upper symbol in
  let (cached_data, w) := cache_get cache_key w in
  if truthy cached_data then (cached_data, w)
  else
    let (_, w) := cache_wait_for_rate_limit "twelvedata" w in
    let normalized_symbol := normalize_symbol symbol in
    try_except (twelve_try symbol cache_key normalized_symbol)
               (λ _, get_stock_data_alphavantage rt environ upstream symbol) w.

(** ** Fetch orchestrator ([get_stock_data]) *)

Definition has_twelve_key : bool :=
  truthy (config_get (CONFIG environ) "TWELVE_API_KEY" VNone).

Definition has_alpha_key : bool :=
  truthy (config_get (CONFIG environ) "ALPHA_VANTAGE_API_KEY" VNone).

(** The test that sends a Twelve Data result to Alpha Vantage for a second
    opinion, evaluated left to right as [and] does. *)
Definition needs_second_opinion (twelve_data : value) : result bool :=
  if negb (truthy twelve_data) then mret false
  else
    tagged ← PyOps.contains "error" twelve_data;
    if tagged : bool then mret false
    else
      daily_change ← PyOps.get twelve_data "daily_change" (VInt 0);
      if negb (eq_zero daily_change) then mret false
      else
        volume ← PyOps.get twelve_data "volume" (VInt 0);
        if negb (eq_zero volume) then mret false
        else mret has_alpha_key.

Definition no_api_configured : string :=
  "❌ No hay APIs financieras configuradas. Configura TWELVE_API_KEY o ALPHA_API_KEY.".

(** [get_stock_data(symbol)]. *)
Definition get_stock_data (symbol : string) : M value :=
  if has_twelve_key then
    twelve_data ← call (get_stock_data_twelve symbol);
    fall_back ← lift (needs_second_opinion twelve_data);
    if fall_back : bool
    then call (get_stock_data_alphavantage rt environ upstream symbol)
    else mret twelve_data
  else if has_alpha_key then
    call (get_stock_data_alphavantage rt environ upstream symbol)
  else
    twelve_data ← call (get_stock_data_twelve symbol);
    tagged ← (if truthy twelve_data
              then lift (PyOps.contains "error" twelve_data) else mret false);
    if tagged : bool then mret (error_result no_api_configured)
    else mret twelve_data.

End TwelveData.

(** ** Shapes of the results *)

(** The keys every adapter puts in a record it builds. *)
Definition common_keys : list string :=
  [ "symbol"; "name"; "current_price"; "currency"; "daily_change";
    "daily_change_percent"; "monthly_change_percent"; "market_cap"; "sector";
    "industry"; "volume"; "avg_volume" ].

(** The keys of the trading session, optional in a record. *)
Definition session_keys : list string :=
  [ "day_high"; "day_low"; "open_price"; "previous_close" ].

(** A successful result: a dict with no error tag, the common keys, and a
    float under [current_price]. *)
Definition is_quote_record (v : value) : bool :=
  match v with
  | VDict d =>
      negb (Dict.has "error" d)
      && forallb (λ k, Dict.has k d) common_keys
      && match Dict.lookup "current_price" d with
         | Some (VFloat _) => true
         | _ => false
         end
  | _ => false
  end.

(** What an adapter returns: an error result or a record. *)
Definition is_stock_result (v : value) : bool :=
  match v with
  | VDict [("error", VStr _)] => true
  | _ => is_quote_record v
  end.

(** The cache holds records only under the keys of the stock adapters. *)
Definition stock_cache_ok (w : World) : Prop :=
  ∀ k v t, SimpleCache.cache (cache w) !! k = Some (v, t) →
           PyStr.startswith "stock_" k = true → is_quote_record v = true.

(** A fresh process at clock reading [t]. *)
Definition world0 (t : Q) : World := mkWorld t cache0 [].

(** [m] keeps the cache invariant, and a value it returns is in [post]. *)
Definition keeps {A} (m : M A) (post : A → Prop) : Prop :=
  ∀ w, stock_cache_ok w →
    match m w with
    | (Ok a, w') => stock_cache_ok w' ∧ post a
    | (Raise _, w') => stock_cache_ok w'
    end.

(** The same for a function that does not raise. *)
Definition keeps_total {A} (f : World → A * World) (post : A → Prop) : Prop :=
  ∀ w, stock_cache_ok w → stock_cache_ok (f w).2 ∧ post (f w).1.

(** ** Concrete interpreter, networks and environments for the examples *)

Module Examples.

Definition digit_of (c : ascii) : option Z :=
  let n := Z.of_N (N_of_ascii c) in
  if decide (48 ≤ n ≤ 57)%Z then Some (n - 48)%Z else None.

Fixpoint digits (s : string) (acc : Z) : option Z :=
  match s with
  | EmptyString => Some acc
  | String c s' =>
      match digit_of c with
      | Some d => digits s' (10 * acc + d)%Z
      | None => None
      end
  end.

(** An optional sign in front of [body]. *)
Definition signed (s : string) : bool * string :=
  match s with
  | String "-" body => (true, body)
  | String "+" body => (false, body)
  | _ => (false, s)
  end.

(** [int(s)] on plain decimal literals: optional sign, then digits. *)
Definition int_literal (s : string) : option Z :=
  let (negative, body) := signed (PyStr.strip s) in
  match body with
  | EmptyString => None
  | _ => (λ n, if negative then (- n)%Z else n) <$> digits body 0
  end.

(** The text before and after the first point. *)
Fixpoint split_point (s : string) : string * option string :=
  match s with
  | EmptyString => (EmptyString, None)
  | String "." s' => (EmptyString, Some s')
  | String c s' => let (a, b) := split_point s' in (String c a, b)
  end.

(** [float(s)] on plain decimal literals: optional sign, digits, and an
    optional point with digits (no exponent), rounded to the nearest float;
    and on [inf], [infinity] and [nan] in any case. *)
Definition float_literal (s : string) : option float :=
  let (negative, body) := signed (PyStr.strip s) in
  let sign (x : float) : float := if negative then (- x)%float else x in
  let word := PyStr.lower body in
  if String.eqb word "inf" || String.eqb word "infinity" then Some (sign infinity)
  else if String.eqb word "nan" then Some nan
  else
    let (whole, fraction) := split_point body in
    let fraction := default EmptyString fraction in
    match whole, fraction with
    | EmptyString, EmptyString => None
    | _, _ =>
        match digits whole 0, digits fraction 0 with
        | Some a, Some b =>
            let scale := Pos.pow 10 (Pos.of_nat (String.length fraction)) in
            let scale := match fraction with EmptyString => 1%positive | _ => scale end in
            let n := (a * Z.pos scale + b)%Z in
            Some (sign (match n with
                        | Zpos m =>
                            SF2Prim (SFdiv prec emax (S754_finite false m 0)
                                       (S754_finite false scale 0))
                        | _ => 0%float
                        end))
        | _, _ => None
        end
    end.

(** [str(v)] where the examples need it. *)
Definition str_text (v : value) : string :=
  match v with
  | VStr s => s
  | VNone => "None"
  | VBool true => "True"
  | VBool false => "False"
  | VInt _ => "<int>"
  | VFloat _ => "<float>"
  | VList _ => "<list>"
  | VDict _ => "<dict>"
  end.

(** Messages in the style of CPython. *)
Definition fault_message (f : fault) : string :=
  match f with
  | KeyError k => "'" +:+ k +:+ "'"
  | AttributeError _ attr => "object has no attribute '" +:+ attr +:+ "'"
  | TypeError op _ => "unsupported operand for " +:+ op
  | FloatError v => "could not convert string to float: '" +:+ str_text v +:+ "'"
  | IntError v => "invalid literal for int() with base 10: '" +:+ str_text v +:+ "'"
  | OverflowError _ => "int too large to convert to float"
  | EmptyMax => "max() iterable argument is empty"
  | IndexError => "list index out of range"
  | ZeroDivisionError => "float division by zero"
  | JSONDecodeError _ => "Expecting value: line 1 column 1 (char 0)"
  end.

Definition runtime : Runtime :=
  {| float_of_str := float_literal; int_of_str := int_literal;
     str_of := str_text; fault_text := fault_message;
     local_hour := λ t, ((Qfloor t / 3600) mod 24)%Z |}.

(** Environments: both provider keys, the Alpha Vantage key alone, none. *)
Definition both_keys : gmap string string :=
  {[ "TWELVE_API_KEY" := "twelve-key"; "ALPHA_API_KEY" := "alpha-key";
     "WEATHER_API_KEY" := "weather-key" ]}.

Definition alpha_key_only : gmap string string := {[ "ALPHA_API_KEY" := "alpha-key" ]}.

Definition no_keys : gmap string string := ∅.

Definition answer (body : value) : Outcome := Answers (mkResponse 200 (Some body) EmptyString).

(** Twelve Data answers with a flat quote without volume; Alpha Vantage
    answers [GLOBAL_QUOTE] with a full quote. *)
Definition flat_twelve_full_alpha : Upstream := λ _ request,
  if String.eqb (url request) "https://api.twelvedata.com/quote" then
    answer (VDict [ ("symbol", VStr "AAPL"); ("close", VStr "150.00");
                    ("previous_close", VStr "150.00") ])
  else
    answer (VDict [ ("Global Quote", VDict
      [ ("01. symbol", VStr "AAPL"); ("02. open", VStr "149.00");
        ("03. high", VStr "151.00"); ("04. low", VStr "148.00");
        ("05. price", VStr "150.50"); ("06. volume", VStr "1000");
        ("08. previous close", VStr "149.50"); ("09. change", VStr "1.00");
        ("10. change percent", VStr "0.67%") ]) ]).

(** Twelve Data refuses every request (HTTP 401). *)
Definition twelve_unauthorized : Upstream := λ _ _,
  Answers (mkResponse 401 None "unauthorized").

(** Alpha Vantage answers [DIGITAL_CURRENCY_DAILY] with one day. *)
Definition crypto_one_day : Upstream := λ _ _,
  answer (VDict [ ("Time Series (Digital Currency Daily)", VDict
    [ ("2025-09-01", VDict [ ("4. close", VStr "115000.00");
                             ("5. volume", VStr "12.5") ]) ]) ]).

(** Twelve Data quotes a price beyond the range of floats, and no volume. *)
Definition twelve_infinite_price : Upstream := λ _ _,
  answer (VDict [ ("symbol", VStr "XYZ"); ("close", VStr "inf") ]).

(** Twelve Data quotes a price of zero. *)
Definition twelve_zero_price : Upstream := λ _ _,
  answer (VDict [ ("symbol", VStr "XYZ"); ("close", VStr "0");
                  ("volume", VStr "10") ]).

End Examples.

(** An untagged result with the common keys and a float price. *)
Definition successful (r : value) : Prop :=
  ∃ d, r = VDict d
       ∧ Dict.has "error" d = false
       ∧ (∀ k, k ∈ common_keys → is_Some (Dict.lookup k d))
       ∧ ∃ price, Dict.lookup "current_price" d = Some (VFloat price).

Definition error_tagged (r : value) : Prop := ∃ message, r = error_result message.

(** [r[k]] when [r] is a dict that has [k]. *)
Definition field (k : string) (r : value) : option value :=
  match r with
  | VDict d => Dict.lookup k d
  | _ => None
  end.

(** The session fields of a Twelve Data record and the keys of the answer
    they are read from. *)
Definition twelve_session_fields : list (string * string) :=
  [ ("high", "day_high"); ("low", "day_low"); ("open", "open_price");
    ("previous_close", "previous_close") ].

(** [m] attempts no request. *)
Definition quiet {A} (m : M A) : Prop := ∀ w, sent (m w).2 = sent w.

(** ** Weather fetch ([get_weather_data]) *)

(** [f"{n:02d}"] for a number below 100. *)
Definition two_digits (n : Z) : string :=
  let digit d := ascii_of_N (Z.to_N (48 + d)) in
  String (digit (n / 10)%Z) (String (digit (n mod 10)%Z) EmptyString).

(** The candidate queries for a city, in the order they are tried. *)
Definition city_variations (city : string) : list string :=
  let city_lower := PyStr.lower city in
  ([city; city +:+ ",Argentina"; city +:+ ",AR"]
   ++ (if PyStr.contains "cordoba" city_lower || PyStr.contains "córdoba" city_lower
       then ["Córdoba,Argentina"; "Cordoba,Argentina"; "Córdoba,AR"; "Cordoba,AR"]
       else if PyStr.contains "buenos aires" city_lower || PyStr.contains "bsas" city_lower
       then ["Buenos Aires,Argentina"; "Ciudad de Buenos Aires,Argentina";
             "CABA,Argentina"]
       else if PyStr.contains "mendoza" city_lower
       then ["Mendoza,Argentina"]
       else []))%list.

Definition weather_request (api_key : value) (city_variation : string) : Request :=
  mkRequest "http://api.weatherapi.com/v1/current.json"
    [ ("key", api_key); ("q", VStr city_variation); ("lang", VStr "es");
      ("aqi", VStr "no") ].

Definition forecast_request (api_key : value) (city_variation : string) : Request :=
  mkRequest "http://api.weatherapi.com/v1/forecast.json"
    [ ("key", api_key); ("q", VStr city_variation); ("days", VInt 1);
      ("lang", VStr "es"); ("aqi", VStr "no") ].

(** The items of [weather_data] before its forecast is filled in. *)
Definition weather_record (current_data : value) : result (list (string * value)) :=
  location ← PyOps.getitem current_data "location";
  current ← PyOps.getitem current_data "current";
  name ← PyOps.getitem location "name";
  country ← PyOps.getitem location "country";
  temp_c ← PyOps.getitem current "temp_c";
  temperature ← PyOps.round temp_c;
  feelslike_c ← PyOps.getitem current "feelslike_c";
  feels_like ← PyOps.round feelslike_c;
  humidity ← PyOps.getitem current "humidity";
  condition ← PyOps.getitem current "condition";
  description ← PyOps.getitem condition "text";
  icon ← PyOps.getitem condition "icon";
  wind_kph ← PyOps.getitem current "wind_kph";
  wind_speed ← PyOps.truediv wind_kph 3.6;
  visibility ← PyOps.getitem current "vis_km";
  mret [ ("city", name); ("country", country); ("temperature", temperature);
         ("feels_like", feels_like); ("humidity", humidity);
         ("description", description); ("icon", icon);
         ("wind_speed", wind_speed); ("visibility", visibility) ].

(** One entry of the forecast. *)
Definition forecast_entry (hour_index : Z) (hour_data : value) : result value :=
  temp_c ← PyOps.getitem hour_data "temp_c";
  temperature ← PyOps.round temp_c;
  condition ← PyOps.getitem hour_data "condition";
  description ← PyOps.getitem condition "text";
  icon ← PyOps.getitem condition "icon";
  rain_chance ← PyOps.getitem hour_data "chance_of_rain";
  mret (VDict [ ("time", VStr (two_digits hour_index +:+ ":00"));
                ("temperature", temperature); ("description", description);
                ("icon", icon); ("rain_chance", rain_chance) ]).

(** The loop [for i in range(6)] over the offsets still to do: entries are
    appended to the forecast until an iteration raises. *)
Fixpoint forecast_entries (hours : value) (current_hour : Z) (offsets : list Z)
    (forecast : list value) : list value :=
  match offsets with
  | [] => forecast
  | i :: rest =>
      let hour_index := ((current_hour + i + 1) mod 24)%Z in
      match PyOps.len hours with
      | Raise _ => forecast
      | Ok n =>
          if decide (hour_index < n)%Z then
            match hour_data ← PyOps.index hours hour_index;
                  forecast_entry hour_index hour_data with
            | Ok entry =>
                forecast_entries hours current_hour rest (forecast ++ [entry])
            | Raise _ => forecast
            end
          else forecast_entries hours current_hour rest forecast
      end
  end.

(** The hours of the first forecast day, when the answer has them. *)
Definition forecast_hours (forecast_data : value) : result (option value) :=
  has_forecast ← PyOps.contains "forecast" forecast_data;
  if has_forecast : bool then
    forecast ← PyOps.getitem forecast_data "forecast";
    has_day ← PyOps.contains "forecastday" forecast;
    if has_day : bool then
      days ← PyOps.getitem forecast "forecastday";
      day ← PyOps.index days 0;
      hours ← PyOps.getitem day "hour";
      mret (Some hours)
    else mret None
  else mret None.

Section Weather.
Context (rt : Runtime) (environ : gmap string string) (upstream : Upstream).

(** The inner [try] of an attempt: the forecast request and its reading;
    any exception leaves the forecast as it is. *)
Definition weather_forecast (api_key : value) (city_variation : string)
    (w : World) : list value * World :=
  let request := forecast_request api_key city_variation in
  match requests_get upstream (url request) (params request) w with
  | (Raise _, w') => ([], w')
  | (Ok forecast_response, w') =>
      if decide (status_code forecast_response = 200%Z) then
        match json forecast_response with
        | None => ([], w')
        | Some forecast_data =>
            match forecast_hours forecast_data with
            | Ok (Some hours) =>
                (forecast_entries hours (local_hour rt (clock w')) [0; 1; 2; 3; 4; 5]%Z [],
                 w')
            | _ => ([], w')
            end
        end
      else ([], w')
  end.

Definition weather_api_key : value :=
  config_get (CONFIG environ) "WEATHER_API_KEY" VNone.

(** The body of the loop for one candidate: [Some result] when it returns,
    [None] when it goes on to the next candidate ([continue]); an exception
    goes on to the next candidate too. *)
Definition weather_try (cache_key city_variation : string) : M (option value) :=
  let api_key := weather_api_key in
  if negb (truthy api_key) then
    mret (Some (error_result "❌ API de clima no configurada. Contacta al administrador."))
  else
    let request := weather_request api_key city_variation in
    response ← requests_get upstream (url request) (params request);
    if decide (status_code response ≠ 200%Z) then mret None
    else
      match json response with
      | None => raise (Fault (JSONDecodeError (text response)))
      | Some current_data =>
          record ← lift (weather_record current_data);
          forecast ← call (weather_forecast api_key city_variation);
          let weather_data := VDict (record ++ [("forecast", VList forecast)]) in
          _ ← call (cache_set cache_key weather_data);
          mret (Some weather_data)
      end.

(** The loop over the candidates. *)
Fixpoint weather_loop (city cache_key : string) (variations : list string)
    (w : World) : value * World :=
  match variations with
  | [] =>
      (error_result ("Ciudad '" +:+ city
         +:+ "' no encontrada. Intente con el nombre completo o agregue el país."), w)
  | city_variation :: rest =>
      match weather_try cache_key city_variation w with
      | (Ok (Some weather_data), w') => (weather_data, w')
      | (_, w') => weather_loop city cache_key rest w'
      end
  end.

(** [get_weather_data(city)]. *)
Definition get_weather_data (city : string) (w : World) : value * World :=
  let cache_key := "weather_" +:+ PyStr.lower city in
  let (cached_data, w) := cache_get cache_key w in
  if truthy cached_data then (cached_data, w)
  else
    let (_, w) := cache_wait_for_rate_limit "weatherapi" w in
    weather_loop city cache_key (city_variations city) w.

End Weather.

(** An outcome of a current-weather request that yields a record: HTTP 200
    with a body that decodes and has the fields the record is read from. *)
Definition usable (outcome : Outcome) : bool :=
  match outcome with
  | Fails _ => false
  | Answers response =>
      bool_decide (status_code response = 200%Z)
      && match json response with
         | Some current_data =>
             match weather_record current_data with
             | Ok _ => true
             | Raise _ => false
             end
         | None => false
         end
  end.

(** The first candidate whose request has a usable outcome, with the
    requests attempted before it; each candidate tried adds its request. *)
Fixpoint first_usable (upstream : Upstream) (api_key : value)
    (history : list Request) (variations : list string)
    : option (string * list Request) :=
  match variations with
  | [] => None
  | city_variation :: rest =>
      let request := weather_request api_key city_variation in
      if usable (upstream history request) then Some (city_variation, history)
      else first_usable upstream api_key (history ++ [request]) rest
  end.

Module WeatherExamples.

Definition good_body : value :=
  VDict [ ("location", VDict [ ("name", VStr "Cordoba"); ("country", VStr "Argentina") ]);
          ("current", VDict
             [ ("temp_c", VFloat 21.5); ("feelslike_c", VFloat 22.5);
               ("humidity", VInt 40);
               ("condition", VDict [ ("text", VStr "Soleado"); ("icon", VStr "113.png") ]);
               ("wind_kph", VFloat 18); ("vis_km", VFloat 10) ]) ].

Definition query (request : Request) : string :=
  match Dict.lookup "q" (params request) with
  | Some (VStr q) => q
  | _ => EmptyString
  end.

(** "Cordoba" is answered with HTTP 200 and an empty object,
    "Cordoba,Argentina" with HTTP 200 and a full body, anything else
    (the forecast included) with HTTP 404. *)
Definition malformed_then_good : Upstream := λ _ request,
  if String.eqb (url request) "http://api.weatherapi.com/v1/current.json" then
    if String.eqb (query request) "Cordoba"
    then Answers (mkResponse 200 (Some (VDict [])) "{}")
    else if String.eqb (query request) "Cordoba,Argentina"
    then Answers (mkResponse 200 (Some good_body) EmptyString)
    else Answers (mkResponse 404 None EmptyString)
  else Answers (mkResponse 404 None EmptyString).

(** Every request is answered with HTTP 404. *)
Definition nothing_found : Upstream := λ _ _, Answers (mkResponse 404 None EmptyString).

End WeatherExamples.

(** [m] only talks to the network: it leaves the cache and the clock alone. *)
Definition fetch_only {A} (m : M A) : Prop :=
  ∀ w, cache (m w).2 = cache w ∧ clock (m w).2 = clock w.

Module RateLimitExample.

(** Alpha Vantage answers every request with its rate-limit note. *)
Definition alpha_rate_limited : Upstream := λ _ _,
  Examples.answer (VDict [ ("Note", VStr "Thank you for using Alpha Vantage!") ]).

End RateLimitExample.

(** [f] attempts at most [n] requests, each of them in [P]. *)
Definition attempts {A} (n : nat) (P : Request → Prop) (f : World → A * World) : Prop :=
  ∀ w, ∃ new, sent (f w).2 = (sent w ++ new)%list
              ∧ (length new ≤ n)%nat ∧ Forall P new.

(** The endpoints of the two providers [get_stock_data] uses. *)
Definition to_twelve (request : Request) : Prop :=
  url request = "https://api.twelvedata.com/quote".

Definition to_alphavantage (request : Request) : Prop :=
  url request = alphavantage_url.

(** How a piece of an adapter that attempts no request of its own ends:
    with the result of the adapter [fallback] it hands over to, with a result
    of its own, or with an exception and the world as it was. *)
Definition settles (fallback : World → value * World) (m : M value) (w : World) : Prop :=
  match m w with
  | (Ok r, w') => (r, w') = fallback w ∨ sent w' = sent w
  | (Raise _, w') => w' = w
  end.

(** ** Shape of a weather result *)

(** The keys of [weather_data] and of an entry of its forecast, in the order
    of the dict literals. *)
Definition weather_keys : list string :=
  [ "city"; "country"; "temperature"; "feels_like"; "humidity"; "description";
    "icon"; "wind_speed"; "visibility"; "forecast" ].

Definition forecast_keys : list string :=
  [ "time"; "temperature"; "description"; "icon"; "rain_chance" ].

Definition is_int (v : option value) : bool :=
  match v with Some (VInt _) => true | _ => false end.

Definition is_float (v : option value) : bool :=
  match v with Some (VFloat _) => true | _ => false end.

(** An entry of the forecast: the five keys, with an integer temperature. *)
Definition is_forecast_entry (v : value) : bool :=
  match v with
  | VDict d => bool_decide (d.*1 = forecast_keys) && is_int (Dict.lookup "temperature" d)
  | _ => false
  end.

(** A weather record: the ten keys, integer temperatures, a float wind
    speed, and a forecast of at most six entries. *)
Definition is_weather_record (v : value) : bool :=
  match v with
  | VDict d =>
      bool_decide (d.*1 = weather_keys)
      && is_int (Dict.lookup "temperature" d)
      && is_int (Dict.lookup "feels_like" d)
      && is_float (Dict.lookup "wind_speed" d)
      && match Dict.lookup "forecast" d with
         | Some (VList entries) =>
             bool_decide (length entries ≤ 6)%nat && forallb is_forecast_entry entries
         | _ => false
         end
  | _ => false
  end.

(** ** [IntelligentCache]: clearing, and histories of calls *)

Module CacheMaintenance.
Import IntelligentCache.

(** [clear(namespace)]: everything when no namespace is given; else the
    keys that start with the first eight characters of the digest of
    [f"{namespace}:"]. *)
Definition clear (namespace : option string) (self : t) : t :=
  match namespace with
  | None => mk [] (max_size self) (stats self)
  | Some namespace =>
      let keys_to_remove :=
        filter (λ key, PyStr.startswith
                         (PyStr.prefix 8 (MD5.hexdigest (namespace +:+ ":"))) key = true)
               (cache self).*1 in
      mk (Dict.remove_all keys_to_remove (cache self)) (max_size self) (stats self)
  end.

(** [cleanup()]: the store is emptied, and the instance gets two attributes,
    [hit_count] and [miss_count], set to [0] and returned here beside the
    cache; they are not the counters of [stats]. *)
Definition cleanup (self : t) : t * (Z * Z) :=
  (mk [] (max_size self) (stats self), (0%Z, 0%Z)).

Section Histories.
Context {Args : Type} (args_text : Args → string).

(** A call of the public interface of the cache. *)
Inductive Call :=
| CallGet (namespace : string) (args : Args)
| CallSet (namespace : string) (data : value) (ttl : Z) (args : Args)
| CallClear (namespace : option string).

(** The state after a call made at clock reading [now]. *)
Definition after (call : Call) (now : Q) (self : t) : t :=
  match call with
  | CallGet namespace args => (get args_text namespace args self now).2
  | CallSet namespace data ttl args => set args_text namespace data ttl args self now
  | CallClear namespace => clear namespace self
  end.

(** The state after a history of calls, each with its clock reading. *)
Definition history (calls : list (Call * Q)) (self : t) : t :=
  foldl (λ self c, after c.1 c.2 self) self calls.

Definition is_get (c : Call * Q) : bool :=
  match c.1 with CallGet _ _ => true | _ => false end.

(** The call stores under [key]. *)
Definition sets_key (key : string) (c : Call * Q) : bool :=
  match c.1 with
  | CallSet namespace _ _ args => bool_decide (_generate_key args_text namespace args = key)
  | _ => false
  end.

End Histories.
End CacheMaintenance.

(** ** The [cached] decorator ([cache.py]) *)

Module Cached.
Section Decorator.

(** The positional and keyword arguments of a call of the decorated
    function, and the text of the arguments of the cache key, with the name
    of the function in front:
    [f"{(func.__name__,) + args}:{sorted(kwargs.items())}"]. *)
Context {Args : Type} (call_text : string → Args → string).

(** What the decorated function works on besides the clock; [app_cache] is
    not part of it. *)
Context {Outer : Type}.

(** The decorated function: from its arguments, the clock reading at the
    call and the outer state, a result or an exception, the clock reading at
    return and the outer state then. *)
Definition Func : Type := Args → Q → Outer → result value * Q * Outer.

(** The process: [app_cache], the clock and the outer state. *)
Record App := mkApp {
  app_cache : IntelligentCache.t;
  app_clock : Q;
  outer : Outer
}.

(** The wrapper [cached(namespace, ttl)(func)], called with [args]. *)
Definition cached (namespace : string) (ttl : Z) (func_name : string) (func : Func)
    (args : Args) (app : App) : result value * App :=
  let (cached_result, cache) :=
    IntelligentCache.get (call_text func_name) namespace args
      (app_cache app) (app_clock app) in
  match cached_result with
  | VNone =>
      match func args (app_clock app) (outer app) with
      | (Ok result, clock, outer) =>
          (Ok result,
           mkApp (IntelligentCache.set (call_text func_name) namespace result ttl args
                    cache clock)
                 clock outer)
      | (Raise e, clock, outer) => (Raise e, mkApp cache clock outer)
      end
  | _ => (Ok cached_result, mkApp cache (app_clock app) (outer app))
  end.

End Decorator.
End Cached.

Module CachedExample.

(** The text of a call of [name] with no argument: [f"{(name,)}:{[]}"]. *)
Definition no_arg (name : string) (_ : unit) : string := "('" +:+ name +:+ "',):[]".

(** A function that counts its calls in the outer state, takes a second and
    returns the count. *)
Definition counter : @Cached.Func unit Z :=
  λ _ clock n, (Ok (VInt (n + 1)), (clock + 1)%Q, (n + 1)%Z).

(** A function that counts its calls and returns [None]. *)
Definition silent : @Cached.Func unit Z :=
  λ _ clock n, (Ok VNone, clock, (n + 1)%Z).

Definition fresh : @Cached.App Z := Cached.mkApp (IntelligentCache.init 1000) 0%Q 0%Z.

End CachedExample.

(** ** Metrics ([metrics.py]) *)

(** [str(b)] of a [bool] and [str(n)] of an [int]. *)
Definition str_bool (b : bool) : string := if b then "True" else "False".

Definition str_int (n : Z) : string := NilEmpty.string_of_int (Z.to_int n).

Module Metrics.
Local Open Scope Q_scope.

(** A number: an [int], or a finite [float] given by its value. *)
Inductive num :=
| NInt (n : Z)
| NFloat (q : Q).

Definition num_Q (x : num) : Q :=
  match x with
  | NInt n => inject_Z n
  | NFloat q => q
  end.

(** [x < y] and [x > y]: numbers compare by value. *)
Definition num_lt (x y : num) : bool :=
  if Qlt_le_dec (num_Q x) (num_Q y) then true else false.

Definition num_gt (x y : num) : bool := num_lt y x.

Definition num_le (x y : num) : Prop := num_Q x <= num_Q y.

(** What the model takes from the interpreter without describing it: the
    float nearest to a rational, the float [sum] accumulates over a list
    that has a float in it, and the rounded results of [-], [*] and [/]. *)
Record FloatOps := {
  to_float : Q → Q;
  float_sum : list Q → Q;
  float_sub : Q → Q → Q;
  float_mul : Q → Q → Q;
  float_div : Q → Q → Q
}.

Definition as_int (x : num) : option Z :=
  match x with
  | NInt n => Some n
  | NFloat _ => None
  end.

(** [sum(l)]: exact on integers, a float as soon as one element is one. *)
Definition sum (ops : FloatOps) (l : list num) : num :=
  match mapM as_int l with
  | Some ns => NInt (foldr Z.add 0%Z ns)
  | None => NFloat (float_sum ops (num_Q <$> l))
  end.

(** [min(l)] and [max(l)] of a list with head [x]: the first of the least,
    respectively greatest, elements. *)
Definition min_from (x : num) (l : list num) : num :=
  foldl (λ m y, if num_lt y m then y else m) x l.

Definition max_from (x : num) (l : list num) : num :=
  foldl (λ m y, if num_gt y m then y else m) x l.

(** [l.sort()]: stable, ascending. *)
Fixpoint insert_num (x : num) (l : list num) : list num :=
  match l with
  | [] => [x]
  | y :: l' => if num_lt y x then y :: insert_num x l' else x :: l
  end.

Definition sort (l : list num) : list num := foldr insert_num [] l.

(** The [MetricPoint] and [MetricSummary] dataclasses; a timestamp is the
    clock reading of [datetime.now()]. *)
Record MetricPoint := mkPoint {
  timestamp : Q;
  value : num;
  tags : list (string * string)
}.

Record MetricSummary := mkSummary {
  count : Z;
  total : num;          (* the field [sum] *)
  minimum : num;        (* the field [min] *)
  maximum : num;        (* the field [max] *)
  avg : num;
  percentile_95 : num
}.

(** The attributes of a [MetricsCollector].  The default dicts are maps: a
    missing key reads as the default and is created by the first write. *)
Record t := mk {
  retention_minutes : Z;
  metrics : gmap string (list MetricPoint);
  counters : gmap string Z;
  gauges : gmap string num;
  histograms : gmap string (list num)
}.

(** [__init__(retention_minutes)]; the cleanup thread it starts calls
    [_cleanup_old_metrics] every five minutes. *)
Definition init (retention_minutes : Z) : t := mk retention_minutes ∅ ∅ ∅ ∅.

(** [sorted(tags.items())]: items compare as tuples of strings. *)
Definition item_le (a b : string * string) : bool :=
  match String.compare a.1 b.1 with
  | Lt => true
  | Eq => String.leb a.2 b.2
  | Gt => false
  end.

Fixpoint insert_item (x : string * string) (l : list (string * string))
    : list (string * string) :=
  match l with
  | [] => [x]
  | y :: l' => if item_le x y then x :: l else y :: insert_item x l'
  end.

Definition sorted_items (tags : list (string * string)) : list (string * string) :=
  foldr insert_item [] tags.

(** [_make_key(name, tags)]; the tags are the items of the dict, [[]] for
    an empty dict and for [None] ([tags or {}]). *)
Definition _make_key (name : string) (tags : list (string * string)) : string :=
  match tags with
  | [] => name
  | _ =>
      let tag_str :=
        String.concat "," ((λ it, it.1 +:+ "=" +:+ it.2) <$> sorted_items tags) in
      name +:+ "{" +:+ tag_str +:+ "}"
  end.

(** [deque(maxlen=10000).append(p)]. *)
Definition maxlen : nat := Z.to_nat 10000.

Definition deque_append (p : MetricPoint) (points : list MetricPoint) : list MetricPoint :=
  let points := (points ++ [p])%list in
  drop (length points - maxlen) points.

(** [self.metrics[key].append(MetricPoint(...))]. *)
Definition add_point (key : string) (p : MetricPoint) (self : t) : t :=
  mk (retention_minutes self)
     (<[key := deque_append p (default [] (metrics self !! key))]> (metrics self))
     (counters self) (gauges self) (histograms self).

(** [increment_counter(name, value, tags)] at clock reading [now]. *)
Definition increment_counter (name : string) (v : Z) (tags : list (string * string))
    (self : t) (now : Q) : t :=
  let key := _make_key name tags in
  let n := (default 0%Z (counters self !! key) + v)%Z in
  add_point key (mkPoint now (NInt n) tags)
    (mk (retention_minutes self) (metrics self) (<[key := n]> (counters self))
        (gauges self) (histograms self)).

(** [set_gauge(name, value, tags)]. *)
Definition set_gauge (name : string) (v : num) (tags : list (string * string))
    (self : t) (now : Q) : t :=
  let key := _make_key name tags in
  add_point key (mkPoint now v tags)
    (mk (retention_minutes self) (metrics self) (counters self)
        (<[key := v]> (gauges self)) (histograms self)).

(** [record_histogram(name, value, tags)]: the last 1000 values are kept. *)
Definition record_histogram (name : string) (v : num) (tags : list (string * string))
    (self : t) (now : Q) : t :=
  let key := _make_key name tags in
  let values := (default [] (histograms self !! key) ++ [v])%list in
  let values :=
    if decide (1000 < length values)%nat then drop (length values - 1000) values
    else values in
  add_point key (mkPoint now v tags)
    (mk (retention_minutes self) (metrics self) (counters self) (gauges self)
        (<[key := values]> (histograms self))).

(** [while points and points[0].timestamp < cutoff_time: points.popleft()]. *)
Fixpoint popleft_old (cutoff_time : Q) (points : list MetricPoint) : list MetricPoint :=
  match points with
  | [] => []
  | p :: rest =>
      if Qlt_le_dec (timestamp p) cutoff_time then popleft_old cutoff_time rest
      else points
  end.

(** [_cleanup_old_metrics()] at clock reading [now]. *)
Definition _cleanup_old_metrics (self : t) (now : Q) : t :=
  let cutoff_time := now - inject_Z (retention_minutes self) * 60 in
  mk (retention_minutes self) (popleft_old cutoff_time <$> metrics self)
     (counters self) (gauges self) (histograms self).

(** [p.timestamp >= cutoff_time], and the values [get_summary] summarises:
    those of the points of the key that are not older than the cutoff,
    sorted. *)
Definition is_recent (cutoff_time : Q) (p : MetricPoint) : bool :=
  if Qlt_le_dec (timestamp p) cutoff_time then false else true.

Definition recent_points (points : list MetricPoint) (cutoff_time : Q) : list num :=
  sort (value <$> filter (λ p, is_recent cutoff_time p = true) points).

(** [get_summary(name, tags, minutes)] at clock reading [now]. *)
Definition get_summary (ops : FloatOps) (name : string) (tags : list (string * string))
    (minutes : Z) (self : t) (now : Q) : result (option MetricSummary) :=
  let key := _make_key name tags in
  let cutoff_time := now - inject_Z minutes * 60 in
  match metrics self !! key with
  | None => Ok None
  | Some points =>
      match recent_points points cutoff_time with
      | [] => Ok None
      | x :: rest =>
          let recent_points := x :: rest in
          let count := Z.of_nat (length recent_points) in
          match recent_points !! Z.to_nat (int_of_float (inject_Z count * 0.95)) with
          | None => Raise (Fault IndexError)
          | Some p95 =>
              Ok (Some (mkSummary count
                          (sum ops recent_points)
                          (min_from x rest)
                          (max_from x rest)
                          (NFloat (float_div ops (num_Q (sum ops recent_points))
                                     (inject_Z count)))
                          p95))
          end
      end
  end.

(** A collector within its bounds: at most [maxlen] points and 1000
    histogram values per key. *)
Definition bounded (self : t) : Prop :=
  (∀ key points, metrics self !! key = Some points → (length points ≤ maxlen)%nat)
  ∧ (∀ key values, histograms self !! key = Some values → (length values ≤ 1000)%nat).

End Metrics.

(** *** [PerformanceMonitor] *)

Module PerformanceMonitor.
Import Metrics.
Local Open Scope Q_scope.

(** The monitor: its collector (the module-level [metrics_collector]), its
    start time and the attribute [_user_activity], which exists once
    [record_user_activity] or [get_user_activity] has run. *)
Record t := mk {
  collector : Metrics.t;
  start_time : Q;
  _user_activity : option (gmap string (gmap string Z))
}.

(** [__init__(metrics_collector)] at clock reading [now]. *)
Definition init (collector : Metrics.t) (now : Q) : t := mk collector now None.

Definition with_collector (c : Metrics.t) (self : t) : t :=
  mk c (start_time self) (_user_activity self).

Definition record_command_execution (command : string) (execution_time : num)
    (success : bool) (self : t) (now : Q) : t :=
  let c := increment_counter "commands_total" 1
             [("command", command); ("success", str_bool success)] (collector self) now in
  let c := record_histogram "command_duration_ms" execution_time
             [("command", command)] c now in
  with_collector c self.

Definition record_api_call (endpoint : string) (duration : num) (status_code : Z)
    (cached : bool) (self : t) (now : Q) : t :=
  let c := increment_counter "api_calls_total" 1
             [("endpoint", endpoint); ("cached", str_bool cached)] (collector self) now in
  let c := record_histogram "api_duration_ms" duration [("endpoint", endpoint)] c now in
  let c := increment_counter "api_responses_total" 1
             [("endpoint", endpoint); ("status_code", str_int status_code)] c now in
  with_collector c self.

Definition record_cache_operation (operation : string) (hit : bool)
    (self : t) (now : Q) : t :=
  with_collector
    (increment_counter "cache_operations_total" 1
       [("operation", operation); ("hit", str_bool hit)] (collector self) now)
    self.

Definition record_user_activity (ops : FloatOps) (user_id : Z) (activity_type : string)
    (self : t) (now : Q) : t :=
  let c := increment_counter "user_activities_total" 1
             [("activity", activity_type)] (collector self) now in
  let c := set_gauge "last_user_activity" (NFloat (to_float ops now))
             [("user_id", str_int user_id)] c now in
  let activity := default ∅ (_user_activity self) in
  let user_key := str_int user_id in
  let of_user := default ∅ (activity !! user_key) in
  let n := default 0%Z (of_user !! activity_type) in
  mk c (start_time self)
     (Some (<[user_key := <[activity_type := (n + 1)%Z]> of_user]> activity)).

Definition record_error (error_type component : string) (self : t) (now : Q) : t :=
  with_collector
    (increment_counter "errors_total" 1
       [("type", error_type); ("component", component)] (collector self) now)
    self.

(** [update_system_metrics()], given what [_get_system_metrics()] returns:
    the items of its dict, none when [psutil] raises. *)
Definition update_system_metrics (system_metrics : list (string * num))
    (self : t) (now : Q) : t :=
  with_collector
    (foldl (λ c it, set_gauge ("system_" +:+ it.1) it.2 [] c now)
           (collector self) system_metrics)
    self.

(** The dict [get_health_status] returns; [timestamp] is the clock reading
    whose ISO text the dict holds. *)
Record Health := mkHealth {
  status : string;
  uptime_seconds : Q;
  timestamp : Q;
  errors_5min : num;
  commands_5min : num;
  avg_api_duration_ms : num
}.

(** [get_health_status()] at clock reading [now]. *)
Definition get_health_status (ops : FloatOps) (self : t) (now : Q) : result Health :=
  let uptime := to_float ops (now - start_time self) in
  error_summary ← get_summary ops "errors_total" [] 5 (collector self) now;
  command_summary ← get_summary ops "commands_total" [] 5 (collector self) now;
  api_duration_summary ← get_summary ops "api_duration_ms" [] 5 (collector self) now;
  let status :=
    if match error_summary with
       | Some s => num_gt (total s) (NInt 10)
       | None => false
       end
    then "unhealthy"
    else if match api_duration_summary with
            | Some s => num_gt (Metrics.avg s) (NInt 5000)
            | None => false
            end
    then "degraded"
    else "healthy" in
  mret (mkHealth status uptime now
          (match error_summary with Some s => total s | None => NInt 0 end)
          (match command_summary with Some s => total s | None => NInt 0 end)
          (match api_duration_summary with Some s => Metrics.avg s | None => NInt 0 end)).

(** [get_user_activity(user_id)]: the counts of the user, and the monitor,
    which gets the attribute [_user_activity] when it did not have it. *)
Definition get_user_activity (user_id : Z) (self : t) : gmap string Z * t :=
  match _user_activity self with
  | Some activity => (default ∅ (activity !! str_int user_id), self)
  | None => (∅, mk (collector self) (start_time self) (Some ∅))
  end.

(** What the wrapper of [timing_decorator] records in its [finally] block
    after a call of [func] that took [duration] milliseconds and returned
    ([success]) or raised. *)
Definition timing_record (metric_name func_name : string) (duration : num)
    (success : bool) (c : Metrics.t) (now : Q) : Metrics.t :=
  record_histogram metric_name duration
    [("function", func_name); ("success", str_bool success)] c now.

Section TimingDecorator.
Context {Args Outer A : Type}.

(** [timing_decorator(metrics_collector, metric_name)(func)], called with
    [args]: [func] works on the clock and an outer state, and returns or
    raises an [Exception]; either way the duration is recorded and the
    outcome passed on. *)
Definition timing_decorator (ops : FloatOps) (metric_name func_name : string)
    (func : Args → Q → Outer → result A * Q * Outer) (args : Args)
    (c : Metrics.t) (clock : Q) (outer : Outer)
    : result A * Metrics.t * Q * Outer :=
  let start_time := to_float ops clock in
  let '(outcome, clock, outer) := func args clock outer in
  let success := match outcome with Ok _ => true | Raise _ => false end in
  let duration := float_mul ops (float_sub ops (to_float ops clock) start_time) 1000 in
  (outcome, timing_record metric_name func_name (NFloat duration) success c clock,
   clock, outer).

End TimingDecorator.

(** A call on the monitor or its collector, as the module makes them. *)
Inductive Call :=
| RecordCommand (command : string) (execution_time : num) (success : bool)
| RecordApiCall (endpoint : string) (duration : num) (status_code : Z) (cached : bool)
| RecordCacheOperation (operation : string) (hit : bool)
| RecordUserActivity (user_id : Z) (activity_type : string)
| RecordError (error_type component : string)
| UpdateSystemMetrics (system_metrics : list (string * num))
| TimedCall (metric_name func_name : string) (duration : num) (success : bool)
| CleanupOldMetrics.

Definition after (ops : FloatOps) (call : Call) (now : Q) (self : t) : t :=
  match call with
  | RecordCommand command execution_time success =>
      record_command_execution command execution_time success self now
  | RecordApiCall endpoint duration status_code cached =>
      record_api_call endpoint duration status_code cached self now
  | RecordCacheOperation operation hit => record_cache_operation operation hit self now
  | RecordUserActivity user_id activity_type =>
      record_user_activity ops user_id activity_type self now
  | RecordError error_type component => record_error error_type component self now
  | UpdateSystemMetrics system_metrics => update_system_metrics system_metrics self now
  | TimedCall metric_name func_name duration success =>
      with_collector (timing_record metric_name func_name duration success
                        (collector self) now) self
  | CleanupOldMetrics => with_collector (_cleanup_old_metrics (collector self) now) self
  end.

(** The monitor after a history of calls, each with its clock reading. *)
Definition history (ops : FloatOps) (calls : list (Call * Q)) (self : t) : t :=
  foldl (λ self c, after ops c.1 c.2 self) self calls.

(** Every key of the collector has tags in it or is a system gauge. *)
Definition tagged_keys (c : Metrics.t) : Prop :=
  ∀ key, is_Some (metrics c !! key) →
    PyStr.contains "{" key = true ∨ PyStr.startswith "system_" key = true.

(** The call records the activity [activity_type] of [user_id]. *)
Definition is_activity (user_id : Z) (activity_type : string) (c : Call * Q) : bool :=
  match c.1 with
  | RecordUserActivity u a => bool_decide (u = user_id ∧ a = activity_type)
  | _ => false
  end.

End PerformanceMonitor.

Module MetricsExample.
Import Metrics.

(** Float operations without rounding. *)
Definition exact : FloatOps :=
  {| to_float := id; float_sum := foldr Qplus 0%Q;
     float_sub := Qminus; float_mul := Qmult; float_div := Qdiv |}.

(** A collector that keeps an hour, with one hit counted at time 0 and one
    at time 3590. *)
Definition two_hits : t :=
  increment_counter "hits" 1 [] (increment_counter "hits" 1 [] (init 60) 0) 3590.

End MetricsExample.

(** ** Validation of the configuration ([config.py]) *)

Module Config.

(** [os.getenv(name, default)]. *)
Definition getenv (environ : gmap string string) (name value : string) : string :=
  default value (environ !! name).

(** [validate_config()]: its result and the lines it prints.  [BOT_CONFIG]
    and [API_CONFIG] hold what the environment had for the token and the two
    weather keys, the empty string when a variable is not set. *)
Definition validate_config (environ : gmap string string) : bool * list string :=
  let bot_token := getenv environ "TELEGRAM_BOT_TOKEN" EmptyString in
  let weatherapi_key := getenv environ "WEATHER_API_KEY" EmptyString in
  let openweather_key := getenv environ "OPENWEATHER_API_KEY" EmptyString in
  let errors :=
    if String.eqb bot_token EmptyString
    then ["TELEGRAM_BOT_TOKEN no está configurada"]
    else if decide (PyText.len bot_token < 40)%nat
    then ["TELEGRAM_BOT_TOKEN parece inválida (muy corta)"]
    else [] in
  let weather_apis : nat :=
    (if negb (String.eqb weatherapi_key EmptyString)
        && bool_decide (10 < PyText.len weatherapi_key)%nat then 1 else 0)
    + (if negb (String.eqb openweather_key EmptyString)
          && bool_decide (10 < PyText.len openweather_key)%nat then 1 else 0) in
  let errors :=
    (errors ++
     if decide (weather_apis = 0)%nat
     then ["Al menos una API de clima debe estar configurada (WEATHER_API_KEY o OPENWEATHER_API_KEY)"]
     else [])%list in
  match errors with
  | _ :: _ =>
      (false,
       (["❌ Errores de configuración:"]
        ++ ((λ error, "   • " +:+ error) <$> errors)
        ++ [PyText.nl +:+ "💡 Asegúrate de configurar las variables de entorno requeridas"])%list)
  | [] =>
      let warnings :=
        ((if String.eqb (getenv environ "TELEGRAM_CHAT_ID" EmptyString) EmptyString
          then ["TELEGRAM_CHAT_ID no configurada (se obtendrá del primer mensaje)"]
          else [])
         ++ (if decide (weather_apis = 1)%nat
             then ["Solo una API de clima configurada (se recomienda configurar ambas para failover)"]
             else []))%list in
      (true,
       match warnings with
       | _ :: _ =>
           (["⚠️ Advertencias de configuración:"]
            ++ ((λ warning, "   • " +:+ warning) <$> warnings)
            ++ [EmptyString])%list
       | [] => []
       end)
  end.

End Config.

(** ** News on a stock ([get_stock_news]) *)

(** [l[:n]]: a negative [n] counts from the end. *)
Definition slice_to {A} (n : Z) (l : list A) : list A :=
  if decide (0 ≤ n)%Z then take (Z.to_nat n) l
  else take (length l - Z.to_nat (- n)) l.

(** [v[:n]], iterated over: the items of a list, the characters of a text;
    other values cannot be sliced. *)
Definition slice_items (v : value) (n : Z) : result (list value) :=
  match v with
  | VList l => Ok (slice_to n l)
  | VStr s => Ok (VStr <$> slice_to n (text_chars s))
  | _ => Raise (Fault (TypeError "getitem" v))
  end.

(** [v[:n] + suffix] for a text [suffix]: only a text can be cut and then
    extended by one. *)
Definition text_prefix (n : nat) (v : value) (suffix : string) : result value :=
  match v with
  | VStr s => Ok (VStr (PyText.take n s +:+ suffix))
  | _ => Raise (Fault (TypeError "getitem" v))
  end.

(** The dict built for one item of the feed. *)
Definition news_item (item : value) : result value :=
  title ← PyOps.get item "title" (VStr "Sin título");
  title ← text_prefix 80 title "...";
  summary ← PyOps.get item "summary" (VStr "Sin resumen");
  summary ← text_prefix 150 summary "...";
  source ← PyOps.get item "source" (VStr "Fuente desconocida");
  url ← PyOps.get item "url" (VStr "#");
  mret (VDict [ ("title", title); ("summary", summary); ("source", source);
                ("url", url) ]).

(** The loop over the items: the first one that raises ends it. *)
Fixpoint news_items (items : list value) (news : list value) : result (list value) :=
  match items with
  | [] => Ok news
  | item :: rest =>
      entry ← news_item item;
      news_items rest (news ++ [entry])
  end.

(** The single item returned when the answer has no feed. *)
Definition generic_news (symbol : string) : value :=
  VList [ VDict
    [ ("title", VStr (symbol +:+ ": Análisis técnico sugiere volatilidad moderada..."));
      ("summary", VStr "Los indicadores técnicos muestran patrones mixtos en el corto plazo...");
      ("source", VStr "Análisis Técnico");
      ("url", VStr "#") ] ].

Definition news_request (api_key : value) (symbol : string) (limit : Z) : Request :=
  mkRequest alphavantage_url
    [ ("function", VStr "NEWS_SENTIMENT"); ("tickers", VStr symbol);
      ("limit", VInt limit); ("apikey", api_key) ].

Section News.
Context (environ : gmap string string) (upstream : Upstream).

(** The [try] block. *)
Definition get_stock_news_try (symbol : string) (limit : Z) : M value :=
  let api_key := config_get (CONFIG environ) "ALPHA_VANTAGE_API_KEY" VNone in
  if negb (truthy api_key) then mret (VList [])
  else
    let request := news_request api_key symbol limit in
    response ← requests_get upstream (url request) (params request);
    if decide (status_code response = 200%Z) then
      match json response with
      | None => raise (Fault (JSONDecodeError (text response)))
      | Some data =>
          has_feed ← lift (PyOps.contains "feed" data);
          if has_feed : bool then
            feed ← lift (PyOps.getitem data "feed");
            n ← lift (PyOps.len feed);
            if decide (0 < n)%Z then
              items ← lift (slice_items feed limit);
              news ← lift (news_items items []);
              mret (VList news)
            else mret (generic_news symbol)
          else mret (generic_news symbol)
      end
    else mret (generic_news symbol).

(** [get_stock_news(symbol, limit)]: any exception gives the empty list. *)
Definition get_stock_news (symbol : string) (limit : Z) : World → value * World :=
  try_except (get_stock_news_try symbol limit) (λ _ w, (VList [], w)).

End News.

(** An item of the news: the four keys, a text for the title, and a text of
    at most 153 characters for the summary. *)
Definition is_text (v : option value) : bool :=
  match v with Some (VStr _) => true | _ => false end.

Definition is_text_within (n : nat) (v : option value) : bool :=
  match v with
  | Some (VStr s) => bool_decide (PyText.len s ≤ n)%nat
  | _ => false
  end.

Definition news_keys : list string := [ "title"; "summary"; "source"; "url" ].

Definition is_news_item (v : value) : bool :=
  match v with
  | VDict d =>
      bool_decide (d.*1 = news_keys)
      && is_text (Dict.lookup "title" d)
      && is_text_within 153 (Dict.lookup "summary" d)
  | _ => false
  end.

Module NewsExample.

(** A feed of three items, one without a title. *)
Definition feed : Upstream := λ _ _,
  Examples.answer
    (VDict [ ("feed",
              VList [ VDict [ ("title", VStr "Apple sube"); ("summary", VStr "Resumen");
                              ("source", VStr "Reuters"); ("url", VStr "https://example.com/1") ];
                      VDict [ ("summary", VStr "Sin novedades") ];
                      VDict [ ("title", VStr "Tercera") ] ]) ]).

End NewsExample.

(** ** Recommendations for the weather ([get_weather_recommendations]) *)

(** A number in a comparison: an [int] (a [bool] counts as one) or a
    [float]. *)
Inductive number :=
| IntNumber (n : Z)
| FloatNumber (x : float).

(** The number a value stands for in a comparison with a number; other
    values cannot be compared with one. *)
Definition as_number (op : string) (v : value) : result number :=
  match v with
  | VInt n => Ok (IntNumber n)
  | VFloat x => Ok (FloatNumber x)
  | VBool b => Ok (IntNumber (if b then 1 else 0))
  | _ => Raise (Fault (TypeError op v))
  end.

(** [x < k] and [x > k] for a small integer [k], which a float holds
    exactly: numbers compare by value, and NaN is neither below nor above. *)
Definition below (x : number) (k : Z) : bool :=
  match x with
  | IntNumber n => (n <? k)%Z
  | FloatNumber x => PrimFloat.ltb x (default 0%float (PyFloat.of_Z k))
  end.

Definition above (x : number) (k : Z) : bool :=
  match x with
  | IntNumber n => (k <? n)%Z
  | FloatNumber x => PrimFloat.ltb (default 0%float (PyFloat.of_Z k)) x
  end.

(** [v.lower()]. *)
Definition text_lower (v : value) : result string :=
  match v with
  | VStr s => Ok (PyStr.lower s)
  | _ => Raise (Fault (AttributeError v "lower"))
  end.

(** The recommendation for the temperature: one of five, by band. *)
Definition temperature_advice (temp : number) : string :=
  if below temp 5 then "🧥 **Muy frío** - Usa abrigo grueso y protege extremidades"
  else if below temp 15 then "🧤 **Frío** - Lleva chaqueta y considera guantes"
  else if below temp 25 then "👕 **Agradable** - Ropa cómoda, quizás una chaqueta ligera"
  else if below temp 30 then "🌡️ **Cálido** - Ropa ligera y mantente hidratado"
  else "🔥 **Muy caliente** - Ropa muy ligera, busca sombra y bebe mucha agua".

(** The recommendation for the humidity, if any. *)
Definition humidity_advice (humidity : number) : list string :=
  if above humidity 80 then ["💧 **Alta humedad** - Sensación bochornosa, evita actividad física intensa"]
  else if below humidity 30 then ["🌵 **Baja humedad** - Aire seco, usa crema hidratante"]
  else [].

(** The recommendation for the conditions, if any: the first of the five
    pairs of words that the description has. *)
Definition condition_advice (description : string) : list string :=
  let has sub := PyStr.contains sub description in
  if has "lluvia" || has "rain" then ["☂️ **Lluvia** - Lleva paraguas o impermeable"]
  else if has "nieve" || has "snow" then ["❄️ **Nieve** - Calzado antideslizante y conduce con precaución"]
  else if has "tormenta" || has "thunder" then ["⛈️ **Tormenta** - Evita espacios abiertos y desconecta aparatos"]
  else if has "niebla" || has "fog" then ["🌫️ **Niebla** - Conduce despacio y usa luces"]
  else if has "sol" || has "clear" then ["😎 **Buen tiempo** - ¡Perfecto para actividades al aire libre!"]
  else [].

(** [any(item['rain_chance'] > 50 for item in items)]: the items after the
    first rainy one are not looked at. *)
Fixpoint rain_forecast (items : list value) : result bool :=
  match items with
  | [] => Ok false
  | item :: rest =>
      rain_chance ← PyOps.getitem item "rain_chance";
      chance ← as_number ">" rain_chance;
      if above chance 50 then Ok true else rain_forecast rest
  end.

(** The recommendations on one line each, with a bullet in front. *)
Definition bullet_lines (recommendations : list string) : string :=
  String.concat PyText.nl ((λ rec, "• " +:+ rec) <$> recommendations).

(** The [try] block. *)
Definition recommendations_try (weather_data : value) : result string :=
  temp ← PyOps.getitem weather_data "temperature";
  humidity ← PyOps.getitem weather_data "humidity";
  description ← PyOps.getitem weather_data "description";
  description ← text_lower description;
  temp ← as_number "<" temp;
  let recommendations := [temperature_advice temp] in
  humidity ← as_number ">" humidity;
  let recommendations := (recommendations ++ humidity_advice humidity)%list in
  let recommendations := (recommendations ++ condition_advice description)%list in
  forecast ← PyOps.get weather_data "forecast" VNone;
  rain ← (if truthy forecast
          then items ← slice_items forecast 4; rain_forecast items
          else Ok false);
  let recommendations :=
    (recommendations ++
     if rain : bool then ["🌧️ **Lluvia próxima** - Considera llevar paraguas"] else [])%list in
  mret (bullet_lines recommendations).

(** [get_weather_recommendations(weather_data)]: any exception gives the
    line of the error. *)
Definition get_weather_recommendations (weather_data : value) : string :=
  match recommendations_try weather_data with
  | Ok text => text
  | Raise _ => "• ❌ Error generando recomendaciones"
  end.

Definition is_number (v : option value) : bool :=
  match v with
  | Some (VInt _) | Some (VFloat _) | Some (VBool _) => true
  | _ => false
  end.

(** The entries of the forecast of a weather record. *)
Definition forecast_of (weather_data : value) : list value :=
  match field "forecast" weather_data with
  | Some (VList entries) => entries
  | _ => []
  end.

Module RecommendationExample.

(** A cold, humid and rainy hour, with rain in the forecast. *)
Definition rainy : value :=
  VDict [ ("city", VStr "Madrid"); ("country", VStr "Spain");
          ("temperature", VInt 12); ("feels_like", VInt 10);
          ("humidity", VInt 85); ("description", VStr "Lluvia ligera");
          ("icon", VStr "//cdn.weatherapi.com/weather/64x64/day/296.png");
          ("wind_speed", VFloat 2); ("visibility", VInt 10);
          ("forecast",
           VList [ VDict [ ("time", VStr "15:00"); ("temperature", VInt 12);
                           ("description", VStr "Lluvia"); ("icon", VStr "");
                           ("rain_chance", VInt 70) ] ]) ].

(** Data whose humidity is missing from the answer of the provider. *)
Definition no_humidity : value :=
  VDict [ ("temperature", VInt 20); ("humidity", VNone);
          ("description", VStr "Soleado") ].

End RecommendationExample.

(** * Properties *)

(** ** Characters of a text *)

Section TextCharsFacts.

Lemma text_chars_app a r :
  starts_continuation r = false →
  text_chars (a +:+ r) = (text_chars a ++ text_chars r)%list.
Proof.
  intros Hr. induction a as [|c a IH]; [done|].
  change (String c a +:+ r) with (String c (a +:+ r)). cbn [text_chars].
  assert (Hs : starts_continuation (a +:+ r) = starts_continuation a).
  { destruct a; [done|done]. }
  rewrite Hs, IH. destruct (starts_continuation a) eqn:Ha; [|done].
  destruct a as [|b a]; [done|].
  destruct (text_chars (String b a)) eqn:E; [|done].
  exfalso. revert E. cbn [text_chars].
  destruct (starts_continuation a); [by destruct (text_chars a)|done].
Qed.

Lemma text_chars_group a t :
  all_continuation t = true → text_chars (String a t) = [String a t].
Proof.
  revert a. induction t as [|b t IH]; intros a Ht; [done|].
  cbn [all_continuation] in Ht. apply andb_prop in Ht as [Hb Ht].
  cbn [text_chars starts_continuation]. rewrite Hb.
  change (match text_chars (String b t) with
          | [] => [String a EmptyString]
          | first :: rest => String a first :: rest
          end = [String a (String b t)]).
  by rewrite (IH b Ht).
Qed.

Lemma text_chars_char c : is_char c = true → text_chars c = [c].
Proof.
  destruct c as [|a t]; [done|]. cbn [is_char]. intros [_ Ht]%andb_prop.
  by apply text_chars_group.
Qed.

Lemma is_char_starts c : is_char c = true → starts_continuation c = false.
Proof.
  destruct c as [|a t]; [done|]. cbn [is_char starts_continuation].
  intros [Ha _]%andb_prop. by apply negb_true_iff.
Qed.

Lemma text_join_starts cs :
  Forall (λ c, is_char c = true) cs → starts_continuation (text_join cs) = false.
Proof.
  destruct 1 as [|c cs Hc _]; [done|]. cbn [text_join foldr].
  destruct c as [|a t]; [done|]. by apply (is_char_starts (String a t)).
Qed.

Lemma text_chars_join_chars cs :
  Forall (λ c, is_char c = true) cs → text_chars (text_join cs) = cs.
Proof.
  induction 1 as [|c cs Hc Hcs IH]; [done|]. cbn [text_join foldr].
  rewrite text_chars_app by by apply text_join_starts.
  fold (text_join cs). by rewrite IH, text_chars_char.
Qed.

(** The characters of a text: the first may begin with bytes that continue
    nothing; each of the others begins with a byte that starts it. *)
Lemma text_chars_structure b s :
  ∃ t rest, text_chars (String b s) = String b t :: rest
            ∧ all_continuation t = true
            ∧ Forall (λ c, is_char c = true) rest
            ∧ s = t +:+ text_join rest.
Proof.
  revert b. induction s as [|c s IH]; intros b.
  { exists EmptyString, []. by repeat split. }
  destruct (IH c) as (t & rest & E & Ht & Hrest & Hs).
  cbn [text_chars starts_continuation].
  destruct (PyText.is_continuation c) eqn:Hc.
  - change (text_chars (String c s)) with (text_chars (String c s)).
    exists (String c t), rest.
    replace (if starts_continuation s
             then match text_chars s with
                  | [] => [String c EmptyString]
                  | first :: rest0 => String c first :: rest0
                  end
             else String c EmptyString :: text_chars s)
      with (text_chars (String c s)) by done.
    rewrite E. split; [done|]. split; [by cbn; rewrite Hc|].
    split; [done|]. by rewrite Hs at 1.
  - exists EmptyString, (String c t :: rest).
    replace (if starts_continuation s
             then match text_chars s with
                  | [] => [String c EmptyString]
                  | first :: rest0 => String c first :: rest0
                  end
             else String c EmptyString :: text_chars s)
      with (text_chars (String c s)) by done.
    rewrite E. split; [done|]. split; [done|]. split.
    + constructor; [|done]. cbn [is_char]. by rewrite Hc, Ht.
    + cbn. by rewrite Hs at 1.
Qed.

Lemma proper_chars_text s : proper_chars (text_chars s).
Proof.
  destruct s as [|b s]; [done|].
  destruct (text_chars_structure b s) as (t & rest & -> & Ht & Hrest & _).
  split; [by exists b, t|done].
Qed.

Lemma text_join_chars s : text_join (text_chars s) = s.
Proof.
  destruct s as [|b s]; [done|].
  destruct (text_chars_structure b s) as (t & rest & -> & _ & _ & Hs).
  cbn [text_join foldr]. fold (text_join rest).
  change (String b t +:+ text_join rest) with (String b (t +:+ text_join rest)).
  by rewrite <- Hs.
Qed.

Lemma text_chars_join cs : proper_chars cs → text_chars (text_join cs) = cs.
Proof.
  destruct cs as [|c cs]; [done|]. intros [(a & t & -> & Ht) Hcs].
  cbn [text_join foldr]. fold (text_join cs).
  rewrite text_chars_app by by apply text_join_starts.
  by rewrite text_chars_group, text_chars_join_chars.
Qed.

Lemma proper_chars_of_chars cs : Forall (λ c, is_char c = true) cs → proper_chars cs.
Proof.
  destruct 1 as [|c cs Hc Hcs]; [done|]. split; [|done].
  destruct c as [|a t]; [done|]. cbn [is_char] in Hc.
  apply andb_prop in Hc as [_ Ht]. by exists a, t.
Qed.

Lemma proper_chars_suffix pre cs : proper_chars (pre ++ cs) → proper_chars cs.
Proof.
  destruct pre as [|c pre]; [done|]. intros [_ H].
  apply Forall_app in H as [_ H]. by apply proper_chars_of_chars.
Qed.

Lemma proper_chars_prefix cs post : proper_chars (cs ++ post) → proper_chars cs.
Proof.
  destruct cs as [|c cs]; [done|]. intros [Hc H].
  apply Forall_app in H as [H _]. by split.
Qed.

Lemma table_lookup_elem c v table :
  table_lookup c table = Some v → (c, v) ∈ table.
Proof.
  induction table as [|[k w] table IH]; [done|]. cbn [table_lookup].
  destruct (String.eqb_spec k c) as [->|_].
  - intros [= ->]. left.
  - intros H. right. by apply IH.
Qed.

End TextCharsFacts.

(** ** Case mapping and trimming *)

Section PyStrFacts.
Import PyStr.

Lemma upper_ascii_idemp c : upper_ascii (upper_ascii c) = upper_ascii c.
Proof. by destruct c as [[] [] [] [] [] [] [] []]. Qed.

Lemma upper_ascii_continuation c :
  PyText.is_continuation (upper_ascii c) = PyText.is_continuation c.
Proof. by destruct c as [[] [] [] [] [] [] [] []]. Qed.

(** What the table of [upper] holds: characters, each with a text that is
    not empty, made of characters that [upper] leaves alone. *)
Lemma upper_table_entries :
  Forall (λ p, is_char p.1 = true
               ∧ p.2 ≠ EmptyString
               ∧ Forall (λ x, is_char x = true ∧ upper_char x = x) (text_chars p.2))
    upper_table.
Proof.
  apply Forall_forall. intros p Hp.
  assert (H : forallb (λ p, is_char p.1 && negb (String.eqb p.2 EmptyString)
                            && forallb (λ x, is_char x && String.eqb (upper_char x) x)
                                 (text_chars p.2)) upper_table = true)
    by (vm_compute; reflexivity).
  rewrite forallb_forall in H. apply list_elem_of_In in Hp.
  specialize (H p Hp). apply andb_prop in H as [[H1 H2]%andb_prop H3].
  split; [done|]. split.
  - apply negb_true_iff, String.eqb_neq in H2. done.
  - apply Forall_forall. intros x Hx. rewrite forallb_forall in H3.
    apply list_elem_of_In in Hx. specialize (H3 x Hx).
    apply andb_prop in H3 as [? ?%String.eqb_eq]. done.
Qed.

(** What [upper] makes of a character that starts with the byte that
    starts it: characters that a second pass leaves alone. *)
Lemma upper_char_chars c :
  is_char c = true →
  upper_char c ≠ EmptyString
  ∧ Forall (λ x, is_char x = true ∧ upper_char x = x) (text_chars (upper_char c)).
Proof.
  intros Hc. destruct c as [|a t]; [done|].
  destruct t as [|b t].
  - cbn [upper_char]. split; [done|]. cbn [text_chars starts_continuation].
    constructor; [|done]. cbn [is_char upper_char] in *.
    rewrite upper_ascii_continuation, upper_ascii_idemp. done.
  - unfold upper_char.
    destruct (table_lookup (String a (String b t)) upper_table) as [v|] eqn:E.
    + apply table_lookup_elem in E.
      pose proof upper_table_entries as H. rewrite Forall_forall in H.
      destruct (H _ E) as (_ & ? & ?). done.
    + cbn [default from_option id]. split; [done|].
      rewrite text_chars_char by done. constructor; [|done].
      split; [done|]. unfold upper_char. by rewrite E.
Qed.

(** The same for the first piece of a text, which may start with bytes
    that continue nothing: [upper] leaves such a piece as it is. *)
Lemma upper_char_group a t :
  all_continuation t = true →
  is_char (String a t) = true ∨ upper_char (String a t) = String a t.
Proof.
  intros Ht. destruct (PyText.is_continuation a) eqn:Ha.
  2: { left. cbn [is_char]. by rewrite Ha, Ht. }
  right. destruct t as [|b t].
  - cbn [upper_char]. f_equal.
    revert Ha. by destruct a as [[] [] [] [] [] [] [] []].
  - unfold upper_char.
    destruct (table_lookup _ upper_table) as [v|] eqn:E; [|done].
    apply table_lookup_elem in E.
    pose proof upper_table_entries as H. rewrite Forall_forall in H.
    destruct (H _ E) as (Hc & _). cbn [fst is_char] in Hc. by rewrite Ha in Hc.
Qed.

Lemma text_join_app cs ds : text_join (cs ++ ds) = text_join cs +:+ text_join ds.
Proof.
  induction cs as [|c cs IH]; [done|]. cbn [app text_join foldr].
  fold (text_join (cs ++ ds)). fold (text_join cs). rewrite IH.
  induction c as [|x c IHc]; [done|].
  change (String x c +:+ (text_join cs +:+ text_join ds))
    with (String x (c +:+ (text_join cs +:+ text_join ds))).
  by rewrite IHc.
Qed.

(** The characters of [upper] of characters. *)
Lemma upper_chars cs :
  Forall (λ c, is_char c = true) cs →
  ∃ us, text_join (upper_char <$> cs) = text_join us
        ∧ Forall (λ x, is_char x = true ∧ upper_char x = x) us.
Proof.
  induction 1 as [|c cs Hc _ (us & E & Hus)]; [by exists []|].
  destruct (upper_char_chars c Hc) as [_ H].
  exists (text_chars (upper_char c) ++ us)%list. split.
  - cbn [fmap list_fmap text_join foldr]. fold (text_join (upper_char <$> cs)).
    change (list_fmap _ _ upper_char cs) with (upper_char <$> cs).
    by rewrite text_join_app, text_join_chars, E.
  - by apply Forall_app.
Qed.

(** [upper s] is made of pieces that [upper] leaves alone. *)
Lemma upper_fixed_chars s :
  ∃ us, upper s = text_join us ∧ proper_chars us
        ∧ Forall (λ x, upper_char x = x) us.
Proof.
  unfold upper. destruct s as [|b s]; [by exists []|].
  destruct (text_chars_structure b s) as (t & rest & -> & Ht & Hrest & _).
  destruct (upper_chars rest Hrest) as (us & E & Hus).
  cbn [fmap list_fmap text_join foldr].
  change (list_fmap _ _ upper_char rest) with (upper_char <$> rest).
  fold (text_join (upper_char <$> rest)). rewrite E.
  assert (Hchars : Forall (λ x, is_char x = true) us)
    by (eapply Forall_impl; [exact Hus|by intros ? [? ?]]).
  assert (Hfixed : Forall (λ x, upper_char x = x) us)
    by (eapply Forall_impl; [exact Hus|by intros ? [? ?]]).
  destruct (upper_char_group b t Ht) as [Hc|Hb].
  - destruct (upper_char_chars _ Hc) as [_ H].
    exists (text_chars (upper_char (String b t)) ++ us)%list.
    split; [by rewrite text_join_app, text_join_chars|]. split.
    + apply proper_chars_of_chars, Forall_app. split; [|done].
      eapply Forall_impl; [exact H|by intros ? [? ?]].
    + apply Forall_app. split; [|done].
      eapply Forall_impl; [exact H|by intros ? [? ?]].
  - rewrite Hb. exists (String b t :: us). split; [done|]. split.
    + split; [by exists b, t|done].
    + by constructor.
Qed.

Lemma lstrip_chars_suffix cs : ∃ pre, cs = (pre ++ lstrip_chars cs)%list.
Proof.
  induction cs as [|c cs [pre IH]]; [by exists []|]. cbn [lstrip_chars].
  destruct (isspace c); [|by exists []].
  exists (c :: pre). by rewrite IH at 1.
Qed.

Lemma rstrip_chars_prefix cs : ∃ post, cs = (rstrip_chars cs ++ post)%list.
Proof.
  induction cs as [|c cs [post IH]]; [by exists []|]. cbn [rstrip_chars].
  destruct (rstrip_chars cs) as [|d r] eqn:E.
  - destruct (isspace c); [by exists (c :: cs)|]. exists cs. done.
  - exists post. by rewrite IH at 1.
Qed.

Lemma rstrip_chars_idemp cs : rstrip_chars (rstrip_chars cs) = rstrip_chars cs.
Proof.
  induction cs as [|c cs IH]; [done|]. cbn [rstrip_chars].
  destruct (rstrip_chars cs) as [|d r] eqn:E.
  - destruct (isspace c) eqn:Ec; [done|]. cbn [rstrip_chars]. by rewrite Ec.
  - cbn [rstrip_chars]. cbn [rstrip_chars] in IH. by rewrite IH.
Qed.

Lemma lstrip_chars_idemp cs : lstrip_chars (lstrip_chars cs) = lstrip_chars cs.
Proof.
  induction cs as [|c cs IH]; [done|]. cbn [lstrip_chars].
  destruct (isspace c) eqn:Ec; [done|]. cbn [lstrip_chars]. by rewrite Ec.
Qed.

(** Characters with no trailing whitespace keep that property when leading
    whitespace is removed. *)
Lemma rstrip_lstrip_fixed cs :
  rstrip_chars cs = cs → rstrip_chars (lstrip_chars cs) = lstrip_chars cs.
Proof.
  induction cs as [|c cs IH]; [done|]. cbn [rstrip_chars lstrip_chars].
  intros H. destruct (isspace c) eqn:Ec.
  - apply IH. destruct (rstrip_chars cs) eqn:E; [discriminate|congruence].
  - cbn [rstrip_chars]. by rewrite Ec.
Qed.

Lemma strip_chars_idemp cs :
  lstrip_chars (rstrip_chars (lstrip_chars (rstrip_chars cs)))
  = lstrip_chars (rstrip_chars cs).
Proof.
  rewrite (rstrip_lstrip_fixed (rstrip_chars cs)) by apply rstrip_chars_idemp.
  apply lstrip_chars_idemp.
Qed.

Lemma strip_chars_proper cs :
  proper_chars cs → proper_chars (lstrip_chars (rstrip_chars cs)).
Proof.
  intros H.
  destruct (rstrip_chars_prefix cs) as [post E1].
  destruct (lstrip_chars_suffix (rstrip_chars cs)) as [pre E2].
  rewrite E1 in H. apply proper_chars_prefix in H.
  rewrite E2 in H. by apply proper_chars_suffix in H.
Qed.

Lemma strip_chars_sub cs x : x ∈ lstrip_chars (rstrip_chars cs) → x ∈ cs.
Proof.
  intros H.
  destruct (rstrip_chars_prefix cs) as [post E1].
  destruct (lstrip_chars_suffix (rstrip_chars cs)) as [pre E2].
  rewrite E1, E2. set_solver.
Qed.

(** [symbol.upper().strip()] is a fixed point of itself. *)
Lemma upper_strip_fixed s : strip (upper (strip (upper s))) = strip (upper s).
Proof.
  destruct (upper_fixed_chars s) as (us & -> & Hproper & Hfixed).
  unfold strip at 2 3. rewrite (text_chars_join us Hproper).
  set (vs := lstrip_chars (rstrip_chars us)).
  assert (Hvs : proper_chars vs) by by apply strip_chars_proper.
  assert (Hup : upper (text_join vs) = text_join vs).
  { unfold upper. rewrite (text_chars_join vs Hvs). f_equal.
    apply list_eq. intros i. rewrite list_lookup_fmap.
    destruct (vs !! i) as [x|] eqn:E; [|done]. cbn. f_equal.
    rewrite Forall_forall in Hfixed. apply Hfixed.
    apply (strip_chars_sub us). by eapply list_elem_of_lookup_2. }
  rewrite Hup. unfold strip. rewrite (text_chars_join vs Hvs).
  unfold vs. by rewrite strip_chars_idemp.
Qed.

End PyStrFacts.

Section LowerFacts.
Import PyStr.

Lemma lower_chars_app after_cased cs ds :
  Forall (λ c, c ≠ "Σ") cs →
  ∃ after_cased',
    lower_chars after_cased (cs ++ ds)
    = (lower_chars after_cased cs ++ lower_chars after_cased' ds)%list.
Proof.
  intros H. revert after_cased.
  induction H as [|c cs Hc _ IH]; intros after_cased; [by eexists|].
  cbn [app lower_chars].
  destruct (String.eqb_spec c "Σ") as [E|_]; [done|].
  destruct (IH (if is_case_ignorable c then after_cased else is_cased c)) as [st' ->].
  by exists st'.
Qed.

(** [lower] of a text that starts with [p], where [p] has no capital sigma
    and what follows starts a character, starts with [lower p]. *)
Lemma lower_app_prefix p s :
  forallb (λ c, negb (String.eqb c "Σ")) (text_chars p) = true →
  starts_continuation s = false →
  ∃ rest, lower (p +:+ s) = lower p +:+ rest.
Proof.
  intros Hp Hs. unfold lower. rewrite text_chars_app by done.
  assert (Hp' : Forall (λ c, c ≠ "Σ") (text_chars p)).
  { apply Forall_forall. intros c Hc. rewrite forallb_forall in Hp.
    apply list_elem_of_In in Hc. specialize (Hp c Hc).
    by apply negb_true_iff, String.eqb_neq in Hp. }
  destruct (lower_chars_app false (text_chars p) (text_chars s) Hp') as [st' ->].
  rewrite text_join_app. by eexists.
Qed.

End LowerFacts.

(** ** Symbol normaliser *)

Section NormalizerFacts.
Import PyStr.

(** A lookup that succeeds in a dict literal finds one of its items. *)
Lemma name_to_symbol_item k v :
  name_to_symbol !! k = Some v → (k, v) ∈ name_to_symbol_items.
Proof. apply elem_of_list_to_map_2. Qed.

Lemma crypto_mapping_item k v :
  crypto_mapping !! k = Some v → (k, v) ∈ crypto_mapping_items.
Proof. apply elem_of_list_to_map_2. Qed.

(** Splits a membership in a literal list into one goal per item. *)
Ltac each_item H :=
  repeat (apply elem_of_cons in H as [H|H]; [injection H as -> ->|]);
  [..|by apply elem_of_nil in H].

(** Every ticker of either table is left alone by a second pass. *)
Lemma name_ticker_fixed k v :
  name_to_symbol !! k = Some v →
  normalize_symbol (default v (crypto_mapping !! v)) = default v (crypto_mapping !! v).
Proof.
  intros H%name_to_symbol_item. unfold name_to_symbol_items in H.
  each_item H; by vm_compute.
Qed.

Lemma crypto_pair_fixed k v :
  crypto_mapping !! k = Some v → normalize_symbol v = v.
Proof.
  intros H%crypto_mapping_item. unfold crypto_mapping_items in H.
  each_item H; by vm_compute.
Qed.

(** C6. [normalize_symbol] has no error path: every input falls under one
    of three cases, by what [symbol.upper().strip()] is.  An alias of the
    name table gives the table's ticker, with the USD pair when that ticker
    is a crypto ticker (so every alias yields its documented ticker, "TESLA"
    gives "TSLA" and "BITCOIN" gives "BTC-USD"); a crypto ticker typed as
    such gives its USD pair ("btc" gives "BTC-USD"); anything else is
    returned uppercased and trimmed.  Case and whitespace are those of
    Python: a dotless i is an I, an accented letter has its capital, a
    no-break space is trimmed. *)
Theorem normalize_symbol_aliases :
  (∀ raw alias ticker,
     strip (upper raw) = alias →
     name_to_symbol !! alias = Some ticker →
     normalize_symbol raw = default ticker (crypto_mapping !! ticker))
  ∧ (∀ raw pair,
       name_to_symbol !! strip (upper raw) = None →
       crypto_mapping !! strip (upper raw) = Some pair →
       normalize_symbol raw = pair)
  ∧ (∀ raw,
       name_to_symbol !! strip (upper raw) = None →
       crypto_mapping !! strip (upper raw) = None →
       normalize_symbol raw = strip (upper raw))
  ∧ documented_tickers.*1 = name_to_symbol_items.*1
  ∧ Forall (λ p, normalize_symbol p.1 = p.2) documented_tickers
  ∧ Forall (λ p, normalize_symbol (lower p.1) = p.2) documented_tickers
  ∧ Forall (λ p, normalize_symbol p.1 = p.2 ∧ normalize_symbol (lower p.1) = p.2)
      crypto_mapping_items
  ∧ normalize_symbol "APPLE" = "AAPL"
  ∧ normalize_symbol "TESLA" = "TSLA"
  ∧ normalize_symbol "BITCOIN" = "BTC-USD"
  ∧ normalize_symbol "btc" = "BTC-USD"
  ∧ normalize_symbol "ıntel" = "INTC"
  ∧ normalize_symbol " café " = "CAFÉ"
  ∧ normalize_symbol (no_break_space +:+ "aapl") = "AAPL".
Proof.
  split_and!.
  - intros raw alias ticker <- H. unfold normalize_symbol. by rewrite H.
  - intros raw pair H1 H2. unfold normalize_symbol. by rewrite H1, H2.
  - intros raw H1 H2. unfold normalize_symbol. by rewrite H1, H2.
  - done.
  - unfold documented_tickers. repeat (constructor; [by vm_compute|]). constructor.
  - unfold documented_tickers. repeat (constructor; [by vm_compute|]). constructor.
  - unfold crypto_mapping_items.
    repeat (constructor; [split; by vm_compute|]). constructor.
  - by vm_compute.
  - by vm_compute.
  - by vm_compute.
  - by vm_compute.
  - by vm_compute.
  - by vm_compute.
  - by vm_compute.
Qed.

(** The alias clause at the raw text [" tesla "]. *)
Lemma normalize_symbol_aliases_witness : normalize_symbol " tesla " = "TSLA".
Proof.
  destruct normalize_symbol_aliases as (H & _).
  exact (H " tesla " "TESLA" "TSLA" eq_refl eq_refl).
Defined.

(** C10. [normalize_symbol] is idempotent. *)
Theorem normalize_symbol_idempotent s :
  normalize_symbol (normalize_symbol s) = normalize_symbol s.
Proof.
  unfold normalize_symbol at 2 3.
  set (u := strip (upper s)).
  destruct (name_to_symbol !! u) as [t|] eqn:Hn.
  { by apply (name_ticker_fixed u). }
  destruct (crypto_mapping !! u) as [t|] eqn:Hc; simpl.
  { by apply (crypto_pair_fixed u). }
  unfold normalize_symbol. subst u.
  rewrite upper_strip_fixed, Hn. simpl. by rewrite Hc.
Qed.

End NormalizerFacts.

(** ** Rate limiter *)

Section RateLimiterFacts.
Import SimpleCache.
Local Open Scope Q_scope.

Lemma backoff_sleep_nonneg p self now : 0 <= backoff_sleep p self now.
Proof.
  unfold backoff_sleep. destruct (_ !! _); [|lra]. destruct (Qlt_le_dec _ _); lra.
Qed.

Lemma interval_sleep_nonneg p self now : 0 <= interval_sleep p self now.
Proof.
  unfold interval_sleep. destruct (_ !! _); [|lra]. destruct (Qlt_le_dec _ _); lra.
Qed.

(** The clock at return: entry time plus both sleeps. *)
Lemma wait_for_rate_limit_clock p self now :
  (wait_for_rate_limit p self now).2
  == now + backoff_sleep p self now + interval_sleep p self now.
Proof.
  unfold wait_for_rate_limit, backoff_sleep, interval_sleep, sleep. simpl.
  destruct (rate_limit_backoff self !! p) as [b|];
    destruct (last_request_time self !! p) as [l|];
    repeat destruct (Qlt_le_dec _ _); lra.
Qed.

(** With no backoff in the future the code and the specification's
    algorithm are the same function. *)
Lemma wait_for_rate_limit_no_backoff p self now :
  (∀ b, rate_limit_backoff self !! p = Some b → b <= now) →
  wait_for_rate_limit p self now = wait_for_slot_spec p self now.
Proof.
  intros Hb. unfold wait_for_rate_limit, wait_for_slot_spec, sleep.
  destruct (rate_limit_backoff self !! p) as [b|] eqn:E; [|done].
  specialize (Hb b eq_refl).
  destruct (Qlt_le_dec now b); [lra|done].
Qed.

(** C2 (amended). [wait_for_rate_limit] reads the clock once, on entry.  It
    sleeps out a backoff that lies in the future, and then, not instead,
    sleeps out what is missing to the minimum interval since the last
    request, both measured from the entry reading; the clock at return is
    recorded as the last request time, and nothing else changes.  So the
    call never returns before the backoff instant, it returns exactly at
    that instant when the interval check does not fire, it is the
    specification's algorithm when no backoff lies in the future, and after
    [trigger_backoff(p, 60)] at [t0] a call made within the window returns
    no earlier than [t0 + 60]. *)
Theorem wait_for_rate_limit_two_checks p self now :
  let r := wait_for_rate_limit p self now in
  r.2 == now + backoff_sleep p self now + interval_sleep p self now
  ∧ last_request_time r.1 = <[p := r.2]> (last_request_time self)
  ∧ rate_limit_backoff r.1 = rate_limit_backoff self
  ∧ cache r.1 = cache self
  ∧ (∀ b, rate_limit_backoff self !! p = Some b → b <= r.2)
  ∧ ((∀ b, rate_limit_backoff self !! p = Some b → b <= now) →
     r = wait_for_slot_spec p self now)
  ∧ (∀ b, rate_limit_backoff self !! p = Some b → now < b →
     interval_sleep p self now == 0 → r.2 == b)
  ∧ (∀ t0, t0 <= now → now < t0 + 60 →
     t0 + 60 <= (wait_for_rate_limit p (trigger_backoff p 60 self t0) now).2).
Proof.
  intros r. subst r.
  pose proof (wait_for_rate_limit_clock p self now) as Hc.
  pose proof (backoff_sleep_nonneg p self now) as Hb0.
  pose proof (interval_sleep_nonneg p self now) as Hi0.
  split_and!; try done.
  - intros b Hb. rewrite Hc. unfold backoff_sleep in *. rewrite Hb in *.
    destruct (Qlt_le_dec now b); lra.
  - apply wait_for_rate_limit_no_backoff.
  - intros b Hb Hlt Hi. rewrite Hc, Hi. unfold backoff_sleep. rewrite Hb.
    destruct (Qlt_le_dec now b); lra.
  - intros t0 H1 H2. rewrite wait_for_rate_limit_clock.
    pose proof (interval_sleep_nonneg p (trigger_backoff p 60 self t0) now).
    set (i := interval_sleep _ _ _) in *.
    unfold backoff_sleep, trigger_backoff. simpl. rewrite lookup_insert_eq.
    destruct (Qlt_le_dec now (t0 + 60)); lra.
Qed.

(** The backoff clause at a limiter in backoff since time 0, called at 1. *)
Lemma wait_for_rate_limit_two_checks_witness :
  0 + 60 <= (wait_for_rate_limit "twelvedata"
               (trigger_backoff "twelvedata" 60 cache0 0) 1).2.
Proof.
  destruct (wait_for_rate_limit_two_checks "twelvedata" cache0 1)
    as (_ & _ & _ & _ & _ & _ & _ & H).
  apply (H 0); by vm_compute.
Defined.

(** C2, as stated, fails: a request at time 0, a 60-second backoff set at
    time 0, and a call at time 1.  The code sleeps 59 seconds for the backoff
    and then 7 more for the interval, returning at 67; the specification's
    algorithm, whose two branches exclude one another, returns at 60. *)
Lemma wait_for_rate_limit_sleeps_twice :
  backoff_sleep "twelvedata" limiter_in_backoff 1 == 59
  ∧ interval_sleep "twelvedata" limiter_in_backoff 1 == 7
  ∧ (wait_for_rate_limit "twelvedata" limiter_in_backoff 1).2 == 67
  ∧ (wait_for_slot_spec "twelvedata" limiter_in_backoff 1).2 == 60
  ∧ ¬ (wait_for_rate_limit "twelvedata" limiter_in_backoff 1).2 == 60.
Proof. split_and!; by vm_compute. Qed.

End RateLimiterFacts.

(** ** Ordered dicts *)

Section DictFacts.
Context {A : Type}.
Implicit Types (d : list (string * A)) (k : string) (v : A).

Lemma dict_lookup_assign_eq k v d : Dict.lookup k (Dict.assign k v d) = Some v.
Proof.
  induction d as [|[k' v'] d IH]; simpl.
  - by rewrite decide_True.
  - destruct (decide (k' = k)); simpl; [by rewrite decide_True|].
    by rewrite decide_False.
Qed.

Lemma dict_lookup_assign_ne k k' v d :
  k ≠ k' → Dict.lookup k' (Dict.assign k v d) = Dict.lookup k' d.
Proof.
  intros Hne. induction d as [|[k0 v0] d IH]; simpl.
  - by rewrite decide_False.
  - destruct (decide (k0 = k)) as [->|]; simpl.
    + by rewrite !decide_False.
    + by rewrite IH.
Qed.

Lemma dict_length_assign k v d : (length (Dict.assign k v d) ≤ S (length d))%nat.
Proof.
  induction d as [|[k' v'] d IH]; simpl; [lia|].
  destruct (decide (k' = k)); simpl; lia.
Qed.

Lemma dict_lookup_elem_of k v d : Dict.lookup k d = Some v → (k, v) ∈ d.
Proof.
  induction d as [|[k' v'] d IH]; simpl; [done|].
  destruct (decide (k' = k)) as [->|].
  - intros [= ->]. apply elem_of_cons; by left.
  - intros H. apply elem_of_cons; right; auto.
Qed.

Lemma dict_lookup_None k d : Dict.lookup k d = None ↔ k ∉ d.*1.
Proof.
  induction d as [|[k' v'] d IH]; simpl.
  - split; [intros _; apply not_elem_of_nil|done].
  - rewrite not_elem_of_cons. destruct (decide (k' = k)) as [->|]; [|rewrite IH]; intuition congruence.
Qed.

(** In a dict (one item per key) an item is what its key looks up. *)
Lemma dict_elem_of_lookup k v d : NoDup d.*1 → (k, v) ∈ d → Dict.lookup k d = Some v.
Proof.
  induction d as [|[k' v'] d IH]; simpl.
  - intros _ H. by apply elem_of_nil in H.
  - intros [Hk Hd]%NoDup_cons [[= -> ->]|H]%elem_of_cons.
    + by rewrite decide_True.
    + rewrite decide_False; [auto|]. intros ->. apply Hk.
      apply list_elem_of_fmap. by exists (k, v).
Qed.

Lemma dict_lookup_remove_eq k d : Dict.lookup k (Dict.remove k d) = None.
Proof.
  apply dict_lookup_None. unfold Dict.remove.
  intros ([k' v] & -> & [H _]%list_elem_of_filter)%list_elem_of_fmap. done.
Qed.

(** The deletion loop keeps exactly the items whose key is not listed. *)
Lemma dict_remove_all_filter ks d :
  Dict.remove_all ks d = filter (λ it, it.1 ∉ ks) d.
Proof.
  revert d. induction ks as [|k ks IH]; intros d; simpl.
  - induction d as [|x d IHd]; [done|].
    rewrite filter_cons_True by apply not_elem_of_nil. by rewrite <- IHd at 1.
  - unfold Dict.remove_all in *. simpl. rewrite IH. unfold Dict.remove.
    rewrite list_filter_filter. apply list_filter_iff.
    intros x. rewrite not_elem_of_cons. tauto.
Qed.

Lemma dict_remove_all_length ks d : (length (Dict.remove_all ks d) ≤ length d)%nat.
Proof. rewrite dict_remove_all_filter. apply length_filter. Qed.

Lemma dict_remove_all_NoDup ks d : NoDup d.*1 → NoDup (Dict.remove_all ks d).*1.
Proof.
  rewrite dict_remove_all_filter. induction d as [|[k v] d IH]; [done|].
  simpl. intros [Hk Hd]%NoDup_cons. rewrite filter_cons.
  destruct (decide _); simpl; [|auto].
  apply NoDup_cons. split; [|auto].
  intros ([k' v'] & ? & [_ H]%list_elem_of_filter)%list_elem_of_fmap.
  simpl in *; subst. apply Hk. apply list_elem_of_fmap. by exists (k', v').
Qed.

End DictFacts.

(** ** [IntelligentCache]: the eviction order *)

Section RankFacts.
Import IntelligentCache.
Local Open Scope Q_scope.

Lemma rank_le_spec x y :
  ranks_below x y ↔
  (access_count x.2 < access_count y.2)%Z
  ∨ (access_count x.2 = access_count y.2 ∧ last_access x.2 <= last_access y.2).
Proof.
  unfold ranks_below, rank_le.
  repeat case_decide; try destruct (Qlt_le_dec _ _);
    intuition (try discriminate; try lia; try lra).
Qed.

Lemma ranks_below_total x y : ranks_below x y ∨ ranks_below y x.
Proof.
  rewrite !rank_le_spec.
  destruct (Z.lt_trichotomy (access_count x.2) (access_count y.2)) as [?|[?|?]];
    [auto| |auto].
  destruct (Qlt_le_dec (last_access y.2) (last_access x.2)).
  - right; right. split; [done|lra].
  - left; right. done.
Qed.

Lemma ranks_below_trans x y z : ranks_below x y → ranks_below y z → ranks_below x z.
Proof.
  rewrite !rank_le_spec. intros [?|[? ?]] [?|[? ?]]; try (left; lia).
  right. split; [lia|lra].
Qed.

Lemma insert_by_rank_perm x l : insert_by_rank x l ≡ₚ x :: l.
Proof.
  induction l as [|y l IH]; simpl; [done|].
  destruct (rank_le x y); [done|]. rewrite IH. apply Permutation_swap.
Qed.

Lemma sorted_by_rank_perm l : sorted_by_rank l ≡ₚ l.
Proof.
  induction l as [|x l IH]; simpl; [done|].
  rewrite insert_by_rank_perm. by rewrite IH.
Qed.

Lemma insert_by_rank_sorted x l :
  StronglySorted ranks_below l → StronglySorted ranks_below (insert_by_rank x l).
Proof.
  induction l as [|y l IH]; simpl; intros Hs.
  - repeat constructor.
  - apply StronglySorted_cons in Hs as [Hy Hl].
    destruct (rank_le x y) eqn:E.
    + apply StronglySorted_cons. split.
      * constructor; [done|].
        eapply Forall_impl; [exact Hy|]. intros z. by apply ranks_below_trans.
      * by apply StronglySorted_cons.
    + apply StronglySorted_cons. split; [|auto].
      rewrite insert_by_rank_perm. constructor; [|done].
      destruct (ranks_below_total x y) as [H|H]; [|done].
      unfold ranks_below in H. congruence.
Qed.

Lemma sorted_by_rank_sorted l : StronglySorted ranks_below (sorted_by_rank l).
Proof.
  induction l as [|x l IH]; simpl; [constructor|]. by apply insert_by_rank_sorted.
Qed.

End RankFacts.

(** ** [IntelligentCache]: cleanup *)

Section CleanupFacts.
Import IntelligentCache.
Local Open Scope Q_scope.

Lemma is_expired_spec e now :
  is_expired e now = true ↔ inject_Z (ttl e) < now - timestamp e.
Proof.
  unfold is_expired. destruct (Qlt_le_dec _ _); split; try done. lra.
Qed.

(** The 80% test and the 20% count, in integers. *)
Lemma over_four_fifths (max_size : Z) (n : nat) :
  inject_Z max_size * 0.8 < inject_Z (Z.of_nat n) ↔ (4 * max_size < 5 * Z.of_nat n)%Z.
Proof. unfold Qlt, Qmult, inject_Z. cbn [Qnum Qden]. lia. Qed.

Lemma one_fifth (n : nat) :
  int_of_float (inject_Z (Z.of_nat n) * 0.2) = (Z.of_nat n / 5)%Z.
Proof.
  unfold int_of_float, Qmult, inject_Z. cbn [Qnum Qden].
  rewrite Z.quot_div_nonneg by lia.
  change (Z.pos (1 * 10)) with (5 * 2)%Z. apply Z.div_mul_cancel_r; lia.
Qed.

(** After the purge no entry is expired. *)
Lemma purge_no_expired self now it :
  it ∈ Dict.remove_all (expired_keys self now) (cache self) →
  is_expired it.2 now = false.
Proof.
  rewrite dict_remove_all_filter. intros [Hk Hin]%list_elem_of_filter.
  destruct (is_expired it.2 now) eqn:E; [|done].
  exfalso. apply Hk. unfold expired_keys.
  apply list_elem_of_fmap. exists it. split; [done|].
  by apply list_elem_of_filter.
Qed.

(** Two filters agree on a list when their tests agree on its elements. *)
Lemma filter_agree {A} (P1 P2 : A → Prop)
    `{!∀ x, Decision (P1 x), !∀ x, Decision (P2 x)} (l : list A) :
  (∀ x, x ∈ l → P1 x ↔ P2 x) → filter P1 l = filter P2 l.
Proof.
  induction l as [|x l IH]; intros Hag; [done|].
  rewrite !filter_cons.
  assert (P1 x ↔ P2 x) by (apply Hag, elem_of_cons; by left).
  rewrite IH by (intros y Hy; apply Hag, elem_of_cons; by right).
  repeat case_decide; tauto || done.
Qed.

Lemma filter_none {A} (P : A → Prop) `{!∀ x, Decision (P x)} (l : list A) :
  (∀ x, x ∈ l → ¬ P x) → filter P l = [].
Proof.
  induction l as [|x l IH]; intros Hno; [done|].
  rewrite filter_cons_False by (apply Hno, elem_of_cons; by left).
  apply IH. intros y Hy. apply Hno, elem_of_cons. by right.
Qed.

(** The purge removes nothing else: a dict loses exactly its expired items. *)
Lemma purge_filter self now :
  NoDup (cache self).*1 →
  Dict.remove_all (expired_keys self now) (cache self)
  = filter (λ it, is_expired it.2 now = false) (cache self).
Proof.
  intros Hnd. rewrite dict_remove_all_filter. unfold expired_keys.
  apply filter_agree. intros [k e] Hin. simpl. split.
  - intros Hk. destruct (is_expired e now) eqn:E; [|done]. exfalso. apply Hk.
    apply list_elem_of_fmap. exists (k, e). split; [done|].
    by apply list_elem_of_filter.
  - intros E ([k' e'] & ? & [E' Hin']%list_elem_of_filter)%list_elem_of_fmap.
    simpl in *; subst k'.
    apply (dict_elem_of_lookup _ _ _ Hnd) in Hin, Hin'. congruence.
Qed.

Lemma evicted_keys_length (max_size : Z) d :
  length (evicted_keys max_size d)
  = if decide (4 * max_size < 5 * Z.of_nat (length d))%Z
    then Z.to_nat (Z.of_nat (length d) / 5) else 0%nat.
Proof.
  unfold evicted_keys.
  destruct (Qlt_le_dec _ _) as [H|H]; case_decide as Hd.
  - rewrite length_fmap, length_take, (Permutation_length (sorted_by_rank_perm d)).
    rewrite one_fifth. apply Nat.min_l.
    apply Nat2Z.inj_le. rewrite Z2Nat.id by (apply Z.div_pos; lia).
    apply Z.div_le_upper_bound; lia.
  - apply over_four_fifths in H. lia.
  - exfalso. apply over_four_fifths in Hd. lra.
  - done.
Qed.

(** Each evicted key takes at least one item with it. *)
Lemma eviction_shrinks (max_size : Z) d :
  (length (Dict.remove_all (evicted_keys max_size d) d)
   + length (evicted_keys max_size d) ≤ length d)%nat.
Proof.
  rewrite dict_remove_all_filter. unfold evicted_keys.
  destruct (Qlt_le_dec _ _) as [H|H];
    [|change (length []) with 0%nat; rewrite Nat.add_0_r; apply length_filter].
  set (k := Z.to_nat _). set (s := sorted_by_rank d).
  set (P := λ it : string * CacheEntry, it.1 ∉ (take k s).*1).
  assert (Hp : s ≡ₚ d) by apply sorted_by_rank_perm.
  assert (Hf : filter P d ≡ₚ filter P s) by (by rewrite Hp).
  rewrite (Permutation_length Hf), <- (Permutation_length Hp), length_fmap.
  rewrite <- (take_drop k s) at 1 3. rewrite filter_app, !length_app.
  assert (filter P (take k s) = []) as ->.
  { apply filter_none. intros x Hx HP. apply HP.
    by apply (list_elem_of_fmap_2 fst). }
  pose proof (length_filter P (drop k s)). simpl. lia.
Qed.

End CleanupFacts.

(** ** [IntelligentCache]: [get] and [set] *)

Section IntelligentCacheFacts.
Import IntelligentCache.
Local Open Scope Q_scope.
Context {Args : Type} (args_text : Args → string).

Local Abbreviation get := (IntelligentCache.get args_text).
Local Abbreviation set := (IntelligentCache.set args_text).
Local Abbreviation key := (IntelligentCache._generate_key args_text).

(** The evicted entries are the lowest ranked ones. *)
Lemma eviction_lowest (max_size : Z) d x y :
  NoDup d.*1 → x ∈ d → x.1 ∈ evicted_keys max_size d →
  y ∈ Dict.remove_all (evicted_keys max_size d) d → ranks_below x y.
Proof.
  intros Hnd Hx Hk Hy. rewrite dict_remove_all_filter in Hy.
  apply list_elem_of_filter in Hy as [Hyk Hy]. revert Hk Hyk.
  unfold evicted_keys. destruct (Qlt_le_dec _ _) as [_|_];
    [|by intros ?%elem_of_nil].
  set (k := Z.to_nat _). set (s := sorted_by_rank d). intros Hk Hyk.
  assert (Hp : s ≡ₚ d) by apply sorted_by_rank_perm.
  assert (Hs : StronglySorted ranks_below (take k s ++ drop k s)).
  { rewrite take_drop. apply sorted_by_rank_sorted. }
  apply (StronglySorted_app_1_elem_of _ _ _ _ _ Hs).
  - apply list_elem_of_fmap in Hk as ([k' e'] & Hk' & Hin). simpl in Hk'.
    assert (Hd : (k', e') ∈ d).
    { rewrite <- Hp. rewrite <- (take_drop k s). apply elem_of_app. by left. }
    destruct x as [kx ex]. simpl in *. subst k'.
    apply (dict_elem_of_lookup _ _ _ Hnd) in Hd, Hx.
    by replace ex with e' by congruence.
  - rewrite <- Hp, <- (take_drop k s) in Hy. apply elem_of_app in Hy as [Hy|Hy]; [|done].
    exfalso. apply Hyk. by apply (list_elem_of_fmap_2 fst).
Qed.

(** [set] never overfills a cache of capacity 5 or more. *)
Lemma set_within_capacity ns v ttl args self now :
  (5 <= max_size self)%Z → (len self <= max_size self)%Z →
  (len (set ns v ttl args self now) <= max_size (set ns v ttl args self now))%Z.
Proof.
  intros H5 Hlen. unfold IntelligentCache.set, len in *.
  case_decide as Hfull; simpl.
  - set (d1 := Dict.remove_all _ (cache self)).
    pose proof (dict_length_assign (key ns args) (mkEntry v now ttl 0 now)
                  (Dict.remove_all (evicted_keys (max_size self) d1) d1)) as Ha.
    pose proof (eviction_shrinks (max_size self) d1) as Hs.
    pose proof (evicted_keys_length (max_size self) d1) as He.
    pose proof (dict_remove_all_length (expired_keys self now) (cache self)) as Hp.
    fold d1 in Hp. case_decide as Hover.
    + assert (5 <= Z.of_nat (length d1))%Z by lia.
      assert (1 <= Z.of_nat (length d1) / 5)%Z by (apply Z.div_le_lower_bound; lia).
      lia.
    + lia.
  - pose proof (dict_length_assign (key ns args) (mkEntry v now ttl 0 now) (cache self)).
    lia.
Qed.

(** The entry of a [set] is in the cache when [set] returns. *)
Lemma set_stores ns v ttl args self now :
  Dict.lookup (key ns args) (cache (set ns v ttl args self now))
  = Some (mkEntry v now ttl 0 now).
Proof. unfold IntelligentCache.set. simpl. apply dict_lookup_assign_eq. Qed.

(** C3 (amended). With a capacity of 5 or more, [set] on a cache of at most
    [max_size] entries leaves at most [max_size] entries.  A cache below
    capacity just receives the entry.  A cache that has reached capacity is
    first cleaned: the expired entries are purged (all of them and, in a
    dict, nothing else); if more than 80% of [max_size] remain, one fifth of
    those (rounded down) is evicted, none otherwise; every evicted entry
    ranks no higher than every entry kept, in the order by access count and
    then last access; and the entry being set is in the cache afterwards. *)
Theorem set_cleanup_capacity ns v ttl args self now :
  let purged := Dict.remove_all (expired_keys self now) (cache self) in
  let victims := evicted_keys (max_size self) purged in
  let entry := mkEntry v now ttl 0 now in
  let self' := set ns v ttl args self now in
  ((5 <= max_size self)%Z → (len self <= max_size self)%Z →
   (len self' <= max_size self')%Z)
  ∧ ((len self < max_size self)%Z →
     cache self' = Dict.assign (key ns args) entry (cache self))
  ∧ ((len self >= max_size self)%Z →
     cache self' = Dict.assign (key ns args) entry (Dict.remove_all victims purged))
  ∧ (∀ it, it ∈ purged → is_expired it.2 now = false)
  ∧ (NoDup (cache self).*1 →
     purged = filter (λ it, is_expired it.2 now = false) (cache self))
  ∧ length victims
    = (if decide (4 * max_size self < 5 * Z.of_nat (length purged))%Z
       then Z.to_nat (Z.of_nat (length purged) / 5) else 0%nat)
  ∧ (NoDup (cache self).*1 → ∀ x y,
     x ∈ purged → x.1 ∈ victims → y ∈ Dict.remove_all victims purged →
     ranks_below x y)
  ∧ Dict.lookup (key ns args) (cache self') = Some entry.
Proof.
  intros purged victims entry self'. split_and!.
  - apply set_within_capacity.
  - intros Hlt. subst self'. unfold IntelligentCache.set.
    by rewrite decide_False by lia.
  - intros Hge. subst self'. unfold IntelligentCache.set.
    by rewrite decide_True by lia.
  - apply purge_no_expired.
  - apply purge_filter.
  - apply evicted_keys_length.
  - intros Hnd x y. apply eviction_lowest. by apply dict_remove_all_NoDup.
  - apply set_stores.
Qed.

(** What [get] does with the entry it finds. *)
Lemma get_found ns args self now e :
  Dict.lookup (key ns args) (cache self) = Some e →
  (inject_Z (ttl e) < now - timestamp e →
   (get ns args self now).1 = VNone
   ∧ Dict.lookup (key ns args) (cache (get ns args self now).2) = None)
  ∧ (now - timestamp e <= inject_Z (ttl e) →
     (get ns args self now).1 = data e
     ∧ Dict.lookup (key ns args) (cache (get ns args self now).2)
       = Some (touch e now)).
Proof.
  intros He. unfold IntelligentCache.get. rewrite He. unfold is_expired.
  destruct (Qlt_le_dec _ _); simpl; split; intros ?; try lra.
  - split; [done|]. apply dict_lookup_remove_eq.
  - split; [done|]. apply dict_lookup_assign_eq.
Qed.

(** C4 (amended). An entry is visible while [now - timestamp <= ttl]: a
    [get] made when more than [ttl] seconds have passed since the [set]
    returns [None] and removes the entry; a [get] made up to and including
    [ttl] seconds after the [set] returns the value. *)
Theorem get_after_ttl ns v ttl args self t0 t1 :
  let cached := set ns v ttl args self t0 in
  (inject_Z ttl < t1 - t0 →
   (get ns args cached t1).1 = VNone
   ∧ Dict.lookup (key ns args) (cache (get ns args cached t1).2) = None)
  ∧ (t1 - t0 <= inject_Z ttl → (get ns args cached t1).1 = v).
Proof.
  intros cached.
  destruct (get_found ns args cached t1 _ (set_stores ns v ttl args self t0))
    as [Hexp Hlive].
  split; [exact Hexp|]. intros H. by apply Hlive.
Qed.

(** C5. [set] followed at once by [get], for a positive [ttl], returns the
    value that was set. *)
Theorem set_get_roundtrip ns v ttl args self now :
  (0 < ttl)%Z → (get ns args (set ns v ttl args self now) now).1 = v.
Proof.
  intros Httl.
  destruct (get_found ns args (set ns v ttl args self now) now _
              (set_stores ns v ttl args self now)) as [_ Hlive].
  apply Hlive. cbn [IntelligentCache.ttl IntelligentCache.timestamp].
  assert (0 < inject_Z ttl) by (change 0 with (inject_Z 0); by rewrite <- Zlt_Qlt).
  lra.
Qed.

End IntelligentCacheFacts.

Section CacheExampleFacts.
Import IntelligentCache CacheExamples.
Local Open Scope Q_scope.

(** The capacity clause at the module's own cache size, on an empty cache. *)
Lemma set_cleanup_capacity_witness :
  (len (set one_str_arg "stock" (VStr "AAPL") 300 "AAPL" (init 1000) 0)
   <= max_size (set one_str_arg "stock" (VStr "AAPL") 300 "AAPL" (init 1000) 0))%Z.
Proof.
  destruct (set_cleanup_capacity one_str_arg "stock" (VStr "AAPL") 300 "AAPL"
              (init 1000) 0) as (H & _).
  apply H; by vm_compute.
Defined.

(** C3, as stated, fails twice.  A cache of capacity 1 holds two entries
    after two [set]s.  And in a cache of capacity 5 whose entry "e" is the
    one accessed last (read at time 4, the others at time 2) but least often,
    the next [set] evicts exactly that entry. *)
Lemma set_evicts_most_recent :
  max_size tiny_cache = 1%Z ∧ len tiny_cache = 2%Z
  ∧ (access_count <$> (cache busy_cache).*2) = [2; 2; 2; 2; 1]%Z
  ∧ (last_access <$> (cache busy_cache).*2) = [2; 2; 2; 2; 4]
  ∧ (get one_str_arg "ns" "e" busy_cache 5).1 = VStr "e"
  ∧ evictions (stats (set one_str_arg "ns" (VStr "f") 100 "f" busy_cache 5)) = 1%Z
  ∧ (get one_str_arg "ns" "e"
       (set one_str_arg "ns" (VStr "f") 100 "f" busy_cache 5) 5).1 = VNone
  ∧ (data <$> (cache (set one_str_arg "ns" (VStr "f") 100 "f" busy_cache 5)).*2)
    = [VStr "a"; VStr "b"; VStr "c"; VStr "d"; VStr "f"].
Proof. split_and!; by vm_compute. Qed.

(** The expiry clause one second after the entry's time to live. *)
Lemma get_after_ttl_witness :
  (get one_str_arg "ns" "a"
     (set one_str_arg "ns" (VStr "a") 10 "a" (init 5) 0) 11).1 = VNone.
Proof.
  destruct (get_after_ttl one_str_arg "ns" (VStr "a") 10 "a" (init 5) 0 11) as [H _].
  apply H. by vm_compute.
Defined.

(** C4, as stated, fails at the boundary: an entry set at time 0 with a
    time to live of 10 seconds is still returned, and still stored, by a
    [get] at time 10. *)
Lemma get_at_ttl_still_cached :
  (get one_str_arg "ns" "a"
     (set one_str_arg "ns" (VStr "a") 10 "a" (init 5) 0) 10).1 = VStr "a"
  ∧ len (get one_str_arg "ns" "a"
           (set one_str_arg "ns" (VStr "a") 10 "a" (init 5) 0) 10).2 = 1%Z
  ∧ inject_Z 10 <= 10 - 0.
Proof. split_and!; by vm_compute. Qed.

(** The round trip on the module's cache. *)
Lemma set_get_roundtrip_witness :
  (0 < 300)%Z
  ∧ (get one_str_arg "stock" "AAPL"
       (set one_str_arg "stock" (VStr "AAPL") 300 "AAPL" (init 1000) 0) 0).1
    = VStr "AAPL".
Proof.
  split; [lia|].
  apply (set_get_roundtrip one_str_arg "stock" (VStr "AAPL") 300 "AAPL" (init 1000) 0).
  lia.
Defined.

(** [hashlib.md5] on known digests. *)
Lemma md5_known_digests :
  MD5.hexdigest EmptyString = "d41d8cd98f00b204e9800998ecf8427e"
  ∧ MD5.hexdigest "abc" = "900150983cd24fb0d6963f7d28e17f72"
  ∧ _generate_key one_str_arg "stock" "AAPL" = "d82afd6e7d7b8839bed1aee96089c47b".
Proof. split_and!; by vm_compute. Qed.

End CacheExampleFacts.

(** ** Fetch layer: what the adapters return *)

(** Inverts [H : <computation> = Ok r], one bind, test or match at a time. *)
Ltac ok_step H :=
  match type of H with
  | mbind _ ?r = Ok _ =>
      let E := fresh "E" in
      destruct r eqn:E; cbn [mbind result_bind bind_result] in H; [|discriminate H]
  | (if ?b then _ else _) = Ok _ => destruct b eqn:?; try discriminate H
  | match ?x with _ => _ end = Ok _ => destruct x eqn:?; try discriminate H
  end.

Ltac ok_inv H :=
  repeat ok_step H;
  try (cbn [mret result_ret] in H; injection H as <-).

Section BuilderFacts.
Context (rt : Runtime).

Lemma twelve_quote_record ns data r :
  twelve_quote rt ns data = Ok r →
  is_quote_record r = true
  ∧ ∃ d, r = VDict d ∧ Forall (λ k, Dict.has k d = true) session_keys.
Proof.
  unfold twelve_quote. intros H. ok_inv H.
  split; [done|]. eexists; split; [done|]. by repeat constructor.
Qed.

Lemma alphavantage_crypto_daily_record ns cs data r :
  alphavantage_crypto_daily rt ns cs data = Ok r → is_quote_record r = true.
Proof. unfold alphavantage_crypto_daily. intros H. by ok_inv H. Qed.

Lemma alphavantage_exchange_rate_record ns cs data r :
  alphavantage_exchange_rate rt ns cs data = Ok r → is_quote_record r = true.
Proof. unfold alphavantage_exchange_rate. intros H. by ok_inv H. Qed.

Lemma alphavantage_global_quote_record ns data r :
  alphavantage_global_quote rt ns data = Ok r → is_quote_record r = true.
Proof. unfold alphavantage_global_quote. intros H. by ok_inv H. Qed.

Lemma alphavantage_daily_record ns data r :
  alphavantage_daily rt ns data = Ok r → is_quote_record r = true.
Proof. unfold alphavantage_daily. intros H. by ok_inv H. Qed.

Lemma fmp_price_record_record ns data r :
  fmp_price_record rt ns data = Ok r → is_quote_record r = true.
Proof. unfold fmp_price_record. intros H. by ok_inv H. Qed.

Lemma fmp_quote_record_record ns quote r :
  fmp_quote_record rt ns quote = Ok r → is_quote_record r = true.
Proof. unfold fmp_quote_record. intros H. by ok_inv H. Qed.

End BuilderFacts.

Section KeepsFacts.
Context (upstream : Upstream).

Lemma keeps_ret {A} (a : A) (post : A → Prop) : post a → keeps (mret a) post.
Proof. by intros Ha w Hw. Qed.

Lemma keeps_raise {A} e (post : A → Prop) : keeps (raise e) post.
Proof. by intros w Hw. Qed.

Lemma keeps_bind {A B} (m : M A) (k : A → M B) (P : A → Prop) (Q : B → Prop) :
  keeps m P → (∀ a, P a → keeps (k a) Q) → keeps (x ← m; k x) Q.
Proof.
  intros Hm Hk w Hw. specialize (Hm w Hw).
  unfold mbind, M_bind, bind. destruct (m w) as [[a|e] w']; [|done].
  destruct Hm as [Hw' Ha]. by apply Hk.
Qed.

Lemma keeps_lift {A} (r : result A) (post : A → Prop) :
  (∀ a, r = Ok a → post a) → keeps (lift r) post.
Proof. intros Hr w Hw. unfold lift. destruct r; [split; auto|done]. Qed.

Lemma keeps_call {A} (f : World → A * World) (post : A → Prop) :
  keeps_total f post → keeps (call f) post.
Proof.
  intros Hf w Hw. specialize (Hf w Hw). unfold call. by destruct (f w).
Qed.

Lemma keeps_weaken {A} (m : M A) (P Q : A → Prop) :
  keeps m P → (∀ a, P a → Q a) → keeps m Q.
Proof.
  intros Hm HPQ w Hw. specialize (Hm w Hw).
  destruct (m w) as [[a|e] w']; [|done]. destruct Hm. auto.
Qed.

Lemma keeps_try {A} (body : M A) handler (post : A → Prop) :
  keeps body post → (∀ e, keeps_total (handler e) post) →
  keeps_total (try_except body handler) post.
Proof.
  intros Hb Hh w Hw. specialize (Hb w Hw). unfold try_except.
  destruct (body w) as [[a|e] w']; [done|]. by apply Hh.
Qed.

Lemma keeps_requests_get u p : keeps (requests_get upstream u p) (λ _, True).
Proof. intros w Hw. unfold requests_get. by destruct (upstream _ _). Qed.

(** A hit under a stock key is a record. *)
Lemma keeps_cache_get key :
  PyStr.startswith "stock_" key = true →
  keeps_total (cache_get key) (λ v, truthy v = true → is_quote_record v = true).
Proof.
  intros Hkey w Hw. unfold cache_get, SimpleCache.get.
  destruct (SimpleCache.cache (cache w) !! key) as [[data ts]|] eqn:E; simpl.
  - destruct (Qlt_le_dec _ _); simpl.
    + split; [done|]. intros _. by apply (Hw key data ts).
    + split; [|done]. intros k v t Hk. simpl in Hk.
      apply lookup_delete_Some in Hk as [_ Hk]. by apply (Hw k v t).
  - done.
Qed.

Lemma keeps_cache_set key v :
  (PyStr.startswith "stock_" key = true → is_quote_record v = true) →
  keeps_total (cache_set key v) (λ _, True).
Proof.
  intros Hv w Hw. split; [|done]. intros k v' t Hk Hp. simpl in Hk.
  apply lookup_insert_Some in Hk as [[<- [= <- <-]]|[_ Hk]]; [auto|].
  by apply (Hw k v' t).
Qed.

Lemma keeps_wait_for_rate_limit api_name :
  keeps_total (cache_wait_for_rate_limit api_name) (λ _, True).
Proof. intros w Hw. split; [|done]. exact Hw. Qed.

Lemma keeps_trigger_backoff api_name seconds :
  keeps_total (cache_trigger_backoff api_name seconds) (λ _, True).
Proof. intros w Hw. split; [|done]. exact Hw. Qed.

End KeepsFacts.

(** One step of a proof that a piece of an adapter keeps the invariant. *)
Ltac keeps_step :=
  match goal with
  | |- keeps (mbind _ (requests_get _ _ _)) _ =>
      eapply keeps_bind; [apply keeps_requests_get | intros ? _]
  | |- keeps (mbind _ (lift _)) _ =>
      eapply keeps_bind; [by apply keeps_lift with (post := λ _, True) | intros ? _]
  | |- keeps (raise _) _ => apply keeps_raise
  | |- keeps (match ?x with _ => _ end) _ => destruct x
  | |- keeps (if ?b then _ else _) _ => destruct b
  | |- keeps (lift _) _ => apply keeps_lift; intros ? ?
  end.

Section AdapterFacts.
Context (rt : Runtime) (environ : gmap string string) (upstream : Upstream).

Lemma quote_record_stock_result v : is_quote_record v = true → is_stock_result v = true.
Proof.
  intros H. unfold is_stock_result.
  destruct v as [| | | | | |d]; try done.
  destruct d as [|[k x] d]; [done|].
  destruct (decide (k = "error")) as [->|Hk].
  - by vm_compute in H.
  - assert (String.eqb k "error" = false) by by apply String.eqb_neq.
    repeat (match goal with
            | |- match ?s with _ => _ end = _ => destruct s; try done
            | |- (if ?b then _ else _) = _ => destruct b; try done
            end).
Qed.

Lemma alphavantage_crypto_keeps ns api_key :
  keeps (alphavantage_crypto rt upstream ns api_key) (λ r, is_quote_record r = true).
Proof.
  unfold alphavantage_crypto. repeat keeps_step.
  - by eapply alphavantage_crypto_daily_record.
  - by eapply alphavantage_exchange_rate_record.
Qed.

Lemma alphavantage_stock_keeps ns api_key :
  keeps (alphavantage_stock rt upstream ns api_key) (λ r, is_quote_record r = true).
Proof.
  unfold alphavantage_stock. repeat keeps_step.
  - by eapply alphavantage_global_quote_record.
  - by eapply alphavantage_daily_record.
Qed.

Lemma alphavantage_try_keeps cache_key ns :
  keeps (alphavantage_try rt environ upstream cache_key ns)
        (λ r, is_stock_result r = true).
Proof.
  unfold alphavantage_try. destruct (negb _); [by apply keeps_ret|].
  eapply keeps_bind.
  { destruct (PyStr.endswith _ _);
      [apply alphavantage_crypto_keeps|apply alphavantage_stock_keeps]. }
  intros r Hr. eapply keeps_bind.
  { apply keeps_call, keeps_cache_set. by intros _. }
  intros _ _. apply keeps_ret. by apply quote_record_stock_result.
Qed.

Lemma alphavantage_except_keeps symbol e :
  keeps_total (alphavantage_except rt symbol e) (λ r, is_stock_result r = true).
Proof.
  intros w Hw. unfold alphavantage_except.
  repeat (match goal with |- context [if ?b then _ else _] => destruct b end);
    by split.
Qed.

(** [get_stock_data_alphavantage] returns an error result or a record. *)
Lemma alphavantage_keeps symbol :
  keeps_total (get_stock_data_alphavantage rt environ upstream symbol)
              (λ r, is_stock_result r = true).
Proof.
  intros w Hw. unfold get_stock_data_alphavantage.
  pose proof (keeps_cache_get ("stock_av_" +:+ PyStr.upper symbol) eq_refl w Hw) as Hc.
  destruct (cache_get _ w) as [cached w1]. simpl in Hc. destruct Hc as [Hw1 Hc].
  destruct (truthy cached).
  { split; [done|]. simpl. by apply quote_record_stock_result, Hc. }
  pose proof (keeps_wait_for_rate_limit "alphavantage" w1 Hw1) as [Hw2 _].
  destruct (cache_wait_for_rate_limit _ w1) as [[] w2]. simpl in Hw2.
  exact (keeps_try _ _ _ (alphavantage_try_keeps _ _)
           (alphavantage_except_keeps symbol) w2 Hw2).
Qed.

Lemma fmp_try_keeps symbol cache_key ns :
  keeps (fmp_try rt environ upstream symbol cache_key ns)
        (λ r, is_stock_result r = true).
Proof.
  assert (Hfb : keeps (call (get_stock_data_alphavantage rt environ upstream symbol))
                      (λ r, is_stock_result r = true))
    by apply keeps_call, alphavantage_keeps.
  assert (Hstore : ∀ build : result value,
            (∀ r, build = Ok r → is_quote_record r = true) →
            keeps (stock_data ← lift build;
                   _ ← call (cache_set cache_key stock_data);
                   mret stock_data)
                  (λ r, is_stock_result r = true)).
  { intros build Hb. eapply keeps_bind; [apply keeps_lift, Hb|].
    intros r Hr. eapply keeps_bind.
    { apply keeps_call, keeps_cache_set. by intros _. }
    intros _ _. apply keeps_ret. by apply quote_record_stock_result. }
  unfold fmp_try. destruct (negb _); [exact Hfb|].
  eapply keeps_bind; [apply keeps_requests_get|intros response _].
  repeat (match goal with
          | |- keeps (call _) _ => exact Hfb
          | |- keeps (mbind _ (lift (fmp_price_record _ _ _))) _ =>
              apply Hstore, fmp_price_record_record
          | |- keeps (mbind _ (lift (fmp_quote_record _ _ _))) _ =>
              apply Hstore, fmp_quote_record_record
          | |- _ => keeps_step
          end).
Qed.

(** [get_stock_data_fmp] returns an error result or a record. *)
Lemma fmp_keeps symbol :
  keeps_total (get_stock_data_fmp rt environ upstream symbol)
              (λ r, is_stock_result r = true).
Proof.
  intros w Hw. unfold get_stock_data_fmp.
  pose proof (keeps_cache_get ("stock_fmp_" +:+ PyStr.upper symbol) eq_refl w Hw) as Hc.
  destruct (cache_get _ w) as [cached w1]. simpl in Hc. destruct Hc as [Hw1 Hc].
  destruct (truthy cached).
  { split; [done|]. simpl. by apply quote_record_stock_result, Hc. }
  pose proof (keeps_wait_for_rate_limit "fmp" w1 Hw1) as [Hw2 _].
  destruct (cache_wait_for_rate_limit _ w1) as [[] w2]. simpl in Hw2.
  exact (keeps_try _ _ _ (fmp_try_keeps _ _ _)
           (λ _, alphavantage_keeps symbol) w2 Hw2).
Qed.

End AdapterFacts.

Section OrchestratorFacts.
Context (rt : Runtime) (environ : gmap string string) (upstream : Upstream).

Local Abbreviation alphavantage := (get_stock_data_alphavantage rt environ upstream).
Local Abbreviation twelve := (get_stock_data_twelve rt environ upstream).
Local Abbreviation fmp := (get_stock_data_fmp rt environ upstream).

Lemma twelve_try_keeps symbol cache_key ns :
  keeps (twelve_try rt environ upstream symbol cache_key ns)
        (λ r, is_stock_result r = true).
Proof.
  assert (Hfb : keeps (call (alphavantage symbol)) (λ r, is_stock_result r = true))
    by apply keeps_call, alphavantage_keeps.
  unfold twelve_try. eapply keeps_bind; [apply keeps_requests_get|intros response _].
  repeat (match goal with
          | |- keeps (call _) _ => exact Hfb
          | |- keeps (mbind _ (lift (twelve_quote _ _ _))) _ => fail 1
          | |- _ => keeps_step
          end).
  eapply keeps_bind.
  { apply keeps_lift. intros r Hr.
    exact (proj1 (twelve_quote_record rt _ _ _ Hr)). }
  intros r Hr. eapply keeps_bind.
  { apply keeps_call, keeps_cache_set. by intros _. }
  intros _ _. apply keeps_ret. by apply quote_record_stock_result.
Qed.

(** [get_stock_data_twelve] returns an error result or a record. *)
Lemma twelve_keeps symbol :
  keeps_total (twelve symbol) (λ r, is_stock_result r = true).
Proof.
  intros w Hw. unfold get_stock_data_twelve.
  pose proof (keeps_cache_get ("stock_twelve_" +:+ PyStr.upper symbol) eq_refl w Hw) as Hc.
  destruct (cache_get _ w) as [cached w1]. simpl in Hc. destruct Hc as [Hw1 Hc].
  destruct (truthy cached).
  { split; [done|]. simpl. by apply quote_record_stock_result, Hc. }
  pose proof (keeps_wait_for_rate_limit "twelvedata" w1 Hw1) as [Hw2 _].
  destruct (cache_wait_for_rate_limit _ w1) as [[] w2]. simpl in Hw2.
  exact (keeps_try _ _ _ (twelve_try_keeps _ _ _)
           (λ _, alphavantage_keeps rt environ upstream symbol) w2 Hw2).
Qed.

(** A result of an adapter is a non-empty dict; tagged, it is an error
    result, and untagged, a record. *)
Lemma stock_result_cases r :
  is_stock_result r = true →
  ∃ d, r = VDict d ∧ truthy r = true
       ∧ (Dict.has "error" d = true → ∃ msg, r = error_result msg)
       ∧ (Dict.has "error" d = false → is_quote_record r = true).
Proof.
  intros H. destruct r as [| | | | | |d]; try done. exists d.
  destruct d as [|[k x] d]; [done|]. split; [done|]. split; [done|].
  destruct (decide (k = "error")) as [->|Hk].
  - destruct x; try by vm_compute in H.
    destruct d; [|by vm_compute in H]. split; [by eexists|].
    by vm_compute.
  - assert (is_quote_record (VDict ((k, x) :: d)) = true) as Hq.
    { revert H. unfold is_stock_result.
      assert (String.eqb k "error" = false) by by apply String.eqb_neq.
      repeat (match goal with
              | |- match ?s with _ => _ end = _ → _ => destruct s; try done
              | |- (if ?b then _ else _) = _ → _ => destruct b; try done
              end). }
    split; [|done]. intros He. exfalso. revert Hq He. simpl.
    by destruct (Dict.has "error" _).
Qed.

Lemma quote_record_key d k :
  is_quote_record (VDict d) = true → k ∈ common_keys →
  ∃ v, Dict.lookup k d = Some v.
Proof.
  unfold is_quote_record. intros [[_ Hall]%andb_prop _]%andb_prop Hk.
  rewrite forallb_forall in Hall. specialize (Hall k).
  rewrite <- list_elem_of_In in Hall. specialize (Hall Hk).
  unfold Dict.has in Hall. by apply bool_decide_eq_true in Hall as [v Hv]; exists v.
Qed.

(** [v == 0] is true of the integer zero, of the float zeros and of
    [False], and of nothing else. *)
Lemma eq_zero_spec v : eq_zero v = true ↔ is_zero v.
Proof.
  split.
  - destruct v as [|[]|n|x| | |]; try done; cbn [eq_zero].
    + intros _. constructor.
    + intros ->%Z.eqb_eq. constructor.
    + intros H. by constructor.
  - by destruct 1; [done|done|done].
Qed.

(** The test of the orchestrator on an untagged result of the Twelve Data
    adapter, as the code evaluates it. *)
Lemma get_stock_data_second_opinion_test symbol w :
  has_twelve_key environ = true → stock_cache_ok w →
  ∃ d w1,
    twelve symbol w = (VDict d, w1)
    ∧ truthy (VDict d) = true
    ∧ (Dict.has "error" d = false →
       ∃ daily_change volume,
         Dict.lookup "daily_change" d = Some daily_change
         ∧ Dict.lookup "volume" d = Some volume
         ∧ get_stock_data rt environ upstream symbol w
           = if eq_zero daily_change && eq_zero volume && has_alpha_key environ
             then (Ok (alphavantage symbol w1).1, (alphavantage symbol w1).2)
             else (Ok (VDict d), w1))
    ∧ (Dict.has "error" d = true →
       get_stock_data rt environ upstream symbol w = (Ok (VDict d), w1)).
Proof.
  intros Hkey Hw.
  destruct (twelve_keeps symbol w Hw) as [_ Hr].
  destruct (twelve symbol w) as [r w1] eqn:Et. simpl in Hr.
  destruct (stock_result_cases r Hr) as (d & -> & Htruthy & _ & Hrec).
  exists d, w1. split; [done|]. split; [done|].
  unfold get_stock_data. rewrite Hkey.
  unfold mbind, M_bind, bind, call. rewrite Et.
  unfold lift, needs_second_opinion. rewrite Htruthy.
  cbn [negb PyOps.contains mbind result_bind bind_result].
  split.
  - intros He. specialize (Hrec He). rewrite He.
    destruct (quote_record_key d "daily_change" Hrec) as [dc Hdc];
      [by vm_compute; repeat first [left|right]|].
    destruct (quote_record_key d "volume" Hrec) as [vol Hvol];
      [set_solver|].
    exists dc, vol. split; [done|]. split; [done|].
    cbn [PyOps.get]. rewrite Hdc, Hvol.
    cbn [mbind result_bind bind_result].
    destruct (eq_zero dc); cbn [negb andb mbind result_bind bind_result]; [|done].
    destruct (eq_zero vol); cbn [negb andb mret result_ret]; [|done].
    destruct (has_alpha_key environ); [|done].
    by destruct (alphavantage symbol w1).
  - intros He. by rewrite He.
Qed.

(** C1. With the Twelve Data key configured, on a process whose cache holds
    records, [get_stock_data] calls the Twelve Data adapter, which returns a
    dict that is present (non-empty).  If that dict carries no error tag it
    has a [daily_change] and a [volume]; when both are equal to [0] (the
    integer or a float zero) and the Alpha Vantage key is configured too,
    [get_stock_data] returns what the Alpha Vantage adapter then returns; in
    every other case, error-tagged results included, it returns the Twelve
    Data result. *)
Theorem get_stock_data_primary symbol w :
  has_twelve_key environ = true → stock_cache_ok w →
  ∃ d w1,
    twelve symbol w = (VDict d, w1)
    ∧ truthy (VDict d) = true
    ∧ (Dict.has "error" d = false →
       ∃ daily_change volume,
         Dict.lookup "daily_change" d = Some daily_change
         ∧ Dict.lookup "volume" d = Some volume
         ∧ (is_zero daily_change → is_zero volume → has_alpha_key environ = true →
            get_stock_data rt environ upstream symbol w
            = (Ok (alphavantage symbol w1).1, (alphavantage symbol w1).2))
         ∧ (¬ (is_zero daily_change ∧ is_zero volume
               ∧ has_alpha_key environ = true) →
            get_stock_data rt environ upstream symbol w = (Ok (VDict d), w1)))
    ∧ (Dict.has "error" d = true →
       get_stock_data rt environ upstream symbol w = (Ok (VDict d), w1)).
Proof.
  intros Hkey Hw.
  destruct (get_stock_data_second_opinion_test symbol w Hkey Hw)
    as (d & w1 & Ht & Hd & Hok & Herr).
  exists d, w1. split; [done|]. split; [done|]. split; [|done].
  intros He. destruct (Hok He) as (dc & vol & Hdc & Hvol & Hg).
  exists dc, vol. split; [done|]. split; [done|]. rewrite Hg. split.
  - intros Hz1%eq_zero_spec Hz2%eq_zero_spec Ha. by rewrite Hz1, Hz2, Ha.
  - intros Hn.
    destruct (eq_zero dc) eqn:E1; [|done].
    destruct (eq_zero vol) eqn:E2; [|done].
    destruct (has_alpha_key environ) eqn:E3; [|done].
    exfalso. apply Hn. by rewrite <- !eq_zero_spec.
Qed.

Lemma config_twelve_key :
  CONFIG environ !! "TWELVE_API_KEY" = Some (environ_get environ "TWELVE_API_KEY").
Proof.
  unfold CONFIG. cbn [list_to_map foldr uncurry].
  repeat (rewrite lookup_insert_ne by done). by rewrite lookup_insert_eq.
Qed.

Lemma config_alpha_key :
  CONFIG environ !! "ALPHA_VANTAGE_API_KEY" = Some (environ_get environ "ALPHA_API_KEY").
Proof.
  unfold CONFIG. cbn [list_to_map foldr uncurry].
  repeat (rewrite lookup_insert_ne by done). by rewrite lookup_insert_eq.
Qed.

(** The default of [CONFIG.get('TWELVE_API_KEY', 'demo')] is never used:
    the credential is what the environment holds, [None] when it is unset. *)
Lemma twelve_api_key_environ :
  twelve_api_key environ = environ_get environ "TWELVE_API_KEY".
Proof. unfold twelve_api_key, config_get. by rewrite config_twelve_key. Qed.

Lemma twelve_api_key_unconfigured :
  has_twelve_key environ = false →
  twelve_api_key environ = VNone ∨ twelve_api_key environ = VStr EmptyString.
Proof.
  unfold has_twelve_key, config_get. rewrite twelve_api_key_environ, config_twelve_key.
  unfold environ_get. destruct (environ !! "TWELVE_API_KEY") as [s|]; [|by left].
  destruct s; [by right|done].
Qed.

(** Without its key the Alpha Vantage adapter sends nothing. *)
Lemma alphavantage_unconfigured symbol w :
  has_alpha_key environ = false → sent (alphavantage symbol w).2 = sent w.
Proof.
  unfold has_alpha_key. intros Hk. unfold get_stock_data_alphavantage.
  unfold cache_get. destruct (SimpleCache.get _ _ _) as [cached c].
  destruct (truthy cached); [done|].
  unfold cache_wait_for_rate_limit.
  destruct (SimpleCache.wait_for_rate_limit _ _ _) as [c' t].
  unfold try_except, alphavantage_try. by rewrite Hk.
Qed.

Lemma quiet_ret {A} (a : A) : quiet (mret a).
Proof. done. Qed.

Lemma quiet_raise {A} e : quiet (@raise A e).
Proof. done. Qed.

Lemma quiet_lift {A} (r : result A) : quiet (lift r).
Proof. done. Qed.

Lemma quiet_call {A} (f : World → A * World) :
  (∀ w, sent (f w).2 = sent w) → quiet (call f).
Proof. intros Hf w. unfold call. specialize (Hf w). by destruct (f w). Qed.

Lemma quiet_bind {A B} (m : M A) (k : A → M B) :
  quiet m → (∀ a, quiet (k a)) → quiet (x ← m; k x).
Proof.
  intros Hm Hk w. unfold mbind, M_bind, bind. specialize (Hm w).
  destruct (m w) as [[a|e] w']; [|done]. by rewrite Hk.
Qed.

(** What [twelve_try] does once its request is answered attempts no
    further request when the Alpha Vantage key is not configured. *)
Lemma twelve_try_sends_one symbol cache_key ns w :
  has_alpha_key environ = false →
  sent (try_except (twelve_try rt environ upstream symbol cache_key ns)
                   (λ _, alphavantage symbol) w).2
  = (sent w ++ [twelve_request environ ns])%list.
Proof.
  intros Hk.
  assert (Hfb : quiet (call (alphavantage symbol)))
    by (apply quiet_call; intros; by apply alphavantage_unconfigured).
  unfold try_except, twelve_try.
  unfold mbind at 1. unfold M_bind, bind, requests_get.
  destruct (upstream _ _) as [msg|response].
  { by rewrite alphavantage_unconfigured. }
  set (w1 := mkWorld _ _ _).
  match goal with |- sent (match ?m w1 with _ => _ end).2 = _ =>
    assert (Hq : quiet m) end.
  { repeat (match goal with
            | |- quiet (call _) => exact Hfb
            | |- quiet (mbind _ _) => apply quiet_bind; [|intros ?]
            | |- quiet (lift _) => apply quiet_lift
            | |- quiet (mret _) => apply quiet_ret
            | |- quiet (match ?x with _ => _ end) => destruct x
            | |- quiet (if ?b then _ else _) => destruct b
            end).
    apply quiet_call. by intros. }
  specialize (Hq w1).
  match goal with |- sent (match ?m w1 with _ => _ end).2 = _ =>
    destruct (m w1) as [[r|e] w2] end; cbn [snd] in Hq |- *.
  - by rewrite Hq.
  - by rewrite alphavantage_unconfigured, Hq.
Qed.

Lemma twelve_sends_at_most_one symbol w :
  has_alpha_key environ = false →
  sent (twelve symbol w).2 = sent w
  ∨ sent (twelve symbol w).2
    = (sent w ++ [twelve_request environ (normalize_symbol symbol)])%list.
Proof.
  intros Hk. unfold get_stock_data_twelve, cache_get.
  destruct (SimpleCache.get _ _ _) as [cached c].
  destruct (truthy cached); [by left|]. right.
  unfold cache_wait_for_rate_limit.
  destruct (SimpleCache.wait_for_rate_limit _ _ _) as [c' t].
  by rewrite twelve_try_sends_one.
Qed.

(** C7, as the code has it.  With neither key configured, [get_stock_data]
    calls the Twelve Data adapter once and returns its result, replaced by
    the configuration error when it is error-tagged; at most one request is
    attempted, the Twelve Data one.  The credential of that request is what
    [CONFIG] holds for the key, [None] or the empty string: the default
    ['demo'] is never used. *)
Theorem get_stock_data_unconfigured symbol w :
  has_twelve_key environ = false → has_alpha_key environ = false →
  stock_cache_ok w →
  (twelve_api_key environ = VNone ∨ twelve_api_key environ = VStr EmptyString)
  ∧ twelve_api_key environ ≠ VStr "demo"
  ∧ (sent (twelve symbol w).2 = sent w
     ∨ sent (twelve symbol w).2
       = (sent w ++ [twelve_request environ (normalize_symbol symbol)])%list)
  ∧ get_stock_data rt environ upstream symbol w
    = (Ok (if has_error (twelve symbol w).1
           then error_result no_api_configured else (twelve symbol w).1),
       (twelve symbol w).2).
Proof.
  intros Ht Ha Hw.
  pose proof (twelve_api_key_unconfigured Ht) as Hkey.
  split; [done|]. split; [by destruct Hkey as [-> | ->]|].
  split; [by apply twelve_sends_at_most_one|].
  destruct (twelve_keeps symbol w Hw) as [_ Hr].
  unfold get_stock_data. rewrite Ht, Ha.
  unfold mbind, M_bind, bind, call.
  destruct (twelve symbol w) as [r w1]. simpl in Hr |- *.
  destruct (stock_result_cases r Hr) as (d & -> & Htruthy & _ & _).
  rewrite Htruthy. unfold lift. cbn [PyOps.contains has_error].
  by destruct (Dict.has "error" d).
Qed.

(** A result of an adapter is error-tagged or successful. *)
Lemma stock_result_shape r :
  is_stock_result r = true → error_tagged r ∨ successful r.
Proof.
  intros H. destruct (stock_result_cases r H) as (d & -> & _ & Herr & Hrec).
  destruct (Dict.has "error" d) eqn:He; [left; by apply Herr|].
  right. specialize (Hrec eq_refl). exists d. split; [done|]. split; [done|].
  split.
  - intros k Hk. destruct (quote_record_key d k Hrec Hk) as [v Hv]. by exists v.
  - unfold is_quote_record in Hrec. apply andb_prop in Hrec as [_ Hp].
    destruct (Dict.lookup "current_price" d) as [[]|]; try done. by eexists.
Qed.

(** [get_stock_data] returns, and what it returns is a result of an adapter
    or the configuration error. *)
Lemma get_stock_data_keeps symbol :
  keeps (get_stock_data rt environ upstream symbol)
        (λ r, is_stock_result r = true).
Proof.
  unfold get_stock_data.
  assert (Ha : keeps (call (alphavantage symbol)) (λ r, is_stock_result r = true))
    by apply keeps_call, alphavantage_keeps.
  assert (Ht : keeps (call (twelve symbol)) (λ r, is_stock_result r = true))
    by apply keeps_call, twelve_keeps.
  destruct (has_twelve_key environ); [|destruct (has_alpha_key environ); [done|]].
  - eapply keeps_bind; [exact Ht|]. intros r Hr.
    eapply keeps_bind; [by apply keeps_lift with (post := λ _, True)|].
    intros [] _; [done|by apply keeps_ret].
  - eapply keeps_bind; [exact Ht|]. intros r Hr.
    eapply keeps_bind.
    { destruct (truthy r); [by apply keeps_lift with (post := λ _, True)|by apply keeps_ret]. }
    intros [] _; by apply keeps_ret.
Qed.

Lemma get_stock_data_returns symbol w :
  stock_cache_ok w →
  ∃ r w', get_stock_data rt environ upstream symbol w = (Ok r, w').
Proof.
  intros Hw.
  assert (Ha : ∀ w, ∃ r w', call (alphavantage symbol) w = (Ok r, w')).
  { intros w0. unfold call. destruct (alphavantage symbol w0). by eexists _, _. }
  unfold get_stock_data.
  destruct (has_twelve_key environ); [|destruct (has_alpha_key environ); [done|]].
  all: unfold mbind, M_bind, bind, call;
    destruct (twelve_keeps symbol w Hw) as [_ Hr];
    destruct (twelve symbol w) as [r w1]; simpl in Hr;
    destruct (stock_result_cases r Hr) as (d & -> & Htruthy & _ & Hrec).
  - unfold lift, needs_second_opinion. rewrite Htruthy.
    cbn [negb PyOps.contains PyOps.get mbind result_bind bind_result].
    destruct (Dict.has "error" d); [by eexists _, _|].
    repeat (match goal with
            | |- context [if ?b then _ else _] => destruct b
            end; cbn [mret result_ret]); try by eexists _, _.
    apply Ha.
  - rewrite Htruthy. unfold lift. cbn [PyOps.contains].
    destruct (Dict.has "error" d); by eexists _, _.
Qed.

Lemma get_default d k default v :
  PyOps.get (VDict d) k default = Ok v → Dict.lookup k d = None → v = default.
Proof. simpl. intros [= <-] ->. done. Qed.

(** A record the Twelve Data adapter builds has its session fields, equal
    to the price where the answer lacks them, a volume, [0] where the
    answer has none, and ["N/A"] as sector and industry. *)
Lemma twelve_quote_defaults ns answer record :
  twelve_quote rt ns (VDict answer) = Ok record →
  ∃ price,
    field "current_price" record = Some (VFloat price)
    ∧ Forall (λ p, is_Some (field p.2 record)
                   ∧ (Dict.lookup p.1 answer = None →
                      field p.2 record = Some (VFloat price)))
             twelve_session_fields
    ∧ (Dict.lookup "volume" answer = None → field "volume" record = Some (VInt 0))
    ∧ field "sector" record = Some (VStr "N/A")
    ∧ field "industry" record = Some (VStr "N/A").
Proof.
  unfold twelve_quote. intros H. ok_inv H.
  eexists. split; [reflexivity|]. split; [|split; [|done]].
  - unfold twelve_session_fields.
    repeat (apply List.Forall_cons; [cbn [fst snd]; split; [by eexists|]|]);
      [..|apply List.Forall_nil]; intros Hnone;
      match goal with
      | E : PyOps.get _ ?k _ = Ok ?v, F : PyOps.float rt ?v = Ok _ |- _ =>
          lazymatch type of Hnone with
          | Dict.lookup k _ = None =>
              rewrite (get_default _ _ _ _ E Hnone) in F;
              by injection F as <-
          end
      end.
  - intros Hnone.
    match goal with
    | E : PyOps.get _ "volume" _ = Ok ?v, F : PyOps.int rt ?v = Ok _ |- _ =>
        rewrite (get_default _ _ _ _ E Hnone) in F; by injection F as <-
    end.
Qed.

(** C8 (amended). On a process whose cache holds records, every result of
    the Alpha Vantage adapter, of the Twelve Data adapter, of the Financial
    Modeling Prep adapter and of [get_stock_data] (which always returns) is
    either error-tagged or a
    record without error tag that has the keys common to all adapters
    (symbol, name, current_price, currency, daily_change,
    daily_change_percent, monthly_change_percent, market_cap, sector,
    industry, volume, avg_volume), with a float under [current_price]; the
    cache keeps holding records.  The session fields (day_high, day_low,
    open_price, previous_close) are guaranteed in the records the Twelve Data
    adapter builds, where each defaults to the price, as volume defaults to
    [0] and sector and industry are ["N/A"]. *)
Theorem stock_results_are_records symbol w :
  stock_cache_ok w →
  (error_tagged (alphavantage symbol w).1 ∨ successful (alphavantage symbol w).1)
  ∧ (error_tagged (twelve symbol w).1 ∨ successful (twelve symbol w).1)
  ∧ (error_tagged (fmp symbol w).1 ∨ successful (fmp symbol w).1)
  ∧ (∃ r w', get_stock_data rt environ upstream symbol w = (Ok r, w')
             ∧ (error_tagged r ∨ successful r) ∧ stock_cache_ok w')
  ∧ stock_cache_ok (alphavantage symbol w).2
  ∧ stock_cache_ok (twelve symbol w).2
  ∧ stock_cache_ok (fmp symbol w).2
  ∧ (∀ ns answer record,
       twelve_quote rt ns (VDict answer) = Ok record →
       successful record
       ∧ ∃ price,
           field "current_price" record = Some (VFloat price)
           ∧ Forall (λ p, is_Some (field p.2 record)
                          ∧ (Dict.lookup p.1 answer = None →
                             field p.2 record = Some (VFloat price)))
                    twelve_session_fields
           ∧ (Dict.lookup "volume" answer = None →
              field "volume" record = Some (VInt 0))
           ∧ field "sector" record = Some (VStr "N/A")
           ∧ field "industry" record = Some (VStr "N/A")).
Proof.
  intros Hw.
  destruct (alphavantage_keeps rt environ upstream symbol w Hw) as [Hwa Ha].
  destruct (twelve_keeps symbol w Hw) as [Hwt Ht].
  destruct (fmp_keeps rt environ upstream symbol w Hw) as [Hwf Hf].
  split_and!; try done.
  - by apply stock_result_shape.
  - by apply stock_result_shape.
  - by apply stock_result_shape.
  - destruct (get_stock_data_returns symbol w Hw) as (r & w' & Hg).
    pose proof (get_stock_data_keeps symbol w Hw) as Hk. rewrite Hg in Hk.
    destruct Hk as [Hw' Hr]. exists r, w'. split; [done|]. split; [|done].
    by apply stock_result_shape.
  - intros ns answer record Hq. split; [|by apply (twelve_quote_defaults ns)].
    destruct (stock_result_shape record) as [[msg ->]|Hs]; [| |done].
    + apply quote_record_stock_result. by apply (twelve_quote_record rt ns (VDict answer)).
    + by apply twelve_quote_record in Hq as [Hq _].
Qed.

End OrchestratorFacts.

(** ** The fetch layer on concrete networks *)

Section FetchExampleFacts.
Import Examples.

Lemma stock_cache_ok_world0 t : stock_cache_ok (world0 t).
Proof. intros k v ts Hk. simpl in Hk. by rewrite lookup_empty in Hk. Qed.

(** The fallback at work: Twelve Data quotes "AAPL" flat and without
    volume, both keys are configured, and the result is the one of Alpha
    Vantage, after one request to each provider. *)
Lemma get_stock_data_second_opinion :
  field "volume" (get_stock_data_twelve runtime both_keys flat_twelve_full_alpha
                    "AAPL" (world0 0)).1 = Some (VInt 0)
  ∧ (get_stock_data runtime both_keys flat_twelve_full_alpha "AAPL" (world0 0)).1
    = Ok (get_stock_data_alphavantage runtime both_keys flat_twelve_full_alpha "AAPL"
            (get_stock_data_twelve runtime both_keys flat_twelve_full_alpha
               "AAPL" (world0 0)).2).1
  ∧ field "volume"
      (get_stock_data_alphavantage runtime both_keys flat_twelve_full_alpha "AAPL"
         (get_stock_data_twelve runtime both_keys flat_twelve_full_alpha
            "AAPL" (world0 0)).2).1 = Some (VInt 1000)
  ∧ url <$> sent (get_stock_data runtime both_keys flat_twelve_full_alpha
                    "AAPL" (world0 0)).2
    = ["https://api.twelvedata.com/quote"; "https://www.alphavantage.co/query"].
Proof. split_and!; by vm_compute. Qed.

(** The policy of C1 on that network: the Twelve Data record has a change
    of [0.0] and a volume of [0], and the result is the record of Alpha
    Vantage, with its price and its volume. *)
Lemma get_stock_data_primary_witness :
  has_twelve_key both_keys = true ∧ stock_cache_ok (world0 0)
  ∧ field "current_price"
      (get_stock_data_twelve runtime both_keys flat_twelve_full_alpha "AAPL"
         (world0 0)).1 = Some (VFloat 150)
  ∧ ∃ d, (get_stock_data runtime both_keys flat_twelve_full_alpha "AAPL" (world0 0)).1
         = Ok (VDict d)
         ∧ Dict.lookup "current_price" d = Some (VFloat 150.5)
         ∧ Dict.lookup "volume" d = Some (VInt 1000).
Proof.
  split; [by vm_compute|]. split; [apply stock_cache_ok_world0|].
  split; [by vm_compute|].
  destruct (get_stock_data_primary runtime both_keys flat_twelve_full_alpha "AAPL"
              (world0 0)) as (d & w1 & Ht & _ & Hok & _);
    [by vm_compute|apply stock_cache_ok_world0|].
  vm_compute in Ht. injection Ht as <- <-.
  destruct (Hok eq_refl) as (dc & vol & Hdc & Hvol & Hfall & _).
  vm_compute in Hdc. injection Hdc as <-.
  vm_compute in Hvol. injection Hvol as <-.
  rewrite (Hfall (zero_float 0%float eq_refl) zero_int eq_refl).
  eexists. split; [vm_compute; reflexivity|]. split; reflexivity.
Defined.

(** A price beyond the range of floats: the change of the Twelve Data record
    is not a number, which is not [0], so the record is returned as it is,
    after the one request. *)
Lemma get_stock_data_nan_change :
  ∃ d w', get_stock_data runtime both_keys twelve_infinite_price "XYZ" (world0 0)
          = (Ok (VDict d), w')
          ∧ Dict.lookup "current_price" d = Some (VFloat infinity)
          ∧ Dict.lookup "daily_change" d = Some (VFloat nan)
          ∧ Dict.lookup "volume" d = Some (VInt 0)
          ∧ url <$> sent w' = ["https://api.twelvedata.com/quote"].
Proof.
  eexists _, _. split; [by vm_compute|]. split_and!; by vm_compute.
Qed.

(** C7 at an environment without keys, Twelve Data refusing the request:
    the one request attempted carries [None] as its credential, and the
    result is the configuration error. *)
Lemma get_stock_data_unconfigured_witness :
  has_twelve_key no_keys = false ∧ has_alpha_key no_keys = false
  ∧ twelve_api_key no_keys ≠ VStr "demo"
  ∧ sent (get_stock_data runtime no_keys twelve_unauthorized "AAPL" (world0 0)).2
    = [ mkRequest "https://api.twelvedata.com/quote"
          [("symbol", VStr "AAPL"); ("apikey", VNone)] ]
  ∧ (get_stock_data runtime no_keys twelve_unauthorized "AAPL" (world0 0)).1
    = Ok (error_result no_api_configured).
Proof.
  destruct (get_stock_data_unconfigured runtime no_keys twelve_unauthorized "AAPL"
              (world0 0)) as (_ & Hdemo & _ & Hg);
    [by vm_compute|by vm_compute|apply stock_cache_ok_world0|].
  split; [by vm_compute|]. split; [by vm_compute|]. split; [exact Hdemo|].
  rewrite Hg. split; by vm_compute.
Defined.

(** The shape of results on the network of the fallback example. *)
Lemma stock_results_are_records_witness :
  stock_cache_ok (world0 0)
  ∧ (error_tagged (get_stock_data_twelve runtime both_keys flat_twelve_full_alpha
                     "AAPL" (world0 0)).1
     ∨ successful (get_stock_data_twelve runtime both_keys flat_twelve_full_alpha
                     "AAPL" (world0 0)).1).
Proof.
  split; [apply stock_cache_ok_world0|].
  exact (proj1 (proj2 (stock_results_are_records runtime both_keys
                         flat_twelve_full_alpha "AAPL" (world0 0)
                         (stock_cache_ok_world0 0)))).
Defined.

(** C8, as stated, fails.  Alpha Vantage's record for a crypto symbol is
    successful (no error tag) and has none of the session fields; and the
    Twelve Data adapter turns a quoted price of "0" into a successful record
    whose [current_price] is [0]. *)
Lemma stock_result_without_session_fields :
  (∃ d w', get_stock_data runtime alpha_key_only crypto_one_day "bitcoin" (world0 0)
           = (Ok (VDict d), w')
           ∧ Dict.has "error" d = false
           ∧ Dict.lookup "current_price" d = Some (VFloat 115000.00)
           ∧ (λ k, Dict.has k d) <$> session_keys = [false; false; false; false])
  ∧ (∃ d w', get_stock_data runtime both_keys twelve_zero_price "XYZ" (world0 0)
             = (Ok (VDict d), w')
             ∧ Dict.has "error" d = false
             ∧ Dict.lookup "current_price" d = Some (VFloat 0)).
Proof.
  split; eexists _, _; (split; [by vm_compute|]); split_and!; by vm_compute.
Qed.

End FetchExampleFacts.

(** ** Weather fetch *)

Section WeatherFacts.
Context (rt : Runtime) (environ : gmap string string) (upstream : Upstream).

Local Abbreviation api_key := (weather_api_key environ).
Local Abbreviation request_for := (weather_request (weather_api_key environ)).

(** The inner [try] attempts exactly the forecast request and touches
    nothing else. *)
Lemma weather_forecast_world key v w :
  (weather_forecast rt upstream key v w).2
  = mkWorld (clock w) (cache w) (sent w ++ [forecast_request key v]).
Proof.
  unfold weather_forecast, requests_get. cbn [url params forecast_request].
  destruct (upstream _ _) as [msg|response]; [done|].
  repeat (match goal with
          | |- context [match ?x with _ => _ end] => destruct x
          end; try done).
Qed.

(** An attempt whose outcome is not usable goes on to the next candidate,
    having attempted its one request. *)
Lemma weather_try_unusable ck v w :
  truthy api_key = true →
  usable (upstream (sent w) (request_for v)) = false →
  ∃ res,
    weather_try rt environ upstream ck v w
    = (res, mkWorld (clock w) (cache w) (sent w ++ [request_for v]))
    ∧ ∀ r, res ≠ Ok (Some r).
Proof.
  intros Hkey Hu. unfold weather_try. rewrite Hkey. cbn [negb].
  unfold mbind at 1. unfold M_bind, bind, requests_get.
  unfold weather_request in *. cbn [url params] in *.
  assert (Hstop : ∀ (e : exn) (w' : World),
            ∃ res : result (option value),
              (Raise e, w') = (res, w') ∧ ∀ r, res ≠ Ok (Some r))
    by (intros; eexists; split; [reflexivity|by intros]).
  destruct (upstream _ _) as [msg|response]; cbv beta iota; [apply Hstop|].
  simpl in Hu. destruct (decide (status_code response ≠ 200%Z)) as [Hs|Hs].
  { eexists; split; [reflexivity|by intros]. }
  rewrite bool_decide_eq_true_2 in Hu
    by (by destruct (decide (status_code response = 200%Z))).
  destruct (json response) as [data|]; [|apply Hstop].
  unfold mbind, M_bind, bind, lift.
  destruct (weather_record data); [done|apply Hstop].
Qed.

(** An attempt whose outcome is usable returns its record, with the
    forecast, after the forecast request and the write to the cache. *)
Lemma weather_try_usable ck v w :
  truthy api_key = true →
  usable (upstream (sent w) (request_for v)) = true →
  ∃ r,
    weather_try rt environ upstream ck v w
    = (Ok (Some r),
       mkWorld (clock w) (SimpleCache.set ck r (cache w) (clock w))
               (sent w ++ [request_for v; forecast_request api_key v]))
    ∧ has_error r = false
    ∧ ∃ items, r = VDict items ∧ Dict.has "city" items = true.
Proof.
  intros Hkey Hu. unfold weather_try. rewrite Hkey. cbn [negb].
  unfold mbind at 1. unfold M_bind, bind, requests_get.
  unfold weather_request in *. cbn [url params] in *.
  destruct (upstream _ _) as [msg|response]; cbv beta iota; [done|].
  simpl in Hu. apply andb_prop in Hu as [Hs%bool_decide_eq_true Hu].
  rewrite decide_False by (by intros ?).
  destruct (json response) as [data|]; [|done].
  unfold mbind, M_bind, bind, lift, call.
  destruct (weather_record data) as [record|] eqn:Hrec; [|done].
  set (w1 := mkWorld _ _ _).
  pose proof (weather_forecast_world api_key v w1) as Hf.
  destruct (weather_forecast rt upstream api_key v w1) as [forecast w2].
  simpl in Hf. subst w2. unfold cache_set, w1. cbn [clock cache sent].
  eexists. split; [by rewrite <- app_assoc|].
  unfold weather_record in Hrec. ok_inv Hrec. split; [done|]. by eexists.
Qed.

(** The loop, candidate by candidate. *)
Lemma weather_loop_first_usable city ck variations w :
  truthy api_key = true →
  match first_usable upstream api_key (sent w) variations with
  | Some (v, history) =>
      ∃ r,
        weather_loop rt environ upstream city ck variations w
        = (r, mkWorld (clock w) (SimpleCache.set ck r (cache w) (clock w))
                      (history ++ [request_for v; forecast_request api_key v]))
        ∧ has_error r = false
  | None =>
      ∃ message,
        weather_loop rt environ upstream city ck variations w
        = (error_result message,
           mkWorld (clock w) (cache w) (sent w ++ (request_for <$> variations)))
  end.
Proof.
  intros Hkey. revert w. induction variations as [|v rest IH]; intros w.
  - simpl. eexists. by rewrite app_nil_r; destruct w.
  - cbn [first_usable weather_loop].
    destruct (usable _) eqn:Hu.
    + destruct (weather_try_usable ck v w Hkey Hu) as (r & -> & He & _).
      by exists r.
    + destruct (weather_try_unusable ck v w Hkey Hu) as (res & -> & Hres).
      set (w1 := mkWorld _ _ _). specialize (IH w1).
      assert (weather_loop rt environ upstream city ck (v :: rest) w
              = weather_loop rt environ upstream city ck rest w1) as Hstep.
      { cbn [weather_loop].
        destruct (weather_try_unusable ck v w Hkey Hu) as (res' & -> & Hres').
        destruct res' as [[r|]|]; [by destruct (Hres' r)|done|done]. }
      cbn [sent] in IH. subst w1.
      destruct res as [[r|]|]; [by destruct (Hres r)| |];
        (destruct (first_usable _ _ _ rest) as [[v' h]|];
         [exact IH|
          destruct IH as [m IH]; exists m; rewrite IH; cbn [clock cache sent];
          by rewrite fmap_cons, <- app_assoc]).
Qed.

(** What [first_usable] finds: the candidates before it all failed, each
    on the history of its own attempt. *)
Lemma first_usable_split history variations v history' :
  first_usable upstream api_key history variations = Some (v, history') →
  ∃ failed rest,
    variations = (failed ++ v :: rest)%list
    ∧ first_usable upstream api_key history failed = None
    ∧ history' = (history ++ (request_for <$> failed))%list
    ∧ usable (upstream history' (request_for v)) = true.
Proof.
  revert history. induction variations as [|c rest IH]; intros history; [done|].
  cbn [first_usable].
  destruct (usable (upstream history (request_for c))) eqn:Hu.
  - intros ?; simplify_eq. exists [], rest. by rewrite app_nil_r.
  - intros (failed & rest' & -> & Hnone & -> & Hv)%IH.
    exists (c :: failed), rest'. split; [done|].
    split; [cbn [first_usable]; rewrite Hu; exact Hnone|].
    rewrite fmap_cons.
    replace (history ++ request_for c :: (request_for <$> failed))%list
      with ((history ++ [request_for c]) ++ (request_for <$> failed))%list
      by (by rewrite <- app_assoc).
    done.
Qed.

(** C9 (amended).  For a city that is not in the cache, with the weather
    key configured, [get_weather_data] tries the candidates of
    [city_variations] in order (for "Cordoba": the plain name, name and
    country, name and ISO code, then the four hardcoded variants; the same
    four for "CÓRDOBA", whose lower case has the accented letter; none for
    "Madrid"), one request each, and stops at the first whose request has a usable outcome:
    HTTP 200 with a body the record can be read from.  It returns that
    record with no error tag, after the forecast request for the same
    candidate, and caches it under the city's key.  When no candidate has a
    usable outcome it has tried all of them and returns an error result. *)
Theorem get_weather_data_candidates city w :
  truthy api_key = true →
  truthy (cache_get ("weather_" +:+ PyStr.lower city) w).1 = false →
  city_variations "Cordoba"
  = [ "Cordoba"; "Cordoba,Argentina"; "Cordoba,AR"; "Córdoba,Argentina";
      "Cordoba,Argentina"; "Córdoba,AR"; "Cordoba,AR" ]
  ∧ city_variations "CÓRDOBA"
    = [ "CÓRDOBA"; "CÓRDOBA,Argentina"; "CÓRDOBA,AR"; "Córdoba,Argentina";
        "Cordoba,Argentina"; "Córdoba,AR"; "Cordoba,AR" ]
  ∧ "weather_" +:+ PyStr.lower "CÓRDOBA" = "weather_córdoba"
  ∧ city_variations "Madrid" = [ "Madrid"; "Madrid,Argentina"; "Madrid,AR" ]
  ∧ match first_usable upstream api_key (sent w) (city_variations city) with
    | Some (v, history) =>
        ∃ failed rest r w',
          city_variations city = (failed ++ v :: rest)%list
          ∧ first_usable upstream api_key (sent w) failed = None
          ∧ history = (sent w ++ (request_for <$> failed))%list
          ∧ get_weather_data rt environ upstream city w = (r, w')
          ∧ has_error r = false
          ∧ sent w' = (history ++ [request_for v; forecast_request api_key v])%list
          ∧ ∃ t, SimpleCache.cache (cache w') !! ("weather_" +:+ PyStr.lower city)
                 = Some (r, t)
    | None =>
        ∃ message,
          (get_weather_data rt environ upstream city w).1 = error_result message
          ∧ sent (get_weather_data rt environ upstream city w).2
            = (sent w ++ (request_for <$> city_variations city))%list
    end.
Proof.
  intros Hkey Hmiss. split; [by vm_compute|]. split; [by vm_compute|].
  split; [by vm_compute|]. split; [by vm_compute|].
  unfold get_weather_data.
  assert (Hs : sent (cache_get ("weather_" +:+ PyStr.lower city) w).2 = sent w).
  { unfold cache_get. by destruct (SimpleCache.get _ _ _). }
  destruct (cache_get _ w) as [cached w0]. simpl in Hmiss, Hs. rewrite Hmiss.
  unfold cache_wait_for_rate_limit.
  destruct (SimpleCache.wait_for_rate_limit _ _ _) as [c t].
  set (w1 := mkWorld t c (sent w0)).
  pose proof (weather_loop_first_usable city ("weather_" +:+ PyStr.lower city)
                (city_variations city) w1 Hkey) as Hloop.
  cbn [sent w1] in Hloop. rewrite Hs in Hloop.
  destruct (first_usable _ _ (sent w) _) as [[v history]|] eqn:Hf.
  - destruct Hloop as (r & Hloop & He).
    destruct (first_usable_split _ _ _ _ Hf) as (failed & rest & Hv & Hnone & Hh & _).
    exists failed, rest, r. eexists. split; [done|]. split; [done|].
    split; [done|]. split; [exact Hloop|]. split; [done|]. split; [done|].
    eexists. cbn [cache SimpleCache.set SimpleCache.with_cache SimpleCache.cache].
    apply lookup_insert_eq.
  - destruct Hloop as (m & ->). by exists m.
Qed.

(** The weather fetch keeps the records of the stock adapters in the cache:
    it writes under keys of its own. *)
Lemma get_weather_data_keeps_stock_cache city w :
  stock_cache_ok w → stock_cache_ok (get_weather_data rt environ upstream city w).2.
Proof.
  intros Hw. unfold get_weather_data.
  assert (Hget : stock_cache_ok (cache_get ("weather_" +:+ PyStr.lower city) w).2).
  { unfold cache_get, SimpleCache.get.
    destruct (SimpleCache.cache (cache w) !! _) as [[data ts]|]; [|done].
    destruct (Qlt_le_dec _ _); [done|].
    intros k v t Hk. simpl in Hk. apply lookup_delete_Some in Hk as [_ Hk].
    by apply (Hw k v t). }
  destruct (cache_get _ w) as [cached w0]. simpl in Hget.
  destruct (truthy cached); [done|].
  pose proof (keeps_wait_for_rate_limit "weatherapi" w0 Hget) as [Hw1 _].
  destruct (cache_wait_for_rate_limit _ w0) as [[] w1]. simpl in Hw1.
  revert w1 Hw1. induction (city_variations city) as [|v rest IH]; intros w1 Hw1.
  { done. }
  cbn [weather_loop].
  assert (Htry : keeps (weather_try rt environ upstream
                          ("weather_" +:+ PyStr.lower city) v) (λ _, True)).
  { unfold weather_try. destruct (negb _); [by apply keeps_ret|].
    eapply keeps_bind; [apply keeps_requests_get|intros response _].
    destruct (decide _); [by apply keeps_ret|].
    destruct (json response) as [data|]; [|apply keeps_raise].
    eapply keeps_bind; [by apply keeps_lift with (post := λ _, True)|intros record _].
    eapply keeps_bind with (P := λ _, True).
    { apply keeps_call. intros w' Hw'. split; [|done].
      rewrite weather_forecast_world. exact Hw'. }
    intros forecast _. eapply keeps_bind.
    { apply keeps_call, keeps_cache_set. by intros ?. }
    intros _ _. by apply keeps_ret. }
  specialize (Htry w1 Hw1).
  destruct (weather_try _ _ _ _ v w1) as [[[r|]|e] w2]; [by destruct Htry| |];
    apply IH; by try destruct Htry.
Qed.

End WeatherFacts.

Section WeatherExampleFacts.
Import Examples WeatherExamples.

(** The candidates of "Cordoba" on a fresh process, with the key set. *)
Lemma get_weather_data_candidates_witness :
  truthy (weather_api_key both_keys) = true
  ∧ truthy (cache_get "weather_cordoba" (world0 0)).1 = false
  ∧ city_variations "Cordoba"
    = [ "Cordoba"; "Cordoba,Argentina"; "Cordoba,AR"; "Córdoba,Argentina";
        "Cordoba,Argentina"; "Córdoba,AR"; "Cordoba,AR" ].
Proof.
  split; [by vm_compute|]. split; [by vm_compute|].
  exact (proj1 (get_weather_data_candidates runtime both_keys malformed_then_good
                  "Cordoba" (world0 0) eq_refl eq_refl)).
Defined.

(** C9, as stated, fails.  The first candidate, "Cordoba", is answered with
    HTTP 200, but from a body without the expected fields no record can be
    read, so the loop goes on and the result returned is the one of the
    second candidate.  And without the weather key an error result is
    returned with no candidate tried at all. *)
Lemma get_weather_data_skips_malformed :
  malformed_then_good [] (weather_request (weather_api_key both_keys) "Cordoba")
  = Answers (mkResponse 200 (Some (VDict [])) "{}")
  ∧ query <$> sent (get_weather_data runtime both_keys malformed_then_good
                      "Cordoba" (world0 0)).2
    = ["Cordoba"; "Cordoba,Argentina"; "Cordoba,Argentina"]
  ∧ url <$> sent (get_weather_data runtime both_keys malformed_then_good
                    "Cordoba" (world0 0)).2
    = [ "http://api.weatherapi.com/v1/current.json";
        "http://api.weatherapi.com/v1/current.json";
        "http://api.weatherapi.com/v1/forecast.json" ]
  ∧ field "country" (get_weather_data runtime both_keys malformed_then_good
                       "Cordoba" (world0 0)).1 = Some (VStr "Argentina")
  ∧ has_error (get_weather_data runtime no_keys nothing_found "Cordoba" (world0 0)).1
    = true
  ∧ sent (get_weather_data runtime no_keys nothing_found "Cordoba" (world0 0)).2 = [].
Proof. split_and!; by vm_compute. Qed.

End WeatherExampleFacts.

(** ** [SimpleCache]: round trip, spacing of requests, independence of providers *)

Section SimpleCacheFacts.
Import SimpleCache.
Local Open Scope Q_scope.

Lemma simple_cache_get_other key key' v self t0 t1 :
  key' ≠ key →
  (get key' (set key v self t0) t1).1 = (get key' self t1).1.
Proof.
  intros Hne. unfold get, set, with_cache. cbn [cache cache_duration].
  rewrite lookup_insert_ne by done.
  destruct (cache self !! key') as [[d ts]|]; [|done].
  by destruct (Qlt_le_dec _ _).
Qed.

(** X1. A value stored by [set] is returned by [get] while less than
    [cache_duration] has elapsed, and the cache is left as it is; from
    [cache_duration] on, [get] returns [None] and deletes the item.  Other
    keys are not affected by the [set]. *)
Theorem simple_cache_set_get key v self t0 t1 :
  let stored := set key v self t0 in
  (t1 - t0 < cache_duration self → get key stored t1 = (v, stored))
  ∧ (cache_duration self <= t1 - t0 →
     (get key stored t1).1 = VNone
     ∧ cache (get key stored t1).2 = delete key (cache self))
  ∧ (∀ key', key' ≠ key →
       (get key' stored t1).1 = (get key' self t1).1).
Proof.
  cbn zeta. split_and!.
  - intros Hlt. unfold get, set, with_cache. cbn [cache cache_duration].
    rewrite lookup_insert_eq. destruct (Qlt_le_dec _ _) as [|Hle]; [done|].
    exfalso. apply (Qlt_irrefl (t1 - t0)). by eapply Qlt_le_trans.
  - intros Hle. unfold get, set, with_cache. cbn [cache cache_duration].
    rewrite lookup_insert_eq. destruct (Qlt_le_dec _ _) as [Hlt|_].
    + exfalso. apply (Qlt_irrefl (t1 - t0)). by eapply Qlt_le_trans.
    + cbn [fst snd cache]. by rewrite delete_insert_eq.
  - intros key' Hne. by apply simple_cache_get_other.
Qed.

(** X2. Two calls of [wait_for_rate_limit] for one provider that do not
    overlap (the second starts, at any clock reading, on the state the first
    has left) return at least [min_request_interval] apart, whatever backoff
    is set.  [SimpleCache] takes no lock: calls that overlap in two threads
    are outside this statement. *)
Theorem wait_for_rate_limit_spacing p self c1 c2 :
  let first := wait_for_rate_limit p self c1 in
  first.2 + min_request_interval first.1 <= (wait_for_rate_limit p first.1 c2).2.
Proof.
  cbn zeta.
  destruct (wait_for_rate_limit p self c1) as [self1 t1] eqn:E.
  assert (Hlast : last_request_time self1 !! p = Some t1).
  { unfold wait_for_rate_limit in E. injection E as <- <-.
    unfold with_last_request_time. cbn [last_request_time].
    by rewrite lookup_insert_eq. }
  cbn [fst snd].
  pose proof (wait_for_rate_limit_clock p self1 c2) as Hc.
  pose proof (backoff_sleep_nonneg p self1 c2) as Hb.
  rewrite Hc. unfold interval_sleep. rewrite Hlast.
  set (b := backoff_sleep p self1 c2) in *.
  set (i := min_request_interval self1) in *.
  destruct (Qlt_le_dec (c2 - t1) i); lra.
Qed.

(** X3. Providers are limited independently: what [wait_for_rate_limit] and
    [trigger_backoff] record for one provider changes neither the instant
    at which a call for another provider returns nor what is recorded for
    that other provider. *)
Theorem wait_for_rate_limit_independent p q self c c' seconds :
  p ≠ q →
  (wait_for_rate_limit q (wait_for_rate_limit p self c).1 c').2
  = (wait_for_rate_limit q self c').2
  ∧ (wait_for_rate_limit q (trigger_backoff p seconds self c) c').2
    = (wait_for_rate_limit q self c').2
  ∧ last_request_time (wait_for_rate_limit p self c).1 !! q
    = last_request_time self !! q
  ∧ rate_limit_backoff (trigger_backoff p seconds self c) !! q
    = rate_limit_backoff self !! q.
Proof.
  intros Hne. split_and!.
  - unfold wait_for_rate_limit, with_last_request_time.
    cbn [fst snd last_request_time rate_limit_backoff min_request_interval].
    by rewrite lookup_insert_ne.
  - unfold wait_for_rate_limit, trigger_backoff, with_rate_limit_backoff.
    cbn [fst snd last_request_time rate_limit_backoff min_request_interval].
    by rewrite lookup_insert_ne.
  - unfold wait_for_rate_limit, with_last_request_time.
    cbn [fst snd last_request_time]. by rewrite lookup_insert_ne.
  - unfold trigger_backoff, with_rate_limit_backoff.
    cbn [rate_limit_backoff]. by rewrite lookup_insert_ne.
Qed.

Lemma wait_for_rate_limit_independent_witness :
  (wait_for_rate_limit "alphavantage"
     (wait_for_rate_limit "twelvedata" cache0 0).1 1).2 = 1.
Proof.
  rewrite (proj1 (wait_for_rate_limit_independent
                    "twelvedata" "alphavantage" cache0 0 1 60 ltac:(done))).
  reflexivity.
Defined.

End SimpleCacheFacts.

(** ** What the adapters leave in the cache *)

Section FetchOnlyFacts.
Context (rt : Runtime) (upstream : Upstream).

Lemma fetch_only_ret {A} (a : A) : fetch_only (mret a).
Proof. by intros w. Qed.

Lemma fetch_only_raise {A} e : fetch_only (@raise A e).
Proof. by intros w. Qed.

Lemma fetch_only_lift {A} (r : result A) : fetch_only (lift r).
Proof. by intros w. Qed.

Lemma fetch_only_requests_get u p : fetch_only (requests_get upstream u p).
Proof. intros w. unfold requests_get. by destruct (upstream _ _). Qed.

Lemma fetch_only_bind {A B} (m : M A) (k : A → M B) :
  fetch_only m → (∀ a, fetch_only (k a)) → fetch_only (x ← m; k x).
Proof.
  intros Hm Hk w. unfold mbind, M_bind, bind. specialize (Hm w).
  destruct (m w) as [[a|e] w1]; cbn [snd] in Hm; [|done].
  destruct Hm as [? ?], (Hk a w1) as [? ?]. split; congruence.
Qed.

Lemma alphavantage_crypto_fetch_only ns api_key :
  fetch_only (alphavantage_crypto rt upstream ns api_key).
Proof.
  unfold alphavantage_crypto.
  repeat first
    [ apply fetch_only_bind; [|intros ?]
    | apply fetch_only_requests_get | apply fetch_only_lift
    | apply fetch_only_raise | apply fetch_only_ret
    | match goal with
      | |- fetch_only (match ?x with _ => _ end) => destruct x
      | |- fetch_only (if ?b then _ else _) => destruct b
      end ].
Qed.

Lemma alphavantage_stock_fetch_only ns api_key :
  fetch_only (alphavantage_stock rt upstream ns api_key).
Proof.
  unfold alphavantage_stock.
  repeat first
    [ apply fetch_only_bind; [|intros ?]
    | apply fetch_only_requests_get | apply fetch_only_lift
    | apply fetch_only_raise | apply fetch_only_ret
    | match goal with
      | |- fetch_only (match ?x with _ => _ end) => destruct x
      | |- fetch_only (if ?b then _ else _) => destruct b
      end ].
Qed.

End FetchOnlyFacts.

Section CachedResults.
Context (rt : Runtime) (environ : gmap string string) (upstream : Upstream).

Local Abbreviation alphavantage := (get_stock_data_alphavantage rt environ upstream).

Lemma quote_record_no_error r : is_quote_record r = true → has_error r = false.
Proof.
  destruct r as [| | | | | |d]; try done. unfold is_quote_record, has_error.
  destruct (Dict.has "error" d); [done|done].
Qed.

Lemma quote_record_truthy r : is_quote_record r = true → truthy r = true.
Proof.
  destruct r as [| | | | | |d]; try done. by destruct d.
Qed.

(** A live item with a true value is returned as it is, and nothing else
    happens. *)
Lemma alphavantage_hit symbol r t c sc s :
  SimpleCache.cache sc !! ("stock_av_" +:+ PyStr.upper symbol) = Some (r, t) →
  (c - t < SimpleCache.cache_duration sc)%Q →
  truthy r = true →
  alphavantage symbol (mkWorld c sc s) = (r, mkWorld c sc s).
Proof.
  intros Hk Hlive Hr. unfold get_stock_data_alphavantage, cache_get, SimpleCache.get.
  cbn [cache clock sent]. rewrite Hk.
  destruct (Qlt_le_dec _ _) as [_|Hle].
  - by rewrite Hr.
  - exfalso. apply (Qlt_irrefl (c - t)). by eapply Qlt_le_trans.
Qed.

(** What the [try] block leaves: an error result and the cache as it was,
    or a record, stored under the cache key at the current clock reading. *)
Lemma alphavantage_try_outcome cache_key ns w :
  stock_cache_ok w →
  match alphavantage_try rt environ upstream cache_key ns w with
  | (Ok r, w') =>
      clock w' = clock w
      ∧ ((has_error r = true ∧ cache w' = cache w)
         ∨ (is_quote_record r = true
            ∧ cache w' = SimpleCache.set cache_key r (cache w) (clock w)))
  | (Raise _, w') => cache w' = cache w ∧ clock w' = clock w
  end.
Proof.
  intros Hw. unfold alphavantage_try. destruct (negb _).
  { cbn. split; [done|]. by left. }
  set (m := if PyStr.endswith _ _ then _ else _).
  assert (Hf : fetch_only m).
  { subst m. destruct (PyStr.endswith _ _);
      [apply alphavantage_crypto_fetch_only|apply alphavantage_stock_fetch_only]. }
  assert (Hq : keeps m (λ r, is_quote_record r = true)).
  { subst m. destruct (PyStr.endswith _ _);
      [apply alphavantage_crypto_keeps|apply alphavantage_stock_keeps]. }
  specialize (Hf w). specialize (Hq w Hw).
  unfold mbind, M_bind, bind. destruct (m w) as [[r|e] w1]; cbn [snd] in Hf.
  - destruct Hf as [Hc Ht], Hq as [_ Hr]. cbn. split; [done|]. right.
    split; [done|]. by rewrite Hc, Ht.
  - done.
Qed.

(** Where a result of [get_stock_data_alphavantage] is left: a record is
    in the cache under the key of the symbol, as a live item; an error
    result is not cached. *)
Lemma alphavantage_result_cached symbol w :
  stock_cache_ok w →
  let key := "stock_av_" +:+ PyStr.upper symbol in
  let r := (alphavantage symbol w).1 in
  let w' := (alphavantage symbol w).2 in
  SimpleCache.cache_duration (cache w') = SimpleCache.cache_duration (cache w)
  ∧ (has_error r = false →
     truthy r = true
     ∧ ∃ t, SimpleCache.cache (cache w') !! key = Some (r, t)
            ∧ ((0 < SimpleCache.cache_duration (cache w))%Q →
               (clock w' - t < SimpleCache.cache_duration (cache w))%Q))
  ∧ (has_error r = true → SimpleCache.cache (cache w') !! key = None).
Proof.
  intros Hw. cbn zeta.
  set (key := "stock_av_" +:+ PyStr.upper symbol).
  assert (Hrec : ∀ v t, SimpleCache.cache (cache w) !! key = Some (v, t) →
                        is_quote_record v = true).
  { intros v t Hk. by apply (Hw key v t). }
  assert (Hmiss : ∀ w1, stock_cache_ok w1 →
            SimpleCache.cache (cache w1) !! key = None →
            let out := (let (_, w2) := cache_wait_for_rate_limit "alphavantage" w1 in
                        try_except (alphavantage_try rt environ upstream key
                                      (normalize_symbol symbol))
                                   (alphavantage_except rt symbol) w2) in
            SimpleCache.cache_duration (cache out.2)
            = SimpleCache.cache_duration (cache w1)
            ∧ (has_error out.1 = false →
               truthy out.1 = true
               ∧ ∃ t, SimpleCache.cache (cache out.2) !! key = Some (out.1, t)
                      ∧ ((0 < SimpleCache.cache_duration (cache w1))%Q →
                         (clock out.2 - t < SimpleCache.cache_duration (cache w1))%Q))
            ∧ (has_error out.1 = true →
               SimpleCache.cache (cache out.2) !! key = None)).
  { intros w1 Hw1 Hnone. cbn zeta.
    pose proof (keeps_wait_for_rate_limit "alphavantage" w1 Hw1) as [Hw2 _].
    assert (Hc2 : SimpleCache.cache (cache (cache_wait_for_rate_limit "alphavantage" w1).2)
                  = SimpleCache.cache (cache w1)) by done.
    assert (Hd2 : SimpleCache.cache_duration
                    (cache (cache_wait_for_rate_limit "alphavantage" w1).2)
                  = SimpleCache.cache_duration (cache w1)) by done.
    destruct (cache_wait_for_rate_limit "alphavantage" w1) as [[] w2].
    cbn [snd] in Hw2, Hc2, Hd2. unfold try_except.
    pose proof (alphavantage_try_outcome key (normalize_symbol symbol) w2 Hw2) as Ho.
    destruct (alphavantage_try _ _ _ _ _ w2) as [[r|e] w3].
    - destruct Ho as [Ht [[He Hc]|[Hq Hc]]]; cbn [fst snd].
      + split; [by rewrite Hc|]. split; [by rewrite He|]. intros _. by rewrite Hc, Hc2.
      + split; [by rewrite Hc|].
        split; [|by rewrite (quote_record_no_error _ Hq)].
        intros _. split; [by apply quote_record_truthy|].
        exists (clock w2). rewrite Hc. split; [apply lookup_insert_eq|].
        intros Hpos. rewrite Ht.
        assert (clock w2 - clock w2 == 0)%Q as -> by ring. done.
    - destruct Ho as [Hc Ht].
      assert (He : has_error (alphavantage_except rt symbol e w3).1 = true
                   ∧ SimpleCache.cache (cache (alphavantage_except rt symbol e w3).2)
                     = SimpleCache.cache (cache w3)
                   ∧ SimpleCache.cache_duration
                       (cache (alphavantage_except rt symbol e w3).2)
                     = SimpleCache.cache_duration (cache w3)).
      { unfold alphavantage_except.
        repeat (match goal with |- context [if ?b then _ else _] => destruct b end);
          by split. }
      destruct He as (He & Hc3 & Hd3).
      split; [by rewrite Hd3, Hc|]. split; [by rewrite He|].
      intros _. by rewrite Hc3, Hc, Hc2. }
  unfold get_stock_data_alphavantage. fold key.
  unfold cache_get, SimpleCache.get.
  destruct (SimpleCache.cache (cache w) !! key) as [[d ts]|] eqn:Hk.
  - destruct (Qlt_le_dec _ _) as [Hlive|Hold].
    + pose proof (Hrec d ts eq_refl) as Hq.
      rewrite (quote_record_truthy _ Hq). cbn [fst snd cache clock].
      split; [done|]. split; [|by rewrite (quote_record_no_error _ Hq)].
      intros _. split; [by apply quote_record_truthy|]. by exists ts.
    + cbn [truthy].
      refine (Hmiss (mkWorld (clock w)
                       (SimpleCache.with_cache (delete key (SimpleCache.cache (cache w)))
                          (cache w)) (sent w)) _ _).
      * intros k v t Hkv Hs. cbn in Hkv.
        apply lookup_delete_Some in Hkv as [_ Hkv]. by apply (Hw k v t).
      * cbn. apply lookup_delete_eq.
  - cbn [truthy].
    refine (Hmiss (mkWorld (clock w) (cache w) (sent w)) _ _); by destruct w.
Qed.

(** A record just returned is returned again by the next call, which
    changes nothing. *)
Lemma alphavantage_again symbol w :
  stock_cache_ok w → (0 < SimpleCache.cache_duration (cache w))%Q →
  has_error (alphavantage symbol w).1 = false →
  alphavantage symbol (alphavantage symbol w).2 = alphavantage symbol w.
Proof.
  intros Hw Hpos He.
  destruct (alphavantage_result_cached symbol w Hw) as (Hd & Hok & _).
  destruct (Hok He) as (Hr & t & Hk & Hlive). specialize (Hlive Hpos).
  destruct (alphavantage symbol w) as [r w'] eqn:E. cbn [fst snd] in *.
  destruct w' as [c sc s]. cbn [cache clock] in *.
  apply (alphavantage_hit symbol r t); [done| |done]. by rewrite Hd.
Qed.

(** X4. A record returned by [get_stock_data_alphavantage] is in the cache
    under ["stock_av_" + symbol.upper()], and every later call for the symbol
    made while the item is younger than [cache_duration] returns that record
    without waiting and without a request.  An error result is never
    cached. *)
Theorem alphavantage_serves_cached symbol w :
  stock_cache_ok w →
  let key := "stock_av_" +:+ PyStr.upper symbol in
  let r := (alphavantage symbol w).1 in
  let w' := (alphavantage symbol w).2 in
  (has_error r = false →
   ∃ t, SimpleCache.cache (cache w') !! key = Some (r, t)
        ∧ ∀ c s, (c - t < SimpleCache.cache_duration (cache w'))%Q →
            alphavantage symbol (mkWorld c (cache w') s) = (r, mkWorld c (cache w') s))
  ∧ (has_error r = true → SimpleCache.cache (cache w') !! key = None).
Proof.
  intros Hw. cbn zeta.
  destruct (alphavantage_result_cached symbol w Hw) as (Hd & Hok & Herr).
  split; [|done]. intros He. destruct (Hok He) as (Hr & t & Hk & _).
  exists t. split; [done|]. intros c s Hlive.
  by apply (alphavantage_hit symbol _ t).
Qed.

End CachedResults.

Lemma alphavantage_serves_cached_witness :
  stock_cache_ok (world0 0)
  ∧ ∃ t, SimpleCache.cache
           (cache (get_stock_data_alphavantage Examples.runtime Examples.alpha_key_only
                     Examples.crypto_one_day "bitcoin" (world0 0)).2)
         !! "stock_av_BITCOIN"
         = Some ((get_stock_data_alphavantage Examples.runtime Examples.alpha_key_only
                    Examples.crypto_one_day "bitcoin" (world0 0)).1, t).
Proof.
  split; [apply stock_cache_ok_world0|].
  destruct (proj1 (alphavantage_serves_cached Examples.runtime Examples.alpha_key_only
                     Examples.crypto_one_day "bitcoin" (world0 0)
                     (stock_cache_ok_world0 0)) ltac:(vm_compute; reflexivity))
    as (t & Ht & _).
  exists t. exact Ht.
Defined.

(** ** Rate-limit answers of Alpha Vantage *)

Section ContainsFacts.
Import PyStr.

Lemma startswith_app p a b : startswith p a = true → startswith p (a +:+ b) = true.
Proof.
  revert a. induction p as [|c p IH]; intros a H; [done|].
  destruct a as [|c' a]; [done|].
  change (String c' a +:+ b) with (String c' (a +:+ b)). cbn [startswith] in *.
  destruct (decide (c = c')); [by apply IH|done].
Qed.

Lemma contains_app_l sub a b : contains sub a = true → contains sub (a +:+ b) = true.
Proof.
  induction a as [|c a IH]; intros H.
  - destruct sub; [|done]. by destruct b.
  - cbn [contains] in H. apply orb_true_iff in H as [H|H].
    + change (String c a +:+ b) with (String c (a +:+ b)).
      cbn [contains]. apply orb_true_iff. left.
      by apply (startswith_app sub (String c a) b).
    + change (String c a +:+ b) with (String c (a +:+ b)).
      cbn [contains]. apply orb_true_iff. right. by apply IH.
Qed.

End ContainsFacts.

Section RateLimitNote.
Context (rt : Runtime) (environ : gmap string string) (upstream : Upstream).

Local Abbreviation alphavantage := (get_stock_data_alphavantage rt environ upstream).
Local Abbreviation api_key := (config_get (CONFIG environ) "ALPHA_VANTAGE_API_KEY" VNone).

(** X5. When Alpha Vantage answers the [GLOBAL_QUOTE] request of a stock
    symbol with a body that carries a ["Note"] (and no ["Error Message"]),
    [get_stock_data_alphavantage] returns the rate-limit error result, caches
    nothing and sets a backoff of 120 seconds for the provider: no later
    [wait_for_rate_limit] for Alpha Vantage returns before it has run out. *)
Theorem alphavantage_note_triggers_backoff symbol w response body note :
  truthy api_key = true →
  SimpleCache.cache (cache w) !! ("stock_av_" +:+ PyStr.upper symbol) = None →
  PyStr.endswith "-USD" (normalize_symbol symbol) = false →
  upstream (sent w)
    (mkRequest alphavantage_url
       [ ("function", VStr "GLOBAL_QUOTE"); ("symbol", VStr (normalize_symbol symbol));
         ("apikey", api_key) ]) = Answers response →
  json response = Some (VDict body) →
  Dict.has "Error Message" body = false →
  Dict.lookup "Note" body = Some note →
  let r := (alphavantage symbol w).1 in
  let w' := (alphavantage symbol w).2 in
  r = error_result ("🚨 " +:+ symbol +:+ ": Alpha Vantage rate limit. Intenta en 2 minutos.")
  ∧ SimpleCache.cache (cache w') = SimpleCache.cache (cache w)
  ∧ SimpleCache.rate_limit_backoff (cache w') !! "alphavantage" = Some (clock w' + 120)%Q
  ∧ length (sent w') = S (length (sent w))
  ∧ ∀ c, (clock w' + 120
          <= (SimpleCache.wait_for_rate_limit "alphavantage" (cache w') c).2)%Q.
Proof.
  intros Hkey Hnone Hstock Hup Hjson Hnoerr Hnote. cbn zeta.
  assert (Hout : ∃ w2, sent w2 = sent w
                  ∧ SimpleCache.cache (cache w2) = SimpleCache.cache (cache w)
                  ∧ alphavantage symbol w
                    = (error_result ("🚨 " +:+ symbol
                                     +:+ ": Alpha Vantage rate limit. Intenta en 2 minutos."),
                       mkWorld (clock w2)
                         (SimpleCache.trigger_backoff "alphavantage" 120 (cache w2) (clock w2))
                         (sent w2 ++ [mkRequest alphavantage_url
                            [ ("function", VStr "GLOBAL_QUOTE");
                              ("symbol", VStr (normalize_symbol symbol));
                              ("apikey", api_key) ]]))).
  { unfold get_stock_data_alphavantage, cache_get, SimpleCache.get.
    rewrite Hnone. cbn [truthy].
    assert (Hs : sent (cache_wait_for_rate_limit "alphavantage"
                         (mkWorld (clock w) (cache w) (sent w))).2 = sent w) by done.
    assert (Hc : SimpleCache.cache (cache (cache_wait_for_rate_limit "alphavantage"
                         (mkWorld (clock w) (cache w) (sent w))).2)
                 = SimpleCache.cache (cache w)) by done.
    destruct (cache_wait_for_rate_limit _ _) as [[] w2]. cbn [snd] in Hs, Hc.
    exists w2. split; [done|]. split; [done|].
    unfold try_except, alphavantage_try. rewrite Hkey. cbn [negb].
    rewrite Hstock. unfold alphavantage_stock.
    unfold mbind, M_bind, bind, lift, raise, requests_get.
    rewrite Hs, Hup, Hjson.
    assert (Hhas : Dict.has "Note" body = true).
    { unfold Dict.has. rewrite Hnote. done. }
    cbn [PyOps.keys PyOps.contains PyOps.getitem].
    rewrite Hnoerr, Hhas, Hnote.
    unfold alphavantage_except. cbn [exn_text].
    assert (Hl : PyStr.contains "rate limit"
                   (PyStr.lower ("Alpha Vantage Rate Limit: " +:+ str_of rt note)) = true).
    { destruct (lower_app_prefix "Alpha Vantage Rate Limit:"
                  (" " +:+ str_of rt note)) as [rest Hrest];
        [by vm_compute|reflexivity|].
      change ("Alpha Vantage Rate Limit: " +:+ str_of rt note)
        with ("Alpha Vantage Rate Limit:" +:+ (" " +:+ str_of rt note)).
      rewrite Hrest. apply contains_app_l. by vm_compute. }
    rewrite Hl. cbn [orb]. unfold cache_trigger_backoff. cbn [clock cache sent].
    done. }
  destruct Hout as (w2 & Hs & Hc & ->). cbn [fst snd cache clock sent].
  split_and!.
  - done.
  - done.
  - unfold SimpleCache.trigger_backoff, SimpleCache.with_rate_limit_backoff.
    cbn [SimpleCache.rate_limit_backoff]. apply lookup_insert_eq.
  - rewrite length_app, Hs. cbn. lia.
  - intros c.
    rewrite wait_for_rate_limit_clock.
    pose proof (interval_sleep_nonneg "alphavantage"
                  (SimpleCache.trigger_backoff "alphavantage" 120 (cache w2) (clock w2)) c).
    unfold backoff_sleep, SimpleCache.trigger_backoff, SimpleCache.with_rate_limit_backoff.
    cbn [SimpleCache.rate_limit_backoff]. rewrite lookup_insert_eq.
    set (i := interval_sleep _ _ _) in *.
    destruct (Qlt_le_dec _ _); lra.
Qed.

End RateLimitNote.

Lemma alphavantage_note_triggers_backoff_witness :
  (get_stock_data_alphavantage Examples.runtime Examples.alpha_key_only
     RateLimitExample.alpha_rate_limited "AAPL" (world0 0)).1
  = error_result "🚨 AAPL: Alpha Vantage rate limit. Intenta en 2 minutos.".
Proof.
  refine (proj1 (alphavantage_note_triggers_backoff Examples.runtime
                   Examples.alpha_key_only RateLimitExample.alpha_rate_limited
                   "AAPL" (world0 0) _ _ (VStr "Thank you for using Alpha Vantage!")
                   _ _ _ _ _ _ _)); reflexivity.
Defined.

(** ** Requests attempted by a lookup *)

Section AttemptsFacts.
Context (upstream : Upstream) (P : Request → Prop).

Lemma attempts_none {A} n (f : World → A * World) :
  (∀ w, sent (f w).2 = sent w) → attempts n P f.
Proof.
  intros H w. exists []. rewrite H, app_nil_r. split; [done|]. split; [cbn; lia|done].
Qed.

Lemma attempts_ret {A} n (a : A) : attempts n P (mret a : M A).
Proof. by apply attempts_none. Qed.

Lemma attempts_raise {A} n e : attempts n P (@raise A e).
Proof. by apply attempts_none. Qed.

Lemma attempts_lift {A} n (r : result A) : attempts n P (lift r).
Proof. by apply attempts_none. Qed.

Lemma attempts_weaken {A} n n' (f : World → A * World) :
  attempts n P f → (n ≤ n')%nat → attempts n' P f.
Proof.
  intros H Hn w. destruct (H w) as (new & ? & ? & ?). exists new.
  split; [done|]. split; [lia|done].
Qed.

Lemma attempts_bind {A B} n1 n2 (m : M A) (k : A → M B) :
  attempts n1 P m → (∀ a, attempts n2 P (k a)) → attempts (n1 + n2) P (x ← m; k x).
Proof.
  intros Hm Hk w. unfold mbind, M_bind, bind.
  destruct (Hm w) as (new1 & H1 & Hl1 & HP1).
  destruct (m w) as [[a|e] w1]; cbn [snd] in H1.
  - destruct (Hk a w1) as (new2 & H2 & Hl2 & HP2). exists (new1 ++ new2)%list.
    rewrite H2, H1, app_assoc. split; [done|].
    split; [rewrite length_app; lia|by apply Forall_app].
  - exists new1. split; [done|]. split; [lia|done].
Qed.

Lemma attempts_bind_lift {A B} n (r : result A) (k : A → M B) :
  (∀ a, attempts n P (k a)) → attempts n P (x ← lift r; k x).
Proof. intros Hk. apply (attempts_bind 0 n); [apply attempts_lift|done]. Qed.

Lemma attempts_requests_get u p :
  P (mkRequest u p) → attempts 1 P (requests_get upstream u p).
Proof.
  intros HP w. exists [mkRequest u p]. unfold requests_get.
  destruct (upstream _ _); cbn [snd sent]; (split; [done|]);
    (split; [cbn; lia|by constructor]).
Qed.

Lemma attempts_bind_get {B} n u p (k : Response → M B) :
  P (mkRequest u p) → (∀ r, attempts n P (k r)) →
  attempts (S n) P (x ← requests_get upstream u p; k x).
Proof.
  intros HP Hk. apply (attempts_bind 1 n); [by apply attempts_requests_get|done].
Qed.

Lemma attempts_call {A} n (f : World → A * World) :
  attempts n P f → attempts n P (call f).
Proof.
  intros H w. destruct (H w) as (new & ? & ? & ?). exists new.
  unfold call. by destruct (f w).
Qed.

End AttemptsFacts.

(** One step of a proof that a computation keeps to its budget. *)
Ltac attempts_step :=
  match goal with
  | |- attempts _ _ (mbind _ (lift _)) => apply attempts_bind_lift; intros ?
  | |- attempts (S _) _ (mbind _ (requests_get _ _ _)) =>
      apply attempts_bind_get; [reflexivity|intros ?]
  | |- attempts _ _ (raise _) => apply attempts_raise
  | |- attempts _ _ (lift _) => apply attempts_lift
  | |- attempts _ _ (mret _) => apply attempts_ret
  | |- attempts _ _ (match ?x with _ => _ end) => destruct x
  | |- attempts _ _ (if ?b then _ else _) => destruct b
  end.

Section AlphaVantageBudget.
Context (rt : Runtime) (environ : gmap string string) (upstream : Upstream).

Local Abbreviation alphavantage := (get_stock_data_alphavantage rt environ upstream).

Lemma alphavantage_crypto_attempts ns api_key :
  attempts 2 to_alphavantage (alphavantage_crypto rt upstream ns api_key).
Proof. unfold alphavantage_crypto. repeat attempts_step. Qed.

Lemma alphavantage_stock_attempts ns api_key :
  attempts 2 to_alphavantage (alphavantage_stock rt upstream ns api_key).
Proof. unfold alphavantage_stock. repeat attempts_step. Qed.

Lemma alphavantage_attempts symbol : attempts 2 to_alphavantage (alphavantage symbol).
Proof.
  intros w. unfold get_stock_data_alphavantage.
  assert (Hg : sent (cache_get ("stock_av_" +:+ PyStr.upper symbol) w).2 = sent w).
  { unfold cache_get. by destruct (SimpleCache.get _ _ _). }
  destruct (cache_get _ w) as [cached w1]. cbn [snd] in Hg.
  destruct (truthy cached).
  { exists []. rewrite app_nil_r. split; [done|]. split; [cbn; lia|done]. }
  assert (Hs : sent (cache_wait_for_rate_limit "alphavantage" w1).2 = sent w1) by done.
  destruct (cache_wait_for_rate_limit _ w1) as [[] w2]. cbn [snd] in Hs.
  rewrite <- Hg, <- Hs. unfold try_except.
  assert (Hb : attempts 2 to_alphavantage
                 (alphavantage_try rt environ upstream
                    ("stock_av_" +:+ PyStr.upper symbol) (normalize_symbol symbol))).
  { unfold alphavantage_try. destruct (negb _); [apply attempts_ret|].
    apply (attempts_bind _ 2 0).
    - destruct (PyStr.endswith _ _);
        [apply alphavantage_crypto_attempts|apply alphavantage_stock_attempts].
    - intros r. apply (attempts_bind _ 0 0); [by apply attempts_none|].
      intros _. apply attempts_ret. }
  destruct (Hb w2) as (new & Hn & Hl & HP).
  destruct (alphavantage_try _ _ _ _ _ w2) as [[r|e] w3]; cbn [snd] in Hn.
  - by exists new.
  - exists new. split; [|done]. rewrite <- Hn. unfold alphavantage_except.
    repeat (match goal with |- context [if ?b then _ else _] => destruct b end); done.
Qed.

End AlphaVantageBudget.

Section LookupBudget.
Context (rt : Runtime) (environ : gmap string string) (upstream : Upstream).

Local Abbreviation alphavantage := (get_stock_data_alphavantage rt environ upstream).
Local Abbreviation twelve := (get_stock_data_twelve rt environ upstream).

Lemma settles_fallback symbol w :
  settles (alphavantage symbol) (call (alphavantage symbol)) w.
Proof. unfold settles, call. destruct (alphavantage symbol w). by left. Qed.

Lemma settles_bind_lift {A} fallback (r : result A) (k : A → M value) w :
  (∀ a, settles fallback (k a) w) → settles fallback (x ← lift r; k x) w.
Proof.
  intros Hk. unfold settles, mbind, M_bind, bind, lift.
  destruct r as [a|e]; [apply Hk|done].
Qed.

Lemma settles_store fallback key (r : result value) w :
  settles fallback (stock_data ← lift r;
                    _ ← call (cache_set key stock_data);
                    mret stock_data) w.
Proof.
  unfold settles, mbind, M_bind, bind, lift, call, cache_set.
  destruct r as [a|e]; [by right|done].
Qed.

(** The [try] block of the Twelve Data adapter attempts its request and
    then settles. *)
Lemma twelve_try_settles symbol cache_key ns w :
  match twelve_try rt environ upstream symbol cache_key ns w with
  | (Ok r, w') =>
      (r, w') = alphavantage symbol
                  (mkWorld (clock w) (cache w) (sent w ++ [twelve_request environ ns]))
      ∨ sent w' = (sent w ++ [twelve_request environ ns])%list
  | (Raise _, w') =>
      w' = mkWorld (clock w) (cache w) (sent w ++ [twelve_request environ ns])
  end.
Proof.
  unfold twelve_try.
  unfold mbind at 1. unfold M_bind, bind, requests_get.
  destruct (upstream _ _) as [msg|response]; [done|].
  set (w1 := mkWorld _ _ _).
  match goal with |- match ?m w1 with _ => _ end =>
    change (settles (alphavantage symbol) m w1) end.
  repeat first
    [ apply settles_fallback
    | apply settles_store
    | apply settles_bind_lift; intros ?
    | match goal with
      | |- settles _ (match ?x with _ => _ end) _ => destruct x
      | |- settles _ (if ?b then _ else _) _ => destruct b
      end ].
Qed.

(** Where a result of [get_stock_data_twelve] comes from: the cache, the
    Twelve Data request alone, or the Alpha Vantage adapter called after
    that request. *)
Lemma twelve_outcomes symbol w :
  stock_cache_ok w →
  let request := twelve_request environ (normalize_symbol symbol) in
  sent (twelve symbol w).2 = sent w
  ∨ sent (twelve symbol w).2 = (sent w ++ [request])%list
  ∨ ∃ w1, stock_cache_ok w1
          ∧ SimpleCache.cache_duration (cache w1) = SimpleCache.cache_duration (cache w)
          ∧ sent w1 = (sent w ++ [request])%list
          ∧ twelve symbol w = alphavantage symbol w1.
Proof.
  intros Hw. cbn zeta. unfold get_stock_data_twelve.
  pose proof (keeps_cache_get ("stock_twelve_" +:+ PyStr.upper symbol) eq_refl w Hw)
    as [Hw1 _].
  assert (Hg : sent (cache_get ("stock_twelve_" +:+ PyStr.upper symbol) w).2 = sent w
               ∧ SimpleCache.cache_duration
                   (cache (cache_get ("stock_twelve_" +:+ PyStr.upper symbol) w).2)
                 = SimpleCache.cache_duration (cache w)).
  { unfold cache_get, SimpleCache.get.
    destruct (SimpleCache.cache (cache w) !! _) as [[d ts]|]; [|done].
    by destruct (Qlt_le_dec _ _). }
  destruct (cache_get _ w) as [cached w1]. cbn [snd] in Hw1, Hg.
  destruct Hg as [Hs1 Hd1].
  destruct (truthy cached); [by left|].
  pose proof (keeps_wait_for_rate_limit "twelvedata" w1 Hw1) as [Hw2 _].
  assert (Hs2 : sent (cache_wait_for_rate_limit "twelvedata" w1).2 = sent w1) by done.
  assert (Hd2 : SimpleCache.cache_duration
                  (cache (cache_wait_for_rate_limit "twelvedata" w1).2)
                = SimpleCache.cache_duration (cache w1)) by done.
  destruct (cache_wait_for_rate_limit _ w1) as [[] w2]. cbn [snd] in Hw2, Hs2, Hd2.
  unfold try_except.
  set (w3 := mkWorld (clock w2) (cache w2)
               (sent w2 ++ [twelve_request environ (normalize_symbol symbol)])).
  assert (Hw3 : stock_cache_ok w3) by exact Hw2.
  assert (Hs3 : sent w3 = (sent w ++ [twelve_request environ (normalize_symbol symbol)])%list).
  { subst w3. cbn [sent]. by rewrite Hs2, Hs1. }
  pose proof (twelve_try_settles symbol ("stock_twelve_" +:+ PyStr.upper symbol)
                (normalize_symbol symbol) w2) as Ho.
  fold w3 in Ho.
  destruct (twelve_try _ _ _ _ _ _ w2) as [[r|e] w']; cbn [snd].
  - destruct Ho as [E|E].
    + right. right. exists w3. split; [done|]. split; [by rewrite <- Hd1, <- Hd2|].
      by split.
    + right. left. by rewrite E, Hs2, Hs1.
  - subst w'. right. right. exists w3. split; [done|].
    split; [by rewrite <- Hd1, <- Hd2|]. by split.
Qed.

Lemma second_opinion_untagged r :
  needs_second_opinion environ r = Ok true → has_error r = false.
Proof.
  unfold needs_second_opinion. intros H.
  destruct (truthy r); [|done]. cbn [negb] in H.
  destruct r as [| | | | | |d]; try done.
  cbn [PyOps.contains mbind result_bind bind_result] in H. cbn [has_error].
  by destruct (Dict.has "error" d).
Qed.

(** X6. A lookup through [get_stock_data] attempts at most one request to
    Twelve Data, first, and after it at most two requests to Alpha Vantage:
    three requests at most, and none to any other provider. *)
Theorem get_stock_data_request_budget symbol w :
  stock_cache_ok w → (0 < SimpleCache.cache_duration (cache w))%Q →
  ∃ first rest,
    sent (get_stock_data rt environ upstream symbol w).2 = (sent w ++ first ++ rest)%list
    ∧ (length first ≤ 1)%nat ∧ Forall to_twelve first
    ∧ (length rest ≤ 2)%nat ∧ Forall to_alphavantage rest.
Proof.
  intros Hw Hpos.
  assert (Ha : ∀ w0, ∃ rest,
             sent (alphavantage symbol w0).2 = (sent w0 ++ rest)%list
             ∧ (length rest ≤ 2)%nat ∧ Forall to_alphavantage rest)
    by apply (alphavantage_attempts rt environ upstream symbol).
  (* the Twelve Data adapter on its own *)
  assert (Ht : ∃ first rest,
             sent (twelve symbol w).2 = (sent w ++ first ++ rest)%list
             ∧ (length first ≤ 1)%nat ∧ Forall to_twelve first
             ∧ (length rest ≤ 2)%nat ∧ Forall to_alphavantage rest).
  { destruct (twelve_outcomes symbol w Hw) as [E|[E|(w1 & _ & _ & Hs & E)]].
    - exists [], []. rewrite E, app_nil_r. repeat split; (done || (cbn; lia)).
    - exists [twelve_request environ (normalize_symbol symbol)], [].
      rewrite E, app_nil_r. repeat split; try done; try (cbn; lia).
      by constructor.
    - destruct (Ha w1) as (rest & Hr & Hl & HP).
      exists [twelve_request environ (normalize_symbol symbol)], rest.
      rewrite E, Hr, Hs, <- app_assoc. repeat split; try done; try (cbn; lia).
      by constructor. }
  unfold get_stock_data.
  destruct (has_twelve_key environ); [|destruct (has_alpha_key environ)].
  - unfold mbind, M_bind, bind, call, lift.
    destruct (twelve symbol w) as [r w'] eqn:Et. cbn [snd] in Ht.
    destruct (needs_second_opinion environ r) as [[|]|e] eqn:En; [|done|done].
    pose proof (second_opinion_untagged r En) as He.
    destruct (twelve_outcomes symbol w Hw) as [E|[E|(w1 & Hw1 & Hd & Hs & E)]];
      rewrite Et in E; cbn [snd] in E.
    + destruct (Ha w') as (rest & Hr & Hl & HP). exists [], rest.
      destruct (alphavantage symbol w') as [r2 w2]. cbn [snd] in Hr |- *.
      rewrite Hr, E. repeat split; (done || (cbn; lia)).
    + destruct (Ha w') as (rest & Hr & Hl & HP).
      exists [twelve_request environ (normalize_symbol symbol)], rest.
      destruct (alphavantage symbol w') as [r2 w2]. cbn [snd] in Hr |- *.
      rewrite Hr, E, <- app_assoc. repeat split; try done; try (cbn; lia).
      by constructor.
    + assert (Hagain : alphavantage symbol w' = (r, w')).
      { pose proof (alphavantage_again rt environ upstream symbol w1 Hw1) as Hag.
        rewrite <- E in Hag. cbn [fst snd] in Hag. apply Hag; [by rewrite Hd|done]. }
      rewrite Hagain. exact Ht.
  - unfold call. destruct (Ha w) as (rest & Hr & Hl & HP). exists [], rest.
    destruct (alphavantage symbol w) as [r2 w2]. cbn [snd] in Hr |- *.
    repeat split; (done || (cbn; lia)).
  - unfold mbind, M_bind, bind, call, lift.
    destruct (twelve symbol w) as [r w'] eqn:Et. cbn [snd] in Ht.
    destruct (truthy r); [|done].
    destruct (PyOps.contains "error" r) as [[|]|e]; done.
Qed.

End LookupBudget.

Lemma get_stock_data_request_budget_witness :
  stock_cache_ok (world0 0)
  ∧ (0 < SimpleCache.cache_duration (cache (world0 0)))%Q
  ∧ ∃ first rest,
      sent (get_stock_data Examples.runtime Examples.both_keys
              Examples.flat_twelve_full_alpha "AAPL" (world0 0)).2
      = (sent (world0 0) ++ first ++ rest)%list
      ∧ (length first ≤ 1)%nat ∧ (length rest ≤ 2)%nat.
Proof.
  split; [apply stock_cache_ok_world0|]. split; [reflexivity|].
  destruct (get_stock_data_request_budget Examples.runtime Examples.both_keys
              Examples.flat_twelve_full_alpha "AAPL" (world0 0)
              (stock_cache_ok_world0 0) ltac:(reflexivity))
    as (first & rest & H1 & H2 & _ & H3 & _).
  exists first, rest. exact (conj H1 (conj H2 H3)).
Defined.

(** ** Weather results: shape and cache *)

Section WeatherResultFacts.
Context (rt : Runtime) (environ : gmap string string) (upstream : Upstream).

Lemma forecast_entry_shape i hour_data e :
  forecast_entry i hour_data = Ok e → is_forecast_entry e = true.
Proof.
  unfold forecast_entry. intros H. ok_inv H.
  unfold PyOps.round in *.
  repeat match goal with
         | E : match ?v with _ => _ end = Ok _ |- _ => destruct v; try discriminate E
         | E : Ok _ = Ok _ |- _ => injection E as <-
         end; reflexivity.
Qed.

Lemma forecast_entries_shape hours h offsets acc :
  forallb is_forecast_entry acc = true →
  forallb is_forecast_entry (forecast_entries hours h offsets acc) = true
  ∧ (length (forecast_entries hours h offsets acc) ≤ length acc + length offsets)%nat.
Proof.
  revert acc. induction offsets as [|i rest IH]; intros acc Hacc.
  { cbn. split; [done|lia]. }
  cbn [forecast_entries length].
  destruct (PyOps.len hours) as [n|e]; [|split; [done|lia]].
  destruct (decide _).
  - destruct (mbind _ _) as [entry|e] eqn:E; [|split; [done|lia]].
    assert (He : is_forecast_entry entry = true).
    { cbn [mbind result_bind bind_result] in E.
      destruct (PyOps.index hours _) as [hd|]; [|done].
      by eapply forecast_entry_shape. }
    destruct (IH (acc ++ [entry])%list) as [H1 H2].
    { rewrite forallb_app, Hacc. cbn. by rewrite He. }
    split; [done|]. rewrite length_app in H2. cbn in H2. lia.
  - destruct (IH acc Hacc) as [H1 H2]. split; [done|lia].
Qed.

Lemma weather_forecast_shape key v w :
  forallb is_forecast_entry (weather_forecast rt upstream key v w).1 = true
  ∧ (length (weather_forecast rt upstream key v w).1 ≤ 6)%nat.
Proof.
  unfold weather_forecast.
  destruct (requests_get _ _ _ _) as [[response|e] w']; [|by cbn; split; [|lia]].
  destruct (decide _); [|by cbn; split; [|lia]].
  destruct (json response) as [data|]; [|by cbn; split; [|lia]].
  destruct (forecast_hours data) as [[hours|]|]; try by cbn; split; [|lia].
  cbn [fst].
  exact (forecast_entries_shape hours (local_hour rt (clock w'))
           [0; 1; 2; 3; 4; 5]%Z [] eq_refl).
Qed.

Lemma is_weather_record_intro d t f ws entries :
  d.*1 = weather_keys →
  Dict.lookup "temperature" d = Some (VInt t) →
  Dict.lookup "feels_like" d = Some (VInt f) →
  Dict.lookup "wind_speed" d = Some (VFloat ws) →
  Dict.lookup "forecast" d = Some (VList entries) →
  forallb is_forecast_entry entries = true → (length entries ≤ 6)%nat →
  is_weather_record (VDict d) = true.
Proof.
  intros Hk Ht Hf Hw He Hs Hl. unfold is_weather_record.
  rewrite Ht, Hf, Hw, He, Hs. cbn [is_int is_float].
  by rewrite !bool_decide_eq_true_2.
Qed.

Lemma weather_record_shape current_data items forecast :
  weather_record current_data = Ok items →
  forallb is_forecast_entry forecast = true → (length forecast ≤ 6)%nat →
  is_weather_record (VDict (items ++ [("forecast", VList forecast)])) = true.
Proof.
  unfold weather_record. intros H Hf Hl. ok_inv H.
  unfold PyOps.round, PyOps.truediv in *.
  repeat match goal with
         | E : match ?v with _ => _ end = Ok _ |- _ => destruct v; try discriminate E
         | E : Ok _ = Ok _ |- _ => injection E as <-
         end;
    by eapply is_weather_record_intro.
Qed.

Lemma weather_record_no_error r : is_weather_record r = true → has_error r = false.
Proof.
  destruct r as [| | | | | |d]; try done. cbn. intros H.
  repeat (apply andb_true_iff in H as [H _]).
  apply bool_decide_eq_true_1 in H.
  unfold Dict.has. apply bool_decide_eq_false_2. intros [v Hv].
  apply dict_lookup_elem_of in Hv.
  assert ("error" ∈ d.*1) as Hin by (apply list_elem_of_fmap; by exists ("error", v)).
  rewrite H in Hin.
  exact (bool_decide_eq_false_1 ("error" ∈ weather_keys) eq_refl Hin).
Qed.

Lemma weather_record_truthy r : is_weather_record r = true → truthy r = true.
Proof. destruct r as [| | | | | |d]; try done. by destruct d. Qed.

(** One attempt: a configuration error and nothing done, a record stored in
    the cache, or neither, with the clock and the cache as they were. *)
Lemma weather_try_result ck v w :
  match weather_try rt environ upstream ck v w with
  | (Ok (Some r), w') =>
      (has_error r = true ∧ w' = w)
      ∨ (is_weather_record r = true ∧ clock w' = clock w
         ∧ cache w' = SimpleCache.set ck r (cache w) (clock w))
  | (_, w') => clock w' = clock w ∧ cache w' = cache w
  end.
Proof.
  unfold weather_try. destruct (negb _); [by left|].
  unfold mbind, M_bind, bind, requests_get.
  destruct (upstream _ _) as [msg|response]; [done|].
  destruct (decide _); [done|].
  destruct (json response) as [current_data|]; [|done].
  unfold lift. destruct (weather_record current_data) as [items|e] eqn:E; [|done].
  unfold call. pose proof (weather_forecast_world rt upstream (weather_api_key environ) v
                             (mkWorld (clock w) (cache w)
                                (sent w ++ [mkRequest
                                   (url (weather_request (weather_api_key environ) v))
                                   (params (weather_request (weather_api_key environ) v))])))
    as Hw.
  pose proof (weather_forecast_shape (weather_api_key environ) v
                (mkWorld (clock w) (cache w)
                   (sent w ++ [mkRequest
                      (url (weather_request (weather_api_key environ) v))
                      (params (weather_request (weather_api_key environ) v))])))
    as [Hf Hl].
  destruct (weather_forecast _ _ _ _ _) as [forecast w2]. cbn [fst snd] in *. subst w2.
  cbn. right. split; [|done]. by eapply weather_record_shape.
Qed.

Lemma weather_loop_result city ck variations w :
  let r := (weather_loop rt environ upstream city ck variations w).1 in
  let w' := (weather_loop rt environ upstream city ck variations w).2 in
  clock w' = clock w
  ∧ SimpleCache.cache_duration (cache w') = SimpleCache.cache_duration (cache w)
  ∧ (has_error r = true
     ∨ (is_weather_record r = true
        ∧ SimpleCache.cache (cache w') !! ck = Some (r, clock w))).
Proof.
  cbn zeta. revert w. induction variations as [|v rest IH]; intros w.
  { cbn. split; [done|]. split; [done|]. by left. }
  cbn [weather_loop]. pose proof (weather_try_result ck v w) as Ht.
  destruct (weather_try _ _ _ _ _ w) as [[[r|]|e] w1].
  - destruct Ht as [[He ->]|(Hr & Hc & Hs)]; cbn [fst snd].
    + split; [done|]. split; [done|]. by left.
    + split; [done|]. rewrite Hs. split; [done|]. right. split; [done|].
      apply lookup_insert_eq.
  - destruct Ht as [Hc Hs]. destruct (IH w1) as (H1 & H2 & H3).
    split; [congruence|]. split; [by rewrite H2, Hs|].
    destruct H3 as [?|[? Hk]]; [by left|right]. split; [done|]. by rewrite <- Hc.
  - destruct Ht as [Hc Hs]. destruct (IH w1) as (H1 & H2 & H3).
    split; [congruence|]. split; [by rewrite H2, Hs|].
    destruct H3 as [?|[? Hk]]; [by left|right]. split; [done|]. by rewrite <- Hc.
Qed.

(** X7. A weather lookup that misses the cache returns an error result or a
    weather record: the ten keys of the dict literal, integer temperatures, a
    float wind speed and a forecast of at most six entries, each with its
    five keys; the record is what the cache then holds for the city. *)
Theorem get_weather_data_record city w :
  truthy (cache_get ("weather_" +:+ PyStr.lower city) w).1 = false →
  let r := (get_weather_data rt environ upstream city w).1 in
  let w' := (get_weather_data rt environ upstream city w).2 in
  has_error r = true
  ∨ (is_weather_record r = true
     ∧ (∀ k, k ∈ weather_keys → is_Some (field k r))
     ∧ ∃ t, SimpleCache.cache (cache w') !! ("weather_" +:+ PyStr.lower city)
            = Some (r, t)).
Proof.
  intros Hmiss. cbn zeta. unfold get_weather_data.
  destruct (cache_get _ w) as [cached w1]. cbn [fst] in Hmiss. rewrite Hmiss.
  destruct (cache_wait_for_rate_limit "weatherapi" w1) as [[] w2].
  destruct (weather_loop_result city ("weather_" +:+ PyStr.lower city)
              (city_variations city) w2) as (_ & _ & [He|[Hr Hk]]); [by left|].
  right. split; [done|]. split; [|by eexists].
  destruct (weather_loop _ _ _ _ _ _ w2) as [r w3]. cbn [fst] in Hr |- *.
  destruct r as [| | | | | |d]; try done. cbn in Hr.
  repeat (apply andb_true_iff in Hr as [Hr _]).
  apply bool_decide_eq_true_1 in Hr.
  intros k Hin. cbn [field]. rewrite <- Hr in Hin.
  destruct (Dict.lookup k d) eqn:E; [done|].
  by apply dict_lookup_None in E.
Qed.

Lemma weather_hit city r t c sc s :
  SimpleCache.cache sc !! ("weather_" +:+ PyStr.lower city) = Some (r, t) →
  (c - t < SimpleCache.cache_duration sc)%Q →
  truthy r = true →
  get_weather_data rt environ upstream city (mkWorld c sc s) = (r, mkWorld c sc s).
Proof.
  intros Hk Hlive Hr. unfold get_weather_data, cache_get, SimpleCache.get.
  cbn [cache clock sent]. rewrite Hk.
  destruct (Qlt_le_dec _ _) as [_|Hle].
  - by rewrite Hr.
  - exfalso. apply (Qlt_irrefl (c - t)). by eapply Qlt_le_trans.
Qed.

(** X8. Weather results are cached per lower-cased city name: a result
    without error tag returned for a city is stored under the key of
    [city.lower()], and is returned again, without waiting and without a
    request, by a later call for any city with the same [lower()] ("CÓRDOBA"
    for "Córdoba"), made on the cache as the first call left it while the
    item is younger than [cache_duration]. *)
Theorem get_weather_data_cached city city' w :
  PyStr.lower city' = PyStr.lower city →
  let r := (get_weather_data rt environ upstream city w).1 in
  let w' := (get_weather_data rt environ upstream city w).2 in
  has_error r = false →
  ∃ t, SimpleCache.cache (cache w') !! ("weather_" +:+ PyStr.lower city) = Some (r, t)
       ∧ ∀ c s, (c - t < SimpleCache.cache_duration (cache w'))%Q →
           get_weather_data rt environ upstream city' (mkWorld c (cache w') s)
           = (r, mkWorld c (cache w') s).
Proof.
  intros Hcase. cbn zeta.
  assert (Hcached : ∀ r w', has_error r = false → truthy r = true →
            ∀ t, SimpleCache.cache (cache w') !! ("weather_" +:+ PyStr.lower city)
                 = Some (r, t) →
            ∃ t, SimpleCache.cache (cache w') !! ("weather_" +:+ PyStr.lower city)
                 = Some (r, t)
                 ∧ ∀ c s, (c - t < SimpleCache.cache_duration (cache w'))%Q →
                     get_weather_data rt environ upstream city' (mkWorld c (cache w') s)
                     = (r, mkWorld c (cache w') s)).
  { intros r w' _ Hr t Hk. exists t. split; [done|]. intros c s Hlive.
    apply (weather_hit city' r t); [by rewrite Hcase|done|done]. }
  unfold get_weather_data, cache_get, SimpleCache.get.
  destruct (SimpleCache.cache (cache w) !! _) as [[d ts]|] eqn:Hk.
  - destruct (Qlt_le_dec _ _) as [Hlive|Hold].
    + destruct (truthy d) eqn:Hd.
      * cbn [fst snd cache]. intros He. by apply (Hcached d _ He Hd ts).
      * destruct (cache_wait_for_rate_limit _ _) as [[] w2].
        pose proof (weather_loop_result city ("weather_" +:+ PyStr.lower city)
                      (city_variations city) w2) as (_ & _ & [He|[Hr Hk2]]).
        { intros He'. by rewrite He in He'. }
        intros He. apply (Hcached _ _ He (weather_record_truthy _ Hr) _ Hk2).
    + cbn [truthy]. destruct (cache_wait_for_rate_limit _ _) as [[] w2].
      pose proof (weather_loop_result city ("weather_" +:+ PyStr.lower city)
                    (city_variations city) w2) as (_ & _ & [He|[Hr Hk2]]).
      { intros He'. by rewrite He in He'. }
      intros He. apply (Hcached _ _ He (weather_record_truthy _ Hr) _ Hk2).
  - cbn [truthy]. destruct (cache_wait_for_rate_limit _ _) as [[] w2].
    pose proof (weather_loop_result city ("weather_" +:+ PyStr.lower city)
                  (city_variations city) w2) as (_ & _ & [He|[Hr Hk2]]).
    { intros He'. by rewrite He in He'. }
    intros He. apply (Hcached _ _ He (weather_record_truthy _ Hr) _ Hk2).
Qed.

End WeatherResultFacts.

Lemma get_weather_data_record_witness :
  is_weather_record
    (get_weather_data Examples.runtime Examples.both_keys
       WeatherExamples.malformed_then_good "Cordoba" (world0 0)).1 = true.
Proof.
  destruct (get_weather_data_record Examples.runtime Examples.both_keys
              WeatherExamples.malformed_then_good "Cordoba" (world0 0)
              ltac:(reflexivity)) as [He|[Hr _]].
  - by vm_compute in He.
  - exact Hr.
Defined.

Lemma get_weather_data_cached_witness :
  PyStr.lower "CÓRDOBA" = PyStr.lower "Córdoba"
  ∧ has_error (get_weather_data Examples.runtime Examples.both_keys
                 WeatherExamples.malformed_then_good "Córdoba" (world0 0)).1 = false
  ∧ (get_weather_data Examples.runtime Examples.both_keys
       WeatherExamples.malformed_then_good "CÓRDOBA"
       (mkWorld 3600
          (cache (get_weather_data Examples.runtime Examples.both_keys
                    WeatherExamples.malformed_then_good "Córdoba" (world0 0)).2) [])).1
    = (get_weather_data Examples.runtime Examples.both_keys
         WeatherExamples.malformed_then_good "Córdoba" (world0 0)).1.
Proof.
  split; [by vm_compute|]. split; [by vm_compute|].
  destruct (get_weather_data_cached Examples.runtime Examples.both_keys
              WeatherExamples.malformed_then_good "Córdoba" "CÓRDOBA" (world0 0)
              ltac:(vm_compute; reflexivity) ltac:(vm_compute; reflexivity))
    as (t & Ht & Hagain).
  rewrite Hagain; [reflexivity|].
  vm_compute in Ht. injection Ht as <-. reflexivity.
Defined.

(** ** [IntelligentCache]: invariants of a history of calls *)

Section CacheHistoryFacts.
Import IntelligentCache CacheMaintenance.
Local Open Scope Q_scope.
Context {Args : Type} (args_text : Args → string).

Local Abbreviation get := (IntelligentCache.get args_text).
Local Abbreviation set := (IntelligentCache.set args_text).
Local Abbreviation key := (IntelligentCache._generate_key args_text).
Local Abbreviation history := (CacheMaintenance.history args_text).
Local Abbreviation after := (CacheMaintenance.after args_text).

Lemma dict_assign_keys {A} k (v : A) d :
  k ∈ d.*1 → (Dict.assign k v d).*1 = d.*1.
Proof.
  induction d as [|[k' v'] d IH]; intros Hin; [by apply elem_of_nil in Hin|].
  cbn. destruct (decide (k' = k)) as [->|Hne]; [done|].
  cbn. f_equal. apply IH. apply elem_of_cons in Hin as [?|?]; [by subst|done].
Qed.

Lemma dict_assign_keys_new {A} k (v : A) d :
  k ∉ d.*1 → (Dict.assign k v d).*1 = (d.*1 ++ [k])%list.
Proof.
  induction d as [|[k' v'] d IH]; intros Hin; [done|].
  cbn. destruct (decide (k' = k)) as [->|Hne].
  - exfalso. apply Hin. cbn. by left.
  - cbn. f_equal. apply IH. intros ?. apply Hin. cbn. by right.
Qed.

Lemma dict_assign_NoDup {A} k (v : A) d : NoDup d.*1 → NoDup (Dict.assign k v d).*1.
Proof.
  intros Hnd. destruct (decide (k ∈ d.*1)) as [Hin|Hin].
  - by rewrite dict_assign_keys.
  - rewrite dict_assign_keys_new by done. apply NoDup_app. split; [done|].
    split; [|apply NoDup_singleton]. intros x Hx ->%list_elem_of_singleton. done.
Qed.

Lemma dict_remove_NoDup {A} k (d : list (string * A)) :
  NoDup d.*1 → NoDup (Dict.remove k d).*1.
Proof. intros H. by apply (dict_remove_all_NoDup [k] d). Qed.

Lemma dict_assign_length_in {A} k (v : A) d :
  k ∈ d.*1 → length (Dict.assign k v d) = length d.
Proof.
  intros Hin. rewrite <- (length_fmap fst (Dict.assign k v d)), dict_assign_keys by done.
  by rewrite length_fmap.
Qed.

Lemma cleanup_NoDup self now : NoDup (cache self).*1 → NoDup (cache (_cleanup self now)).*1.
Proof. intros H. unfold _cleanup. cbn [cache]. by do 2 apply dict_remove_all_NoDup. Qed.

Lemma set_NoDup ns v ttl args self now :
  NoDup (cache self).*1 → NoDup (cache (set ns v ttl args self now)).*1.
Proof.
  intros H. unfold IntelligentCache.set. cbn [cache]. apply dict_assign_NoDup.
  destruct (decide _); [by apply cleanup_NoDup|done].
Qed.

Lemma get_NoDup ns args self now :
  NoDup (cache self).*1 → NoDup (cache (get ns args self now).2).*1.
Proof.
  intros H. unfold IntelligentCache.get.
  destruct (Dict.lookup _ _) as [e|]; [|done].
  destruct (is_expired e now); cbn [snd cache].
  - by apply dict_remove_NoDup.
  - by apply dict_assign_NoDup.
Qed.

Lemma get_length ns args self now :
  (len (get ns args self now).2 <= len self)%Z.
Proof.
  unfold IntelligentCache.get, len.
  destruct (Dict.lookup _ _) as [e|] eqn:E; [|done].
  destruct (is_expired e now); cbn [snd cache].
  - pose proof (dict_remove_all_length [key ns args] (cache self)) as H.
    change (length (Dict.remove (key ns args) (cache self)) ≤ length (cache self))%nat in H.
    lia.
  - rewrite dict_assign_length_in; [done|].
    apply dict_lookup_elem_of in E. apply list_elem_of_fmap. by exists (key ns args, e).
Qed.

Lemma clear_length namespace self : (len (clear namespace self) <= len self)%Z.
Proof.
  unfold clear, len. destruct namespace as [ns|]; cbn [cache].
  - pose proof (dict_remove_all_length
                  (filter (λ key, PyStr.startswith
                             (PyStr.prefix 8 (MD5.hexdigest (ns +:+ ":"))) key = true)
                          (cache self).*1) (cache self)). lia.
  - cbn. lia.
Qed.

Lemma clear_NoDup namespace self :
  NoDup (cache self).*1 → NoDup (cache (clear namespace self)).*1.
Proof.
  intros H. unfold clear. destruct namespace as [ns|]; cbn [cache].
  - by apply dict_remove_all_NoDup.
  - apply NoDup_nil_2.
Qed.

Lemma history_snoc calls c self :
  history (calls ++ [c]) self = after c.1 c.2 (history calls self).
Proof. unfold CacheMaintenance.history. by rewrite foldl_app. Qed.

(** X9. The capacity and the counters over any history of [get], [set] and
    [clear] calls on a fresh cache of capacity at least 5: the store never
    holds more than [max_size] entries and never two entries under one key,
    and [hits + misses] is the number of [get] calls made. *)
Theorem cache_history_invariant (max_size : Z) (calls : list (Call * Q)) :
  (5 <= max_size)%Z →
  let self := history calls (init max_size) in
  IntelligentCache.max_size self = max_size
  ∧ (len self <= max_size)%Z
  ∧ NoDup (cache self).*1
  ∧ (hits (stats self) + misses (stats self))%Z
    = Z.of_nat (length (filter (λ c, is_get c = true) calls)).
Proof.
  intros Hmax. cbn zeta. induction calls as [|[c now] calls IH] using rev_ind.
  { change (history [] (init max_size)) with (init max_size).
    split; [done|]. split; [change (len (init max_size)) with 0%Z; lia|].
    split; [apply NoDup_nil_2|done]. }
  rewrite history_snoc, filter_app, length_app. cbn [fst snd].
  destruct IH as (Hm & Hl & Hnd & Hc).
  set (self := history calls (init max_size)) in *.
  destruct c as [ns args|ns v ttl args|ns]; cbn [CacheMaintenance.after].
  - split_and!.
    + unfold IntelligentCache.get. destruct (Dict.lookup _ _) as [e|]; [|done].
      by destruct (is_expired e now).
    + pose proof (get_length ns args self now). lia.
    + by apply get_NoDup.
    + rewrite filter_cons_True by done. rewrite filter_nil. cbn [length].
      unfold IntelligentCache.get. destruct (Dict.lookup _ _) as [e|]; [|cbn; lia].
      destruct (is_expired e now); cbn; lia.
  - assert (Hm' : IntelligentCache.max_size (set ns v ttl args self now) = max_size).
    { unfold IntelligentCache.set. cbn [IntelligentCache.max_size].
      by destruct (decide _). }
    split_and!.
    + done.
    + pose proof (set_within_capacity args_text ns v ttl args self now) as H.
      rewrite Hm', Hm in H. apply H; lia.
    + by apply set_NoDup.
    + rewrite filter_cons_False by done. rewrite filter_nil. cbn [length].
      unfold IntelligentCache.set. cbn [stats].
      destruct (decide _); cbn [stats _cleanup hits misses]; lia.
  - split_and!.
    + unfold clear. by destruct ns.
    + pose proof (clear_length ns self). lia.
    + by apply clear_NoDup.
    + rewrite filter_cons_False by done. rewrite filter_nil. cbn [length].
      unfold clear. destruct ns; cbn [stats]; lia.
Qed.

End CacheHistoryFacts.

Lemma cache_history_invariant_witness :
  (5 <= 5)%Z
  ∧ (IntelligentCache.len
       (CacheMaintenance.history CacheExamples.one_str_arg
          [ (CacheMaintenance.CallSet "ns" (VStr "a") 100%Z "a", 0%Q);
            (CacheMaintenance.CallGet "ns" "a", 1%Q);
            (CacheMaintenance.CallGet "ns" "b", 2%Q) ]
          (IntelligentCache.init 5)) <= 5)%Z.
Proof.
  split; [lia|].
  exact (proj1 (proj2 (cache_history_invariant CacheExamples.one_str_arg 5
           [ (CacheMaintenance.CallSet "ns" (VStr "a") 100%Z "a", 0%Q);
             (CacheMaintenance.CallGet "ns" "a", 1%Q);
             (CacheMaintenance.CallGet "ns" "b", 2%Q) ] ltac:(lia)))).
Defined.

(** ** [IntelligentCache]: no entry outlives its ttl, and clearing *)

Section CacheLifetimeFacts.
Import IntelligentCache CacheMaintenance.
Local Open Scope Q_scope.
Context {Args : Type} (args_text : Args → string).

Local Abbreviation get := (IntelligentCache.get args_text).
Local Abbreviation set := (IntelligentCache.set args_text).
Local Abbreviation key := (IntelligentCache._generate_key args_text).
Local Abbreviation history := (CacheMaintenance.history args_text).
Local Abbreviation after := (CacheMaintenance.after args_text).

Lemma dict_lookup_filter_keys {A} (P : string → Prop) `{!∀ k, Decision (P k)}
    k (d : list (string * A)) :
  Dict.lookup k (filter (λ it, P it.1) d) = if decide (P k) then Dict.lookup k d else None.
Proof.
  induction d as [|[k' v] d IH]; [by destruct (decide (P k))|].
  destruct (decide (P k')) as [Hk'|Hk'].
  - rewrite filter_cons_True by done. cbn [Dict.lookup].
    destruct (decide (k' = k)) as [->|Hne]; [|done].
    by destruct (decide (P k)).
  - rewrite filter_cons_False by done. cbn [Dict.lookup].
    destruct (decide (k' = k)) as [->|Hne]; [|done].
    rewrite IH. by destruct (decide (P k)).
Qed.

Lemma dict_lookup_remove_all {A} k ks (d : list (string * A)) :
  Dict.lookup k (Dict.remove_all ks d) = if decide (k ∈ ks) then None else Dict.lookup k d.
Proof.
  rewrite dict_remove_all_filter.
  pose proof (dict_lookup_filter_keys (λ k, k ∉ ks) k d) as H. cbn beta in H.
  rewrite H. by repeat destruct (decide _).
Qed.

Lemma dict_lookup_remove_ne {A} k k' (d : list (string * A)) :
  k ≠ k' → Dict.lookup k' (Dict.remove k d) = Dict.lookup k' d.
Proof.
  intros Hne. unfold Dict.remove.
  pose proof (dict_lookup_filter_keys (λ x, x ≠ k) k' d) as H. cbn beta in H.
  rewrite H. by destruct (decide _).
Qed.

(** What the store holds under a key after a call is what it held before,
    touched by a hit, unless the call stores under that key. *)
Lemma after_lookup k c self e' :
  sets_key args_text k c = false →
  Dict.lookup k (cache (after c.1 c.2 self)) = Some e' →
  ∃ e, Dict.lookup k (cache self) = Some e
       ∧ timestamp e' = timestamp e ∧ ttl e' = ttl e ∧ data e' = data e.
Proof.
  destruct c as [[ns args|ns v ttl0 args|ns] now]; cbn [fst snd CacheMaintenance.after].
  - intros _. unfold IntelligentCache.get.
    destruct (Dict.lookup (key ns args) (cache self)) as [e|] eqn:E.
    + destruct (is_expired e now); cbn [snd cache].
      * destruct (decide (key ns args = k)) as [<-|Hne].
        -- by rewrite dict_lookup_remove_eq.
        -- rewrite dict_lookup_remove_ne by done. intros H. by exists e'.
      * destruct (decide (key ns args = k)) as [<-|Hne].
        -- rewrite dict_lookup_assign_eq. intros [= <-]. by exists e.
        -- rewrite dict_lookup_assign_ne by done. intros H. by exists e'.
    + cbn [snd cache]. intros H. by exists e'.
  - unfold sets_key. cbn [fst]. intros Hk%bool_decide_eq_false_1.
    unfold IntelligentCache.set. cbn [cache].
    rewrite dict_lookup_assign_ne by done.
    destruct (decide _); [|intros H; by exists e'].
    unfold _cleanup. cbn [cache]. rewrite !dict_lookup_remove_all.
    repeat destruct (decide _); try done. intros H. by exists e'.
  - intros _. unfold clear. destruct ns as [ns|]; cbn [cache]; [|done].
    rewrite dict_lookup_remove_all. destruct (decide _); [done|].
    intros H. by exists e'.
Qed.

Lemma history_lookup k calls self e' :
  Forall (λ c, sets_key args_text k c = false) calls →
  Dict.lookup k (cache (history calls self)) = Some e' →
  ∃ e, Dict.lookup k (cache self) = Some e
       ∧ timestamp e' = timestamp e ∧ ttl e' = ttl e ∧ data e' = data e.
Proof.
  revert e'. induction calls as [|c calls IH] using rev_ind; intros e' Hc Hk.
  { by exists e'. }
  apply Forall_app in Hc as [Hcalls Hc]. rewrite Forall_singleton in Hc.
  rewrite history_snoc in Hk.
  destruct (after_lookup k c _ e' Hc Hk) as (e1 & H1 & Ht & Hl & Hd).
  destruct (IH e1 Hcalls H1) as (e & H0 & Ht0 & Hl0 & Hd0).
  exists e. split; [done|]. split_and!; congruence.
Qed.

(** X10. No entry outlives its ttl.  After [set] has stored a value with
    [ttl] at time [t0], and whatever calls of [get], [set] and [clear] follow
    (reads of the entry included), as long as none of them stores under the
    same key again, a [get] made more than [ttl] seconds after [t0] returns
    [None]; and a [get] that does return something returns the value that
    was stored. *)
Theorem entry_never_outlives_ttl ns v ttl args self t0 calls t1 :
  Forall (λ c, sets_key args_text (key ns args) c = false) calls →
  let later := history calls (set ns v ttl args self t0) in
  (inject_Z ttl < t1 - t0 → (get ns args later t1).1 = VNone)
  ∧ ((get ns args later t1).1 = VNone ∨ (get ns args later t1).1 = v).
Proof.
  intros Hcalls. cbn zeta.
  set (later := history calls (set ns v ttl args self t0)).
  assert (Hinv : ∀ e, Dict.lookup (key ns args) (cache later) = Some e →
                      timestamp e = t0 ∧ IntelligentCache.ttl e = ttl ∧ data e = v).
  { intros e He.
    destruct (history_lookup _ calls _ e Hcalls He) as (e0 & H0 & Ht & Hl & Hd).
    rewrite (set_stores args_text) in H0. injection H0 as <-.
    by rewrite Ht, Hl, Hd. }
  unfold IntelligentCache.get.
  destruct (Dict.lookup (key ns args) (cache later)) as [e|] eqn:E; [|by split; [|left]].
  destruct (Hinv e eq_refl) as (Ht & Hl & Hd).
  destruct (is_expired e t1) eqn:Hx; cbn [fst]; [by split; [|left]|].
  split; [|by right]. intros Hlate. exfalso.
  assert (is_expired e t1 = true); [|congruence].
  apply is_expired_spec. by rewrite Ht, Hl.
Qed.

(** X11. [clear()] and [cleanup()] empty the store, so that every later
    [get] is a miss, and leave the counters of [stats] as they are.
    [clear(namespace)] removes exactly the entries whose key starts with the
    first eight characters of the digest of [f"{namespace}:"] and keeps every
    other entry; the keys of the entries of a namespace are digests of longer
    texts and need not start so: the entry stored for ["AAPL"] in namespace
    ["stock"] is still served after [clear("stock")]. *)
Theorem clear_removes self namespace k ns args now v :
  cache (clear None self) = []
  ∧ stats (clear None self) = stats self
  ∧ (cleanup self).1 = clear None self
  ∧ (get ns args (clear None self) now).1 = VNone
  ∧ stats (clear (Some namespace) self) = stats self
  ∧ Dict.lookup k (cache (clear (Some namespace) self))
    = (if PyStr.startswith (PyStr.prefix 8 (MD5.hexdigest (namespace +:+ ":"))) k
       then None else Dict.lookup k (cache self))
  ∧ (IntelligentCache.get CacheExamples.one_str_arg "stock" "AAPL"
       (clear (Some "stock")
          (IntelligentCache.set CacheExamples.one_str_arg "stock" v 300 "AAPL" self now))
       now).1 = v.
Proof.
  assert (Hk : ∀ self namespace k,
            Dict.lookup k (cache (clear (Some namespace) self))
            = if PyStr.startswith (PyStr.prefix 8 (MD5.hexdigest (namespace +:+ ":"))) k
              then None else Dict.lookup k (cache self)).
  { clear. intros self namespace k.
    unfold CacheMaintenance.clear. cbn [cache]. rewrite dict_lookup_remove_all.
    set (p := PyStr.prefix 8 _).
    destruct (PyStr.startswith p k) eqn:Hp.
    - destruct (decide _) as [|Hn]; [done|].
      destruct (Dict.lookup k (cache self)) as [e|] eqn:E; [|done].
      exfalso. apply Hn. apply list_elem_of_filter. split; [done|].
      apply dict_lookup_elem_of in E. apply list_elem_of_fmap. by exists (k, e).
    - destruct (decide _) as [Hin|]; [|done].
      apply list_elem_of_filter in Hin as [Hin _]. congruence. }
  split_and!; try done.
  set (stored := IntelligentCache.set CacheExamples.one_str_arg "stock" v 300 "AAPL" self now).
  pose proof (Hk stored "stock"
                (_generate_key CacheExamples.one_str_arg "stock" "AAPL")) as Hs.
  replace (PyStr.startswith _ _) with false in Hs by (vm_compute; reflexivity).
  subst stored. rewrite (set_stores CacheExamples.one_str_arg) in Hs.
  destruct (get_found CacheExamples.one_str_arg "stock" "AAPL" _ now _ Hs) as [_ Hlive].
  cbn [timestamp IntelligentCache.ttl data] in Hlive. apply Hlive.
  assert (now - now == 0) as -> by ring. done.
Qed.

End CacheLifetimeFacts.

Lemma entry_never_outlives_ttl_witness :
  (IntelligentCache.get CacheExamples.one_str_arg "ns" "a"
     (CacheMaintenance.history CacheExamples.one_str_arg
        [ (CacheMaintenance.CallGet "ns" "a", 5%Q);
          (CacheMaintenance.CallSet "ns" (VStr "b") 100%Z "b", 6%Q);
          (CacheMaintenance.CallGet "ns" "a", 9%Q) ]
        (IntelligentCache.set CacheExamples.one_str_arg "ns" (VStr "a") 10 "a"
           (IntelligentCache.init 5) 0)) 11).1 = VNone.
Proof.
  apply (proj1 (entry_never_outlives_ttl CacheExamples.one_str_arg "ns" (VStr "a") 10 "a"
                  (IntelligentCache.init 5) 0
                  [ (CacheMaintenance.CallGet "ns" "a", 5%Q);
                    (CacheMaintenance.CallSet "ns" (VStr "b") 100%Z "b", 6%Q);
                    (CacheMaintenance.CallGet "ns" "a", 9%Q) ] 11
                  ltac:(repeat constructor))).
  reflexivity.
Defined.

(** ** The [cached] decorator *)

Section CachedFacts.
Import IntelligentCache Cached.
Local Open Scope Q_scope.
Context {Args : Type} (call_text : string → Args → string) {Outer : Type}.

Local Abbreviation cached := (@Cached.cached Args call_text Outer).

(** X12. A result other than [None] is computed once per ttl, as long as
    its entry stays in the store.  When a call of the wrapper misses the
    cache and the function returns [r], the entry of the call holds [r] with
    the time the function returned and the ttl.  On any later state of the
    process whose store still holds that entry (it has not been cleared,
    evicted or stored again; it may have been read), a call with the same
    arguments made no more than [ttl] seconds after the function returned
    yields [r] without running the function: whatever function is wrapped,
    the result is [r], the outer state and the clock are left as they are,
    and the entry is still there for the next call. *)
Theorem cached_second_call ns ttl name (func : Func) args app r clock' outer' :
  (get (call_text name) ns args (app_cache app) (app_clock app)).1 = VNone →
  func args (app_clock app) (outer app) = (Ok r, clock', outer') →
  r ≠ VNone →
  let key := _generate_key (call_text name) ns args in
  let stored (c : IntelligentCache.t) :=
    ∃ e, Dict.lookup key (cache c) = Some e
         ∧ data e = r ∧ timestamp e = clock' ∧ IntelligentCache.ttl e = ttl in
  (cached ns ttl name func args app).1 = Ok r
  ∧ stored (app_cache (cached ns ttl name func args app).2)
  ∧ ∀ (func' : Func) (later : App),
      stored (app_cache later) →
      app_clock later - clock' <= inject_Z ttl →
      let again := cached ns ttl name func' args later in
      again.1 = Ok r ∧ outer again.2 = outer later
      ∧ app_clock again.2 = app_clock later
      ∧ stored (app_cache again.2).
Proof.
  intros Hmiss Hf Hr. cbn zeta. split_and!.
  - unfold Cached.cached.
    destruct (get _ ns args (app_cache app) (app_clock app)) as [cr c].
    cbn [fst] in Hmiss. subst cr. by rewrite Hf.
  - unfold Cached.cached.
    destruct (get _ ns args (app_cache app) (app_clock app)) as [cr c].
    cbn [fst] in Hmiss. subst cr. rewrite Hf. cbn [snd app_cache].
    eexists. split; [apply set_stores|done].
  - intros func' later (e & He & Hd & Ht & Httl) Hlive.
    destruct (get_found (call_text name) ns args _ (app_clock later) _ He)
      as [_ Hhit].
    rewrite Ht, Httl in Hhit. destruct (Hhit Hlive) as [Hdata Hkept].
    unfold Cached.cached.
    destruct (get _ ns args (app_cache later) (app_clock later)) as [cr c3].
    cbn [fst snd] in Hdata, Hkept. subst cr. rewrite Hd.
    assert (Hstored : ∃ e', Dict.lookup (_generate_key (call_text name) ns args)
                              (cache c3) = Some e'
                            ∧ data e' = r ∧ timestamp e' = clock'
                            ∧ IntelligentCache.ttl e' = ttl)
      by (eexists; split; [exact Hkept|done]).
    by destruct r.
Qed.

(** X13. A result [None] is stored but never served: when the store holds a
    live entry whose data is [None], the wrapper counts the lookup as a hit
    and runs the function all the same, returning what the function
    returns. *)
Theorem cached_none_reruns ns ttl name (func : Func) args app e :
  Dict.lookup (_generate_key (call_text name) ns args) (cache (app_cache app)) = Some e →
  data e = VNone →
  app_clock app - timestamp e <= inject_Z (IntelligentCache.ttl e) →
  (cached ns ttl name func args app).1 = (func args (app_clock app) (outer app)).1.1
  ∧ outer (cached ns ttl name func args app).2 = (func args (app_clock app) (outer app)).2
  ∧ hits (stats (get (call_text name) ns args (app_cache app) (app_clock app)).2)
    = (hits (stats (app_cache app)) + 1)%Z.
Proof.
  intros He Hd Hlive. unfold Cached.cached, IntelligentCache.get. rewrite He.
  assert (Hx : is_expired e (app_clock app) = false).
  { destruct (is_expired e (app_clock app)) eqn:Hx; [|done].
    apply is_expired_spec in Hx. exfalso.
    apply (Qlt_irrefl (inject_Z (IntelligentCache.ttl e))). by eapply Qlt_le_trans. }
  rewrite Hx, Hd. cbn [snd stats hits].
  destruct (func args (app_clock app) (outer app)) as [[[r|ex] clock'] outer'];
    by cbn.
Qed.

End CachedFacts.

Lemma cached_second_call_witness :
  (Cached.cached CachedExample.no_arg "ns" 300 "counter" CachedExample.counter tt
     CachedExample.fresh).1 = Ok (VInt 1)
  ∧ (Cached.cached CachedExample.no_arg "ns" 300 "counter" CachedExample.counter tt
       (Cached.mkApp
          (Cached.app_cache
             (Cached.cached CachedExample.no_arg "ns" 300 "counter"
                CachedExample.counter tt CachedExample.fresh).2) 301 1%Z)).1
    = Ok (VInt 1).
Proof.
  destruct (cached_second_call CachedExample.no_arg "ns" 300 "counter"
              CachedExample.counter tt CachedExample.fresh (VInt 1) 1 1%Z)
    as (Hfirst & Hstored & Hlater).
  - reflexivity.
  - reflexivity.
  - discriminate.
  - split; [exact Hfirst|].
    refine (proj1 (Hlater CachedExample.counter (Cached.mkApp _ 301 1%Z) Hstored _)).
    vm_compute. discriminate.
Defined.

Lemma cached_none_reruns_witness :
  Cached.outer
    (Cached.cached CachedExample.no_arg "ns" 300 "silent" CachedExample.silent tt
       (Cached.cached CachedExample.no_arg "ns" 300 "silent" CachedExample.silent tt
          CachedExample.fresh).2).2 = 2%Z.
Proof.
  refine (eq_trans (proj1 (proj2 (cached_none_reruns CachedExample.no_arg "ns" 300 "silent"
            CachedExample.silent tt
            (Cached.cached CachedExample.no_arg "ns" 300 "silent" CachedExample.silent tt
               CachedExample.fresh).2
            (IntelligentCache.mkEntry VNone 0 300 0 0) _ _ _))) _).
  - vm_compute. reflexivity.
  - reflexivity.
  - vm_compute. discriminate.
  - reflexivity.
Defined.

(** ** Metrics: bounded histories, summaries, cleanup *)

Section MetricsFacts.
Import Metrics.
Local Open Scope Q_scope.

Lemma deque_append_length p points : (length (deque_append p points) ≤ maxlen)%nat.
Proof. unfold deque_append. rewrite length_drop. lia. Qed.

Lemma popleft_old_suffix cutoff points :
  ∃ old, points = (old ++ popleft_old cutoff points)%list
         ∧ Forall (λ p, timestamp p < cutoff) old.
Proof.
  induction points as [|p rest (old & IH & Hold)].
  { by exists []. }
  cbn [popleft_old]. destruct (Qlt_le_dec _ _) as [Hlt|Hle].
  - exists (p :: old). split; [by rewrite IH at 1|by constructor].
  - by exists [].
Qed.

Lemma popleft_old_length cutoff points :
  (length (popleft_old cutoff points) ≤ length points)%nat.
Proof.
  destruct (popleft_old_suffix cutoff points) as (old & H & _).
  rewrite H at 2. rewrite length_app. lia.
Qed.

Lemma add_point_bounded key p self : bounded self → bounded (add_point key p self).
Proof.
  intros [Hm Hh]. split; [|done]. intros k points. cbn [add_point metrics].
  destruct (decide (key = k)) as [->|Hne].
  - rewrite lookup_insert_eq. intros [= <-]. apply deque_append_length.
  - rewrite lookup_insert_ne by done. apply Hm.
Qed.

Lemma increment_counter_bounded name v tags self now :
  bounded self → bounded (increment_counter name v tags self now).
Proof. intros H. apply add_point_bounded. by destruct H. Qed.

Lemma set_gauge_bounded name v tags self now :
  bounded self → bounded (set_gauge name v tags self now).
Proof. intros H. apply add_point_bounded. by destruct H. Qed.

Lemma record_histogram_bounded name v tags self now :
  bounded self → bounded (record_histogram name v tags self now).
Proof.
  intros [Hm Hh]. apply add_point_bounded. split; [done|].
  intros k values. cbn [histograms].
  destruct (decide (_make_key name tags = k)) as [->|Hne].
  - rewrite lookup_insert_eq. intros [= <-].
    destruct (decide _); [|lia]. rewrite length_drop. lia.
  - rewrite lookup_insert_ne by done. apply Hh.
Qed.

Lemma cleanup_old_bounded self now : bounded self → bounded (_cleanup_old_metrics self now).
Proof.
  intros [Hm Hh]. split; [|done]. intros k points. cbn [_cleanup_old_metrics metrics].
  rewrite lookup_fmap. destruct (metrics self !! k) as [old|] eqn:E; [|done].
  intros [= <-]. pose proof (popleft_old_length
    (now - inject_Z (retention_minutes self) * 60) old). specialize (Hm k old E). lia.
Qed.

End MetricsFacts.

(** ** [PerformanceMonitor]: what a history of calls leaves *)

Section MonitorFacts.
Import Metrics.
Local Open Scope Q_scope.
Context (ops : FloatOps).

Local Abbreviation history := (PerformanceMonitor.history ops).
Local Abbreviation after := (PerformanceMonitor.after ops).
Local Abbreviation collector := PerformanceMonitor.collector.

Lemma monitor_history_snoc calls c self :
  history (calls ++ [c]) self = after c.1 c.2 (history calls self).
Proof. unfold PerformanceMonitor.history. by rewrite foldl_app. Qed.

Lemma system_gauges_bounded system_metrics c now :
  bounded c →
  bounded (foldl (λ c it, set_gauge ("system_" +:+ it.1) it.2 [] c now) c system_metrics).
Proof.
  revert c. induction system_metrics as [|it rest IH]; intros c Hc; [done|].
  cbn [foldl]. apply IH. by apply set_gauge_bounded.
Qed.

Lemma after_bounded c now self :
  bounded (collector self) → bounded (collector (after c now self)).
Proof.
  intros H. destruct c; cbn [PerformanceMonitor.after].
  - by apply record_histogram_bounded, increment_counter_bounded.
  - by apply increment_counter_bounded, record_histogram_bounded, increment_counter_bounded.
  - by apply increment_counter_bounded.
  - by apply set_gauge_bounded, increment_counter_bounded.
  - by apply increment_counter_bounded.
  - by apply system_gauges_bounded.
  - by apply record_histogram_bounded.
  - by apply cleanup_old_bounded.
Qed.

(** X14. The memory of the collector is bounded: after any history of calls
    on the monitor, whatever their number, no metric holds more than 10000
    points and no histogram more than 1000 values. *)
Theorem monitor_history_bounded retention t0 (calls : list (PerformanceMonitor.Call * Q)) :
  let c := collector (history calls (PerformanceMonitor.init (Metrics.init retention) t0)) in
  (∀ key points, metrics c !! key = Some points → (Z.of_nat (length points) <= 10000)%Z)
  ∧ (∀ key values, histograms c !! key = Some values →
       (Z.of_nat (length values) <= 1000)%Z).
Proof.
  cbn zeta.
  assert (H : bounded (collector (history calls
                (PerformanceMonitor.init (Metrics.init retention) t0)))).
  { induction calls as [|c calls IH] using rev_ind.
    - split; intros k x; cbn; by rewrite lookup_empty.
    - rewrite monitor_history_snoc. by apply after_bounded. }
  destruct H as [Hm Hh]. split.
  - intros key points Hk. specialize (Hm key points Hk). unfold maxlen in Hm. lia.
  - intros key values Hk. specialize (Hh key values Hk). lia.
Qed.

(** *** Keys *)

Lemma contains_startswith sub s :
  PyStr.startswith sub s = true → PyStr.contains sub s = true.
Proof. intros H. destruct s; cbn [PyStr.contains]; by rewrite H. Qed.

Lemma startswith_self p b : PyStr.startswith p (p +:+ b) = true.
Proof.
  induction p as [|c p IH]; [done|].
  change (String c p +:+ b) with (String c (p +:+ b)). cbn [PyStr.startswith].
  by rewrite decide_True.
Qed.

Lemma contains_middle sub a b : PyStr.contains sub (a +:+ sub +:+ b) = true.
Proof.
  induction a as [|c a IH].
  - change ("" +:+ sub +:+ b) with (sub +:+ b).
    apply contains_startswith, startswith_self.
  - change (String c a +:+ sub +:+ b) with (String c (a +:+ sub +:+ b)).
    cbn [PyStr.contains]. rewrite IH. apply orb_true_r.
Qed.

Lemma make_key_tagged name it tags :
  PyStr.contains "{" (_make_key name (it :: tags)) = true.
Proof. unfold _make_key. apply contains_middle. Qed.

Lemma add_point_tagged key p c :
  PyStr.contains "{" key = true ∨ PyStr.startswith "system_" key = true →
  PerformanceMonitor.tagged_keys c → PerformanceMonitor.tagged_keys (add_point key p c).
Proof.
  intros Hk Hc k. cbn [add_point metrics].
  destruct (decide (key = k)) as [->|Hne]; [done|].
  rewrite lookup_insert_ne by done. apply Hc.
Qed.

Lemma system_gauges_tagged system_metrics c now :
  PerformanceMonitor.tagged_keys c →
  PerformanceMonitor.tagged_keys
    (foldl (λ c it, set_gauge ("system_" +:+ it.1) it.2 [] c now) c system_metrics).
Proof.
  revert c. induction system_metrics as [|it rest IH]; intros c Hc; [done|].
  cbn [foldl]. apply IH. unfold set_gauge. apply add_point_tagged; [by right|done].
Qed.

Lemma increment_counter_tagged name v it tags c now :
  PerformanceMonitor.tagged_keys c →
  PerformanceMonitor.tagged_keys (increment_counter name v (it :: tags) c now).
Proof.
  intros H. unfold increment_counter.
  apply add_point_tagged; [left; apply make_key_tagged|exact H].
Qed.

Lemma record_histogram_tagged name v it tags c now :
  PerformanceMonitor.tagged_keys c →
  PerformanceMonitor.tagged_keys (record_histogram name v (it :: tags) c now).
Proof.
  intros H. unfold record_histogram.
  apply add_point_tagged; [left; apply make_key_tagged|exact H].
Qed.

Lemma set_gauge_tagged name v it tags c now :
  PerformanceMonitor.tagged_keys c →
  PerformanceMonitor.tagged_keys (set_gauge name v (it :: tags) c now).
Proof.
  intros H. unfold set_gauge.
  apply add_point_tagged; [left; apply make_key_tagged|exact H].
Qed.

Lemma cleanup_old_tagged c now :
  PerformanceMonitor.tagged_keys c →
  PerformanceMonitor.tagged_keys (_cleanup_old_metrics c now).
Proof.
  intros H k. cbn [_cleanup_old_metrics metrics]. rewrite lookup_fmap.
  intros [x Hx]. apply H. by destruct (metrics c !! k).
Qed.

Lemma after_tagged c now self :
  PerformanceMonitor.tagged_keys (collector self) →
  PerformanceMonitor.tagged_keys (collector (after c now self)).
Proof.
  intros H. destruct c; cbn [PerformanceMonitor.after].
  - by apply record_histogram_tagged, increment_counter_tagged.
  - by apply increment_counter_tagged, record_histogram_tagged, increment_counter_tagged.
  - by apply increment_counter_tagged.
  - by apply set_gauge_tagged, increment_counter_tagged.
  - by apply increment_counter_tagged.
  - by apply system_gauges_tagged.
  - by apply record_histogram_tagged.
  - by apply cleanup_old_tagged.
Qed.

Lemma after_start_time c now self :
  PerformanceMonitor.start_time (after c now self) = PerformanceMonitor.start_time self.
Proof. by destruct c. Qed.

(** A name without tags is not a key of a collector whose keys all have
    tags or are system gauges. *)
Lemma untagged_summary name minutes c now :
  PerformanceMonitor.tagged_keys c →
  PyStr.contains "{" name = false → PyStr.startswith "system_" name = false →
  get_summary ops name [] minutes c now = Ok None.
Proof.
  intros Hc H1 H2. unfold get_summary. cbn [_make_key].
  destruct (metrics c !! name) as [points|] eqn:E; [|done].
  destruct (Hc name) as [H|H]; [by eexists|congruence|congruence].
Qed.

(** X15. The health status never leaves "healthy".  The monitor records
    errors, commands and API durations under keys that carry tags, and
    [get_health_status] reads the three metrics without tags: whatever was
    recorded through the monitor, the timing decorator or the cleanup
    thread, it finds no summary and reports "healthy" with zero errors, zero
    commands and a zero average duration. *)
Theorem health_status_always_healthy retention t0 calls now :
  PerformanceMonitor.get_health_status ops
    (history calls (PerformanceMonitor.init (Metrics.init retention) t0)) now
  = Ok (PerformanceMonitor.mkHealth "healthy" (to_float ops (now - t0)) now
          (NInt 0) (NInt 0) (NInt 0)).
Proof.
  set (m := history calls _).
  assert (H : PerformanceMonitor.tagged_keys (collector m)
              ∧ PerformanceMonitor.start_time m = t0).
  { subst m. induction calls as [|c calls [IH1 IH2]] using rev_ind.
    - split; [|done]. intros k [x Hx]. cbn in Hx. by rewrite lookup_empty in Hx.
    - rewrite monitor_history_snoc. split; [by apply after_tagged|].
      by rewrite after_start_time. }
  destruct H as [Hk Hs]. unfold PerformanceMonitor.get_health_status.
  rewrite !(untagged_summary _ _ _ _ Hk) by done.
  cbn [mbind result_bind bind_result mret result_ret]. by rewrite Hs.
Qed.

End MonitorFacts.

(** ** Activity per user *)

Lemma str_int_inj a b : str_int a = str_int b → a = b.
Proof.
  unfold str_int. intros H. apply DecimalZ.to_int_inj.
  apply (f_equal NilEmpty.int_of_string) in H. rewrite !NilEmpty.isi in H. congruence.
Qed.

Section ActivityFacts.
Import Metrics.
Context (ops : FloatOps).

Local Abbreviation history := (PerformanceMonitor.history ops).

(** The count the monitor holds for an activity of a user. *)
Local Abbreviation held := (λ self user_id activity_type,
  default 0%Z
    (default ∅ (default ∅ (PerformanceMonitor._user_activity self) !! str_int user_id)
     !! activity_type)).

Lemma history_activity retention t0 calls user_id activity_type :
  held (history calls (PerformanceMonitor.init (Metrics.init retention) t0))
       user_id activity_type
  = Z.of_nat (length (filter (λ c, PerformanceMonitor.is_activity user_id activity_type c
                                   = true) calls)).
Proof.
  induction calls as [|[c now] calls IH] using rev_ind.
  { cbn. by rewrite lookup_empty. }
  rewrite monitor_history_snoc, filter_app, length_app. cbn [fst snd].
  set (m := history calls _) in *.
  destruct c as [| | |u a| | | |]; cbn [PerformanceMonitor.after];
    try (rewrite filter_cons_False by done; rewrite filter_nil; cbn [length];
         rewrite Nat.add_0_r; exact IH).
  unfold PerformanceMonitor.record_user_activity.
  cbn [PerformanceMonitor._user_activity from_option id].
  destruct (decide (u = user_id)) as [->|Hu].
  - rewrite lookup_insert_eq. cbn [from_option id].
    destruct (decide (a = activity_type)) as [->|Ha].
    + rewrite lookup_insert_eq. cbn [from_option id].
      rewrite filter_cons_True
        by (unfold PerformanceMonitor.is_activity; cbn; by apply bool_decide_eq_true_2).
      rewrite filter_nil. cbn [length]. rewrite IH. lia.
    + rewrite lookup_insert_ne by done.
      rewrite filter_cons_False
        by (unfold PerformanceMonitor.is_activity; cbn;
            rewrite bool_decide_eq_false_2; [done|tauto]).
      rewrite filter_nil. cbn [length]. rewrite Nat.add_0_r. exact IH.
  - rewrite lookup_insert_ne by (intros ?%str_int_inj; done).
    rewrite filter_cons_False
      by (unfold PerformanceMonitor.is_activity; cbn;
          rewrite bool_decide_eq_false_2; [done|tauto]).
    rewrite filter_nil. cbn [length]. rewrite Nat.add_0_r. exact IH.
Qed.

(** X16. [get_user_activity] returns the counts of [record_user_activity]:
    after any history of calls on a fresh monitor, the count it gives for an
    activity of a user is the number of times that activity was recorded for
    that user, whatever was recorded for other users, and the call itself
    changes no count. *)
Theorem user_activity_counts retention t0 calls user_id activity_type :
  let m := history calls (PerformanceMonitor.init (Metrics.init retention) t0) in
  default 0%Z ((PerformanceMonitor.get_user_activity user_id m).1 !! activity_type)
  = Z.of_nat (length (filter (λ c, PerformanceMonitor.is_activity user_id activity_type c
                                   = true) calls))
  ∧ ∀ u a, held (PerformanceMonitor.get_user_activity user_id m).2 u a = held m u a.
Proof.
  cbn zeta. split.
  - rewrite <- history_activity with (retention := retention) (t0 := t0).
    unfold PerformanceMonitor.get_user_activity.
    destruct (PerformanceMonitor._user_activity _); cbn; [done|].
    by rewrite !lookup_empty.
  - intros u a. unfold PerformanceMonitor.get_user_activity.
    set (m := history calls _).
    destruct (PerformanceMonitor._user_activity m) eqn:E; cbn [snd]; [by rewrite E|].
    cbn [PerformanceMonitor._user_activity from_option id]. by rewrite !lookup_empty.
Qed.

End ActivityFacts.

(** ** Summaries *)

Section SummaryFacts.
Import Metrics.
Local Open Scope Q_scope.
Context (ops : FloatOps).

Lemma insert_num_perm x l : insert_num x l ≡ₚ x :: l.
Proof.
  induction l as [|y l IH]; [done|]. cbn [insert_num].
  destruct (num_lt y x); [|done]. rewrite IH. apply perm_swap.
Qed.

Lemma sort_perm l : sort l ≡ₚ l.
Proof.
  induction l as [|x l IH]; [done|]. cbn [sort foldr].
  fold (sort l). by rewrite insert_num_perm, IH.
Qed.

Lemma min_from_spec x l :
  min_from x l ∈ x :: l ∧ Forall (λ y, num_le (min_from x l) y) (x :: l).
Proof.
  revert x. induction l as [|y l IH]; intros x.
  { cbn. split; [by left|]. constructor; [apply Qle_refl|done]. }
  change (min_from x (y :: l)) with (min_from (if num_lt y x then y else x) l).
  unfold num_lt. destruct (Qlt_le_dec _ _) as [Hlt|Hle].
  - destruct (IH y) as [Hin Hall].
    split; [by right|]. apply Forall_cons in Hall as [Hy Hl].
    constructor; [|by constructor]. unfold num_le in *. 
    eapply Qle_trans; [exact Hy|]. by apply Qlt_le_weak.
  - destruct (IH x) as [Hin Hall].
    split.
    + apply elem_of_cons in Hin as [->|Hin]; [by left|by right; right].
    + apply Forall_cons in Hall as [Hx Hl]. constructor; [done|].
      constructor; [|done]. unfold num_le in *. by eapply Qle_trans.
Qed.

Lemma max_from_spec x l :
  max_from x l ∈ x :: l ∧ Forall (λ y, num_le y (max_from x l)) (x :: l).
Proof.
  revert x. induction l as [|y l IH]; intros x.
  { cbn. split; [by left|]. constructor; [apply Qle_refl|done]. }
  change (max_from x (y :: l)) with (max_from (if num_gt y x then y else x) l).
  unfold num_gt, num_lt. destruct (Qlt_le_dec _ _) as [Hlt|Hle].
  - destruct (IH y) as [Hin Hall].
    split; [by right|]. apply Forall_cons in Hall as [Hy Hl].
    constructor; [|by constructor]. unfold num_le in *.
    eapply Qle_trans; [|exact Hy]. by apply Qlt_le_weak.
  - destruct (IH x) as [Hin Hall].
    split.
    + apply elem_of_cons in Hin as [->|Hin]; [by left|by right; right].
    + apply Forall_cons in Hall as [Hx Hl]. constructor; [done|].
      constructor; [|done]. unfold num_le in *. by eapply Qle_trans.
Qed.

(** The index of the 95th percentile is in range. *)
Lemma percentile_index (n : nat) :
  (0 < n)%nat →
  (Z.to_nat (int_of_float (inject_Z (Z.of_nat n) * 0.95)) < n)%nat.
Proof.
  intros Hn. unfold int_of_float, Qmult, inject_Z. cbn [Qnum Qden].
  change (Z.pos (1 * 100)) with 100%Z.
  assert (0 <= Z.of_nat n * 95 ÷ 100 < Z.of_nat n)%Z; [|lia].
  rewrite Z.quot_div_nonneg by lia. split.
  - apply Z.div_pos; lia.
  - apply Z.div_lt_upper_bound; lia.
Qed.

(** X17. [get_summary] never raises, and its summary stays within the
    recent values: it returns [None] exactly when the metric has no point in
    the window; otherwise the count is the number of points in the window,
    the index of the 95th percentile is in range, and the minimum, the
    percentile and the maximum are values of points of the window, with
    every value of the window between the minimum and the maximum. *)
Theorem get_summary_defined name tags minutes self now :
  let cutoff_time := now - inject_Z minutes * 60 in
  let window :=
    value <$> filter (λ p, is_recent cutoff_time p = true)
                     (default [] (metrics self !! _make_key name tags)) in
  match get_summary ops name tags minutes self now with
  | Raise _ => False
  | Ok None => window = []
  | Ok (Some s) =>
      count s = Z.of_nat (length window)
      ∧ minimum s ∈ window ∧ maximum s ∈ window ∧ percentile_95 s ∈ window
      ∧ Forall (λ v, num_le (minimum s) v ∧ num_le v (maximum s)) window
  end.
Proof.
  cbn zeta. unfold get_summary, recent_points.
  destruct (metrics self !! _make_key name tags) as [points|]; [|done].
  cbn [from_option id].
  set (window := value <$> filter _ points).
  pose proof (sort_perm window) as Hp.
  destruct (sort window) as [|x rest] eqn:Es.
  { by apply Permutation_nil_l in Hp. }
  pose proof (percentile_index (length (x :: rest)) ltac:(cbn; lia)) as Hi.
  destruct ((x :: rest) !! _) as [p95|] eqn:E95.
  2:{ apply lookup_ge_None in E95. lia. }
  destruct (min_from_spec x rest) as [Hmin Hmins].
  destruct (max_from_spec x rest) as [Hmax Hmaxs].
  cbn [count minimum maximum percentile_95].
  split; [by rewrite <- Hp|].
  split; [by rewrite <- Hp|]. split; [by rewrite <- Hp|].
  split; [rewrite <- Hp; by eapply list_elem_of_lookup_2|].
  rewrite <- Hp. apply Forall_forall. intros v Hv.
  rewrite Forall_forall in Hmins, Hmaxs. split; [by apply Hmins|by apply Hmaxs].
Qed.

Lemma popleft_old_recent cutoff_old cutoff points :
  cutoff_old <= cutoff →
  filter (λ p, is_recent cutoff p = true) (popleft_old cutoff_old points)
  = filter (λ p, is_recent cutoff p = true) points.
Proof.
  intros Hc. destruct (popleft_old_suffix cutoff_old points) as (old & H & Hold).
  rewrite H at 2. rewrite filter_app.
  rewrite (filter_none _ old); [done|].
  intros p Hp. rewrite Forall_forall in Hold. specialize (Hold p Hp).
  unfold is_recent. destruct (Qlt_le_dec _ _) as [|Hle]; [done|].
  exfalso. apply (Qlt_irrefl (timestamp p)).
  eapply Qlt_le_trans; [exact Hold|]. by eapply Qle_trans.
Qed.

(** X18. The cleanup thread does not change a summary over a window within
    the retention period: after [_cleanup_old_metrics] has run, a
    [get_summary] made then or later over [minutes] no longer than
    [retention_minutes] returns what it would have returned without the
    cleanup; the points the cleanup removes are all older than the
    retention period. *)
Theorem cleanup_preserves_summary name tags minutes self cleaned_at now :
  (minutes <= retention_minutes self)%Z → cleaned_at <= now →
  get_summary ops name tags minutes (_cleanup_old_metrics self cleaned_at) now
  = get_summary ops name tags minutes self now.
Proof.
  intros Hm Ht. unfold get_summary, recent_points.
  cbn [_cleanup_old_metrics metrics]. rewrite lookup_fmap.
  destruct (metrics self !! _make_key name tags) as [points|]; [|done].
  cbn [fmap option_fmap option_map]. rewrite popleft_old_recent; [done|].
  assert (inject_Z minutes <= inject_Z (retention_minutes self))
    by (by rewrite <- Zle_Qle).
  lra.
Qed.

End SummaryFacts.

(** ** Keys of metrics *)

Section StringOrderFacts.

Lemma ascii_compare_refl c : Ascii.compare c c = Eq.
Proof. apply N.compare_refl. Qed.

Lemma str_compare_refl s : String.compare s s = Eq.
Proof. induction s as [|c s IH]; [done|]. cbn. by rewrite ascii_compare_refl. Qed.

Lemma str_compare_lt_trans s1 s2 s3 :
  String.compare s1 s2 = Lt → String.compare s2 s3 = Lt → String.compare s1 s3 = Lt.
Proof.
  revert s2 s3. induction s1 as [|c1 s1 IH]; intros [|c2 s2] [|c3 s3]; cbn; try done.
  destruct (Ascii.compare c1 c2) eqn:E1; try done;
    destruct (Ascii.compare c2 c3) eqn:E2; try done.
  - apply Ascii.compare_eq_iff in E1, E2. subst.
    rewrite ascii_compare_refl. apply IH.
  - apply Ascii.compare_eq_iff in E1. subst. by rewrite E2.
  - apply Ascii.compare_eq_iff in E2. subst. by rewrite E1.
  - unfold Ascii.compare in *. rewrite N.compare_lt_iff in E1, E2.
    assert (N_of_ascii c1 < N_of_ascii c3)%N as ->%N.compare_lt_iff by lia. done.
Qed.

Lemma str_compare_eq s1 s2 : String.compare s1 s2 = Eq ↔ s1 = s2.
Proof.
  split; [apply String.compare_eq_iff|]. intros ->. apply str_compare_refl.
Qed.

Lemma str_compare_gt s1 s2 : String.compare s1 s2 = Gt ↔ String.compare s2 s1 = Lt.
Proof.
  rewrite (String.compare_antisym s1 s2). by destruct (String.compare s2 s1).
Qed.

Lemma str_leb_trans s1 s2 s3 :
  String.leb s1 s2 = true → String.leb s2 s3 = true → String.leb s1 s3 = true.
Proof.
  unfold String.leb.
  destruct (String.compare s1 s2) eqn:E1; try done;
    destruct (String.compare s2 s3) eqn:E2; try done; intros _ _.
  - apply str_compare_eq in E1, E2. subst. by rewrite str_compare_refl.
  - apply str_compare_eq in E1. subst. by rewrite E2.
  - apply str_compare_eq in E2. subst. by rewrite E1.
  - by rewrite (str_compare_lt_trans _ _ _ E1 E2).
Qed.

End StringOrderFacts.

Section MakeKeyFacts.
Import Metrics.

(** [item_le] as a relation. *)
Local Abbreviation item_below := (λ a b : string * string, item_le a b = true).

Lemma item_le_total a b : item_le a b = true ∨ item_le b a = true.
Proof.
  unfold item_le. destruct (String.compare a.1 b.1) eqn:E.
  - apply str_compare_eq in E. rewrite E, str_compare_refl. apply String.leb_total.
  - by left.
  - apply str_compare_gt in E. rewrite E. by right.
Qed.

Lemma item_le_antisym a b : item_le a b = true → item_le b a = true → a = b.
Proof.
  unfold item_le. destruct a as [k1 v1], b as [k2 v2]. cbn [fst snd].
  destruct (String.compare k1 k2) eqn:E.
  - apply str_compare_eq in E. subst. rewrite str_compare_refl.
    intros H1 H2. f_equal. by apply String.leb_antisym.
  - rewrite (proj2 (str_compare_gt k2 k1) E). done.
  - done.
Qed.

Lemma item_le_trans a b c : item_le a b = true → item_le b c = true → item_le a c = true.
Proof.
  unfold item_le.
  destruct (String.compare a.1 b.1) eqn:E1; try done;
    destruct (String.compare b.1 c.1) eqn:E2; try done.
  - apply str_compare_eq in E1, E2. rewrite E1, E2, str_compare_refl.
    apply str_leb_trans.
  - apply str_compare_eq in E1. by rewrite E1, E2.
  - apply str_compare_eq in E2. by rewrite <- E2, E1.
  - by rewrite (str_compare_lt_trans _ _ _ E1 E2).
Qed.

Lemma insert_item_perm x l : insert_item x l ≡ₚ x :: l.
Proof.
  induction l as [|y l IH]; [done|]. cbn [insert_item].
  destruct (item_le x y); [done|]. rewrite IH. apply perm_swap.
Qed.

Lemma sorted_items_perm l : sorted_items l ≡ₚ l.
Proof.
  induction l as [|x l IH]; [done|]. cbn [sorted_items foldr].
  fold (sorted_items l). by rewrite insert_item_perm, IH.
Qed.

Lemma insert_item_sorted x l :
  StronglySorted item_below l → StronglySorted item_below (insert_item x l).
Proof.
  induction 1 as [|y l Hl IH Hy]; [by repeat constructor|].
  cbn [insert_item]. destruct (item_le x y) eqn:E.
  - constructor; [by constructor|]. constructor; [done|].
    eapply Forall_impl; [exact Hy|]. intros z Hz. by eapply item_le_trans.
  - constructor; [done|]. rewrite insert_item_perm. constructor; [|done].
    by destruct (item_le_total x y) as [H|H]; [congruence|].
Qed.

Lemma sorted_items_sorted l : StronglySorted item_below (sorted_items l).
Proof.
  induction l as [|x l IH]; [constructor|]. by apply insert_item_sorted.
Qed.

Lemma sorted_items_unique l1 l2 : l1 ≡ₚ l2 → sorted_items l1 = sorted_items l2.
Proof.
  intros Hp.
  assert (AntiSymm (=) item_below) by (intros a b; apply item_le_antisym).
  apply (StronglySorted_unique item_below); [apply sorted_items_sorted..|].
  by rewrite !sorted_items_perm.
Qed.

(** X19. The key of a metric does not depend on the order in which the tags
    are given: two tag dicts with the same items, inserted in any order,
    make the same key, so that they feed one counter, gauge or histogram. *)
Theorem make_key_order name tags tags' :
  tags ≡ₚ tags' → _make_key name tags = _make_key name tags'.
Proof.
  intros Hp. unfold _make_key.
  destruct tags as [|it tags], tags' as [|it' tags'].
  - done.
  - by apply Permutation_nil_l in Hp.
  - by apply Permutation_nil_r in Hp.
  - by rewrite (sorted_items_unique _ _ Hp).
Qed.

End MakeKeyFacts.

Lemma make_key_order_witness :
  Metrics._make_key "api_calls_total" [("endpoint", "quote"); ("cached", "False")]
  = Metrics._make_key "api_calls_total" [("cached", "False"); ("endpoint", "quote")].
Proof.
  apply make_key_order. apply perm_swap.
Defined.

Lemma cleanup_preserves_summary_witness :
  Metrics.get_summary MetricsExample.exact "hits" [] 10
    (Metrics._cleanup_old_metrics MetricsExample.two_hits 3600) 4000
  = Metrics.get_summary MetricsExample.exact "hits" [] 10 MetricsExample.two_hits 4000.
Proof.
  apply cleanup_preserves_summary.
  - vm_compute. discriminate.
  - vm_compute. discriminate.
Defined.

(** ** Validation of the configuration *)

Section ConfigFacts.
Import Config.

(** X20. [validate_config] accepts the configuration exactly when the bot
    token has at least 40 characters and at least one of the two weather
    keys has more than 10; it prints nothing exactly when, besides, the chat
    id is set and both weather keys have more than 10 characters; a refusal
    prints the header of the errors first. *)
Theorem validate_config_accepts environ :
  let bot_token := getenv environ "TELEGRAM_BOT_TOKEN" EmptyString in
  let weatherapi_key := getenv environ "WEATHER_API_KEY" EmptyString in
  let openweather_key := getenv environ "OPENWEATHER_API_KEY" EmptyString in
  let chat_id := getenv environ "TELEGRAM_CHAT_ID" EmptyString in
  ((validate_config environ).1 = true ↔
   (40 ≤ PyText.len bot_token)%nat
   ∧ ((10 < PyText.len weatherapi_key)%nat ∨ (10 < PyText.len openweather_key)%nat))
  ∧ ((validate_config environ).2 = [] ↔
     (40 ≤ PyText.len bot_token)%nat
     ∧ (10 < PyText.len weatherapi_key)%nat ∧ (10 < PyText.len openweather_key)%nat
     ∧ chat_id ≠ EmptyString)
  ∧ ((validate_config environ).1 = false →
     head (validate_config environ).2 = Some "❌ Errores de configuración:").
Proof.
  cbn zeta. unfold validate_config.
  set (bot_token := getenv environ "TELEGRAM_BOT_TOKEN" EmptyString).
  set (weatherapi_key := getenv environ "WEATHER_API_KEY" EmptyString).
  set (openweather_key := getenv environ "OPENWEATHER_API_KEY" EmptyString).
  set (chat_id := getenv environ "TELEGRAM_CHAT_ID" EmptyString).
  assert (Hempty : ∀ s, String.eqb s EmptyString = true → PyText.len s = 0%nat).
  { intros s ->%String.eqb_eq. done. }
  assert (Hlen : ∀ s, (0 < PyText.len s)%nat → String.eqb s EmptyString = false).
  { intros s H. destruct (String.eqb s EmptyString) eqn:E; [|done].
    apply Hempty in E. lia. }
  destruct (String.eqb bot_token EmptyString) eqn:Et.
  { apply Hempty in Et. cbn.
    split; [split; [done|lia]|]. split; [split; [done|lia]|done]. }
  destruct (decide (PyText.len bot_token < 40)%nat) as [Hshort|Hlong].
  { cbn. split; [split; [done|lia]|]. split; [split; [done|lia]|done]. }
  destruct (String.eqb weatherapi_key EmptyString) eqn:Ew;
    destruct (String.eqb openweather_key EmptyString) eqn:Eo;
    try apply Hempty in Ew; try apply Hempty in Eo;
    cbn [negb andb];
    repeat case_bool_decide; cbn [Nat.add];
    destruct (String.eqb_spec chat_id EmptyString) as [Ec|Ec];
    cbn;
    (split; [split; [intros; first [done|lia]|intros; first [done|lia]]|]);
    (split; [split; [intros; first [done|repeat split; first [lia|done]]
                    |intros (? & ? & ? & ?); first [done|lia]]
            |done]).
Qed.

End ConfigFacts.

(** ** News on a stock *)

Section TextFacts.

Lemma text_len_app a b : PyText.len (a +:+ b) = (PyText.len a + PyText.len b)%nat.
Proof.
  induction a as [|c a IH]; [done|].
  change (String c a +:+ b) with (String c (a +:+ b)). cbn [PyText.len].
  destruct (PyText.is_continuation c); lia.
Qed.

Lemma text_len_take n s : (PyText.len (PyText.take n s) ≤ n)%nat.
Proof.
  revert n. induction s as [|c s IH]; intros n; [cbn; lia|].
  cbn [PyText.take]. destruct (PyText.is_continuation c) eqn:E.
  - cbn [PyText.len]. rewrite E. apply IH.
  - destruct n as [|n]; [cbn; lia|]. cbn [PyText.len]. rewrite E.
    specialize (IH n). lia.
Qed.

End TextFacts.

Section NewsFacts.
Context (environ : gmap string string) (upstream : Upstream).

Local Abbreviation api_key := (config_get (CONFIG environ) "ALPHA_VANTAGE_API_KEY" VNone).

Lemma slice_to_length {A} n (l : list A) :
  (0 ≤ n)%Z → (length (slice_to n l) ≤ Z.to_nat n)%nat.
Proof.
  intros Hn. unfold slice_to. rewrite decide_True by done.
  rewrite length_take. lia.
Qed.

Lemma slice_items_length v n items :
  (0 ≤ n)%Z → slice_items v n = Ok items → (length items ≤ Z.to_nat n)%nat.
Proof.
  intros Hn. destruct v; cbn; try done; intros [= <-].
  - rewrite length_fmap. by apply slice_to_length.
  - by apply slice_to_length.
Qed.

Lemma is_news_item_intro d title summary :
  d.*1 = news_keys →
  Dict.lookup "title" d = Some (VStr title) →
  Dict.lookup "summary" d = Some (VStr summary) →
  (PyText.len summary ≤ 153)%nat →
  is_news_item (VDict d) = true.
Proof.
  intros Hk Ht Hs Hl. unfold is_news_item. rewrite Ht, Hs.
  cbn [is_text is_text_within]. by rewrite !bool_decide_eq_true_2.
Qed.

Lemma text_prefix_len n v suffix r :
  text_prefix n v suffix = Ok r →
  ∃ s, r = VStr s ∧ (PyText.len s ≤ n + PyText.len suffix)%nat.
Proof.
  destruct v; cbn; try done. intros [= <-]. eexists. split; [done|].
  rewrite text_len_app. pose proof (text_len_take n s). lia.
Qed.

Lemma news_item_shape item entry :
  news_item item = Ok entry → is_news_item entry = true.
Proof.
  unfold news_item. intros H. ok_inv H.
  destruct (text_prefix_len _ _ _ _ E0) as (t & -> & _).
  destruct (text_prefix_len _ _ _ _ E2) as (s & -> & Hs).
  eapply is_news_item_intro; [reflexivity..|].
  change (PyText.len "...") with 3%nat in Hs. lia.
Qed.

Lemma news_items_shape items news r :
  Forall (λ v, is_news_item v = true) news →
  news_items items news = Ok r →
  Forall (λ v, is_news_item v = true) r ∧ length r = (length news + length items)%nat.
Proof.
  revert news. induction items as [|item items IH]; intros news Hnews.
  - cbn. intros [= <-]. split; [done|lia].
  - cbn [news_items]. intros H. ok_step H.
    apply IH in H.
    + rewrite length_app in H. cbn in *. destruct H. split; [done|lia].
    + apply Forall_app. split; [done|]. apply Forall_singleton.
      by eapply news_item_shape.
Qed.

Lemma generic_news_shape symbol :
  Forall (λ v, is_news_item v = true)
    [ VDict
        [ ("title", VStr (symbol +:+ ": Análisis técnico sugiere volatilidad moderada..."));
          ("summary", VStr "Los indicadores técnicos muestran patrones mixtos en el corto plazo...");
          ("source", VStr "Análisis Técnico");
          ("url", VStr "#") ] ].
Proof.
  apply Forall_singleton. eapply is_news_item_intro; [reflexivity..|].
  vm_compute. lia.
Qed.

Lemma news_cases symbol limit r :
  (1 ≤ limit)%Z →
  r = VList [] ∨ r = generic_news symbol
  ∨ (∃ feed items news, slice_items feed limit = Ok items
                        ∧ news_items items [] = Ok news ∧ r = VList news) →
  ∃ news, r = VList news ∧ (length news ≤ Z.to_nat limit)%nat
          ∧ Forall (λ v, is_news_item v = true) news.
Proof.
  intros Hlimit [->|[->|(feed & items & news & Hslice & Hnews & ->)]].
  - exists []. split; [done|]. split; [cbn; lia|done].
  - eexists. split; [done|]. split; [cbn; lia|]. apply generic_news_shape.
  - exists news. split; [done|].
    apply news_items_shape in Hnews as [? Hlen]; [|done].
    apply slice_items_length in Hslice; [|lia].
    split; [cbn in Hlen; lia|done].
Qed.

Lemma news_try_cases symbol limit w :
  truthy api_key = true →
  ∃ o, get_stock_news_try environ upstream symbol limit w
       = (o, mkWorld (clock w) (cache w)
               (sent w ++ [news_request api_key symbol limit]))
       ∧ ∀ r, o = Ok r →
              r = generic_news symbol
              ∨ ∃ feed items news, slice_items feed limit = Ok items
                                   ∧ news_items items [] = Ok news ∧ r = VList news.
Proof.
  intros Hkey. unfold get_stock_news_try. rewrite Hkey. cbn [negb].
  unfold mbind, M_bind, bind, lift, raise, requests_get.
  cbn [url params news_request].
  destruct (upstream (sent w) _) as [msg|response].
  { eexists. split; [reflexivity|]. intros r [=]. }
  destruct (decide (status_code response = 200%Z)).
  2: { eexists. split; [reflexivity|]. intros r [= <-]. by left. }
  destruct (json response) as [data|].
  2: { eexists. split; [reflexivity|]. intros r [=]. }
  destruct (PyOps.contains "feed" data) as [[]|e'].
  3: { eexists. split; [reflexivity|]. intros r [=]. }
  2: { eexists. split; [reflexivity|]. intros r [= <-]. by left. }
  destruct (PyOps.getitem data "feed") as [feed|e'].
  2: { eexists. split; [reflexivity|]. intros r [=]. }
  destruct (PyOps.len feed) as [n|e'].
  2: { eexists. split; [reflexivity|]. intros r [=]. }
  destruct (decide (0 < n)%Z).
  2: { eexists. split; [reflexivity|]. intros r [= <-]. by left. }
  destruct (slice_items feed limit) as [items|e'] eqn:Hslice.
  2: { eexists. split; [reflexivity|]. intros r [=]. }
  destruct (news_items items []) as [news|e'] eqn:Hnews.
  2: { eexists. split; [reflexivity|]. intros r [=]. }
  eexists. split; [reflexivity|]. intros r [= <-]. right. by exists feed, items, news.
Qed.

(** X21. For a limit of at least one, [get_stock_news] returns a list of at
    most [limit] items, each a dict with the keys title, summary, source and
    url whose title and summary are texts, the summary of at most 153
    characters.  It attempts at most one request, the [NEWS_SENTIMENT] query,
    and none when the Alpha Vantage key is not configured; it leaves the
    cache and the rate limiter as they were. *)
Theorem get_stock_news_bounded symbol limit w :
  (1 ≤ limit)%Z →
  let r := (get_stock_news environ upstream symbol limit w).1 in
  let w' := (get_stock_news environ upstream symbol limit w).2 in
  (∃ news, r = VList news ∧ (length news ≤ Z.to_nat limit)%nat
           ∧ Forall (λ v, is_news_item v = true) news)
  ∧ cache w' = cache w ∧ clock w' = clock w
  ∧ (sent w' = sent w ∨ sent w' = (sent w ++ [news_request api_key symbol limit])%list)
  ∧ (truthy api_key = false → r = VList [] ∧ sent w' = sent w).
Proof.
  intros Hlimit. cbn zeta. unfold get_stock_news, try_except.
  destruct (truthy api_key) eqn:Hkey.
  - destruct (news_try_cases symbol limit w Hkey) as (o & -> & Ho).
    destruct o as [r|e]; cbn [fst snd cache clock sent].
    + split; [apply (news_cases symbol); [done|]|].
      { right. by apply Ho. }
      split; [done|]. split; [done|]. split; [by right|done].
    + split; [apply (news_cases symbol); [done|by left]|].
      split; [done|]. split; [done|]. split; [by right|done].
  - unfold get_stock_news_try. rewrite Hkey. cbn.
    split; [apply (news_cases symbol); [done|by left]|].
    split; [done|]. split; [done|]. split; [by left|done].
Qed.

End NewsFacts.

Lemma get_stock_news_bounded_witness :
  (get_stock_news Examples.alpha_key_only NewsExample.feed "AAPL" 2 (world0 0)).1
  = VList [ VDict [ ("title", VStr "Apple sube..."); ("summary", VStr "Resumen...");
                    ("source", VStr "Reuters"); ("url", VStr "https://example.com/1") ];
            VDict [ ("title", VStr "Sin título..."); ("summary", VStr "Sin novedades...");
                    ("source", VStr "Fuente desconocida"); ("url", VStr "#") ] ]
  ∧ ∃ news, (get_stock_news Examples.alpha_key_only NewsExample.feed "AAPL" 2 (world0 0)).1
            = VList news ∧ (length news ≤ 2)%nat.
Proof.
  split; [reflexivity|].
  destruct (get_stock_news_bounded Examples.alpha_key_only NewsExample.feed "AAPL" 2
              (world0 0) ltac:(lia)) as [(news & Hr & Hlen & _) _].
  exists news. exact (conj Hr Hlen).
Defined.

(** ** Recommendations for the weather *)

Section RecommendationFacts.

Lemma number_defined op v : is_number (Some v) = true → ∃ q, as_number op v = Ok q.
Proof. destruct v; try done; intros _; by eexists. Qed.

Lemma rain_forecast_defined items :
  Forall (λ entry, is_number (field "rain_chance" entry) = true) items →
  ∃ rain, rain_forecast items = Ok rain.
Proof.
  induction 1 as [|item items Hitem _ [rain IH]]; [by eexists|].
  cbn [rain_forecast]. destruct item as [| | | | | |d]; try done.
  cbn [field] in Hitem. cbn [PyOps.getitem].
  destruct (Dict.lookup "rain_chance" d) as [v|]; [|done].
  cbn [mbind result_bind bind_result].
  destruct (number_defined ">" v Hitem) as [q ->].
  cbn [mbind result_bind bind_result].
  destruct (above q 50); by eexists.
Qed.

Lemma humidity_advice_length humidity : (length (humidity_advice humidity) ≤ 1)%nat.
Proof.
  unfold humidity_advice. destruct (above _ _); [cbn; lia|].
  destruct (below _ _); cbn; lia.
Qed.

Lemma condition_advice_length description :
  (length (condition_advice description) ≤ 1)%nat.
Proof.
  unfold condition_advice.
  repeat match goal with |- context [if ?b then _ else _] => destruct b end; cbn; lia.
Qed.

(** X22. On a weather record as [get_weather_data] builds it, whose humidity
    is a number, whose description is a text and whose first four forecast
    entries have a number for their chance of rain,
    [get_weather_recommendations] does not fail: it returns from one to four
    bullet lines, the first of them the recommendation for the temperature. *)
Theorem recommendations_for_record weather_data :
  is_weather_record weather_data = true →
  is_number (field "humidity" weather_data) = true →
  is_text (field "description" weather_data) = true →
  Forall (λ entry, is_number (field "rain_chance" entry) = true)
    (take 4 (forecast_of weather_data)) →
  ∃ t rest,
    field "temperature" weather_data = Some (VInt t)
    ∧ get_weather_recommendations weather_data
      = bullet_lines (temperature_advice (IntNumber t) :: rest)
    ∧ (length rest ≤ 3)%nat.
Proof.
  destruct weather_data as [| | | | | |d]; try done.
  unfold is_weather_record, forecast_of. cbn [field].
  intros Hrecord Hhumidity Hdescription Hrain.
  destruct (Dict.lookup "temperature" d) as [[| |t| | | |]|] eqn:Ht;
    try (by rewrite !andb_false_r in Hrecord).
  destruct (Dict.lookup "forecast" d) as [[| | | | |entries|]|] eqn:Hf;
    try (by rewrite !andb_false_r in Hrecord).
  destruct (Dict.lookup "humidity" d) as [humidity|] eqn:Hh; [|done].
  destruct (Dict.lookup "description" d) as [[| | | |description| |]|] eqn:Hd; try done.
  destruct (number_defined ">" humidity Hhumidity) as [h Hnum].
  destruct (rain_forecast_defined _ Hrain) as [rain Hany].
  exists t.
  exists (humidity_advice h ++ condition_advice (PyStr.lower description)
          ++ if rain
             then ["🌧️ **Lluvia próxima** - Considera llevar paraguas"]
             else [])%list.
  split; [done|]. split.
  - unfold get_weather_recommendations, recommendations_try.
    cbn [PyOps.getitem PyOps.get]. rewrite Ht, Hh, Hd, Hf.
    cbn [mbind result_bind bind_result text_lower as_number]. rewrite Hnum.
    cbn [mbind result_bind bind_result truthy].
    destruct entries as [|entry entries].
    + cbn in Hany. injection Hany as <-. cbn [mbind result_bind bind_result mret result_ret].
      by rewrite <- !app_assoc.
    + cbn [slice_items]. unfold slice_to. rewrite decide_True by lia.
      cbn [mbind result_bind bind_result]. change (Z.to_nat 4) with 4%nat.
      rewrite Hany. cbn [mbind result_bind bind_result mret result_ret].
      by rewrite <- !app_assoc.
  - rewrite !length_app.
    pose proof (humidity_advice_length h).
    pose proof (condition_advice_length (PyStr.lower description)).
    destruct rain; cbn [length]; lia.
Qed.

(** X23. When the temperature or the humidity of the data is not a number,
    or its description is not a text, [get_weather_recommendations] gives no
    recommendation at all: it returns the line of the error. *)
Theorem recommendations_need_fields weather_data :
  is_number (field "temperature" weather_data) = false
  ∨ is_number (field "humidity" weather_data) = false
  ∨ is_text (field "description" weather_data) = false →
  get_weather_recommendations weather_data = "• ❌ Error generando recomendaciones".
Proof.
  intros H. unfold get_weather_recommendations, recommendations_try.
  destruct weather_data as [| | | | | |d]; try done.
  cbn [field] in H. cbn [PyOps.getitem].
  destruct (Dict.lookup "temperature" d) as [temp|]; [|done].
  destruct (Dict.lookup "humidity" d) as [humidity|];
    cbn [mbind result_bind bind_result]; [|done].
  destruct (Dict.lookup "description" d) as [description|];
    cbn [mbind result_bind bind_result]; [|done].
  destruct description; try done. cbn [text_lower mbind result_bind bind_result].
  destruct temp; try done; cbn [as_number mbind result_bind bind_result];
    destruct humidity; try done; cbn [as_number mbind result_bind bind_result];
    cbn in H; by destruct H as [?|[?|?]].
Qed.

End RecommendationFacts.

Lemma recommendations_for_record_witness :
  ∃ t rest,
    field "temperature" RecommendationExample.rainy = Some (VInt t)
    ∧ get_weather_recommendations RecommendationExample.rainy
      = bullet_lines (temperature_advice (IntNumber t) :: rest)
    ∧ (length rest ≤ 3)%nat.
Proof.
  apply recommendations_for_record; [reflexivity..|].
  repeat constructor.
Defined.

Lemma recommendations_need_fields_witness :
  get_weather_recommendations RecommendationExample.no_humidity
  = "• ❌ Error generando recomendaciones".
Proof. apply recommendations_need_fields. right. left. reflexivity. Defined.
